(** * TBufferSQL2: object streaming to and from SQL structures

    A shallow embedding of [io/sql/src/TBufferSQL2.cxx] and the properties
    its specification states about it: run-length coding of arrays, object
    identity, the error flag, index-range tags of compressed arrays, null
    references, pools of class data, type markers, character arrays and the
    structure stack.

    Conventions.  [Int_t], [Long64_t] and array indices are integers of [Z];
    where the C++ code converts between widths the conversion is written out
    ([to_Int_t]).  Signed overflow of a counter is undefined in C++ and is
    not modelled.  A null pointer is [None] (or address [0] for [void*]); a
    dereference of a null pointer, an access outside an array and a loop that
    runs out of fuel give no result ([None]).  *)

From Stdlib Require Import ZArith Lia Ascii String List Bool.
From Stdlib Require SpecFloat.
From stdpp Require Import base option list gmap strings.

Open Scope Z_scope.

(* ===================================================================== *)
(** ** Text functions of the C library used by the buffer *)
(* ===================================================================== *)

Module CText.

(** [isdigit] with the value of the digit. *)
Definition digit_val (c : ascii) : option Z :=
  let n := Z.of_nat (nat_of_ascii c) in
  if (48 <=? n) && (n <=? 57) then Some (n - 48) else None.

Definition digit_char (d : Z) : ascii := ascii_of_nat (Z.to_nat (48 + d)).

(** [isspace] in the C locale: space, \t, \n, \v, \f, \r. *)
Definition isspace (c : ascii) : bool :=
  let n := Z.of_nat (nat_of_ascii c) in
  (n =? 32) || ((9 <=? n) && (n <=? 13)).

(** Decimal digits of a non-negative number, most significant first.  Twenty
    digits are enough for every integer type of at most 64 bits. *)
Fixpoint dec_digits (fuel : nat) (n : Z) : string :=
  match fuel with
  | O => EmptyString
  | S fuel' =>
      if n <? 10 then String (digit_char n) EmptyString
      else dec_digits fuel' (n / 10) +:+ String (digit_char (n mod 10)) EmptyString
  end.

Definition dec (n : Z) : string := dec_digits 20 n.

(** [snprintf(buf, sizeof(buf), "%d", v)] and its variants for the other
    signed integer types: an optional minus sign and the decimal digits. *)
Definition print_d (v : Z) : string :=
  if v <? 0 then String "-" (dec (- v)) else dec v.

Fixpoint skip_space (s : string) : string :=
  match s with
  | String c s' => if isspace c then skip_space s' else s
  | EmptyString => s
  end.

Fixpoint scan_digits (acc : Z) (s : string) : Z * string :=
  match s with
  | String c s' =>
      match digit_val c with
      | Some d => scan_digits (10 * acc + d) s'
      | None => (acc, s)
      end
  | EmptyString => (acc, s)
  end.

(** The number denoted by a string of digits read after [acc]. *)
Fixpoint digits_value (acc : Z) (s : string) : Z :=
  match s with
  | String c s' =>
      match digit_val c with
      | Some d => digits_value (10 * acc + d) s'
      | None => acc
      end
  | EmptyString => acc
  end.

Fixpoint all_digits (s : string) : bool :=
  match s with
  | String c s' => match digit_val c with Some _ => all_digits s' | None => false end
  | EmptyString => true
  end.

Definition starts_with_digit (s : string) : bool :=
  match s with
  | String c _ => match digit_val c with Some _ => true | None => false end
  | EmptyString => false
  end.

(** At least one digit, then as many as follow. *)
Definition scan_unsigned (s : string) : option (Z * string) :=
  if starts_with_digit s then Some (scan_digits 0 s) else None.

(** The conversion [%d] of [sscanf] before the value is stored: white space
    is skipped, a sign is optional, at least one digit is required.  The
    result is the number read and the rest of the input; [None] is a matching
    failure, after which [sscanf] stores nothing. *)
Definition scan_signed (s : string) : option (Z * string) :=
  match skip_space s with
  | String c s' =>
      if Ascii.eqb c "-" then
        match scan_unsigned s' with
        | Some (v, r) => Some (- v, r)
        | None => None
        end
      else if Ascii.eqb c "+" then scan_unsigned s'
      else scan_unsigned (String c s')
  | EmptyString => None
  end.

(** A character of the format that is neither white space nor a
    conversion must be the next character of the input. *)
Definition scan_lit (c : ascii) (s : string) : option string :=
  match s with
  | String c' s' => if Ascii.eqb c c' then Some s' else None
  | EmptyString => None
  end.

(** Two's complement truncation to [w] bits (conversion to a narrower signed
    type as every supported compiler does it). *)
Definition wrap_signed (w : Z) (v : Z) : Z :=
  (v + 2 ^ (w - 1)) mod 2 ^ w - 2 ^ (w - 1).

Definition in_signed (w : Z) (v : Z) : bool :=
  (- 2 ^ (w - 1) <=? v) && (v <? 2 ^ (w - 1)).

(** [strtol] saturates at the bounds of [long]; the value is then stored
    through a pointer of the width the conversion names. *)
Definition clamp_signed (w : Z) (v : Z) : Z :=
  Z.max (- 2 ^ (w - 1)) (Z.min (2 ^ (w - 1) - 1) v).

Definition store_d (v : Z) : Z := wrap_signed 32 (clamp_signed 64 v).
Definition store_lld (v : Z) : Z := clamp_signed 64 v.

(** [strstr(s, sub) != 0]. *)
Fixpoint strstr (s sub : string) : bool :=
  if String.prefix sub s then true
  else match s with
       | String _ s' => strstr s' sub
       | EmptyString => false
       end.

(** No occurrence of a character in a string. *)
Fixpoint free_of (c : ascii) (s : string) : bool :=
  match s with
  | String c' s' => negb (Ascii.eqb c c') && free_of c s'
  | EmptyString => true
  end.

(** [strlen] of a character buffer: the characters before the first zero.
    [None] when the buffer holds no zero (the scan leaves the buffer). *)
Fixpoint c_string (buf : list ascii) : option string :=
  match buf with
  | [] => None
  | c :: buf' =>
      if Ascii.eqb c zero then Some EmptyString
      else match c_string buf' with
           | Some s => Some (String c s)
           | None => None
           end
  end.

(** The conversions [%u], [%hu], [%lu] and [%llu] of [sscanf] before the
    value is stored: white space is skipped, a sign is optional, at least one
    digit is required; the number is taken as [strtoul] takes it, at most the
    largest [unsigned long] (of 64 bits), and negated in that type after a
    minus sign. *)
Definition scan_ulong (s : string) : option (Z * string) :=
  match skip_space s with
  | String c s' =>
      if Ascii.eqb c "-" then
        match scan_unsigned s' with
        | Some (v, r) => Some (if v >? 2 ^ 64 - 1 then 2 ^ 64 - 1 else (- v) mod 2 ^ 64, r)
        | None => None
        end
      else
        match scan_unsigned (if Ascii.eqb c "+" then s' else String c s') with
        | Some (v, r) => Some (Z.min v (2 ^ 64 - 1), r)
        | None => None
        end
  | EmptyString => None
  end.

(** Truncation to an unsigned type of [w] bits. *)
Definition wrap_unsigned (w : Z) (v : Z) : Z := v mod 2 ^ w.

Definition in_unsigned (w : Z) (v : Z) : bool := (0 <=? v) && (v <? 2 ^ w).

(** What [%hd] stores in a [short]. *)
Definition store_hd (v : Z) : Z := wrap_signed 16 (clamp_signed 64 v).

End CText.

(* ===================================================================== *)
(** ** Floating-point numbers and their text *)
(* ===================================================================== *)

Module CFloat.

(** A [Float_t] or a [Double_t]: a number of an IEEE 754 binary format.  A
    finite number is [(-1)^s * m * 2^e].  Of a NaN the sign bit is kept, the
    one part of it that its text shows. *)
Inductive number : Type :=
| Zero (s : bool)
| Infinity (s : bool)
| NaN (s : bool)
| Finite (s : bool) (m : positive) (e : Z).

Definition to_spec (x : number) : SpecFloat.spec_float :=
  match x with
  | Zero s => SpecFloat.S754_zero s
  | Infinity s => SpecFloat.S754_infinity s
  | NaN _ => SpecFloat.S754_nan
  | Finite s m e => SpecFloat.S754_finite s m e
  end.

Definition of_spec (x : SpecFloat.spec_float) : number :=
  match x with
  | SpecFloat.S754_zero s => Zero s
  | SpecFloat.S754_infinity s => Infinity s
  | SpecFloat.S754_nan => NaN false
  | SpecFloat.S754_finite s m e => Finite s m e
  end.

(** A format: [prec] bits of precision, [emax] the exponent of the
    infinities. *)
Record format : Type := { prec : Z; emax : Z }.

Definition binary32 : format := {| prec := 24; emax := 128 |}.
Definition binary64 : format := {| prec := 53; emax := 1024 |}.

(** The numbers of a format. *)
Definition valid (f : format) (x : number) : bool :=
  SpecFloat.valid_binary (prec f) (emax f) (to_spec x).

(** [x == y]: no NaN is equal to anything, the two zeros are equal. *)
Definition eqb (x y : number) : bool := SpecFloat.SFeqb (to_spec x) (to_spec y).

(** The number of the format that is nearest to [num / den], for [num] and
    [den] above 0, the even one of two that are as near; beyond the greatest
    number of the format it is an infinity. *)
Definition round_ratio (f : format) (s : bool) (num den : Z) : number :=
  if num =? 0 then Zero s
  else
    let e := Z.min (Z.log2 num - Z.log2 den - prec f - 2)
                   (SpecFloat.emin (prec f) (emax f)) in
    let n := if 0 <=? e then num else num * 2 ^ (- e) in
    let d := if 0 <=? e then den * 2 ^ e else den in
    let l := if n mod d =? 0 then SpecFloat.loc_Exact
             else SpecFloat.loc_Inexact (2 * (n mod d) ?= d) in
    of_spec (SpecFloat.binary_round_aux (prec f) (emax f) s (n / d) e l).

(** The conversion of an integer to a format. *)
Definition of_Z (f : format) (n : Z) : number := round_ratio f (n <? 0) (Z.abs n) 1.

(** [num / den / 10^k] as a fraction. *)
Definition scale10 (num den k : Z) : Z * Z :=
  if 0 <=? k then (num, den * 10 ^ k) else (num * 10 ^ (- k), den).

(** The greatest [k' <= k] with [10^k' <= num / den], looked for through
    [fuel] values. *)
Fixpoint decimal_exponent (fuel : nat) (num den k : Z) : Z :=
  match fuel with
  | O => k
  | S fuel' =>
      if snd (scale10 num den k) <=? fst (scale10 num den k) then k
      else decimal_exponent fuel' num den (k - 1)
  end.

(** The integer nearest to [n / d], the even one of two that are as near. *)
Definition nearest_even (n d : Z) : Z :=
  match 2 * (n mod d) ?= d with
  | Lt => n / d
  | Gt => n / d + 1
  | Eq => if Z.even (n / d) then n / d else n / d + 1
  end.

Fixpoint zeros (n : nat) : string :=
  match n with
  | O => EmptyString
  | S n' => String "0" (zeros n')
  end.

(** A number in at least [width] digits. *)
Definition digits (width : nat) (n : Z) : string :=
  zeros (width - String.length (CText.dec n)) +:+ CText.dec n.

(** The text of [num / den > 0] under "%e": one digit, the point, six
    digits, the exponent of ten in at least two digits with its sign.  The
    last digit is rounded on the exact value.  The exponent is looked for
    from a bound that the binary logarithms give: [num / den] is below
    [2^(log2 num - log2 den + 1)], and [0.30103] is the decimal logarithm of
    2 to five digits. *)
Definition print_e_ratio (num den : Z) : string :=
  let bound := (Z.log2 num - Z.log2 den + 1) * 30103 / 100000 + 1 in
  let k := decimal_exponent 8 num den bound in
  let q := nearest_even (fst (scale10 num den (k - 6))) (snd (scale10 num den (k - 6))) in
  let k := if q =? 10 ^ 7 then k + 1 else k in
  let q := if q =? 10 ^ 7 then 10 ^ 6 else q in
  CText.dec (q / 10 ^ 6) +:+ "." +:+ digits 6 (q mod 10 ^ 6)
  +:+ "e" +:+ (if k <? 0 then "-" else "+") +:+ digits 2 (Z.abs k).

Definition sign (s : bool) : string := if s then "-" else EmptyString.

(** [snprintf(buf, sizeof(buf), "%e", value)] for a [double], and for a
    [float], which is passed as the [double] of the same value. *)
Definition print_e (x : number) : string :=
  match x with
  | Zero s => sign s +:+ "0.000000e+00"
  | Infinity s => sign s +:+ "inf"
  | NaN s => sign s +:+ "nan"
  | Finite s m e =>
      sign s +:+ (if 0 <=? e then print_e_ratio (Z.pos m * 2 ^ e) 1
                  else print_e_ratio (Z.pos m) (2 ^ (- e)))
  end.

(** [tolower] in the C locale. *)
Definition tolower (c : ascii) : ascii :=
  let n := Z.of_nat (nat_of_ascii c) in
  if (65 <=? n) && (n <=? 90) then ascii_of_nat (Z.to_nat (n + 32)) else c.

(** The input after a word, whatever the case of its letters. *)
Fixpoint after_word (word s : string) : option string :=
  match word, s with
  | EmptyString, _ => Some s
  | String a word', String c s' =>
      if Ascii.eqb a (tolower c) then after_word word' s' else None
  | String _ _, EmptyString => None
  end.

(** [isxdigit] with the value of the digit. *)
Definition hex_val (c : ascii) : option Z :=
  match CText.digit_val c with
  | Some d => Some d
  | None =>
      let n := Z.of_nat (nat_of_ascii (tolower c)) in
      if (97 <=? n) && (n <=? 102) then Some (n - 87) else None
  end.

(** The digits at the head of the input, in base 10 or 16: the number they
    make after [acc], how many they are, and the input after them. *)
Fixpoint scan_mantissa (hex : bool) (acc count : Z) (s : string) : Z * Z * string :=
  match s with
  | String c s' =>
      match (if hex then hex_val c else CText.digit_val c) with
      | Some d => scan_mantissa hex ((if hex then 16 else 10) * acc + d) (count + 1) s'
      | None => (acc, count, s)
      end
  | EmptyString => (acc, count, s)
  end.

(** The exponent after the mantissa: the letter, a sign or none, and at
    least one digit; 0 when the input is not of that form. *)
Definition scan_exponent (letter : ascii) (s : string) : Z :=
  match s with
  | String c s' =>
      if Ascii.eqb (tolower c) letter then
        match s' with
        | String c' s'' =>
            if Ascii.eqb c' "-" then
              (if CText.starts_with_digit s'' then - CText.digits_value 0 s'' else 0)
            else if Ascii.eqb c' "+" then
              (if CText.starts_with_digit s'' then CText.digits_value 0 s'' else 0)
            else if CText.starts_with_digit s' then CText.digits_value 0 s'
            else 0
        | EmptyString => 0
        end
      else 0
  | EmptyString => 0
  end.

(** Mantissa and exponent: the digits before and after the point, and the
    exponent.  The result is the mantissa as an integer, the number of its
    digits, the number of those after the point, and the exponent. *)
Definition scan_parts (hex : bool) (s : string) : Z * Z * Z * Z :=
  let '(whole, n1, s1) := scan_mantissa hex 0 0 s in
  let '(all, n2, s2) :=
    match s1 with
    | String c s1' => if Ascii.eqb c "." then scan_mantissa hex whole 0 s1' else (whole, 0, s1)
    | EmptyString => (whole, 0, s1)
    end in
  (all, n1 + n2, n2,
   if 0 <? n1 + n2 then scan_exponent (if hex then "p" else "e")%char s2 else 0).

(** [value * base^power] in a format, for [value >= 0].  A power beyond
    [bound] either way gives what the power [bound] gives, an infinity or a
    zero. *)
Definition scaled (f : format) (s : bool) (value base power bound : Z) : number :=
  let power := Z.max (- bound) (Z.min bound power) in
  if 0 <=? power then round_ratio f s (value * base ^ power) 1
  else round_ratio f s value (base ^ (- power)).

(** The number after the sign for the conversions "%f" and "%lf" of
    [sscanf]: "nan", "inf" or "infinity", a number in base 16 after "0x", or
    a decimal number, whatever the case of the letters.  The conversion
    fails without a digit, after "0x" when neither a digit nor the point
    follows, and on a word that is cut short. *)
Definition scan_unsigned_number (f : format) (s : bool) (text : string) : option number :=
  match text with
  | EmptyString => None
  | String c _ =>
      if Ascii.eqb (tolower c) "n" then
        match after_word "nan" text with
        | Some _ => Some (NaN s)
        | None => None
        end
      else if Ascii.eqb (tolower c) "i" then
        match after_word "inf" text with
        | Some (String c' rest) =>
            if Ascii.eqb (tolower c') "i" then
              match after_word "inity" (String c' rest) with
              | Some _ => Some (Infinity s)
              | None => None
              end
            else Some (Infinity s)
        | Some EmptyString => Some (Infinity s)
        | None => None
        end
      else
        match after_word "0x" text with
        | Some rest =>
            let '(m, n, after, p) := scan_parts true rest in
            if (n =? 0) && negb (String.prefix "." rest) then None
            else Some (scaled f s m 2 (p - 4 * after) (4 * n + 2000))
        | None =>
            let '(m, n, after, p) := scan_parts false text in
            if n =? 0 then None
            else Some (scaled f s m 10 (p - after) (n + 400))
        end
  end.

(** The conversions "%f" (for [binary32]) and "%lf" (for [binary64]) of
    [sscanf] before the value is stored: white space is skipped, a sign is
    optional, and the number read is rounded to the format as [strtof] and
    [strtod] round.  [None] is a matching failure. *)
Definition scan (f : format) (text : string) : option number :=
  match CText.skip_space text with
  | String c rest =>
      if Ascii.eqb c "-" then scan_unsigned_number f true rest
      else if Ascii.eqb c "+" then scan_unsigned_number f false rest
      else scan_unsigned_number f false (String c rest)
  | EmptyString => None
  end.

End CFloat.

(* ===================================================================== *)
(** ** Collaborators of the buffer *)
(* ===================================================================== *)

(** Type markers and separators of namespace [sqlio].  They are declared in
    TSQLStructure.h; the buffer only passes them on and compares them. *)
Module sqlio.
Definition Bool : string := "Bool_t".
Definition Char : string := "Char_t".
Definition Short : string := "Short_t".
Definition Int : string := "Int_t".
Definition Long64 : string := "Long64_t".
Definition CharStar : string := "CharStar".
Definition Array : string := "Array".
Definition ObjectRef : string := "ObjectRef".
Definition ObjectPtr : string := "ObjectPtr".
Definition True : string := "1".
Definition False : string := "0".
Definition IndexSepar : string := "..".
Definition Long : string := "Long_t".
Definition UChar : string := "UChar_t".
Definition UShort : string := "UShort_t".
Definition UInt : string := "UInt_t".
Definition ULong : string := "ULong_t".
Definition ULong64 : string := "ULong64_t".
Definition Version : string := "Version".
Definition Float : string := "Float_t".
Definition Double : string := "Double_t".
End sqlio.

(** A class, known by its name; a [TClass*] is an [option TClass]. *)
Definition TClass : Type := string.

(** What the buffer asks of a [TStreamerElement] and a [TStreamerInfo]. *)
Record TStreamerElement : Type := {
  el_name : string;
  el_type : Z;          (* GetType() *)
  el_length : Z         (* GetArrayLength() *)
}.

Record TStreamerInfo : Type := {
  si_name : string;
  si_version : Z;
  si_elements : list TStreamerElement   (* GetElements() *)
}.

Module TStreamerInfoK.
Definition kOffsetL : Z := 20.
Definition kOffsetP : Z := 40.
End TStreamerInfoK.

Definition TStreamerElement_eqb (e1 e2 : TStreamerElement) : bool :=
  String.eqb (el_name e1) (el_name e2) && (el_type e1 =? el_type e2)
  && (el_length e1 =? el_length e2).

(** [TObjArray::IndexOf]: position of the first entry that is the element,
    -1 when there is none. *)
Fixpoint IndexOf (elem : TStreamerElement) (l : list TStreamerElement) (i : Z) : Z :=
  match l with
  | [] => -1
  | e :: l' => if TStreamerElement_eqb elem e then i else IndexOf elem l' (i + 1)
  end.

(** Modelled from the spec: the nodes of the Intermediate Structure Tree
    (class TSQLStructure, not among the sources).  A node has a parent and a
    kind with the data of that kind: object (id, class), object reference
    (id), class version (streamer info), element (member descriptor and its
    number), custom element, array (bounds) or value (literal text, declared
    type marker and, once [ChildArrayIndex] has been called for it, the start
    index and length of the run it stands for). *)
Inductive NodeKind : Type :=
| kSqlUnknown
| kSqlObject (objid : Z) (cl : option TClass)
| kSqlPointer (ptrid : Z)
| kSqlStreamerInfo (info : TStreamerInfo)
| kSqlElement (elem : TStreamerElement) (number : Z)
| kSqlCustomElement (elem : TStreamerElement)
| kSqlArray (sz : Z)
| kSqlValue (value : string) (tname : string) (run : option (Z * Z)).

Record TSQLStructure : Type := {
  fParent : option nat;
  fKind : NodeKind
}.

(** Modelled from the spec: a row of a class table and a row of the free-form
    (blob) table of an object (classes TSQLRow and TSQLResult, not among the
    sources). *)
Record TSQLRow : Type := {
  row_objid : Z;
  row_fields : list string
}.

Record DataItem : Type := {
  it_name : string;            (* GetBlobPrefixName() *)
  it_type : string;            (* the stored type marker *)
  it_value : option string     (* GetValue() *)
}.

(** The table descriptor of a class and version ([TSQLClassInfo*]); the
    address is what the pools map and the pool compare. *)
Record TSQLClassInfo : Type := {
  ci_addr : positive;
  ci_table : string;           (* GetClassTableName() *)
  ci_exists : bool             (* IsClassTableExist() *)
}.

(** Modelled from the spec: the Object Data Cursor (class TSQLObjectData, not
    among the sources).  It keeps what it was built from and ranges over the
    values located for the member being read; the head of [od_items] is the
    current value. *)
Record TSQLObjectData : Type := {
  od_info : option positive;
  od_objid : Z;
  od_classdata : option (list TSQLRow);
  od_classrow : option TSQLRow;
  od_blobdata : option (list DataItem);
  od_blobstmt : option (list DataItem);
  od_isblob : bool;            (* IsBlobData() *)
  od_items : list DataItem
}.

Definition od_new (info : positive) (objid : Z) (classdata : option (list TSQLRow))
    (classrow : option TSQLRow) (blobdata blobstmt : option (list DataItem))
  : TSQLObjectData :=
  {| od_info := Some info; od_objid := objid; od_classdata := classdata;
     od_classrow := classrow; od_blobdata := blobdata; od_blobstmt := blobstmt;
     od_isblob := false; od_items := [] |}.

Definition GetValue (d : TSQLObjectData) : option string :=
  match od_items d with
  | it :: _ => it_value it
  | [] => None
  end.

Definition GetBlobPrefixName (d : TSQLObjectData) : option string :=
  match od_items d with
  | it :: _ => Some (it_name it)
  | [] => None
  end.

Definition IsBlobData (d : TSQLObjectData) : bool := od_isblob d.

Definition ShiftToNextValue (d : TSQLObjectData) : TSQLObjectData :=
  {| od_info := od_info d; od_objid := od_objid d; od_classdata := od_classdata d;
     od_classrow := od_classrow d; od_blobdata := od_blobdata d;
     od_blobstmt := od_blobstmt d; od_isblob := od_isblob d;
     od_items := tail (od_items d) |}.

(** Modelled from the spec: [VerifyDataType] is the consistency check of the
    type marker stored with the current value against the expected one. *)
Definition VerifyDataType (d : TSQLObjectData) (tname : string) : bool :=
  match od_items d with
  | it :: _ => String.eqb (it_type it) tname
  | [] => false
  end.

(** Modelled from the spec: the pool of one class table (class
    TSQLObjectDataPool, not among the sources): the descriptor it was fetched
    for and the fetched result; [GetObjectRow] is the lookup of the row of an
    object id, none if the id is absent. *)
Record TSQLObjectDataPool : Type := {
  pool_info : positive;        (* GetSqlInfo() *)
  pool_data : list TSQLRow     (* GetClassData() *)
}.

Definition GetObjectRow (pool : TSQLObjectDataPool) (objid : Z) : option TSQLRow :=
  find (fun r => row_objid r =? objid) (pool_data pool).

(** Requests the buffer sends to the storage. *)
Inductive SQLRequest : Type :=
| ReqNormalClassDataAll (minobjid maxobjid : Z) (info : positive) (ok : bool)
| ReqBlobClassDataStmt (objid : Z) (info : positive)
| ReqBlobClassData (objid : Z) (info : positive).

(** Modelled from the spec: the storage collaborator (class TSQLFile, not
    among the sources): the class tables and blob tables by descriptor, the
    long strings by object id and slot, and the requests received so far.  A
    descriptor without table makes the bulk fetch fail. *)
Record TSQLFile : Type := {
  sql_tables : gmap positive (list TSQLRow);
  sql_blobs : gmap positive (list (Z * DataItem));
  sql_statements : bool;       (* does the server offer statements *)
  sql_longstrings : gmap (Z * Z) string;
  sql_longcodes : gmap string Z;
  sql_requests : list SQLRequest
}.

Definition sql_log (r : SQLRequest) (f : TSQLFile) : TSQLFile :=
  {| sql_tables := sql_tables f; sql_blobs := sql_blobs f;
     sql_statements := sql_statements f; sql_longstrings := sql_longstrings f;
     sql_longcodes := sql_longcodes f;
     sql_requests := sql_requests f ++ [r] |}.

(** [BulkFetch(descriptor, idLow, idHigh)]: the rows of the class table with
    an object id in the range. *)
Definition GetNormalClassDataAll (minobjid maxobjid : Z) (info : TSQLClassInfo)
    (f : TSQLFile) : option (list TSQLRow) * TSQLFile :=
  let res :=
    match sql_tables f !! ci_addr info with
    | Some rows =>
        Some (filter (fun r => minobjid <= row_objid r <= maxobjid) rows)
    | None => None
    end in
  (res, sql_log (ReqNormalClassDataAll minobjid maxobjid (ci_addr info) (bool_decide (is_Some res))) f).

Definition blob_rows (objid : Z) (info : TSQLClassInfo) (f : TSQLFile) : option (list DataItem) :=
  match sql_blobs f !! ci_addr info with
  | Some rows => Some (map snd (filter (fun r => fst r = objid) rows))
  | None => None
  end.

Definition GetBlobClassDataStmt (objid : Z) (info : TSQLClassInfo) (f : TSQLFile)
  : option (list DataItem) * TSQLFile :=
  (if sql_statements f then blob_rows objid info f else None,
   sql_log (ReqBlobClassDataStmt objid (ci_addr info)) f).

Definition GetBlobClassData (objid : Z) (info : TSQLClassInfo) (f : TSQLFile)
  : option (list DataItem) * TSQLFile :=
  (blob_rows objid info f, sql_log (ReqBlobClassData objid (ci_addr info)) f).

(** [IsLongStringCode]: the slot named by a stored value that stands for a
    long string, 0 for an ordinary value. *)
Definition IsLongStringCode (objid : Z) (value : string) (f : TSQLFile) : Z :=
  default 0 (sql_longcodes f !! value).

(** [GetLongString(objid, strid, value)] resolves a slot: the string of the
    slot is stored in [value], which is passed by reference, and the result
    says whether the slot was found.  What the facility does with [value]
    when the slot is not there is not in the sources; the model leaves it as
    it was. *)
Definition GetLongString (objid strid : Z) (value : string) (f : TSQLFile)
  : bool * string :=
  match sql_longstrings f !! (objid, strid) with
  | Some text => (true, text)
  | None => (false, value)
  end.

(** Modelled from the spec: the Object Identity Registry (class TExMap, not
    among the sources), keyed by the raw address; [GetValue] of an absent key
    is 0. *)
Definition TExMap_GetValue (m : gmap Z Z) (key : Z) : Z := default 0 (m !! key).
Definition TExMap_Add (m : gmap Z Z) (key value : Z) : gmap Z Z := <[key := value]> m.

(** An entry of the objects table of a key ([TSQLObjectInfo]). *)
Record TSQLObjectInfo : Type := {
  oi_objid : Z;                (* GetObjId() *)
  oi_classname : string;       (* GetObjClassName() *)
  oi_version : Z               (* GetObjVersion() *)
}.

(* ===================================================================== *)
(** ** The buffer *)
(* ===================================================================== *)

Inductive EMode : Type := kRead | kWrite.

(** The data members of [TBufferSQL2] the modelled functions use, the nodes
    of the structure tree it owns, and two records of what it did: the
    reports sent through [Error] and the calls of streamers (address of the
    object and id given to it). *)
Record TBufferSQL2 : Type := {
  fMode : EMode;
  fSQL : option TSQLFile;
  fNodes : list TSQLStructure;
  fStructure : option nat;
  fStk : option nat;
  fObjMap : option (gmap Z Z);
  fReadBuffer : string;
  fErrorFlag : Z;
  fExpectedChain : bool;
  fCompressLevel : Z;
  fObjIdCounter : Z;
  fIgnoreVerification : bool;
  fCurrentData : option TSQLObjectData;
  fObjectsInfos : option (list TSQLObjectInfo);
  fFirstObjId : Z;
  fLastObjId : Z;
  fPoolsMap : option (gmap positive TSQLObjectDataPool);
  fReports : list (string * string);
  fStreamed : list (Z * Z);
  fReadVersionBuffer : Z
}.

(** [TBufferSQL2::TBufferSQL2(TBuffer::EMode mode, TSQLFile* file)];
    [compression] is [file->GetCompressionLevel()]. *)
Definition TBufferSQL2_new (mode : EMode) (file : option TSQLFile) (compression : Z)
  : TBufferSQL2 :=
  {| fMode := mode; fSQL := file; fNodes := []; fStructure := None; fStk := None;
     fObjMap := None; fReadBuffer := EmptyString; fErrorFlag := 0;
     fExpectedChain := false;
     fCompressLevel := match file with Some _ => compression | None => 0 end;
     fObjIdCounter := 1; fIgnoreVerification := false; fCurrentData := None;
     fObjectsInfos := None; fFirstObjId := 0; fLastObjId := 0; fPoolsMap := None;
     fReports := []; fStreamed := []; fReadVersionBuffer := -1 |}.

Definition set_fSQL (v : option TSQLFile) (b : TBufferSQL2) : TBufferSQL2 :=
  {| fMode := fMode b; fSQL := v; fNodes := fNodes b; fStructure := fStructure b;
     fStk := fStk b; fObjMap := fObjMap b; fReadBuffer := fReadBuffer b;
     fErrorFlag := fErrorFlag b; fExpectedChain := fExpectedChain b;
     fCompressLevel := fCompressLevel b; fObjIdCounter := fObjIdCounter b;
     fIgnoreVerification := fIgnoreVerification b; fCurrentData := fCurrentData b;
     fObjectsInfos := fObjectsInfos b; fFirstObjId := fFirstObjId b;
     fLastObjId := fLastObjId b; fPoolsMap := fPoolsMap b; fReports := fReports b;
     fStreamed := fStreamed b;
     fReadVersionBuffer := fReadVersionBuffer b |}.

Definition set_fNodes (v : list TSQLStructure) (b : TBufferSQL2) : TBufferSQL2 :=
  {| fMode := fMode b; fSQL := fSQL b; fNodes := v; fStructure := fStructure b;
     fStk := fStk b; fObjMap := fObjMap b; fReadBuffer := fReadBuffer b;
     fErrorFlag := fErrorFlag b; fExpectedChain := fExpectedChain b;
     fCompressLevel := fCompressLevel b; fObjIdCounter := fObjIdCounter b;
     fIgnoreVerification := fIgnoreVerification b; fCurrentData := fCurrentData b;
     fObjectsInfos := fObjectsInfos b; fFirstObjId := fFirstObjId b;
     fLastObjId := fLastObjId b; fPoolsMap := fPoolsMap b; fReports := fReports b;
     fStreamed := fStreamed b;
     fReadVersionBuffer := fReadVersionBuffer b |}.

Definition set_fStructure (v : option nat) (b : TBufferSQL2) : TBufferSQL2 :=
  {| fMode := fMode b; fSQL := fSQL b; fNodes := fNodes b; fStructure := v;
     fStk := fStk b; fObjMap := fObjMap b; fReadBuffer := fReadBuffer b;
     fErrorFlag := fErrorFlag b; fExpectedChain := fExpectedChain b;
     fCompressLevel := fCompressLevel b; fObjIdCounter := fObjIdCounter b;
     fIgnoreVerification := fIgnoreVerification b; fCurrentData := fCurrentData b;
     fObjectsInfos := fObjectsInfos b; fFirstObjId := fFirstObjId b;
     fLastObjId := fLastObjId b; fPoolsMap := fPoolsMap b; fReports := fReports b;
     fStreamed := fStreamed b;
     fReadVersionBuffer := fReadVersionBuffer b |}.

Definition set_fStk (v : option nat) (b : TBufferSQL2) : TBufferSQL2 :=
  {| fMode := fMode b; fSQL := fSQL b; fNodes := fNodes b; fStructure := fStructure b;
     fStk := v; fObjMap := fObjMap b; fReadBuffer := fReadBuffer b;
     fErrorFlag := fErrorFlag b; fExpectedChain := fExpectedChain b;
     fCompressLevel := fCompressLevel b; fObjIdCounter := fObjIdCounter b;
     fIgnoreVerification := fIgnoreVerification b; fCurrentData := fCurrentData b;
     fObjectsInfos := fObjectsInfos b; fFirstObjId := fFirstObjId b;
     fLastObjId := fLastObjId b; fPoolsMap := fPoolsMap b; fReports := fReports b;
     fStreamed := fStreamed b;
     fReadVersionBuffer := fReadVersionBuffer b |}.

Definition set_fObjMap (v : option (gmap Z Z)) (b : TBufferSQL2) : TBufferSQL2 :=
  {| fMode := fMode b; fSQL := fSQL b; fNodes := fNodes b; fStructure := fStructure b;
     fStk := fStk b; fObjMap := v; fReadBuffer := fReadBuffer b;
     fErrorFlag := fErrorFlag b; fExpectedChain := fExpectedChain b;
     fCompressLevel := fCompressLevel b; fObjIdCounter := fObjIdCounter b;
     fIgnoreVerification := fIgnoreVerification b; fCurrentData := fCurrentData b;
     fObjectsInfos := fObjectsInfos b; fFirstObjId := fFirstObjId b;
     fLastObjId := fLastObjId b; fPoolsMap := fPoolsMap b; fReports := fReports b;
     fStreamed := fStreamed b;
     fReadVersionBuffer := fReadVersionBuffer b |}.

Definition set_fReadBuffer (v : string) (b : TBufferSQL2) : TBufferSQL2 :=
  {| fMode := fMode b; fSQL := fSQL b; fNodes := fNodes b; fStructure := fStructure b;
     fStk := fStk b; fObjMap := fObjMap b; fReadBuffer := v;
     fErrorFlag := fErrorFlag b; fExpectedChain := fExpectedChain b;
     fCompressLevel := fCompressLevel b; fObjIdCounter := fObjIdCounter b;
     fIgnoreVerification := fIgnoreVerification b; fCurrentData := fCurrentData b;
     fObjectsInfos := fObjectsInfos b; fFirstObjId := fFirstObjId b;
     fLastObjId := fLastObjId b; fPoolsMap := fPoolsMap b; fReports := fReports b;
     fStreamed := fStreamed b;
     fReadVersionBuffer := fReadVersionBuffer b |}.

Definition set_fErrorFlag (v : Z) (b : TBufferSQL2) : TBufferSQL2 :=
  {| fMode := fMode b; fSQL := fSQL b; fNodes := fNodes b; fStructure := fStructure b;
     fStk := fStk b; fObjMap := fObjMap b; fReadBuffer := fReadBuffer b;
     fErrorFlag := v; fExpectedChain := fExpectedChain b;
     fCompressLevel := fCompressLevel b; fObjIdCounter := fObjIdCounter b;
     fIgnoreVerification := fIgnoreVerification b; fCurrentData := fCurrentData b;
     fObjectsInfos := fObjectsInfos b; fFirstObjId := fFirstObjId b;
     fLastObjId := fLastObjId b; fPoolsMap := fPoolsMap b; fReports := fReports b;
     fStreamed := fStreamed b;
     fReadVersionBuffer := fReadVersionBuffer b |}.

Definition set_fExpectedChain (v : bool) (b : TBufferSQL2) : TBufferSQL2 :=
  {| fMode := fMode b; fSQL := fSQL b; fNodes := fNodes b; fStructure := fStructure b;
     fStk := fStk b; fObjMap := fObjMap b; fReadBuffer := fReadBuffer b;
     fErrorFlag := fErrorFlag b; fExpectedChain := v;
     fCompressLevel := fCompressLevel b; fObjIdCounter := fObjIdCounter b;
     fIgnoreVerification := fIgnoreVerification b; fCurrentData := fCurrentData b;
     fObjectsInfos := fObjectsInfos b; fFirstObjId := fFirstObjId b;
     fLastObjId := fLastObjId b; fPoolsMap := fPoolsMap b; fReports := fReports b;
     fStreamed := fStreamed b;
     fReadVersionBuffer := fReadVersionBuffer b |}.

Definition set_fCompressLevel (v : Z) (b : TBufferSQL2) : TBufferSQL2 :=
  {| fMode := fMode b; fSQL := fSQL b; fNodes := fNodes b; fStructure := fStructure b;
     fStk := fStk b; fObjMap := fObjMap b; fReadBuffer := fReadBuffer b;
     fErrorFlag := fErrorFlag b; fExpectedChain := fExpectedChain b;
     fCompressLevel := v; fObjIdCounter := fObjIdCounter b;
     fIgnoreVerification := fIgnoreVerification b; fCurrentData := fCurrentData b;
     fObjectsInfos := fObjectsInfos b; fFirstObjId := fFirstObjId b;
     fLastObjId := fLastObjId b; fPoolsMap := fPoolsMap b; fReports := fReports b;
     fStreamed := fStreamed b;
     fReadVersionBuffer := fReadVersionBuffer b |}.

Definition set_fObjIdCounter (v : Z) (b : TBufferSQL2) : TBufferSQL2 :=
  {| fMode := fMode b; fSQL := fSQL b; fNodes := fNodes b; fStructure := fStructure b;
     fStk := fStk b; fObjMap := fObjMap b; fReadBuffer := fReadBuffer b;
     fErrorFlag := fErrorFlag b; fExpectedChain := fExpectedChain b;
     fCompressLevel := fCompressLevel b; fObjIdCounter := v;
     fIgnoreVerification := fIgnoreVerification b; fCurrentData := fCurrentData b;
     fObjectsInfos := fObjectsInfos b; fFirstObjId := fFirstObjId b;
     fLastObjId := fLastObjId b; fPoolsMap := fPoolsMap b; fReports := fReports b;
     fStreamed := fStreamed b;
     fReadVersionBuffer := fReadVersionBuffer b |}.

Definition set_fIgnoreVerification (v : bool) (b : TBufferSQL2) : TBufferSQL2 :=
  {| fMode := fMode b; fSQL := fSQL b; fNodes := fNodes b; fStructure := fStructure b;
     fStk := fStk b; fObjMap := fObjMap b; fReadBuffer := fReadBuffer b;
     fErrorFlag := fErrorFlag b; fExpectedChain := fExpectedChain b;
     fCompressLevel := fCompressLevel b; fObjIdCounter := fObjIdCounter b;
     fIgnoreVerification := v; fCurrentData := fCurrentData b;
     fObjectsInfos := fObjectsInfos b; fFirstObjId := fFirstObjId b;
     fLastObjId := fLastObjId b; fPoolsMap := fPoolsMap b; fReports := fReports b;
     fStreamed := fStreamed b;
     fReadVersionBuffer := fReadVersionBuffer b |}.

Definition set_fCurrentData (v : option TSQLObjectData) (b : TBufferSQL2) : TBufferSQL2 :=
  {| fMode := fMode b; fSQL := fSQL b; fNodes := fNodes b; fStructure := fStructure b;
     fStk := fStk b; fObjMap := fObjMap b; fReadBuffer := fReadBuffer b;
     fErrorFlag := fErrorFlag b; fExpectedChain := fExpectedChain b;
     fCompressLevel := fCompressLevel b; fObjIdCounter := fObjIdCounter b;
     fIgnoreVerification := fIgnoreVerification b; fCurrentData := v;
     fObjectsInfos := fObjectsInfos b; fFirstObjId := fFirstObjId b;
     fLastObjId := fLastObjId b; fPoolsMap := fPoolsMap b; fReports := fReports b;
     fStreamed := fStreamed b;
     fReadVersionBuffer := fReadVersionBuffer b |}.

Definition set_fObjectsInfos (v : option (list TSQLObjectInfo)) (b : TBufferSQL2) : TBufferSQL2 :=
  {| fMode := fMode b; fSQL := fSQL b; fNodes := fNodes b; fStructure := fStructure b;
     fStk := fStk b; fObjMap := fObjMap b; fReadBuffer := fReadBuffer b;
     fErrorFlag := fErrorFlag b; fExpectedChain := fExpectedChain b;
     fCompressLevel := fCompressLevel b; fObjIdCounter := fObjIdCounter b;
     fIgnoreVerification := fIgnoreVerification b; fCurrentData := fCurrentData b;
     fObjectsInfos := v; fFirstObjId := fFirstObjId b; fLastObjId := fLastObjId b;
     fPoolsMap := fPoolsMap b; fReports := fReports b; fStreamed := fStreamed b;
     fReadVersionBuffer := fReadVersionBuffer b |}.

Definition set_fFirstObjId (v : Z) (b : TBufferSQL2) : TBufferSQL2 :=
  {| fMode := fMode b; fSQL := fSQL b; fNodes := fNodes b; fStructure := fStructure b;
     fStk := fStk b; fObjMap := fObjMap b; fReadBuffer := fReadBuffer b;
     fErrorFlag := fErrorFlag b; fExpectedChain := fExpectedChain b;
     fCompressLevel := fCompressLevel b; fObjIdCounter := fObjIdCounter b;
     fIgnoreVerification := fIgnoreVerification b; fCurrentData := fCurrentData b;
     fObjectsInfos := fObjectsInfos b; fFirstObjId := v; fLastObjId := fLastObjId b;
     fPoolsMap := fPoolsMap b; fReports := fReports b; fStreamed := fStreamed b;
     fReadVersionBuffer := fReadVersionBuffer b |}.

Definition set_fLastObjId (v : Z) (b : TBufferSQL2) : TBufferSQL2 :=
  {| fMode := fMode b; fSQL := fSQL b; fNodes := fNodes b; fStructure := fStructure b;
     fStk := fStk b; fObjMap := fObjMap b; fReadBuffer := fReadBuffer b;
     fErrorFlag := fErrorFlag b; fExpectedChain := fExpectedChain b;
     fCompressLevel := fCompressLevel b; fObjIdCounter := fObjIdCounter b;
     fIgnoreVerification := fIgnoreVerification b; fCurrentData := fCurrentData b;
     fObjectsInfos := fObjectsInfos b; fFirstObjId := fFirstObjId b; fLastObjId := v;
     fPoolsMap := fPoolsMap b; fReports := fReports b; fStreamed := fStreamed b;
     fReadVersionBuffer := fReadVersionBuffer b |}.

Definition set_fPoolsMap (v : option (gmap positive TSQLObjectDataPool)) (b : TBufferSQL2) : TBufferSQL2 :=
  {| fMode := fMode b; fSQL := fSQL b; fNodes := fNodes b; fStructure := fStructure b;
     fStk := fStk b; fObjMap := fObjMap b; fReadBuffer := fReadBuffer b;
     fErrorFlag := fErrorFlag b; fExpectedChain := fExpectedChain b;
     fCompressLevel := fCompressLevel b; fObjIdCounter := fObjIdCounter b;
     fIgnoreVerification := fIgnoreVerification b; fCurrentData := fCurrentData b;
     fObjectsInfos := fObjectsInfos b; fFirstObjId := fFirstObjId b;
     fLastObjId := fLastObjId b; fPoolsMap := v; fReports := fReports b;
     fStreamed := fStreamed b;
     fReadVersionBuffer := fReadVersionBuffer b |}.

Definition set_fReports (v : list (string * string)) (b : TBufferSQL2) : TBufferSQL2 :=
  {| fMode := fMode b; fSQL := fSQL b; fNodes := fNodes b; fStructure := fStructure b;
     fStk := fStk b; fObjMap := fObjMap b; fReadBuffer := fReadBuffer b;
     fErrorFlag := fErrorFlag b; fExpectedChain := fExpectedChain b;
     fCompressLevel := fCompressLevel b; fObjIdCounter := fObjIdCounter b;
     fIgnoreVerification := fIgnoreVerification b; fCurrentData := fCurrentData b;
     fObjectsInfos := fObjectsInfos b; fFirstObjId := fFirstObjId b;
     fLastObjId := fLastObjId b; fPoolsMap := fPoolsMap b; fReports := v;
     fStreamed := fStreamed b;
     fReadVersionBuffer := fReadVersionBuffer b |}.

Definition set_fStreamed (v : list (Z * Z)) (b : TBufferSQL2) : TBufferSQL2 :=
  {| fMode := fMode b; fSQL := fSQL b; fNodes := fNodes b; fStructure := fStructure b;
     fStk := fStk b; fObjMap := fObjMap b; fReadBuffer := fReadBuffer b;
     fErrorFlag := fErrorFlag b; fExpectedChain := fExpectedChain b;
     fCompressLevel := fCompressLevel b; fObjIdCounter := fObjIdCounter b;
     fIgnoreVerification := fIgnoreVerification b; fCurrentData := fCurrentData b;
     fObjectsInfos := fObjectsInfos b; fFirstObjId := fFirstObjId b;
     fLastObjId := fLastObjId b; fPoolsMap := fPoolsMap b; fReports := fReports b;
     fStreamed := v; fReadVersionBuffer := fReadVersionBuffer b |}.

Definition set_fReadVersionBuffer (v : Z) (b : TBufferSQL2) : TBufferSQL2 :=
  {| fMode := fMode b; fSQL := fSQL b; fNodes := fNodes b; fStructure := fStructure b;
     fStk := fStk b; fObjMap := fObjMap b; fReadBuffer := fReadBuffer b;
     fErrorFlag := fErrorFlag b; fExpectedChain := fExpectedChain b;
     fCompressLevel := fCompressLevel b; fObjIdCounter := fObjIdCounter b;
     fIgnoreVerification := fIgnoreVerification b; fCurrentData := fCurrentData b;
     fObjectsInfos := fObjectsInfos b; fFirstObjId := fFirstObjId b;
     fLastObjId := fLastObjId b; fPoolsMap := fPoolsMap b; fReports := fReports b;
     fStreamed := fStreamed b; fReadVersionBuffer := v |}.

(** *** Calls on the buffer: state passing, no result after a fault *)

Definition M (A : Type) : Type := TBufferSQL2 -> option (A * TBufferSQL2).

Definition ret {A : Type} (a : A) : M A := fun b => Some (a, b).

Definition bind {A B : Type} (m : M A) (k : A -> M B) : M B :=
  fun b => match m b with
           | Some (a, b') => k a b'
           | None => None
           end.

Definition fault {A : Type} : M A := fun _ => None.

Definition get : M TBufferSQL2 := fun b => Some (b, b).

Definition modify (f : TBufferSQL2 -> TBufferSQL2) : M unit := fun b => Some (tt, f b).

(** Dereference of a pointer that may be null. *)
Definition deref {A : Type} (p : option A) : M A :=
  match p with
  | Some a => ret a
  | None => fault
  end.

Declare Scope buf_scope.
Delimit Scope buf_scope with buf.
Notation "x <- m ;; k" := (bind m (fun x => k))
  (at level 100, m at next level, right associativity) : buf_scope.
Notation "m ;;; k" := (bind m (fun _ => k))
  (at level 100, right associativity) : buf_scope.
Open Scope buf_scope.

Definition IsReading (b : TBufferSQL2) : bool :=
  match fMode b with kRead => true | kWrite => false end.

(** [Error(location, msg)]: a report through the diagnostic channel. *)
Definition Error (location msg : string) : M unit :=
  modify (fun b => set_fReports (fReports b ++ [(location, msg)]) b).

(** *** The structure stack *)

Definition new_TSQLStructure (parent : option nat) : TSQLStructure :=
  {| fParent := parent; fKind := kSqlUnknown |}.

(** [TBufferSQL2::PushStack]: a new node, the root when the stack is empty
    and otherwise added to the node on top; the new node is the top. *)
Definition PushStack : M nat :=
  b <- get;;
  let res := length (fNodes b) in
  (match fStk b with
   | None =>
       modify (fun b => set_fStructure (Some res)
                          (set_fNodes (fNodes b ++ [new_TSQLStructure None]) b))
   | Some top =>
       modify (fun b => set_fNodes (fNodes b ++ [new_TSQLStructure (Some top)]) b)
   end);;;
  modify (set_fStk (Some res));;;
  ret res.

(** [TBufferSQL2::PopStack]. *)
Definition PopStack : M (option nat) :=
  b <- get;;
  match fStk b with
  | None => ret None
  | Some top =>
      node <- deref (fNodes b !! top);;
      modify (set_fStk (fParent node));;;
      ret (fParent node)
  end.

(** [GetParent()] of the node at an index. *)
Definition parent_of (nodes : list TSQLStructure) (i : nat) : option nat :=
  match nodes !! i with
  | Some n => fParent n
  | None => None
  end.

(** [TBufferSQL2::Stack(depth)]. *)
Fixpoint Stack_from (nodes : list TSQLStructure) (depth : nat) (curr : option nat)
  : option nat :=
  match depth, curr with
  | S depth', Some i => Stack_from nodes depth' (parent_of nodes i)
  | _, _ => curr
  end.

Definition Stack (depth : Z) : M (option nat) :=
  b <- get;;
  ret (Stack_from (fNodes b) (Z.to_nat depth) (fStk b)).

(** A call [Stack()->...]: the node on top, which must exist. *)
Definition Stack_top : M nat :=
  top <- Stack 0;;
  deref top.

Definition node_kind (i : nat) : M NodeKind :=
  b <- get;;
  node <- deref (fNodes b !! i);;
  ret (fKind node).

Definition set_kind (k : NodeKind) (n : TSQLStructure) : TSQLStructure :=
  {| fParent := fParent n; fKind := k |}.

Definition set_node_kind (i : nat) (k : NodeKind) : M unit :=
  b <- get;;
  node <- deref (fNodes b !! i);;
  modify (set_fNodes (<[i := set_kind k node]> (fNodes b))).

(** Modelled from the spec: the setters of a node (TSQLStructure, not among
    the sources) give it its kind and the data of that kind. *)
Definition SetObjectRef (i : nat) (objid : Z) (cl : option TClass) : M unit :=
  set_node_kind i (kSqlObject objid cl).

Definition SetObjectPointer (i : nat) (ptrid : Z) : M unit :=
  set_node_kind i (kSqlPointer ptrid).

Definition SetArray (i : nat) (sz : Z) : M unit :=
  set_node_kind i (kSqlArray sz).

Definition SetStreamerElement (i : nat) (elem : TStreamerElement) (number : Z) : M unit :=
  set_node_kind i (kSqlElement elem number).

Definition SetCustomElement (i : nat) (elem : TStreamerElement) : M unit :=
  set_node_kind i (kSqlCustomElement elem).

(** Modelled from the spec: [AddValue] adds a value node, literal text and
    declared type marker, as the last child of the node. *)
Definition AddValue (i : nat) (value tname : string) : M unit :=
  modify (fun b => set_fNodes
     (fNodes b ++ [{| fParent := Some i; fKind := kSqlValue value tname None |}]) b).

(** The children of a node, in the order they were added. *)
Fixpoint children_from (nodes : list TSQLStructure) (j : nat) (i : nat) : list nat :=
  match nodes with
  | [] => []
  | n :: nodes' =>
      if decide (fParent n = Some i) then j :: children_from nodes' (S j) i
      else children_from nodes' (S j) i
  end.

Definition children (nodes : list TSQLStructure) (i : nat) : list nat :=
  children_from nodes 0 i.

(** Modelled from the spec: [ChildArrayIndex(index, cnt)] records on the
    last child, when it is a value, the start index and the length of the
    run the value stands for. *)
Definition ChildArrayIndex (i : nat) (index cnt : Z) : M unit :=
  b <- get;;
  match last (children (fNodes b) i) with
  | Some j =>
      k <- node_kind j;;
      match k with
      | kSqlValue value tname _ => set_node_kind j (kSqlValue value tname (Some (index, cnt)))
      | _ => ret tt
      end
  | None => ret tt
  end.

Definition GetElement (k : NodeKind) : option TStreamerElement :=
  match k with
  | kSqlElement elem _ => Some elem
  | kSqlCustomElement elem => Some elem
  | _ => None
  end.

Definition GetElementNumber (k : NodeKind) : Z :=
  match k with
  | kSqlElement _ number => number
  | _ => 0
  end.

Definition GetStreamerInfo (k : NodeKind) : option TStreamerInfo :=
  match k with
  | kSqlStreamerInfo info => Some info
  | _ => None
  end.

(* ===================================================================== *)
(** ** Values of basic types *)
(* ===================================================================== *)

Definition to_Int_t (v : Z) : Z := CText.wrap_signed 32 v.

(** [TBufferSQL2::SqlWriteValue]. *)
Definition SqlWriteValue (value tname : string) : M bool :=
  top <- Stack_top;;
  AddValue top value tname;;;
  ret true.

(** The overloads of [SqlWriteBasic] and [SqlReadBasic] differ in the type
    marker, the text format, and what the scan leaves in the variable.  A
    basic type gives: its marker; the text [SqlWriteBasic] prints; the value
    [SqlReadBasic] leaves in a variable that held [old] when the stored text
    is [text]; zero; the comparison [==]; and which values of the model are
    values of the C++ type. *)
Class SqlBasic (T : Type) : Type := {
  sql_tname : string;
  sql_print : T -> string;
  sql_scan : string -> T -> T;
  sql_zero : T;
  sql_eqb : T -> T -> bool;
  sql_valid : T -> bool
}.

(** [Int_t]: written with "%d", read with [sscanf(res, "%d", &value)]. *)
Definition Int_scan (text : string) (old : Z) : Z :=
  match CText.scan_signed text with
  | Some (v, _) => CText.store_d v
  | None => old
  end.

#[export] Instance Int_t_basic : SqlBasic Z := {|
  sql_tname := sqlio.Int;
  sql_print := CText.print_d;
  sql_scan := Int_scan;
  sql_zero := 0;
  sql_eqb := Z.eqb;
  sql_valid := CText.in_signed 32
|}.

(** [Bool_t]: written as one of two tokens, read with [strcmp]. *)
#[export] Instance Bool_t_basic : SqlBasic bool := {|
  sql_tname := sqlio.Bool;
  sql_print := fun v : bool => if v then sqlio.True else sqlio.False;
  sql_scan := fun (text : string) (_ : bool) => String.eqb text sqlio.True;
  sql_zero := false;
  sql_eqb := Bool.eqb;
  sql_valid := fun _ => true
|}.

(** [Char_t] is a byte; [SqlWriteBasic(Char_t)] prints its signed value with
    "%d" and [SqlReadBasic(Char_t&)] scans an [int] and stores it. *)
Definition Char_signed (c : ascii) : Z :=
  CText.wrap_signed 8 (Z.of_nat (nat_of_ascii c)).

Definition Char_of_int (n : Z) : ascii := ascii_of_nat (Z.to_nat (n mod 256)).

(** [int n; sscanf(res, "%d", &n); value = n;]: the scan stores into a local
    [int] that the code does not initialise, and the variable read into is
    assigned from it whatever the scan did.  [n] is the content of that
    local before the scan; the old content of the variable plays no part. *)
Definition Char_scan (n : Z) (text : string) (old : ascii) : ascii :=
  match CText.scan_signed text with
  | Some (v, _) => Char_of_int (CText.store_d v)
  | None => Char_of_int n
  end.

Definition Char_t_basic (n : Z) : SqlBasic ascii := {|
  sql_tname := sqlio.Char;
  sql_print := fun c : ascii => CText.print_d (Char_signed c);
  sql_scan := Char_scan n;
  sql_zero := zero;
  sql_eqb := Ascii.eqb;
  sql_valid := fun _ => true
|}.

(** [TBufferSQL2::SqlWriteBasic]. *)
Definition SqlWriteBasic {T : Type} `{SqlBasic T} (value : T) : M bool :=
  SqlWriteValue (sql_print value) sql_tname.

(** [TBufferSQL2::SqlReadValue]. *)
Definition SqlReadValue (tname : string) : M (option string) :=
  b <- get;;
  if fErrorFlag b >? 0 then ret None
  else
    match fCurrentData b with
    | None =>
        Error "SqlReadValue" "No object data to read from";;;
        modify (set_fErrorFlag 1);;;
        ret None
    | Some d =>
        if negb (fIgnoreVerification b) && negb (VerifyDataType d tname) then
          modify (set_fErrorFlag 1);;;
          ret None
        else
          let value := default EmptyString (GetValue d) in
          modify (set_fReadBuffer value);;;
          modify (set_fCurrentData (Some (ShiftToNextValue d)));;;
          ret (Some value)
    end.

(** [TBufferSQL2::SqlReadBasic]; [old] is the content of the variable the
    value is read into. *)
Definition SqlReadBasic {T : Type} `{SqlBasic T} (old : T) : M T :=
  res <- SqlReadValue sql_tname;;
  match res with
  | Some text => ret (sql_scan text old)
  | None => ret sql_zero
  end.

(** [atoi]: the number at the start of the text as an [int], 0 when there
    is none. *)
Definition atoi (s : string) : Z :=
  match CText.scan_signed s with
  | Some (v, _) => CText.store_d v
  | None => 0
  end.

(** [TBufferSQL2::ReadVersion]; the result is the version returned
    ([start] and [bcnt], when given, are set to 0).  [value.Atoi()] of class
    TString, which is not among the sources, is taken as [atoi]; the result
    is stored in a [Version_t], which has 16 bits. *)
Definition ReadVersion : M Z :=
  b <- get;;
  if fReadVersionBuffer b >=? 0 then
    modify (set_fReadVersionBuffer (-1));;;
    ret (CText.wrap_signed 16 (fReadVersionBuffer b))
  else
    match fCurrentData b with
    | Some d =>
        if IsBlobData d && VerifyDataType d sqlio.Version then
          let value := default EmptyString (GetValue d) in
          modify (set_fCurrentData (Some (ShiftToNextValue d)));;;
          ret (CText.wrap_signed 16 (atoi value))
        else
          Error "ReadVersion" "No correspondent tags to read version";;;
          modify (set_fErrorFlag 1);;;
          ret 0
    | None =>
        Error "ReadVersion" "No correspondent tags to read version";;;
        modify (set_fErrorFlag 1);;;
        ret 0
    end.

(** Modelled from the spec: [DefineObjectId(kTRUE)] of a node (TSQLStructure,
    not among the sources) is the id of the nearest object or object
    reference at or above the node, -1 when there is none. *)
Fixpoint DefineObjectId (nodes : list TSQLStructure) (fuel : nat) (curr : option nat) : Z :=
  match curr with
  | None => -1
  | Some i =>
      match fKind <$> nodes !! i with
      | Some (kSqlObject objid _) => objid
      | Some (kSqlPointer ptrid) => ptrid
      | _ =>
          match fuel with
          | O => -1
          | S fuel' => DefineObjectId nodes fuel' (parent_of nodes i)
          end
      end
  end.

(** [TBufferSQL2::SqlReadCharStarValue]. *)
Definition SqlReadCharStarValue : M (option string) :=
  res <- SqlReadValue sqlio.CharStar;;
  b <- get;;
  match res, fSQL b with
  | Some res, Some sql =>
      top <- Stack_top;;
      let objid := DefineObjectId (fNodes b) (length (fNodes b)) (Some top) in
      let strid := IsLongStringCode objid res sql in
      if strid <=? 0 then ret (Some res)
      else
        (* fSQL->GetLongString(objid, strid, fReadBuffer); the result is
           not looked at *)
        let value := snd (GetLongString objid strid (fReadBuffer b) sql) in
        modify (set_fReadBuffer value);;;
        ret (Some value)
  | _, _ => ret None
  end.

(* ===================================================================== *)
(** ** Arrays of basic types *)
(* ===================================================================== *)

(** [vname[i]] as a value and [vname[i] = x]; outside the array there is no
    result. *)
Definition arr_get {T : Type} (vname : list T) (i : Z) : M T :=
  if i <? 0 then fault else deref (vname !! Z.to_nat i).

Definition arr_set {T : Type} (vname : list T) (i : Z) (x : T) : M (list T) :=
  if (0 <=? i) && (i <? Z.of_nat (length vname)) then ret (<[Z.to_nat i := x]> vname)
  else fault.

Section Arrays.
Context {T : Type} `{SqlBasic T}.

(** [SQLWriteArrayNoncompress]. *)
Fixpoint SQLWriteArrayNoncompress_from (fuel : nat) (vname : list T) (arrsize indx : Z)
  : M unit :=
  if indx <? arrsize then
    match fuel with
    | O => fault
    | S fuel' =>
        x <- arr_get vname indx;;
        SqlWriteBasic x;;;
        top <- Stack_top;;
        ChildArrayIndex top indx 1;;;
        SQLWriteArrayNoncompress_from fuel' vname arrsize (indx + 1)
    end
  else ret tt.

Definition SQLWriteArrayNoncompress (vname : list T) (arrsize : Z) : M unit :=
  SQLWriteArrayNoncompress_from (Z.to_nat arrsize) vname arrsize 0.

(** [while ((indx<arrsize) && (vname[indx]==vname[curr])) indx++;] *)
Fixpoint run_end (fuel : nat) (vname : list T) (arrsize curr indx : Z) : M Z :=
  if indx <? arrsize then
    x <- arr_get vname indx;;
    c <- arr_get vname curr;;
    if sql_eqb x c then
      match fuel with
      | O => fault
      | S fuel' => run_end fuel' vname arrsize curr (indx + 1)
      end
    else ret indx
  else ret indx.

(** [SQLWriteArrayCompress]. *)
Fixpoint SQLWriteArrayCompress_from (fuel : nat) (vname : list T) (arrsize indx : Z)
  : M unit :=
  if indx <? arrsize then
    match fuel with
    | O => fault
    | S fuel' =>
        let curr := indx in
        indx <- run_end (Z.to_nat arrsize) vname arrsize curr (indx + 1);;
        c <- arr_get vname curr;;
        SqlWriteBasic c;;;
        top <- Stack_top;;
        ChildArrayIndex top curr (indx - curr);;;
        SQLWriteArrayCompress_from fuel' vname arrsize indx
    end
  else ret tt.

Definition SQLWriteArrayCompress (vname : list T) (arrsize : Z) : M unit :=
  SQLWriteArrayCompress_from (Z.to_nat arrsize) vname arrsize 0.

(** [SQLWriteArrayContent]. *)
Definition SQLWriteArrayContent (vname : list T) (arrsize : Z) (withsize : bool)
  : M unit :=
  node <- PushStack;;
  SetArray node (if withsize then arrsize else -1);;;
  b <- get;;
  (if fCompressLevel b >? 0 then SQLWriteArrayCompress vname arrsize
   else SQLWriteArrayNoncompress vname arrsize);;;
  PopStack;;;
  ret tt.

(** [TBufferSQL2_WriteArray]. *)
Definition WriteArray (vname : list T) (n : Z) : M unit :=
  SQLWriteArrayContent vname n true.

(** [SQLReadArrayUncompress]; the result is the array and [indx]. *)
Fixpoint SQLReadArrayUncompress (fuel : nat) (vname : list T) (arrsize indx : Z)
  : M (list T * Z) :=
  if indx <? arrsize then
    match fuel with
    | O => fault
    | S fuel' =>
        old <- arr_get vname indx;;
        x <- SqlReadBasic old;;
        vname <- arr_set vname indx x;;
        SQLReadArrayUncompress fuel' vname arrsize (indx + 1)
    end
  else ret (vname, indx).

(** [while(indx<=last) vname[indx++] = vname[first];] *)
Fixpoint replicate_run (fuel : nat) (vname : list T) (first last indx : Z)
  : M (list T * Z) :=
  if indx <=? last then
    match fuel with
    | O => fault
    | S fuel' =>
        x <- arr_get vname first;;
        vname <- arr_set vname indx x;;
        replicate_run fuel' vname first last (indx + 1)
    end
  else ret (vname, indx).

(** [sscanf(name, "[%d", &first)] and [sscanf(name, "[%d..%d", &first,
    &last)]: the variables after the call. *)
Definition sscanf_first (name : string) (first : Z) : Z :=
  match CText.scan_lit "[" name with
  | Some s =>
      match CText.scan_signed s with
      | Some (v, _) => CText.store_d v
      | None => first
      end
  | None => first
  end.

Definition sscanf_first_last (name : string) (first last : Z) : Z * Z :=
  match CText.scan_lit "[" name with
  | Some s =>
      match CText.scan_signed s with
      | Some (v, s) =>
          let first := CText.store_d v in
          match CText.scan_lit "." s with
          | Some s =>
              match CText.scan_lit "." s with
              | Some s =>
                  match CText.scan_signed s with
                  | Some (w, _) => (first, CText.store_d w)
                  | None => (first, last)
                  end
              | None => (first, last)
              end
          | None => (first, last)
          end
      | None => (first, last)
      end
  | None => (first, last)
  end.

(** The index range [first], [last] the code takes from the tag of a run;
    [junk] is what the two variables, which the code does not initialise,
    hold before the scan. *)
Definition run_range (name : string) (junk : Z * Z) : Z * Z :=
  if negb (CText.strstr name sqlio.IndexSepar) then
    let first := sscanf_first name (fst junk) in
    (first, first)
  else sscanf_first_last name (fst junk) (snd junk).

(** [SQLReadArrayCompress]. *)
Fixpoint SQLReadArrayCompress (junk : Z -> Z * Z) (fuel : nat) (vname : list T)
    (arrsize indx : Z) : M (list T * Z) :=
  if indx <? arrsize then
    match fuel with
    | O => fault
    | S fuel' =>
        b <- get;;
        d <- deref (fCurrentData b);;
        name <- deref (GetBlobPrefixName d);;
        let (first, last) := run_range name (junk indx) in
        if negb (first =? indx) || (last <? first) || (last >=? arrsize) then
          Error "SQLReadArrayCompress" ("Error reading array content " +:+ name);;;
          modify (set_fErrorFlag 1);;;
          ret (vname, indx)
        else
          old <- arr_get vname indx;;
          x <- SqlReadBasic old;;
          vname <- arr_set vname indx x;;
          r <- replicate_run (Z.to_nat arrsize) vname first last (indx + 1);;
          SQLReadArrayCompress junk fuel' (fst r) arrsize (snd r)
    end
  else ret (vname, indx).

(** [SQLReadArrayContent]. *)
Definition SQLReadArrayContent (junk : Z -> Z * Z) (vname : list T) (arrsize : Z)
    (withsize : bool) : M (list T) :=
  node <- PushStack;;
  SetArray node (if withsize then arrsize else -1);;;
  b <- get;;
  d <- deref (fCurrentData b);;
  r <- (if IsBlobData d then SQLReadArrayCompress junk (Z.to_nat arrsize) vname arrsize 0
        else SQLReadArrayUncompress (Z.to_nat arrsize) vname arrsize 0);;
  PopStack;;;
  ret (fst r).

End Arrays.

(* ===================================================================== *)
(** ** Arrays without size: chains of members and character arrays *)
(* ===================================================================== *)

(** [TObjArray::At]: null outside the array. *)
Definition At {A : Type} (l : list A) (i : Z) : option A :=
  if i <? 0 then None else l !! Z.to_nat i.

(** [vname + index], the array from an element on. *)
Definition arr_from {T : Type} (vname : list T) (index : Z) : M (list T) :=
  if (0 <=? index) && (index <=? Z.of_nat (length vname)) then
    ret (drop (Z.to_nat index) vname)
  else fault.

Definition is_chain_element (elem : option TStreamerElement) (n : Z) : bool :=
  match elem with
  | Some e =>
      (el_type e >? TStreamerInfoK.kOffsetL) && (el_type e <? TStreamerInfoK.kOffsetP)
      && negb (el_length e =? n)
  | None => false
  end.

Section FastArrays.
(** The statements of [WorkWithElement] under [if (IsReading())]: they
    locate the column of the element through
    [TSQLStructure::GetObjectData] and [LocateElementColumn], which are
    not among the sources. *)
Variable WorkWithElement_reading : M unit.

(** [TBufferSQL2::WorkWithElement]. *)
Definition WorkWithElement (elem : TStreamerElement) (comp_type : Z) : M unit :=
  stack <- Stack 1;;
  stack <- deref stack;;
  k <- node_kind stack;;
  let number :=
    match GetStreamerInfo k with
    | Some info => IndexOf elem (si_elements info) 0
    | None => -1
    end in
  node <- PushStack;;
  (if number >=? 0 then SetStreamerElement node elem number
   else SetCustomElement node elem);;;
  b <- get;;
  if IsReading b then WorkWithElement_reading else ret tt.

Context {T : Type} `{SqlBasic T}.

(** The loop of [TBufferSQL2_WriteFastArray] over the members of a chain. *)
Fixpoint WriteFastArray_chain (fuel : nat) (vname : list T) (n : Z)
    (info : option TStreamerInfo) (startnumber index : Z) : M unit :=
  if index <? n then
    match fuel with
    | O => fault
    | S fuel' =>
        info' <- deref info;;
        elem <- deref (At (si_elements info') startnumber);;
        (if index >? 0 then PopStack;;; WorkWithElement elem (el_type elem)
         else ret tt);;;
        index <-
          (if el_type elem <? TStreamerInfoK.kOffsetL then
             x <- arr_get vname index;;
             SqlWriteBasic x;;;
             ret (index + 1)
           else
             let elemlen := el_length elem in
             sub <- arr_from vname index;;
             SQLWriteArrayContent sub elemlen false;;;
             ret (index + elemlen));;
        modify (set_fExpectedChain false);;;
        WriteFastArray_chain fuel' vname n info (startnumber + 1) index
    end
  else ret tt.

(** [TBufferSQL2_WriteFastArray]. *)
Definition TBufferSQL2_WriteFastArray (vname : list T) (n : Z) : M unit :=
  if n <=? 0 then ret tt
  else
    top <- Stack_top;;
    k <- node_kind top;;
    (if is_chain_element (GetElement k) n then modify (set_fExpectedChain true)
     else ret tt);;;
    b <- get;;
    if fExpectedChain b then
      s1 <- Stack 1;;
      s1 <- deref s1;;
      k1 <- node_kind s1;;
      WriteFastArray_chain (Z.to_nat n) vname n (GetStreamerInfo k1)
        (GetElementNumber k) 0
    else SQLWriteArrayContent vname n false.

(** The loop of [TBufferSQL2_ReadFastArray] over the members of a chain. *)
Fixpoint ReadFastArray_chain (junk : Z -> Z * Z) (fuel : nat) (vname : list T) (n : Z)
    (info : option TStreamerInfo) (startnumber index : Z) : M (list T) :=
  if index <? n then
    match fuel with
    | O => fault
    | S fuel' =>
        info' <- deref info;;
        elem <- deref (At (si_elements info') startnumber);;
        (if index >? 1 then PopStack;;; WorkWithElement elem (el_type elem)
         else ret tt);;;
        r <-
          (if el_type elem <? TStreamerInfoK.kOffsetL then
             old <- arr_get vname index;;
             x <- SqlReadBasic old;;
             vname <- arr_set vname index x;;
             ret (vname, index + 1)
           else
             let elemlen := el_length elem in
             sub <- arr_from vname index;;
             sub <- SQLReadArrayContent junk sub elemlen false;;
             ret (take (Z.to_nat index) vname ++ sub, index + elemlen));;
        ReadFastArray_chain junk fuel' (fst r) n info (startnumber + 1) (snd r)
    end
  else ret vname.

(** [TBufferSQL2_ReadFastArray]. *)
Definition TBufferSQL2_ReadFastArray (junk : Z -> Z * Z) (vname : list T) (n : Z)
  : M (list T) :=
  if n <=? 0 then ret vname
  else
    top <- Stack_top;;
    k <- node_kind top;;
    (if is_chain_element (GetElement k) n then modify (set_fExpectedChain true)
     else ret tt);;;
    b <- get;;
    if fExpectedChain b then
      modify (set_fExpectedChain false);;;
      s1 <- Stack 1;;
      s1 <- deref s1;;
      k1 <- node_kind s1;;
      ReadFastArray_chain junk (Z.to_nat n) vname n (GetStreamerInfo k1)
        (GetElementNumber k) 0
    else SQLReadArrayContent junk vname n false.

End FastArrays.

(** The scan of [WriteFastArray(const Char_t*, Int_t)] for a zero among the
    first [n] characters. *)
Fixpoint has_zero_from (fuel : nat) (c : list ascii) (n i : Z) : M bool :=
  if i <? n then
    match fuel with
    | O => fault
    | S fuel' =>
        x <- arr_get c i;;
        if Ascii.eqb x zero then ret true
        else has_zero_from fuel' c n (i + 1)
    end
  else ret false.

(** [memcpy(dst, src, size)] between two arrays. *)
Definition memcpy (dst src : list ascii) (size : Z) : M (list ascii) :=
  if (0 <=? size) && (size <=? Z.of_nat (length src)) && (size <=? Z.of_nat (length dst))
  then ret (take (Z.to_nat size) src ++ drop (Z.to_nat size) dst)
  else fault.

(** A string as the character array that holds it, with its final zero. *)
Definition c_buffer (s : string) : list ascii := list_ascii_of_string s ++ [zero].

Section CharArrays.
Variable WorkWithElement_reading : M unit.
(** The content of the local [int n] of [SqlReadBasic(Char_t&)] before its
    scan. *)
Variable Char_local : Z.

(** [TBufferSQL2::WriteFastArray(const Char_t *c, Int_t n)]. *)
Definition WriteFastArray_Char (c : list ascii) (n : Z) : M unit :=
  b <- get;;
  let usedefault := (n =? 0) || fExpectedChain b in
  usedefault <-
    (if usedefault then ret true else has_zero_from (Z.to_nat n) c n 0);;
  if usedefault then
    TBufferSQL2_WriteFastArray (H := Char_t_basic Char_local) WorkWithElement_reading c n
  else
    (* buf = new Char_t[n+1]; memcpy(buf, c, n); buf[n] = 0; *)
    buf <- memcpy (repeat zero (Z.to_nat (n + 1))) c n;;
    buf <- arr_set buf n zero;;
    value <- deref (CText.c_string buf);;
    SqlWriteValue value sqlio.CharStar;;;
    ret tt.

(** [TBufferSQL2::ReadFastArray(Char_t *c, Int_t n)]. *)
Definition ReadFastArray_Char (junk : Z -> Z * Z) (c : list ascii) (n : Z)
  : M (list ascii) :=
  b <- get;;
  charstar <-
    (if n >? 0 then
       d <- deref (fCurrentData b);;
       ret (IsBlobData d && VerifyDataType d sqlio.CharStar)
     else ret false);;
  if charstar then
    buf <- SqlReadCharStarValue;;
    match buf with
    | None => ret c
    | Some buf =>
        if n <=? 0 then ret c
        else
          let size := Z.of_nat (String.length buf) in
          let size := if size <? n then n else size in
          memcpy c (c_buffer buf) size
    end
  else
    TBufferSQL2_ReadFastArray (H := Char_t_basic Char_local) WorkWithElement_reading junk c n.

End CharArrays.

(* ===================================================================== *)
(** ** Objects *)
(* ===================================================================== *)

(** Modelled from the spec: the describe-callback of a class (its streamer,
    provided by the reflection system) calls back into the buffer once per
    member, in declaration order.  The objects the callbacks walk are given
    as a heap: an object has a class and members; a member of basic type is
    written with [WriteInt], a pointer member with [WriteObjectClass] and
    the class found at the address (null when nothing is known there).
    The streamers of the reflection system can call every method of the
    buffer (arrays, strings, [ClassMember], ...); the model has the two
    kinds of member that the calls from a streamer back into
    [SqlWriteObject] need, and what is shown over [stream_members] is shown
    for objects of such members. *)
Inductive Member : Type :=
| MInt (v : Z)
| MObject (p : Z).

Record Object : Type := {
  ob_class : TClass;
  ob_members : list Member
}.

Section WriteObjects.
Variable heap : gmap Z Object.

Definition IsA (p : Z) : option TClass := ob_class <$> heap !! p.

(** What [cl->Streamer(obj, *this)] streams. *)
Definition class_members (obj : Z) : list Member :=
  match heap !! obj with
  | Some o => ob_members o
  | None => []
  end.

(** The calls a streamer makes; [write_object] is
    [TBufferSQL2::WriteObjectClass]. *)
Fixpoint stream_members (write_object : Z -> option TClass -> M Z) (ms : list Member)
  : M unit :=
  match ms with
  | [] => ret tt
  | MInt v :: ms' =>
      SqlWriteBasic v;;;
      stream_members write_object ms'
  | MObject p :: ms' =>
      write_object p (IsA p);;;
      stream_members write_object ms'
  end.

(** [TBufferSQL2::SqlWriteObject]; [streamer], when given, is what the
    member streamer streams.  The fuel bounds the depth of the calls from
    streamers back into the buffer. *)
Fixpoint SqlWriteObject (fuel : nat) (obj : Z) (cl : option TClass)
    (streamer : option (list Member)) : M Z :=
  match fuel with
  | O => fault
  | S fuel' =>
      PushStack;;;
      let obj := match cl with None => 0 | Some _ => obj end in
      b <- get;;
      let objid :=
        if obj =? 0 then 0
        else
          match fObjMap b with
          | Some map =>
              let value := TExMap_GetValue map obj in
              if value >? 0 then fFirstObjId b + value - 1 else -1
          | None => -1
          end in
      if objid >=? 0 then
        top <- Stack_top;;
        SetObjectPointer top objid;;;
        PopStack;;;
        ret (to_Int_t objid)
      else
        let objid := fObjIdCounter b in
        modify (set_fObjIdCounter (objid + 1));;;
        top <- Stack_top;;
        SetObjectRef top objid cl;;;
        modify (fun b => match fObjMap b with
                         | None => set_fObjMap (Some ∅) b
                         | Some _ => b
                         end);;;
        b <- get;;
        map <- deref (fObjMap b);;
        (if TExMap_GetValue map obj =? 0 then
           modify (set_fObjMap (Some (TExMap_Add map obj (objid - fFirstObjId b + 1))))
         else ret tt);;;
        modify (fun b => set_fStreamed (fStreamed b ++ [(obj, objid)]) b);;;
        stream_members (fun p c => SqlWriteObject fuel' p c None)
          (match streamer with
           | Some ms => ms
           | None => class_members obj
           end);;;
        PopStack;;;
        ret (to_Int_t objid)
  end.

(** [TBufferSQL2::SqlWriteAny]; the result is [fStructure]. *)
Definition SqlWriteAny (fuel : nat) (obj : Z) (cl : option TClass) (objid : Z)
  : M (option nat) :=
  modify (set_fErrorFlag 0);;;
  modify (set_fStructure None);;;
  modify (set_fFirstObjId objid);;;
  modify (set_fObjIdCounter objid);;;
  SqlWriteObject fuel obj cl None;;;
  b <- get;;
  ret (fStructure b).

End WriteObjects.

(** [TBufferSQL2::SqlObjectInfo]: class name and version of an object id. *)
Definition SqlObjectInfo (objid : Z) (b : TBufferSQL2) : option (string * Z) :=
  match fObjectsInfos b with
  | None => None
  | Some infos =>
      if objid <? 0 then None
      else
        let shift := objid - fFirstObjId b in
        let info :=
          if (shift >=? 0) && (shift <=? Z.of_nat (length infos) - 1) then
            match At infos shift with
            | Some info => if oi_objid info =? objid then Some info else None
            | None => None
            end
          else None in
        let info :=
          match info with
          | Some info => Some info
          | None => find (fun info => oi_objid info =? objid) infos
          end in
        match info with
        | Some info => Some (oi_classname info, oi_version info)
        | None => None
        end
  end.

Section ReadObjects.
(** [TClass::GetClass(name)], the class registry of the reflection
    system. *)
Variable TClass_GetClass : string -> option TClass.

(** [TBufferSQL2::SqlReadObjectDirect], which creates the object and calls
    its streamer; [SqlReadObject] ends with a call of it for a reference to
    an object that is not yet read. *)
Variable SqlReadObjectDirect : Z -> bool -> Z -> M (Z * option TClass).

Definition sscanf_lld (text : string) (old : Z) : Z :=
  match CText.scan_signed text with
  | Some (v, _) => CText.store_lld v
  | None => old
  end.

(** [TBufferSQL2::SqlReadObject]; [want_cl] says whether a place for the
    class was given ([cl != 0]); the result is the pointer returned and
    what is left at [*cl]. *)
Definition SqlReadObject (obj : Z) (want_cl : bool) : M (Z * option TClass) :=
  b <- get;;
  if fErrorFlag b >? 0 then ret (obj, None)
  else
    d <- deref (fCurrentData b);;
    match GetValue d with
    | None | Some EmptyString =>
        Error "SqlReadObject" "Invalid object reference value";;;
        modify (set_fErrorFlag 1);;;
        ret (obj, None)
    | Some refid =>
        let objid := sscanf_lld refid (-1) in
        let found : option (Z * option TClass) :=
          if negb (IsBlobData d) || VerifyDataType d sqlio.ObjectPtr then
            if objid =? 0 then Some (0, None)
            else if objid =? -1 then Some (obj, None)
            else
              match fObjMap b with
              | Some map =>
                  if objid >=? fFirstObjId b then
                    let obj1 := TExMap_GetValue map (objid - fFirstObjId b) in
                    if negb (obj1 =? 0) then
                      Some (obj1,
                            if want_cl then
                              match SqlObjectInfo objid b with
                              | Some (clname, _) => TClass_GetClass clname
                              | None => None
                              end
                            else None)
                    else None
                  else None
              | None => None
              end
          else None in
        match found with
        | Some res =>
            modify (set_fCurrentData (Some (ShiftToNextValue d)));;;
            ret res
        | None =>
            if IsBlobData d && negb (VerifyDataType d sqlio.ObjectRef) then
              Error "SqlReadObject"
                "Object reference or pointer is not found in blob data";;;
              modify (set_fErrorFlag 1);;;
              ret (obj, None)
            else
              modify (set_fCurrentData (Some (ShiftToNextValue d)));;;
              SqlReadObjectDirect obj want_cl objid
        end
    end.

End ReadObjects.

(* ===================================================================== *)
(** ** Pools of class data *)
(* ===================================================================== *)

(** A call of the storage: the file must be there. *)
Definition on_file {A : Type} (call : TSQLFile -> A * TSQLFile) : M A :=
  b <- get;;
  file <- deref (fSQL b);;
  let (res, file) := call file in
  modify (set_fSQL (Some file));;;
  ret res.

(** [TBufferSQL2::SqlObjectData], from the end: the statements after the
    block for the class table, which ask for the blob data and build the
    result... *)
Definition SqlObjectData_blob (objid : Z) (sqlinfo : TSQLClassInfo)
    (classdata : option (list TSQLRow)) (classrow : option TSQLRow)
  : M (option TSQLObjectData) :=
  blobstmt <- on_file (GetBlobClassDataStmt objid sqlinfo);;
  blobdata <-
    (match blobstmt with
     | None => on_file (GetBlobClassData objid sqlinfo)
     | Some _ => ret None
     end);;
  ret (Some (od_new (ci_addr sqlinfo) objid classdata classrow blobdata blobstmt)).

(** ... the statements of the block once the pool is there... *)
Definition SqlObjectData_row (objid : Z) (sqlinfo : TSQLClassInfo)
    (pool : TSQLObjectDataPool) : M (option TSQLObjectData) :=
  if negb (Pos.eqb (pool_info pool) (ci_addr sqlinfo)) then
    Error "SqlObjectData" "Missmatch in pools map !!! CANNOT BE !!!";;;
    ret None
  else
    match GetObjectRow pool objid with
    | None =>
        Error "SqlObjectData"
          ("Can not find row for objid = " +:+ CText.print_d objid
           +:+ " in table " +:+ ci_table sqlinfo);;;
        ret None
    | Some classrow => SqlObjectData_blob objid sqlinfo (Some (pool_data pool)) (Some classrow)
    end.

(** ... and the function. *)
Definition SqlObjectData (objid : Z) (sqlinfo : TSQLClassInfo) : M (option TSQLObjectData) :=
  if ci_exists sqlinfo then
    b <- get;;
    let pool :=
      match fPoolsMap b with
      | Some pools => pools !! ci_addr sqlinfo
      | None => None
      end in
    match pool with
    | Some pool => SqlObjectData_row objid sqlinfo pool
    | None =>
        if fLastObjId b >=? fFirstObjId b then
          alldata <- on_file (GetNormalClassDataAll (fFirstObjId b) (fLastObjId b) sqlinfo);;
          match alldata with
          | None =>
              Error "SqlObjectData" ("Cannot get data from table " +:+ ci_table sqlinfo);;;
              ret None
          | Some alldata =>
              let pool := {| pool_info := ci_addr sqlinfo; pool_data := alldata |} in
              modify (fun b => set_fPoolsMap
                 (Some (<[ci_addr sqlinfo := pool]> (default ∅ (fPoolsMap b)))) b);;;
              SqlObjectData_row objid sqlinfo pool
          end
        else ret None
    end
  else SqlObjectData_blob objid sqlinfo None None.

(* ===================================================================== *)
(** ** States the properties speak of *)
(* ===================================================================== *)

(** The buffer after [PushStack]. *)
Definition pushed (b : TBufferSQL2) : TBufferSQL2 :=
  set_fStk (Some (length (fNodes b)))
    (set_fStructure
       (match fStk b with
        | None => Some (length (fNodes b))
        | Some _ => fStructure b
        end)
       (set_fNodes (fNodes b ++ [new_TSQLStructure (fStk b)]) b)).

(** The buffer after a call that added one node of a kind below the top of
    the stack and left the stack as it was. *)
Definition node_written (k : NodeKind) (b : TBufferSQL2) : TBufferSQL2 :=
  set_fStk (fStk b)
    (set_fNodes (fNodes b ++ [{| fParent := fStk b; fKind := k |}])
       (set_fStructure
          (match fStk b with
           | None => Some (length (fNodes b))
           | Some _ => fStructure b
           end) b)).

(** A call keeps the error flag when a flag that is set before the call is
    set after it. *)
Definition keeps_flag {A : Type} (m : M A) : Prop :=
  forall b r b', fErrorFlag b > 0 -> m b = Some (r, b') -> fErrorFlag b' > 0.

(** Calls on the buffer within one pass, as a streamer or the code around it
    makes them. *)
Inductive Call : Type :=
| Call_PushStack
| Call_PopStack
| Call_SqlWriteValue (value tname : string)
| Call_WriteInt (v : Z)
| Call_WriteArray (vname : list Z) (n : Z) (withsize : bool)
| Call_WriteObject (fuel : nat) (obj : Z) (cl : option TClass)
    (streamer : option (list Member))
| Call_SqlReadValue (tname : string)
| Call_ReadInt (old : Z)
| Call_ReadBool (old : bool)
| Call_ReadCharStar
| Call_ReadArray (junk : Z -> Z * Z) (vname : list Z) (n : Z) (withsize : bool)
| Call_ReadObject (obj : Z) (want_cl : bool)
| Call_SqlObjectData (objid : Z) (sqlinfo : TSQLClassInfo)
| Call_ReadVersion.

Section Calls.
Variable heap : gmap Z Object.
Variable TClass_GetClass : string -> option TClass.
Variable SqlReadObjectDirect : Z -> bool -> Z -> M (Z * option TClass).

Definition run_call (c : Call) : M unit :=
  match c with
  | Call_PushStack => PushStack;;; ret tt
  | Call_PopStack => PopStack;;; ret tt
  | Call_SqlWriteValue value tname => SqlWriteValue value tname;;; ret tt
  | Call_WriteInt v => SqlWriteBasic v;;; ret tt
  | Call_WriteArray vname n withsize => SQLWriteArrayContent vname n withsize
  | Call_WriteObject fuel obj cl streamer =>
      SqlWriteObject heap fuel obj cl streamer;;; ret tt
  | Call_SqlReadValue tname => SqlReadValue tname;;; ret tt
  | Call_ReadInt old => SqlReadBasic old;;; ret tt
  | Call_ReadBool old => SqlReadBasic old;;; ret tt
  | Call_ReadCharStar => SqlReadCharStarValue;;; ret tt
  | Call_ReadArray junk vname n withsize =>
      SQLReadArrayContent junk vname n withsize;;; ret tt
  | Call_ReadObject obj want_cl =>
      SqlReadObject TClass_GetClass SqlReadObjectDirect obj want_cl;;; ret tt
  | Call_SqlObjectData objid sqlinfo => SqlObjectData objid sqlinfo;;; ret tt
  | Call_ReadVersion => ReadVersion;;; ret tt
  end.

Fixpoint run_calls (cs : list Call) : M unit :=
  match cs with
  | [] => ret tt
  | c :: cs' => run_call c;;; run_calls cs'
  end.

End Calls.

(** The buffer after [AddValue] on the node [top]. *)
Definition value_added (top : nat) (value tname : string) (b : TBufferSQL2) : TBufferSQL2 :=
  set_fNodes (fNodes b ++ [{| fParent := Some top; fKind := kSqlValue value tname None |}]) b.

(** The buffer after a value has been taken from the current data. *)
Definition value_taken (d : TSQLObjectData) (b : TBufferSQL2) : TBufferSQL2 :=
  set_fCurrentData (Some (ShiftToNextValue d))
    (set_fReadBuffer (default EmptyString (GetValue d)) b).

(** The requests the storage has received from the buffer. *)
Definition requests (b : TBufferSQL2) : list SQLRequest :=
  match fSQL b with
  | Some f => sql_requests f
  | None => []
  end.

(** The bulk fetches for a descriptor among requests: all of them, and those
    that returned a result. *)
Definition is_bulk (info : positive) (r : SQLRequest) : bool :=
  match r with
  | ReqNormalClassDataAll _ _ i _ => Pos.eqb i info
  | _ => false
  end.

Definition is_bulk_ok (info : positive) (r : SQLRequest) : bool :=
  match r with
  | ReqNormalClassDataAll _ _ i ok => Pos.eqb i info && ok
  | _ => false
  end.

Fixpoint count_requests (p : SQLRequest -> bool) (l : list SQLRequest) : nat :=
  match l with
  | [] => O
  | r :: l' => if p r then S (count_requests p l') else count_requests p l'
  end.

Definition pool_of (b : TBufferSQL2) (info : positive) : option TSQLObjectDataPool :=
  match fPoolsMap b with
  | Some pools => pools !! info
  | None => None
  end.

(** Requests for object data, one after the other. *)
Fixpoint object_data_requests (reqs : list (Z * TSQLClassInfo)) : M unit :=
  match reqs with
  | [] => ret tt
  | (objid, sqlinfo) :: reqs' =>
      SqlObjectData objid sqlinfo;;;
      object_data_requests reqs'
  end.

(** Every bulk fetch among the requests covers the range of object ids of
    the pass. *)
Definition bulk_range (first last : Z) (r : SQLRequest) : bool :=
  match r with
  | ReqNormalClassDataAll minobjid maxobjid _ _ => (minobjid =? first) && (maxobjid =? last)
  | _ => true
  end.

Definition no_bulk (r : SQLRequest) : bool :=
  match r with
  | ReqNormalClassDataAll _ _ _ _ => false
  | _ => true
  end.

(** A call was quiet when it sent no bulk fetch and left the pools and the
    range of object ids as they were. *)
Definition quiet (b b' : TBufferSQL2) : Prop :=
  fPoolsMap b' = fPoolsMap b /\ fFirstObjId b' = fFirstObjId b
  /\ fLastObjId b' = fLastObjId b
  /\ exists extra, requests b' = requests b ++ extra /\ forallb no_bulk extra = true.

(** A call fetched the class table of a descriptor when it sent exactly one
    bulk fetch, for that descriptor and the range of the pass, and, when the
    fetch gave a result, stored it as the pool of the descriptor. *)
Definition fetched (info : positive) (result : option (list TSQLRow)) (b b' : TBufferSQL2)
  : Prop :=
  pool_of b info = None
  /\ fLastObjId b >= fFirstObjId b
  /\ fFirstObjId b' = fFirstObjId b /\ fLastObjId b' = fLastObjId b
  /\ fPoolsMap b' =
     match result with
     | Some rows =>
         Some (<[info := {| pool_info := info; pool_data := rows |}]>
                 (default ∅ (fPoolsMap b)))
     | None => fPoolsMap b
     end
  /\ exists extra,
      requests b' =
      requests b ++
      ReqNormalClassDataAll (fFirstObjId b) (fLastObjId b) info (bool_decide (is_Some result))
      :: extra
      /\ forallb no_bulk extra = true.

(** What a pass keeps true of pools and requests: a descriptor without pool
    has had no successful bulk fetch, no descriptor has had more than one,
    and every bulk fetch covered the range of the pass. *)
Definition pools_agree (b : TBufferSQL2) : Prop :=
  (forall i, pool_of b i = None -> count_requests (is_bulk_ok i) (requests b) = O)
  /\ (forall i, (count_requests (is_bulk_ok i) (requests b) <= 1)%nat)
  /\ forallb (bulk_range (fFirstObjId b) (fLastObjId b)) (requests b) = true.

(** *** Runs of an array *)

(** What the code relies on in a basic type: [==] is equality, and the scan
    of the text printed for a value of the type gives the value back,
    whatever the variable held. *)
Record SqlBasicLaws (T : Type) `{SqlBasic T} : Prop := {
  sql_eqb_eq : forall x y : T, sql_eqb x y = true <-> x = y;
  sql_scan_print : forall v old : T, sql_valid v = true -> sql_scan (sql_print v) old = v
}.

(** The runs of an array in the words of the spec: a run is a maximal span
    of equal consecutive values, given by the value, the index of its first
    element and its length. *)
Fixpoint runs_from {T : Type} `{SqlBasic T} (start : nat) (arr : list T)
  : list (T * nat * nat) :=
  match arr with
  | [] => []
  | x :: arr' =>
      match runs_from (S start) arr' with
      | (y, s, k) :: runs =>
          if sql_eqb x y then (x, start, S k) :: runs
          else (x, start, 1%nat) :: (y, s, k) :: runs
      | [] => [(x, start, 1%nat)]
      end
  end.

(** One run of length 1 for each element. *)
Fixpoint singles_from {T : Type} (start : nat) (arr : list T) : list (T * nat * nat) :=
  match arr with
  | [] => []
  | x :: arr' => (x, start, 1%nat) :: singles_from (S start) arr'
  end.

(** The elements a list of runs stands for. *)
Fixpoint expand {T : Type} (runs : list (T * nat * nat)) : list T :=
  match runs with
  | [] => []
  | (x, _, k) :: runs' => replicate k x ++ expand runs'
  end.

(** Runs follow each other from [start] on and none is empty. *)
Fixpoint chained {T : Type} (start : nat) (runs : list (T * nat * nat)) : Prop :=
  match runs with
  | [] => True
  | (_, s, k) :: runs' => s = start /\ (1 <= k)%nat /\ chained (start + k) runs'
  end.

(** No two runs that follow each other have the same value. *)
Fixpoint maximal {T : Type} (runs : list (T * nat * nat)) : Prop :=
  match runs with
  | (x, _, _) :: runs' =>
      match runs' with
      | (y, _, _) :: _ => x <> y
      | [] => True
      end /\ maximal runs'
  | [] => True
  end.

(** The value node the write path leaves for a run below the node [top]. *)
Definition run_node {T : Type} `{SqlBasic T} (top : nat) (run : T * nat * nat)
  : TSQLStructure :=
  let '(x, s, k) := run in
  {| fParent := Some top;
     fKind := kSqlValue (sql_print x) sql_tname (Some (Z.of_nat s, Z.of_nat k)) |}.

(** Modelled from the spec: the index-range tag of a persisted run,
    "[first]" for a run of one element and "[first..last]" otherwise. *)
Definition run_tag (index cnt : Z) : string :=
  if cnt <=? 1 then "[" +:+ CText.print_d index +:+ "]"
  else "[" +:+ CText.print_d index +:+ sqlio.IndexSepar
       +:+ CText.print_d (index + cnt - 1) +:+ "]".

(** Modelled from the spec: a value node of an array as the read path finds
    it in the blob data: tag of the run, type marker and text. *)
Definition item_of_node (n : TSQLStructure) : option DataItem :=
  match fKind n with
  | kSqlValue value tname (Some (index, cnt)) =>
      Some {| it_name := run_tag index cnt; it_type := tname; it_value := Some value |}
  | _ => None
  end.

(** The buffer after an array was written: the node of the array below the
    top of the stack, and below it the nodes of the runs. *)
Definition array_written {T : Type} `{SqlBasic T} (sz : Z) (runs : list (T * nat * nat))
    (b : TBufferSQL2) : TBufferSQL2 :=
  set_fStk (fStk b)
    (set_fNodes (fNodes b ++ {| fParent := fStk b; fKind := kSqlArray sz |}
                   :: map (run_node (length (fNodes b))) runs)
       (set_fStructure
          (match fStk b with
           | None => Some (length (fNodes b))
           | Some _ => fStructure b
           end) b)).

(** The array after the elements [first] to [last] were given the value. *)
Definition fill_run {T : Type} (vname : list T) (first last : nat) (x : T) : list T :=
  take first vname ++ replicate (last + 1 - first) x ++ drop (last + 1) vname.

(** The buffer after [n] values were taken from the current data. *)
Fixpoint values_taken (n : nat) (d : TSQLObjectData) : TSQLObjectData :=
  match n with
  | O => d
  | S n' => values_taken n' (ShiftToNextValue d)
  end.

(** The buffer with nodes added to the tree. *)
Definition nodes_added (l : list TSQLStructure) (b : TBufferSQL2) : TBufferSQL2 :=
  set_fNodes (fNodes b ++ l) b.

(** Modelled from the spec: a run as the read path finds it in the blob
    data. *)
Definition item_of_run {T : Type} `{SqlBasic T} (run : T * nat * nat) : DataItem :=
  let '(x, s, k) := run in
  {| it_name := run_tag (Z.of_nat s) (Z.of_nat k); it_type := sql_tname;
     it_value := Some (sql_print x) |}.

(** The buffer after [n] values were read from the current data [d]. *)
Fixpoint values_read (n : nat) (d : TSQLObjectData) (b : TBufferSQL2) : TBufferSQL2 :=
  match n with
  | O => b
  | S n' => values_read n' (ShiftToNextValue d) (value_taken d b)
  end.

(** The runs the write path leaves for an array at a compression level. *)
Definition written_runs {T : Type} `{SqlBasic T} (level : Z) (arr : list T)
  : list (T * nat * nat) :=
  if level >? 0 then runs_from 0 arr else singles_from 0 arr.

(** The buffer after the compressed read found a bad tag. *)
Definition tag_refused (name : string) (b : TBufferSQL2) : TBufferSQL2 :=
  set_fErrorFlag 1
    (set_fReports (fReports b ++ [("SQLReadArrayCompress",
                                   "Error reading array content " +:+ name)]) b).

(** A character array holds no zero. *)
Definition no_zero (c : list ascii) : bool := forallb (fun x => negb (Ascii.eqb x zero)) c.

(** The object id the read path finds for the node on top of the stack. *)
Definition top_object_id (b : TBufferSQL2) : Z :=
  DefineObjectId (fNodes b) (length (fNodes b)) (fStk b).

(** *** Objects written in a pass *)

(** The identity map, empty while [fObjMap] is null. *)
Definition obj_map (b : TBufferSQL2) : gmap Z Z := default ∅ (fObjMap b).

(** The ids of the object nodes of the tree, in the order of the nodes. *)
Definition object_id_of (n : TSQLStructure) : option Z :=
  match fKind n with
  | kSqlObject objid _ => Some objid
  | _ => None
  end.

Definition object_ids (nodes : list TSQLStructure) : list Z := omap object_id_of nodes.

(** What holds of the buffer all through a write pass: ids start at a base
    that is not negative and lie below the counter; the identity map holds
    exactly the addresses for which a streamer was called, each with the id
    given to it, counted from the base; no address and no id occurs twice
    among the calls of streamers; and the object nodes of the tree are those
    made for these calls. *)
Definition WriteInv (b : TBufferSQL2) : Prop :=
  0 <= fFirstObjId b
  /\ fFirstObjId b <= fObjIdCounter b
  /\ (forall a id, (a, id) ∈ fStreamed b ->
        a <> 0 /\ fFirstObjId b <= id < fObjIdCounter b
        /\ obj_map b !! a = Some (id - fFirstObjId b + 1))
  /\ (forall a v, obj_map b !! a = Some v -> (a, fFirstObjId b + v - 1) ∈ fStreamed b)
  /\ NoDup (fStreamed b).*1
  /\ NoDup (fStreamed b).*2
  /\ object_ids (fNodes b) = (fStreamed b).*2.

(** A call left the stack as it was and only added to the tree, to the
    identity map and to the calls of streamers. *)
Definition grows (b b' : TBufferSQL2) : Prop :=
  fStk b' = fStk b
  /\ (exists extra, fNodes b' = fNodes b ++ extra)
  /\ fFirstObjId b' = fFirstObjId b
  /\ obj_map b ⊆ obj_map b'
  /\ (exists calls, fStreamed b' = fStreamed b ++ calls).

(** The buffer when [SqlWriteObject] has given a new object its id, made its
    node and put it into the identity map, before the streamer is called. *)
Definition object_begun (obj : Z) (cl : option TClass) (b : TBufferSQL2) : TBufferSQL2 :=
  set_fStreamed (fStreamed b ++ [(obj, fObjIdCounter b)])
    (set_fObjMap
       (Some (TExMap_Add (obj_map b) obj (fObjIdCounter b - fFirstObjId b + 1)))
       (set_fNodes
          (fNodes b ++ [{| fParent := fStk b; fKind := kSqlObject (fObjIdCounter b) cl |}])
          (set_fObjIdCounter (fObjIdCounter b + 1)
             (set_fStk (Some (length (fNodes b)))
                (set_fStructure
                   (match fStk b with
                    | None => Some (length (fNodes b))
                    | Some _ => fStructure b
                    end) b))))).

(** The addresses of a set that are not in the identity map yet. *)
Definition unwritten (S : gset Z) (b : TBufferSQL2) : nat :=
  size (S ∖ dom (obj_map b)).

(** The buffer when [SqlWriteAny] has made its assignments, before the
    object is written. *)
Definition pass_begun (objid : Z) (b : TBufferSQL2) : TBufferSQL2 :=
  set_fObjIdCounter objid
    (set_fFirstObjId objid (set_fStructure None (set_fErrorFlag 0 b))).


(** The ids given in a pass are those from the base up to the counter, in
    the order in which the streamers were called. *)
Definition ids_in_order (b : TBufferSQL2) : Prop :=
  (fStreamed b).*2 = seqZ (fFirstObjId b) (fObjIdCounter b - fFirstObjId b).

Definition PassInv (b : TBufferSQL2) : Prop := WriteInv b /\ ids_in_order b.

(** What a call of [SqlWriteObject] with enough fuel does in a pass, for the
    objects of a set [S] of addresses: it returns, keeps the invariant and
    only adds; an object that was streamed before is written as a reference
    to its id, and a new one is given the id of the counter, an object node
    and a call of its streamer. *)
Definition SqlWriteObject_returns (heap : gmap Z Object) (S : gset Z) (fuel : nat) : Prop :=
  forall obj cl streamer b,
    PassInv b -> (cl <> None -> obj <> 0 -> obj ∈ S) ->
    (unwritten S b < fuel)%nat ->
    exists r b',
      SqlWriteObject heap fuel obj cl streamer b = Some (r, b')
      /\ PassInv b' /\ grows b b'
      /\ (cl <> None -> obj <> 0 ->
          exists oid,
            r = to_Int_t oid /\ (obj, oid) ∈ fStreamed b'
            /\ ((obj, oid) ∈ fStreamed b -> b' = node_written (kSqlPointer oid) b)
            /\ (obj_map b !! obj = None ->
                oid = fObjIdCounter b
                /\ (exists more, fStreamed b' = fStreamed b ++ (obj, oid) :: more)
                /\ (exists more,
                      fNodes b' = fNodes b
                        ++ {| fParent := fStk b; fKind := kSqlObject oid cl |} :: more))).

(** Objects written one after the other with [WriteObjectClass]; the result
    is what the calls of [SqlWriteObject] returned. *)
Fixpoint write_objects (heap : gmap Z Object) (fuel : nat) (objs : list (Z * TClass))
  : M (list Z) :=
  match objs with
  | [] => ret []
  | (obj, cl) :: objs' =>
      r <- SqlWriteObject heap fuel obj (Some cl) None;;
      rs <- write_objects heap fuel objs';;
      ret (r :: rs)
  end.

(** *** The other integer types

    The overloads of [SqlWriteBasic] and [SqlReadBasic] for the integer
    types besides [Int_t] and [Char_t], with values of [Z].  [Long_t] and
    [ULong_t] have 64 bits, as on every platform where [long] is wider than
    [int]. *)

(** [Short_t]: written with "%hd", read with [sscanf(res, "%hd", &value)]. *)
Definition Short_t_basic : SqlBasic Z := {|
  sql_tname := sqlio.Short;
  sql_print := CText.print_d;
  sql_scan := fun (text : string) (old : Z) =>
                match CText.scan_signed text with
                | Some (v, _) => CText.store_hd v
                | None => old
                end;
  sql_zero := 0;
  sql_eqb := Z.eqb;
  sql_valid := CText.in_signed 16
|}.

(** [Long_t]: written with "%ld", read with [sscanf(res, "%ld", &value)]. *)
Definition Long_t_basic : SqlBasic Z := {|
  sql_tname := sqlio.Long;
  sql_print := CText.print_d;
  sql_scan := sscanf_lld;
  sql_zero := 0;
  sql_eqb := Z.eqb;
  sql_valid := CText.in_signed 64
|}.

(** [Long64_t]: written with "%lld", read with [sscanf(res, "%lld",
    &value)]. *)
Definition Long64_t_basic : SqlBasic Z := {|
  sql_tname := sqlio.Long64;
  sql_print := CText.print_d;
  sql_scan := sscanf_lld;
  sql_zero := 0;
  sql_eqb := Z.eqb;
  sql_valid := CText.in_signed 64
|}.

(** The scan of an unsigned number into a variable of [w] bits. *)
Definition scan_unsigned_into (w : Z) (text : string) (old : Z) : Z :=
  match CText.scan_ulong text with
  | Some (v, _) => CText.wrap_unsigned w v
  | None => old
  end.

(** [UChar_t]: written with "%u"; read with [sscanf(res, "%ud", &n)] into an
    [unsigned int] that is then stored in the byte.  The letter after the
    conversion is matched against the text once the number is stored and
    changes nothing.  The local [n] is not initialised: when the scan fails
    the byte is assigned from the content [n] had before, whatever the
    variable read into held. *)
Definition UChar_t_basic (n : Z) : SqlBasic Z := {|
  sql_tname := sqlio.UChar;
  sql_print := CText.dec;
  sql_scan := fun (text : string) (old : Z) =>
                CText.wrap_unsigned 8 (scan_unsigned_into 32 text n);
  sql_zero := 0;
  sql_eqb := Z.eqb;
  sql_valid := CText.in_unsigned 8
|}.

(** [UShort_t]: written with "%hu", read with [sscanf(res, "%hud",
    &value)]. *)
Definition UShort_t_basic : SqlBasic Z := {|
  sql_tname := sqlio.UShort;
  sql_print := CText.dec;
  sql_scan := scan_unsigned_into 16;
  sql_zero := 0;
  sql_eqb := Z.eqb;
  sql_valid := CText.in_unsigned 16
|}.

(** [UInt_t]: written with "%u", read with [sscanf(res, "%u", &value)]. *)
Definition UInt_t_basic : SqlBasic Z := {|
  sql_tname := sqlio.UInt;
  sql_print := CText.dec;
  sql_scan := scan_unsigned_into 32;
  sql_zero := 0;
  sql_eqb := Z.eqb;
  sql_valid := CText.in_unsigned 32
|}.

(** [ULong_t]: written with "%lu", read with [sscanf(res, "%lu", &value)]. *)
Definition ULong_t_basic : SqlBasic Z := {|
  sql_tname := sqlio.ULong;
  sql_print := CText.dec;
  sql_scan := scan_unsigned_into 64;
  sql_zero := 0;
  sql_eqb := Z.eqb;
  sql_valid := CText.in_unsigned 64
|}.

(** [ULong64_t]: written with "%llu", read with [sscanf(res, "%llu",
    &value)]. *)
Definition ULong64_t_basic : SqlBasic Z := {|
  sql_tname := sqlio.ULong64;
  sql_print := CText.dec;
  sql_scan := scan_unsigned_into 64;
  sql_zero := 0;
  sql_eqb := Z.eqb;
  sql_valid := CText.in_unsigned 64
|}.

(** [Float_t] and [Double_t] are written with
    [snprintf(buf, sizeof(buf), TSQLServer::GetFloatFormat(), value)].  The
    format is the one that [SetFloatFormat] stored last and "%e" when it was
    never called; the model takes "%e", whose text fits the buffers. *)

(** [Float_t]: read with [sscanf(res, "%f", &value)], which leaves the
    variable alone when the scan fails. *)
Definition Float_t_basic : SqlBasic CFloat.number := {|
  sql_tname := sqlio.Float;
  sql_print := CFloat.print_e;
  sql_scan := fun (text : string) (old : CFloat.number) =>
                match CFloat.scan CFloat.binary32 text with
                | Some v => v
                | None => old
                end;
  sql_zero := CFloat.Zero false;
  sql_eqb := CFloat.eqb;
  sql_valid := CFloat.valid CFloat.binary32
|}.

(** [Double_t]: read with [sscanf(res, "%lf", &value)]. *)
Definition Double_t_basic : SqlBasic CFloat.number := {|
  sql_tname := sqlio.Double;
  sql_print := CFloat.print_e;
  sql_scan := fun (text : string) (old : CFloat.number) =>
                match CFloat.scan CFloat.binary64 text with
                | Some v => v
                | None => old
                end;
  sql_zero := CFloat.Zero false;
  sql_eqb := CFloat.eqb;
  sql_valid := CFloat.valid CFloat.binary64
|}.

(** The value the read path finds for a value node, by the name of its
    column or blob entry. *)
Definition item_of_value (name value tname : string) : DataItem :=
  {| it_name := name; it_type := tname; it_value := Some value |}.

(** A value of a basic type that is written is read back: the write adds a
    value node with the text and the marker of the type below the node on
    top, and the read of a stored value with that text and marker gives the
    value, whatever the variable held, and moves the cursor on. *)
Definition written_and_read_back {T : Type} (basic : SqlBasic T) : Prop :=
  forall (v old : T) (wb : TBufferSQL2) (top : nat) (b : TBufferSQL2)
         (d : TSQLObjectData) (name : string) (rest : list DataItem),
    sql_valid v = true ->
    fStk wb = Some top ->
    fErrorFlag b <= 0 ->
    fCurrentData b = Some d ->
    od_items d = item_of_value name (sql_print v) sql_tname :: rest ->
    SqlWriteBasic v wb = Some (true, value_added top (sql_print v) sql_tname wb)
    /\ SqlReadBasic old b = Some (v, value_taken d b)
    /\ fCurrentData (value_taken d b) = Some (ShiftToNextValue d)
    /\ od_items (ShiftToNextValue d) = rest.


(** *** The tree and the stack *)

(** The stack is in the tree: the node on top is a node of the tree, and the
    parent of a node was made before the node. *)
Definition tree_ok (b : TBufferSQL2) : Prop :=
  (forall t, fStk b = Some t -> (t < length (fNodes b))%nat)
  /\ (forall i n p, fNodes b !! i = Some n -> fParent n = Some p -> (p < i)%nat).


(** *** Arrays with their size *)

(** [TBufferSQL2::SqlReadArraySize]. *)
Definition SqlReadArraySize : M Z :=
  value <- SqlReadValue sqlio.Array;;
  match value with
  | None | Some EmptyString => ret 0
  | Some value => ret (atoi value)
  end.

Section ReadArrays.
Context {T : Type} `{SqlBasic T}.

(** [TBufferSQL2_ReadArray]: [vname] is the array the pointer refers to,
    none for a null pointer, and [fresh n] is what [new tname[n]] gives.
    The result is the number returned and the array the pointer refers to
    after the call. *)
Definition ReadArray (junk : Z -> Z * Z) (fresh : Z -> list T) (vname : option (list T))
  : M (Z * option (list T)) :=
  n <- SqlReadArraySize;;
  if n <=? 0 then ret (0, vname)
  else
    let vname := match vname with Some arr => arr | None => fresh n end in
    arr <- SQLReadArrayContent junk vname n true;;
    ret (n, Some arr).

(** [TBufferSQL2_ReadStaticArray]. *)
Definition ReadStaticArray (junk : Z -> Z * Z) (vname : option (list T))
  : M (Z * option (list T)) :=
  n <- SqlReadArraySize;;
  if n <=? 0 then ret (0, vname)
  else
    match vname with
    | None => ret (0, None)
    | Some vname =>
        arr <- SQLReadArrayContent junk vname n true;;
        ret (n, Some arr)
    end.

End ReadArrays.


(** *** What a call leaves alone *)

(** A call leaves a part of the buffer as it was. *)
Definition keeps {X A : Type} (side : TBufferSQL2 -> X) (m : M A) : Prop :=
  forall b r b', m b = Some (r, b') -> side b' = side b.

(** The members of the buffer that belong to reading and to errors: the
    error flag, the reports, the cursor, the read buffer, the file with the
    requests it has received, the pools, the table of objects, the last
    id and the buffered version. *)
Definition read_side (b : TBufferSQL2) :=
  (fErrorFlag b, fReports b, fCurrentData b, fReadBuffer b, fSQL b, fPoolsMap b,
   fObjectsInfos b, fLastObjId b, fReadVersionBuffer b).

(** The members of the buffer besides the file, the pools and the
    reports. *)
Definition data_side (b : TBufferSQL2) :=
  (fMode b, fNodes b, fStructure b, fStk b, fObjMap b, fReadBuffer b, fErrorFlag b,
   fExpectedChain b, fCompressLevel b, fObjIdCounter b, fIgnoreVerification b,
   fCurrentData b, fObjectsInfos b, fFirstObjId b, fLastObjId b, fStreamed b,
   fReadVersionBuffer b).

(** [strcpy(dst, src)]: the characters of [src] before its first zero, and
    the zero. *)
Definition strcpy (dst src : list ascii) : M (list ascii) :=
  s <- deref (CText.c_string src);;
  memcpy dst src (Z.of_nat (String.length s) + 1).

(** [TBufferSQL2::WriteCharP]. *)
Definition WriteCharP (c : list ascii) : M unit :=
  value <- deref (CText.c_string c);;
  SqlWriteValue value sqlio.CharStar;;;
  ret tt.

(** [TBufferSQL2::ReadCharP]. *)
Definition ReadCharP (c : list ascii) : M (list ascii) :=
  buf <- SqlReadCharStarValue;;
  match buf with
  | Some buf => strcpy c (c_buffer buf)
  | None => ret c
  end.


(** The buffer after [SqlReadValue] has found no object data to read
    from. *)
Definition data_missing (b : TBufferSQL2) : TBufferSQL2 :=
  set_fErrorFlag 1
    (set_fReports (fReports b ++ [("SqlReadValue", "No object data to read from")]%string) b).


(** A call keeps a property of the buffer. *)
Definition preserves {A : Type} (P : TBufferSQL2 -> Prop) (m : M A) : Prop :=
  forall b r b', P b -> m b = Some (r, b') -> P b'.

(** The streamers called so far were called for addresses of a set. *)
Definition streamed_in (S : gset Z) (b : TBufferSQL2) : Prop :=
  forall a id, (a, id) ∈ fStreamed b -> a ∈ S.


(** The two forms of the index-range tag of a run, "[first]" and
    "[first..last]", with any two numbers. *)
Definition tag_single (first : Z) : string := "[" +:+ CText.print_d first +:+ "]".

Definition tag_range (first last : Z) : string :=
  "[" +:+ CText.print_d first +:+ ".." +:+ CText.print_d last +:+ "]".


(** *** Chains of members *)

(** The number of array elements the loop over a chain gives to a member:
    one for a member of basic type, the length of the array otherwise. *)
Definition member_size (e : TStreamerElement) : Z :=
  if el_type e <? TStreamerInfoK.kOffsetL then 1 else el_length e.

Definition chain_size (members : list TStreamerElement) : Z :=
  fold_right (fun e s => member_size e + s) 0 members.

(** The kind [WorkWithElement] gives to the node it makes for a member;
    [above] is the kind of the node that [Stack(1)] is when it is called. *)
Definition member_kind (above : NodeKind) (e : TStreamerElement) : NodeKind :=
  let number :=
    match GetStreamerInfo above with
    | Some info => IndexOf e (si_elements info) 0
    | None => -1
    end in
  if number >=? 0 then kSqlElement e number else kSqlCustomElement e.

(** The buffer after a node of a kind was made below node [p] and became the
    top of the stack. *)
Definition node_pushed (p : nat) (k : NodeKind) (b : TBufferSQL2) : TBufferSQL2 :=
  set_fStk (Some (length (fNodes b)))
    (set_fNodes (fNodes b ++ [{| fParent := Some p; fKind := k |}]) b).

(** What the loop of [TBufferSQL2_WriteFastArray] over a chain writes: the
    first member takes its elements below the node on top; for every
    further member a node is made below [p], the parent of that node, and
    the member takes its elements there.  A member of basic type takes one
    element as a value, an array member takes its elements as an array
    without size. *)
Fixpoint chain_written {T : Type} `{SqlBasic T} (p : nat) (above : NodeKind)
    (first : bool) (members : list TStreamerElement) (c : list T) (b : TBufferSQL2)
  : TBufferSQL2 :=
  match members with
  | [] => b
  | e :: members' =>
      let b1 := if first then b else node_pushed p (member_kind above e) b in
      let size := Z.to_nat (member_size e) in
      let b2 :=
        match fStk b1, c with
        | Some top, x :: _ =>
            if el_type e <? TStreamerInfoK.kOffsetL then
              value_added top (sql_print x) sql_tname b1
            else
              array_written (-1) (written_runs (fCompressLevel b1) (take size c)) b1
        | _, _ => b1
        end in
      chain_written p above false members' (drop size c) (set_fExpectedChain false b2)
  end.

(** What the loop over a chain needs of the tree: the node on top of the
    stack is a child of node [p], which is a child of node [g], and the
    buffer is writing. *)
Definition chain_inv (p g : nat) (pnode gnode : TSQLStructure) (b : TBufferSQL2) : Prop :=
  (exists top node,
      fStk b = Some top /\ fNodes b !! top = Some node /\ fParent node = Some p)
  /\ fNodes b !! p = Some pnode
  /\ fParent pnode = Some g
  /\ fNodes b !! g = Some gnode
  /\ fMode b = kWrite.


(* ===================================================================== *)
(** * Properties *)
(* ===================================================================== *)

(** ** Running calls *)

Lemma bind_run {A B : Type} (m : M A) (k : A -> M B) b a b1 :
  m b = Some (a, b1) -> bind m k b = k a b1.
Proof. intros E. unfold bind. rewrite E. reflexivity. Qed.

Lemma bind_fault {A B : Type} (m : M A) (k : A -> M B) b :
  m b = None -> bind m k b = None.
Proof. intros E. unfold bind. rewrite E. reflexivity. Qed.

Lemma bind_inv {A B : Type} (m : M A) (k : A -> M B) b r b' :
  bind m k b = Some (r, b') ->
  exists a b1, m b = Some (a, b1) /\ k a b1 = Some (r, b').
Proof.
  unfold bind. destruct (m b) as [[a b1]|]; [|discriminate].
  intros E. exists a, b1. split; [reflexivity|exact E].
Qed.

Lemma gtb_false (x y : Z) : x <= y -> (x >? y) = false.
Proof. intros. destruct (Z.gtb_spec x y); [lia|reflexivity]. Qed.

Lemma gtb_true (x y : Z) : y < x -> (x >? y) = true.
Proof. intros. destruct (Z.gtb_spec x y); [reflexivity|lia]. Qed.

Lemma geb_false (x y : Z) : x < y -> (x >=? y) = false.
Proof. intros. destruct (Z.geb_spec x y); [lia|reflexivity]. Qed.

Lemma geb_true (x y : Z) : y <= x -> (x >=? y) = true.
Proof. intros. destruct (Z.geb_spec x y); [reflexivity|lia]. Qed.

Lemma insert_at_end {A : Type} (l : list A) (y x : A) :
  <[length l := x]> (l ++ [y]) = l ++ [x].
Proof.
  rewrite insert_app_r_alt by lia. rewrite Nat.sub_diag. reflexivity.
Qed.

Lemma lookup_at_end {A : Type} (l : list A) (y : A) :
  (l ++ [y]) !! length l = Some y.
Proof. apply list_lookup_middle. reflexivity. Qed.

Lemma PushStack_eq b : PushStack b = Some (length (fNodes b), pushed b).
Proof. unfold PushStack, pushed, bind, get, modify, ret. destruct (fStk b); reflexivity. Qed.

Lemma Stack_top_eq b i : fStk b = Some i -> Stack_top b = Some (i, b).
Proof.
  intros E. unfold Stack_top, Stack, bind, get, ret, deref. cbn. rewrite E. reflexivity.
Qed.

Lemma node_kind_eq i b n :
  fNodes b !! i = Some n -> node_kind i b = Some (fKind n, b).
Proof. intros E. unfold node_kind, bind, get, deref, ret. rewrite E. reflexivity. Qed.

Lemma set_node_kind_eq i k b n :
  fNodes b !! i = Some n ->
  set_node_kind i k b = Some (tt, set_fNodes (<[i := set_kind k n]> (fNodes b)) b).
Proof.
  intros E. unfold set_node_kind, bind, get, deref, modify. rewrite E. reflexivity.
Qed.

Lemma PopStack_eq b i n :
  fStk b = Some i -> fNodes b !! i = Some n ->
  PopStack b = Some (fParent n, set_fStk (fParent n) b).
Proof.
  intros E1 E2. unfold PopStack, bind, get, deref, modify, ret.
  rewrite E1, E2. reflexivity.
Qed.

Lemma PopStack_empty b : fStk b = None -> PopStack b = Some (None, b).
Proof. intros E. unfold PopStack, bind, get, ret. rewrite E. reflexivity. Qed.

(** The node pushed last is given a kind and popped again. *)
Lemma set_pop_pushed {A : Type} (k : NodeKind) (r : A) b :
  (top <- Stack_top;; set_node_kind top k;;; PopStack;;; ret r) (pushed b) =
  Some (r, node_written k b).
Proof.
  erewrite (bind_run Stack_top) by (apply Stack_top_eq; reflexivity).
  erewrite (bind_run (set_node_kind _ _))
    by (apply set_node_kind_eq; cbn; apply lookup_at_end).
  erewrite (bind_run PopStack)
    by (eapply PopStack_eq; cbn; [reflexivity|rewrite insert_at_end; apply lookup_at_end]).
  cbn. rewrite insert_at_end. reflexivity.
Qed.

(* --------------------------------------------------------------------- *)
(** ** Null objects *)
(* --------------------------------------------------------------------- *)

Lemma SqlWriteObject_null_class heap fuel obj streamer b :
  SqlWriteObject heap (S fuel) obj None streamer b = Some (0, node_written (kSqlPointer 0) b).
Proof.
  cbn [SqlWriteObject].
  rewrite (bind_run _ _ _ _ _ (PushStack_eq b)).
  cbn [bind get Z.eqb Z.geb Z.compare].
  change (to_Int_t 0) with 0.
  exact (set_pop_pushed (kSqlPointer 0) 0 b).
Qed.

Lemma SqlWriteObject_null_object heap fuel cl streamer b :
  SqlWriteObject heap (S fuel) 0 cl streamer b = Some (0, node_written (kSqlPointer 0) b).
Proof.
  cbn [SqlWriteObject].
  rewrite (bind_run _ _ _ _ _ (PushStack_eq b)).
  destruct cl; cbn [bind get Z.eqb Z.geb Z.compare];
    change (to_Int_t 0) with 0; exact (set_pop_pushed (kSqlPointer 0) 0 b).
Qed.

(** C10: a call of [SqlWriteObject] with a null class treats the object as
    null, whatever the object pointer is: with any fuel to start, the call
    returns id 0; the one node it adds, below the node that was on top, is an
    object reference with value 0; the stack is as before; nothing is added
    to the identity map; no streamer is called (the record of streamer calls
    is unchanged), whichever member streamer was passed. *)
Theorem SqlWriteObject_null_class_treated_as_null
    (heap : gmap Z Object) (fuel : nat) (obj : Z) (streamer : option (list Member))
    (b : TBufferSQL2) :
  exists b',
    SqlWriteObject heap (S fuel) obj None streamer b = Some (0, b')
    /\ fNodes b' = fNodes b ++ [{| fParent := fStk b; fKind := kSqlPointer 0 |}]
    /\ fStk b' = fStk b
    /\ fObjMap b' = fObjMap b
    /\ fObjIdCounter b' = fObjIdCounter b
    /\ fStreamed b' = fStreamed b.
Proof.
  exists (node_written (kSqlPointer 0) b).
  split; [apply SqlWriteObject_null_class|].
  repeat split.
Qed.

Section NullReference.
Variable TClass_GetClass : string -> option TClass.
Variable SqlReadObjectDirect : Z -> bool -> Z -> M (Z * option TClass).

Lemma SqlReadObject_null obj want_cl b d refid :
  fErrorFlag b <= 0 ->
  fCurrentData b = Some d ->
  GetValue d = Some refid ->
  refid <> EmptyString ->
  sscanf_lld refid (-1) = 0 ->
  IsBlobData d = false \/ VerifyDataType d sqlio.ObjectPtr = true ->
  SqlReadObject TClass_GetClass SqlReadObjectDirect obj want_cl b =
  Some ((0, None), set_fCurrentData (Some (ShiftToNextValue d)) b).
Proof.
  intros Hflag Hd Hv Hne Hid Hptr.
  unfold SqlReadObject. cbn [bind get].
  rewrite gtb_false by assumption.
  rewrite Hd. cbn [deref bind ret]. rewrite Hv.
  destruct refid as [|c refid]; [congruence|].
  rewrite Hid.
  replace (negb (IsBlobData d) || VerifyDataType d sqlio.ObjectPtr) with true
    by (destruct Hptr as [-> | ->]; [reflexivity | symmetry; apply orb_true_r]).
  reflexivity.
Qed.
End NullReference.

(** C5: writing a null object pointer gives object id 0 and one object
    reference node with value 0, for any class.  Reading, with the error flag
    not set, a reference whose value scans as 0 (from a column, or from blob
    data marked as an object pointer) returns the null pointer and moves to
    the next value; whatever the identity map holds, the result is the same
    and the map is left as it is, and [SqlReadObjectDirect] is not called. *)
Theorem null_reference_written_and_read
    (heap : gmap Z Object) (fuel : nat) (cl : option TClass)
    (streamer : option (list Member)) (wb : TBufferSQL2)
    (TClass_GetClass : string -> option TClass)
    (SqlReadObjectDirect : Z -> bool -> Z -> M (Z * option TClass))
    (obj : Z) (want_cl : bool) (rb : TBufferSQL2) (d : TSQLObjectData) (refid : string)
    (map : option (gmap Z Z)) :
  fErrorFlag rb <= 0 ->
  fCurrentData rb = Some d ->
  GetValue d = Some refid ->
  refid <> EmptyString ->
  sscanf_lld refid (-1) = 0 ->
  IsBlobData d = false \/ VerifyDataType d sqlio.ObjectPtr = true ->
  (exists wb',
      SqlWriteObject heap (S fuel) 0 cl streamer wb = Some (0, wb')
      /\ fNodes wb' = fNodes wb ++ [{| fParent := fStk wb; fKind := kSqlPointer 0 |}]
      /\ fObjMap wb' = fObjMap wb)
  /\ (exists rb',
      SqlReadObject TClass_GetClass SqlReadObjectDirect obj want_cl (set_fObjMap map rb)
      = Some ((0, None), rb')
      /\ fObjMap rb' = map
      /\ fCurrentData rb' = Some (ShiftToNextValue d)
      /\ fErrorFlag rb' = fErrorFlag rb).
Proof.
  intros Hflag Hd Hv Hne Hid Hptr. split.
  - exists (node_written (kSqlPointer 0) wb).
    split; [apply SqlWriteObject_null_object|]. split; reflexivity.
  - eexists. split.
    + exact (SqlReadObject_null TClass_GetClass SqlReadObjectDirect obj want_cl
               (set_fObjMap map rb) d refid Hflag Hd Hv Hne Hid Hptr).
    + repeat split.
Qed.

(** A reference "0" stored as an object pointer in blob data is read as the
    null pointer while the identity map holds an object under key 0. *)
Lemma null_reference_written_and_read_witness :
  let d := {| od_info := None; od_objid := 1; od_classdata := None; od_classrow := None;
              od_blobdata := None; od_blobstmt := None; od_isblob := true;
              od_items := [{| it_name := "fPtr"; it_type := sqlio.ObjectPtr;
                              it_value := Some "0" |}] |} in
  let rb := set_fCurrentData (Some d) (TBufferSQL2_new kRead None 0) in
  exists rb',
    SqlReadObject (fun _ => None) (fun _ _ _ => fault) 77 true
      (set_fObjMap (Some {[0 := 55]}) rb) = Some ((0, None), rb')
    /\ fObjMap rb' = Some {[0 := 55]}.
Proof.
  intros d rb.
  destruct (null_reference_written_and_read ∅ 0 None None (TBufferSQL2_new kWrite None 0)
              (fun _ => None) (fun _ _ _ => fault) 77 true rb d "0" (Some {[0 := 55]}))
    as [_ [rb' (E & Hm & _)]].
  - simpl. lia.
  - reflexivity.
  - reflexivity.
  - discriminate.
  - reflexivity.
  - right. reflexivity.
  - exists rb'. split; assumption.
Defined.

(* --------------------------------------------------------------------- *)
(** ** A pop of the empty stack *)
(* --------------------------------------------------------------------- *)

(** C9, as the code has it: a pop of the empty structure stack returns the
    null pointer and changes nothing in the buffer: the error flag keeps its
    value and nothing is reported. *)
Theorem PopStack_underflow_returns_null (b : TBufferSQL2) :
  fStk b = None ->
  PopStack b = Some (None, b).
Proof. apply PopStack_empty. Qed.

Lemma PopStack_underflow_returns_null_witness :
  PopStack (TBufferSQL2_new kWrite None 0) = Some (None, TBufferSQL2_new kWrite None 0).
Proof. apply (PopStack_underflow_returns_null (TBufferSQL2_new kWrite None 0)). reflexivity. Defined.

(** C9 fails as stated: on a new buffer, whose stack is empty, [PopStack]
    returns null with the error flag still 0 and with no report. *)
Lemma PopStack_underflow_sets_no_flag :
  let b := TBufferSQL2_new kRead None 0 in
  fStk b = None
  /\ exists b', PopStack b = Some (None, b') /\ fErrorFlag b' = 0 /\ fReports b' = [].
Proof.
  intros b. split; [reflexivity|].
  exists b. repeat split.
Qed.

(* --------------------------------------------------------------------- *)
(** ** The error flag *)
(* --------------------------------------------------------------------- *)

Lemma keeps_flag_ret {A : Type} (a : A) : keeps_flag (ret a).
Proof. intros b r b' Hf E. inversion E; subst. exact Hf. Qed.

Lemma keeps_flag_fault {A : Type} : keeps_flag (@fault A).
Proof. intros b r b' Hf E. discriminate. Qed.

Lemma keeps_flag_get : keeps_flag get.
Proof. intros b r b' Hf E. inversion E; subst. exact Hf. Qed.

Lemma keeps_flag_bind {A B : Type} (m : M A) (k : A -> M B) :
  keeps_flag m -> (forall a, keeps_flag (k a)) -> keeps_flag (bind m k).
Proof.
  intros Hm Hk b r b' Hf E.
  apply bind_inv in E as (a & b1 & E1 & E2).
  eapply Hk; [|exact E2]. eapply Hm; [exact Hf|exact E1].
Qed.

Lemma keeps_flag_modify (f : TBufferSQL2 -> TBufferSQL2) :
  (forall b, fErrorFlag b > 0 -> fErrorFlag (f b) > 0) -> keeps_flag (modify f).
Proof. intros Hfl b r b' Hf E. inversion E; subst. apply Hfl, Hf. Qed.

Lemma keeps_flag_deref {A : Type} (p : option A) : keeps_flag (deref p).
Proof. destruct p; [apply keeps_flag_ret|apply keeps_flag_fault]. Qed.

Create HintDb flag.
#[local] Hint Resolve keeps_flag_ret keeps_flag_fault keeps_flag_get keeps_flag_deref : flag.

(** One step through the text of a call. *)
Ltac flag_step :=
  match goal with
  | |- keeps_flag (bind _ _) => apply keeps_flag_bind; [|intros]
  | |- keeps_flag (modify _) =>
      apply keeps_flag_modify; intros; cbn;
      repeat match goal with
             | |- context [match ?x with _ => _ end] => destruct x; cbn
             end;
      solve [assumption | lia]
  | |- keeps_flag (if ?c then _ else _) => destruct c
  | |- keeps_flag (match ?x with _ => _ end) => destruct x
  | |- keeps_flag _ => solve [auto with flag]
  end.

Ltac flag_steps := repeat flag_step.

Lemma keeps_flag_Error location msg : keeps_flag (Error location msg).
Proof. unfold Error. flag_steps. Qed.

Lemma keeps_flag_PushStack : keeps_flag PushStack.
Proof. unfold PushStack. flag_steps. Qed.

Lemma keeps_flag_PopStack : keeps_flag PopStack.
Proof. unfold PopStack. flag_steps. Qed.

Lemma keeps_flag_Stack depth : keeps_flag (Stack depth).
Proof. unfold Stack. flag_steps. Qed.

#[local] Hint Resolve keeps_flag_Error keeps_flag_PushStack keeps_flag_PopStack
  keeps_flag_Stack : flag.

Lemma keeps_flag_Stack_top : keeps_flag Stack_top.
Proof. unfold Stack_top. flag_steps. Qed.

Lemma keeps_flag_node_kind i : keeps_flag (node_kind i).
Proof. unfold node_kind. flag_steps. Qed.

Lemma keeps_flag_set_node_kind i k : keeps_flag (set_node_kind i k).
Proof. unfold set_node_kind. flag_steps. Qed.

Lemma keeps_flag_AddValue i value tname : keeps_flag (AddValue i value tname).
Proof. unfold AddValue. flag_steps. Qed.

#[local] Hint Resolve keeps_flag_Stack_top keeps_flag_node_kind keeps_flag_set_node_kind
  keeps_flag_AddValue : flag.

Lemma keeps_flag_ChildArrayIndex i index cnt : keeps_flag (ChildArrayIndex i index cnt).
Proof. unfold ChildArrayIndex. flag_steps. Qed.

Lemma keeps_flag_SqlWriteValue value tname : keeps_flag (SqlWriteValue value tname).
Proof. unfold SqlWriteValue. flag_steps. Qed.

#[local] Hint Resolve keeps_flag_ChildArrayIndex keeps_flag_SqlWriteValue : flag.

Lemma keeps_flag_SqlWriteBasic {T : Type} `{SqlBasic T} (v : T) : keeps_flag (SqlWriteBasic v).
Proof. unfold SqlWriteBasic. flag_steps. Qed.

Lemma keeps_flag_SqlReadValue tname : keeps_flag (SqlReadValue tname).
Proof. unfold SqlReadValue. flag_steps. Qed.

#[local] Hint Resolve keeps_flag_SqlWriteBasic keeps_flag_SqlReadValue : flag.

Lemma keeps_flag_SqlReadBasic {T : Type} `{SqlBasic T} (old : T) : keeps_flag (SqlReadBasic old).
Proof. unfold SqlReadBasic. flag_steps. Qed.

Lemma keeps_flag_SqlReadCharStarValue : keeps_flag SqlReadCharStarValue.
Proof. unfold SqlReadCharStarValue. flag_steps. Qed.

Lemma keeps_flag_arr_get {T : Type} (vname : list T) i : keeps_flag (arr_get vname i).
Proof. unfold arr_get. flag_steps. Qed.

Lemma keeps_flag_arr_set {T : Type} (vname : list T) i x : keeps_flag (arr_set vname i x).
Proof. unfold arr_set. flag_steps. Qed.

#[local] Hint Resolve keeps_flag_SqlReadBasic keeps_flag_SqlReadCharStarValue
  keeps_flag_arr_get keeps_flag_arr_set : flag.

Section FlagArrays.
Context {T : Type} `{SqlBasic T}.

Lemma keeps_flag_SQLWriteArrayNoncompress_from fuel (vname : list T) arrsize indx :
  keeps_flag (SQLWriteArrayNoncompress_from fuel vname arrsize indx).
Proof.
  revert indx. induction fuel as [|fuel IH]; intros indx; cbn; flag_steps.
Qed.

Lemma keeps_flag_run_end fuel (vname : list T) arrsize curr indx :
  keeps_flag (run_end fuel vname arrsize curr indx).
Proof.
  revert indx. induction fuel as [|fuel IH]; intros indx; cbn; flag_steps.
Qed.

Lemma keeps_flag_SQLWriteArrayCompress_from fuel (vname : list T) arrsize indx :
  keeps_flag (SQLWriteArrayCompress_from fuel vname arrsize indx).
Proof.
  revert indx. induction fuel as [|fuel IH]; intros indx; cbn; flag_steps.
  apply keeps_flag_run_end.
Qed.

Lemma keeps_flag_SQLWriteArrayContent (vname : list T) arrsize withsize :
  keeps_flag (SQLWriteArrayContent vname arrsize withsize).
Proof.
  unfold SQLWriteArrayContent, SetArray, SQLWriteArrayCompress, SQLWriteArrayNoncompress.
  flag_steps.
  - apply keeps_flag_SQLWriteArrayCompress_from.
  - apply keeps_flag_SQLWriteArrayNoncompress_from.
Qed.

Lemma keeps_flag_SQLReadArrayUncompress fuel (vname : list T) arrsize indx :
  keeps_flag (SQLReadArrayUncompress fuel vname arrsize indx).
Proof.
  revert vname indx. induction fuel as [|fuel IH]; intros vname indx; cbn; flag_steps.
Qed.

Lemma keeps_flag_replicate_run fuel (vname : list T) first last indx :
  keeps_flag (replicate_run fuel vname first last indx).
Proof.
  revert vname indx. induction fuel as [|fuel IH]; intros vname indx; cbn; flag_steps.
Qed.

Lemma keeps_flag_SQLReadArrayCompress junk fuel (vname : list T) arrsize indx :
  keeps_flag (SQLReadArrayCompress junk fuel vname arrsize indx).
Proof.
  revert vname indx. induction fuel as [|fuel IH]; intros vname indx; cbn; flag_steps.
  apply keeps_flag_replicate_run.
Qed.

Lemma keeps_flag_SQLReadArrayContent junk (vname : list T) arrsize withsize :
  keeps_flag (SQLReadArrayContent junk vname arrsize withsize).
Proof.
  unfold SQLReadArrayContent, SetArray. flag_steps.
  - apply keeps_flag_SQLReadArrayCompress.
  - apply keeps_flag_SQLReadArrayUncompress.
Qed.

End FlagArrays.

Lemma keeps_flag_stream_members heap write_object ms :
  (forall p c, keeps_flag (write_object p c)) ->
  keeps_flag (stream_members heap write_object ms).
Proof.
  intros Hw. induction ms as [|[v|p] ms IH]; cbn; flag_steps.
Qed.

Lemma keeps_flag_SqlWriteObject heap fuel obj cl streamer :
  keeps_flag (SqlWriteObject heap fuel obj cl streamer).
Proof.
  revert obj cl streamer.
  induction fuel as [|fuel IH]; intros obj cl streamer; cbn [SqlWriteObject];
    [apply keeps_flag_fault|].
  unfold SetObjectPointer, SetObjectRef.
  flag_steps; apply keeps_flag_stream_members; intros; apply IH.
Qed.

Lemma keeps_flag_on_file {A : Type} (call : TSQLFile -> A * TSQLFile) :
  keeps_flag (on_file call).
Proof. unfold on_file. flag_steps. Qed.

#[local] Hint Resolve keeps_flag_on_file : flag.

Lemma keeps_flag_SqlObjectData objid sqlinfo : keeps_flag (SqlObjectData objid sqlinfo).
Proof. unfold SqlObjectData, SqlObjectData_row, SqlObjectData_blob. flag_steps. Qed.

(** With the flag set, [SqlReadValue] and [SqlReadObject] return at once. *)
Lemma SqlReadValue_flagged tname b :
  fErrorFlag b > 0 -> SqlReadValue tname b = Some (None, b).
Proof.
  intros Hf. unfold SqlReadValue. cbn [bind get]. rewrite gtb_true by lia. reflexivity.
Qed.

Lemma SqlReadBasic_flagged {T : Type} `{SqlBasic T} (old : T) b :
  fErrorFlag b > 0 -> SqlReadBasic old b = Some (sql_zero, b).
Proof.
  intros Hf. unfold SqlReadBasic.
  rewrite (bind_run _ _ _ _ _ (SqlReadValue_flagged _ b Hf)). reflexivity.
Qed.

Lemma SqlReadObject_flagged GetClass Direct obj want_cl b :
  fErrorFlag b > 0 -> SqlReadObject GetClass Direct obj want_cl b = Some ((obj, None), b).
Proof.
  intros Hf. unfold SqlReadObject. cbn [bind get]. rewrite gtb_true by lia. reflexivity.
Qed.

Lemma keeps_flag_ReadVersion : keeps_flag ReadVersion.
Proof. unfold ReadVersion. flag_steps. Qed.

Lemma keeps_flag_run_call heap GetClass Direct c : keeps_flag (run_call heap GetClass Direct c).
Proof.
  destruct c; cbn [run_call]; flag_steps.
  - apply keeps_flag_SQLWriteArrayContent.
  - apply keeps_flag_SqlWriteObject.
  - apply keeps_flag_SQLReadArrayContent.
  - intros b r b' Hf E. rewrite SqlReadObject_flagged in E by exact Hf.
    inversion E; subst. exact Hf.
  - apply keeps_flag_SqlObjectData.
  - apply keeps_flag_ReadVersion.
Qed.

Lemma keeps_flag_run_calls heap GetClass Direct cs : keeps_flag (run_calls heap GetClass Direct cs).
Proof.
  induction cs as [|c cs IH]; cbn [run_calls]; flag_steps. apply keeps_flag_run_call.
Qed.



(** C3 fails as stated: with the error flag set, [ReadVersion] on blob data
    that holds the version 3 returns 3, which is no default result, and
    moves the cursor past the value; and [SqlWriteBasic] still adds its
    value node and returns true. *)
Lemma ReadVersion_with_the_flag_set_reads_the_version :
  let d := {| od_info := None; od_objid := 1; od_classdata := None; od_classrow := None;
              od_blobdata := None; od_blobstmt := None; od_isblob := true;
              od_items := [{| it_name := "Version"; it_type := sqlio.Version;
                              it_value := Some "3" |};
                           {| it_name := "fValue"; it_type := sqlio.Int;
                              it_value := Some "42" |}] |} in
  let b := set_fErrorFlag 1
             (set_fCurrentData (Some d) (pushed (TBufferSQL2_new kRead None 0))) in
  fErrorFlag b = 1
  /\ (exists b',
        ReadVersion b = Some (3, b')
        /\ fErrorFlag b' = 1
        /\ fCurrentData b' = Some (ShiftToNextValue d)
        /\ fCurrentData b' <> fCurrentData b)
  /\ (exists b',
        SqlWriteBasic 7 b = Some (true, b')
        /\ fNodes b' = fNodes b ++ [{| fParent := Some 0%nat;
                                       fKind := kSqlValue "7" sqlio.Int None |}]).
Proof.
  intros d b. split; [reflexivity|]. split.
  - eexists. split; [vm_compute; reflexivity|].
    split; [reflexivity|]. split; [reflexivity|]. discriminate.
  - eexists. split; [vm_compute; reflexivity|]. reflexivity.
Qed.

(* --------------------------------------------------------------------- *)
(** ** Type markers *)
(* --------------------------------------------------------------------- *)

Lemma SqlWriteValue_eq value tname b top :
  fStk b = Some top ->
  SqlWriteValue value tname b = Some (true, value_added top value tname b).
Proof.
  intros Htop. unfold SqlWriteValue.
  rewrite (bind_run _ _ _ _ _ (Stack_top_eq b top Htop)). reflexivity.
Qed.

Lemma SqlReadValue_mismatch tname b d :
  fErrorFlag b <= 0 -> fCurrentData b = Some d ->
  fIgnoreVerification b = false -> VerifyDataType d tname = false ->
  SqlReadValue tname b = Some (None, set_fErrorFlag 1 b).
Proof.
  intros Hf Hd Hi Hv. unfold SqlReadValue. cbn [bind get].
  rewrite gtb_false by exact Hf. rewrite Hd, Hi, Hv. reflexivity.
Qed.

Lemma SqlReadValue_taken tname b d :
  fErrorFlag b <= 0 -> fCurrentData b = Some d ->
  fIgnoreVerification b = true \/ VerifyDataType d tname = true ->
  SqlReadValue tname b = Some (Some (default EmptyString (GetValue d)), value_taken d b).
Proof.
  intros Hf Hd Hv. unfold SqlReadValue. cbn [bind get].
  rewrite gtb_false by exact Hf. rewrite Hd.
  replace (negb (fIgnoreVerification b) && negb (VerifyDataType d tname)) with false
    by (destruct Hv as [-> | ->]; [reflexivity | symmetry; apply andb_false_r]).
  reflexivity.
Qed.

Lemma SqlReadBasic_mismatch {T : Type} `{SqlBasic T} (old : T) b d :
  fErrorFlag b <= 0 -> fCurrentData b = Some d ->
  fIgnoreVerification b = false -> VerifyDataType d sql_tname = false ->
  SqlReadBasic old b = Some (sql_zero, set_fErrorFlag 1 b).
Proof.
  intros Hf Hd Hi Hv. unfold SqlReadBasic.
  rewrite (bind_run _ _ _ _ _ (SqlReadValue_mismatch _ b d Hf Hd Hi Hv)). reflexivity.
Qed.

Lemma SqlReadBasic_taken {T : Type} `{SqlBasic T} (old : T) b d :
  fErrorFlag b <= 0 -> fCurrentData b = Some d ->
  fIgnoreVerification b = true \/ VerifyDataType d sql_tname = true ->
  SqlReadBasic old b =
  Some (sql_scan (default EmptyString (GetValue d)) old, value_taken d b).
Proof.
  intros Hf Hd Hv. unfold SqlReadBasic.
  rewrite (bind_run _ _ _ _ _ (SqlReadValue_taken _ b d Hf Hd Hv)). reflexivity.
Qed.

(** C7, as the code has it: [SqlWriteBasic] adds a value node that carries
    the marker of the type of the value.  On read, with the error flag not
    set and data to read from: unless verification is switched off
    ([fIgnoreVerification]), a stored marker other than the expected one
    makes [SqlReadValue] set the error flag and return null, and
    [SqlReadBasic] give zero, with the current data left where it was; when
    the markers agree, or when verification is switched off whatever the
    stored marker is, the stored value is returned and the data moves on. *)
Theorem type_marker_written_and_verified
    (T : Type) (basic : SqlBasic T) (v old : T) (wb : TBufferSQL2) (top : nat)
    (b : TBufferSQL2) (d : TSQLObjectData) :
  fStk wb = Some top ->
  fErrorFlag b <= 0 ->
  fCurrentData b = Some d ->
  SqlWriteBasic v wb = Some (true, value_added top (sql_print v) sql_tname wb)
  /\ (fIgnoreVerification b = false -> VerifyDataType d sql_tname = false ->
      SqlReadValue sql_tname b = Some (None, set_fErrorFlag 1 b)
      /\ SqlReadBasic old b = Some (sql_zero, set_fErrorFlag 1 b))
  /\ (fIgnoreVerification b = true \/ VerifyDataType d sql_tname = true ->
      SqlReadValue sql_tname b
      = Some (Some (default EmptyString (GetValue d)), value_taken d b)
      /\ SqlReadBasic old b
         = Some (sql_scan (default EmptyString (GetValue d)) old, value_taken d b)).
Proof.
  intros Htop Hf Hd. split; [|split].
  - apply SqlWriteValue_eq, Htop.
  - intros Hi Hv. split.
    + apply SqlReadValue_mismatch with (d := d); assumption.
    + apply SqlReadBasic_mismatch with (d := d); assumption.
  - intros Hv. split.
    + apply SqlReadValue_taken; assumption.
    + apply SqlReadBasic_taken; assumption.
Qed.

(** A value stored with the marker of [Bool_t] and read as an [Int_t]. *)
Lemma type_marker_written_and_verified_witness :
  let d := {| od_info := None; od_objid := 1; od_classdata := None; od_classrow := None;
              od_blobdata := None; od_blobstmt := None; od_isblob := true;
              od_items := [{| it_name := "fValue"; it_type := sqlio.Bool;
                              it_value := Some "1" |}] |} in
  let b := set_fCurrentData (Some d) (TBufferSQL2_new kRead None 0) in
  let wb := pushed (TBufferSQL2_new kWrite None 0) in
  SqlWriteBasic 42 wb = Some (true, value_added 0 "42" sqlio.Int wb)
  /\ SqlReadBasic 7 b = Some (0, set_fErrorFlag 1 b).
Proof.
  intros d b wb.
  destruct (type_marker_written_and_verified Z Int_t_basic 42 7 wb 0%nat b d)
    as (Hw & Hmis & _).
  - reflexivity.
  - cbn. lia.
  - reflexivity.
  - split; [exact Hw|]. apply Hmis; reflexivity.
Defined.

(** C7 fails as stated: with verification switched off, a value stored with
    the marker of [Bool_t] is read as an [Int_t]; the stored value is
    returned and the error flag stays 0. *)
Lemma type_marker_not_verified_when_ignored :
  let d := {| od_info := None; od_objid := 1; od_classdata := None; od_classrow := None;
              od_blobdata := None; od_blobstmt := None; od_isblob := true;
              od_items := [{| it_name := "fValue"; it_type := sqlio.Bool;
                              it_value := Some "1" |}] |} in
  let b := set_fIgnoreVerification true
             (set_fCurrentData (Some d) (TBufferSQL2_new kRead None 0)) in
  VerifyDataType d sqlio.Int = false
  /\ exists b', SqlReadValue sqlio.Int b = Some (Some "1", b') /\ fErrorFlag b' = 0
  /\ exists b', SqlReadBasic 7 b = Some (1, b') /\ fErrorFlag b' = 0.
Proof.
  intros d b. split; [reflexivity|].
  exists (value_taken d b). split; [vm_compute; reflexivity|]. split; [reflexivity|].
  exists (value_taken d b). split; [vm_compute; reflexivity|reflexivity].
Qed.

(* --------------------------------------------------------------------- *)
(** ** Pools of class data *)
(* --------------------------------------------------------------------- *)

Lemma count_requests_app p l1 l2 :
  count_requests p (l1 ++ l2) = (count_requests p l1 + count_requests p l2)%nat.
Proof.
  induction l1 as [|r l1 IH]; cbn; [reflexivity|].
  destruct (p r); cbn; rewrite IH; reflexivity.
Qed.

Lemma count_requests_no_bulk i l :
  forallb no_bulk l = true ->
  count_requests (is_bulk i) l = O /\ count_requests (is_bulk_ok i) l = O.
Proof.
  induction l as [|r l IH]; cbn; [split; reflexivity|].
  intros Hl. apply andb_prop in Hl as [Hr Hl].
  destruct r; cbn in *; try discriminate; apply IH, Hl.
Qed.

Lemma bulk_range_no_bulk first last l :
  forallb no_bulk l = true -> forallb (bulk_range first last) l = true.
Proof.
  induction l as [|r l IH]; cbn; [reflexivity|].
  intros Hl. apply andb_prop in Hl as [Hr Hl].
  rewrite (IH Hl). destruct r; cbn in *; try discriminate; reflexivity.
Qed.

Lemma on_file_eq {A : Type} (call : TSQLFile -> A * TSQLFile) b f :
  fSQL b = Some f ->
  on_file call b = Some (fst (call f), set_fSQL (Some (snd (call f))) b).
Proof.
  intros E. unfold on_file. cbn [bind get]. rewrite E. cbn [deref bind ret].
  destruct (call f) as [res f']. reflexivity.
Qed.

Lemma on_file_none {A : Type} (call : TSQLFile -> A * TSQLFile) b :
  fSQL b = None -> on_file call b = None.
Proof. intros E. unfold on_file. cbn [bind get]. rewrite E. reflexivity. Qed.

Lemma quiet_refl b : quiet b b.
Proof.
  repeat split. exists []. split; [symmetry; apply app_nil_r|reflexivity].
Qed.

Lemma SqlObjectData_blob_quiet objid sqlinfo classdata classrow b r b' :
  SqlObjectData_blob objid sqlinfo classdata classrow b = Some (r, b') -> quiet b b'.
Proof.
  unfold SqlObjectData_blob. intros E.
  destruct (fSQL b) as [f|] eqn:Ef;
    [|rewrite (bind_fault _ _ _ (on_file_none _ b Ef)) in E; discriminate].
  rewrite (bind_run _ _ _ _ _ (on_file_eq _ b f Ef)) in E.
  cbn [fst snd GetBlobClassDataStmt] in E.
  destruct (if sql_statements f then blob_rows objid sqlinfo f else None) as [rows|].
  - cbn in E. inversion E; subst. repeat split.
    unfold requests. rewrite Ef. cbn. eexists. split; reflexivity.
  - erewrite (bind_run (on_file _)) in E by (apply on_file_eq; reflexivity).
    cbn in E. inversion E; subst. repeat split.
    unfold requests. rewrite Ef. cbn. rewrite <- app_assoc. eexists. split; reflexivity.
Qed.

Lemma SqlObjectData_row_quiet objid sqlinfo pool b r b' :
  SqlObjectData_row objid sqlinfo pool b = Some (r, b') -> quiet b b'.
Proof.
  unfold SqlObjectData_row. intros E.
  destruct (negb (pool_info pool =? ci_addr sqlinfo)%positive).
  - cbn in E. inversion E; subst. apply (quiet_refl b).
  - destruct (GetObjectRow pool objid) as [row|].
    + eapply SqlObjectData_blob_quiet, E.
    + cbn in E. inversion E; subst. apply (quiet_refl b).
Qed.

(** The three ways a call of [SqlObjectData] can go. *)
Lemma SqlObjectData_effect objid sqlinfo b r b' :
  SqlObjectData objid sqlinfo b = Some (r, b') ->
  quiet b b' \/ exists result, fetched (ci_addr sqlinfo) result b b'.
Proof.
  unfold SqlObjectData. intros E.
  destruct (ci_exists sqlinfo); [|left; eapply SqlObjectData_blob_quiet, E].
  cbn [bind get] in E.
  destruct (match fPoolsMap b with
            | Some pools => pools !! ci_addr sqlinfo
            | None => None
            end) as [pool|] eqn:Hpool;
    [left; eapply SqlObjectData_row_quiet, E|].
  destruct (Z.geb_spec (fLastObjId b) (fFirstObjId b)) as [Hrange|Hrange];
    [|cbn in E; inversion E; subst; left; apply quiet_refl].
  destruct (fSQL b) as [f|] eqn:Ef;
    [|rewrite (bind_fault _ _ _ (on_file_none _ b Ef)) in E; discriminate].
  rewrite (bind_run _ _ _ _ _ (on_file_eq _ b f Ef)) in E.
  cbn [fst snd GetNormalClassDataAll] in E.
  right.
  destruct (sql_tables f !! ci_addr sqlinfo) as [rows|].
  - exists (Some (filter (fun r => fFirstObjId b <= row_objid r <= fLastObjId b) rows)).
    cbn [bind modify] in E. apply SqlObjectData_row_quiet in E.
    destruct E as (Hp & Hfirst & Hlast & extra & Hreq & Hextra).
    unfold fetched. cbn in *. repeat split; try assumption; try lia.
    exists extra. split; [|exact Hextra].
    rewrite Hreq. unfold requests. rewrite Ef. cbn. rewrite <- app_assoc. reflexivity.
  - exists None. cbn in E. inversion E; subst.
    unfold fetched. cbn. repeat split; try assumption; try lia.
    exists []. split; [|reflexivity]. unfold requests. rewrite Ef. reflexivity.
Qed.

Lemma SqlObjectData_blob_runs objid sqlinfo classdata classrow b :
  is_Some (fSQL b) ->
  exists r b', SqlObjectData_blob objid sqlinfo classdata classrow b = Some (r, b')
               /\ is_Some (fSQL b').
Proof.
  intros [f Ef]. unfold SqlObjectData_blob.
  rewrite (bind_run _ _ _ _ _ (on_file_eq _ b f Ef)).
  cbn [fst snd GetBlobClassDataStmt].
  destruct (if sql_statements f then blob_rows objid sqlinfo f else None) as [rows|].
  - cbn. eexists _, _. split; [reflexivity|]. cbn. eexists; reflexivity.
  - erewrite (bind_run (on_file _)) by (apply on_file_eq; reflexivity).
    cbn. eexists _, _. split; [reflexivity|]. cbn. eexists; reflexivity.
Qed.

Lemma SqlObjectData_row_runs objid sqlinfo pool b :
  is_Some (fSQL b) ->
  exists r b', SqlObjectData_row objid sqlinfo pool b = Some (r, b') /\ is_Some (fSQL b').
Proof.
  intros Hf. unfold SqlObjectData_row.
  destruct (negb (pool_info pool =? ci_addr sqlinfo)%positive).
  - cbn. eexists _, _. split; [reflexivity|exact Hf].
  - destruct (GetObjectRow pool objid) as [row|].
    + apply SqlObjectData_blob_runs, Hf.
    + cbn. eexists _, _. split; [reflexivity|exact Hf].
Qed.

(** With a pool for the descriptor, without class table, or with an empty
    range of object ids, [SqlObjectData] sends no bulk fetch. *)
Lemma SqlObjectData_runs_quiet objid sqlinfo b :
  is_Some (fSQL b) ->
  ci_exists sqlinfo = false \/ is_Some (pool_of b (ci_addr sqlinfo))
  \/ fLastObjId b < fFirstObjId b ->
  exists r b', SqlObjectData objid sqlinfo b = Some (r, b')
               /\ quiet b b' /\ is_Some (fSQL b').
Proof.
  intros Hf Hcase.
  assert (exists r b', SqlObjectData objid sqlinfo b = Some (r, b')
                       /\ (quiet b b' \/ fLastObjId b >= fFirstObjId b
                                         /\ pool_of b (ci_addr sqlinfo) = None
                                         /\ ci_exists sqlinfo = true)
                       /\ is_Some (fSQL b')) as (r & b' & E & Hq & Hf').
  { unfold SqlObjectData, pool_of.
    destruct (ci_exists sqlinfo) eqn:Hex.
    - cbn [bind get].
      destruct (match fPoolsMap b with
                | Some pools => pools !! ci_addr sqlinfo
                | None => None
                end) as [pool|] eqn:Hpool.
      + destruct (SqlObjectData_row_runs objid sqlinfo pool b Hf) as (r & b' & E & Hf').
        exists r, b'. split; [exact E|]. split; [|exact Hf'].
        left. eapply SqlObjectData_row_quiet, E.
      + destruct (Z.geb_spec (fLastObjId b) (fFirstObjId b)) as [Hrange|Hrange].
        * destruct Hf as [f Ef].
          rewrite (bind_run _ _ _ _ _ (on_file_eq _ b f Ef)).
          cbn [fst snd GetNormalClassDataAll].
          destruct (sql_tables f !! ci_addr sqlinfo) as [rows|].
          -- cbn [bind modify].
             edestruct SqlObjectData_row_runs as (r & b' & E & Hf');
               [|exists r, b'; split; [exact E|split; [|exact Hf']]].
             ++ cbn. eexists; reflexivity.
             ++ right. repeat split; lia.
          -- cbn. eexists _, _. split; [reflexivity|]. split; [|cbn; eexists; reflexivity].
             right. repeat split; lia.
        * cbn. eexists _, _. split; [reflexivity|]. split; [|exact Hf].
          left. apply quiet_refl.
    - destruct (SqlObjectData_blob_runs objid sqlinfo None None b Hf) as (r & b' & E & Hf').
      exists r, b'. split; [exact E|]. split; [|exact Hf'].
      left. eapply SqlObjectData_blob_quiet, E. }
  exists r, b'. split; [exact E|]. split; [|exact Hf'].
  destruct Hq as [Hq|(Hrange & Hpool & Hex)]; [exact Hq|].
  destruct Hcase as [Hc|[[pool Hc]|Hc]]; [congruence|congruence|lia].
Qed.

(** Without pool for the descriptor, [SqlObjectData] sends one bulk fetch
    for the range of the pass and stores what it gives. *)
Lemma SqlObjectData_runs_fetch objid sqlinfo b f :
  fSQL b = Some f ->
  ci_exists sqlinfo = true ->
  pool_of b (ci_addr sqlinfo) = None ->
  fLastObjId b >= fFirstObjId b ->
  exists r b', SqlObjectData objid sqlinfo b = Some (r, b')
    /\ fetched (ci_addr sqlinfo)
         (fst (GetNormalClassDataAll (fFirstObjId b) (fLastObjId b) sqlinfo f)) b b'
    /\ is_Some (fSQL b').
Proof.
  intros Ef Hex Hpool Hrange.
  unfold SqlObjectData. rewrite Hex. cbn [bind get].
  unfold pool_of in Hpool. rewrite Hpool. rewrite geb_true by lia.
  rewrite (bind_run _ _ _ _ _ (on_file_eq _ b f Ef)).
  cbn [fst snd GetNormalClassDataAll].
  destruct (sql_tables f !! ci_addr sqlinfo) as [rows|].
  - cbn [bind modify].
    edestruct SqlObjectData_row_runs as (r & b' & E & Hf');
      [|exists r, b'; split; [exact E|split; [|exact Hf']]].
    + cbn. eexists; reflexivity.
    + apply SqlObjectData_row_quiet in E.
      destruct E as (Hp & Hfirst & Hlast & extra & Hreq & Hextra).
      unfold fetched, pool_of. cbn in *. repeat split; try assumption; try lia.
      exists extra. split; [|exact Hextra].
      rewrite Hreq. unfold requests. rewrite Ef. cbn. rewrite <- app_assoc. reflexivity.
  - cbn. eexists _, _. split; [reflexivity|]. split; [|cbn; eexists; reflexivity].
    unfold fetched, pool_of. cbn. repeat split; try assumption; try lia.
    exists []. split; [|reflexivity]. unfold requests. rewrite Ef. reflexivity.
Qed.

Lemma pools_agree_quiet b b' : pools_agree b -> quiet b b' -> pools_agree b'.
Proof.
  intros (Hnone & Hone & Hrange) (Hp & Hfirst & Hlast & extra & Hreq & Hextra).
  unfold pools_agree, pool_of. rewrite Hp, Hfirst, Hlast, Hreq.
  split; [|split].
  - intros i Hi. rewrite count_requests_app.
    rewrite (proj2 (count_requests_no_bulk i extra Hextra)).
    rewrite (Hnone i Hi). reflexivity.
  - intros i. rewrite count_requests_app.
    rewrite (proj2 (count_requests_no_bulk i extra Hextra)).
    specialize (Hone i). lia.
  - rewrite forallb_app, Hrange. apply bulk_range_no_bulk, Hextra.
Qed.

Lemma pools_agree_fetched info result b b' :
  pools_agree b -> fetched info result b b' -> pools_agree b'.
Proof.
  intros (Hnone & Hone & Hrange)
         (Hpool & Hr & Hfirst & Hlast & Hp & extra & Hreq & Hextra).
  assert (Hcount : forall i,
             count_requests (is_bulk_ok i) (requests b') =
             (count_requests (is_bulk_ok i) (requests b)
              + if Pos.eqb info i && bool_decide (is_Some result) then 1 else 0)%nat).
  { intros i. rewrite Hreq, count_requests_app. cbn [count_requests is_bulk_ok].
    rewrite (proj2 (count_requests_no_bulk i extra Hextra)).
    destruct (Pos.eqb info i && bool_decide (is_Some result)); lia. }
  unfold pools_agree. split; [|split].
  - intros i Hi. rewrite Hcount.
    unfold pool_of in Hi. rewrite Hp in Hi.
    destruct result as [rows|].
    + destruct (decide (info = i)) as [->|Hne].
      * rewrite lookup_insert_eq in Hi. discriminate.
      * rewrite lookup_insert_ne in Hi by exact Hne.
        replace (Pos.eqb info i) with false by (symmetry; apply Pos.eqb_neq, Hne).
        cbn. rewrite Nat.add_0_r. apply Hnone. unfold pool_of.
        destruct (fPoolsMap b); [exact Hi|reflexivity].
    + rewrite andb_false_r, Nat.add_0_r. apply Hnone, Hi.
  - intros i. rewrite Hcount.
    destruct (Pos.eqb_spec info i) as [<-|Hne]; cbn.
    + rewrite (Hnone info Hpool). destruct (bool_decide (is_Some result)); lia.
    + specialize (Hone i). lia.
  - rewrite Hfirst, Hlast, Hreq, forallb_app, Hrange.
    cbn [forallb bulk_range]. rewrite !Z.eqb_refl.
    apply bulk_range_no_bulk, Hextra.
Qed.

Lemma pools_agree_requests reqs b :
  is_Some (fSQL b) -> pools_agree b ->
  exists b', object_data_requests reqs b = Some (tt, b')
             /\ is_Some (fSQL b') /\ pools_agree b'
             /\ fFirstObjId b' = fFirstObjId b /\ fLastObjId b' = fLastObjId b.
Proof.
  revert b. induction reqs as [|[objid sqlinfo] reqs IH]; intros b Hf Hagree.
  - exists b. split; [reflexivity|]. split; [exact Hf|]. split; [exact Hagree|].
    split; reflexivity.
  - cbn [object_data_requests].
    assert (exists r b1, SqlObjectData objid sqlinfo b = Some (r, b1)
                         /\ is_Some (fSQL b1) /\ pools_agree b1
                         /\ fFirstObjId b1 = fFirstObjId b
                         /\ fLastObjId b1 = fLastObjId b)
      as (r & b1 & E & Hf1 & Hagree1 & Hfirst1 & Hlast1).
    { destruct (ci_exists sqlinfo) eqn:Hex;
        [destruct (pool_of b (ci_addr sqlinfo)) as [pool|] eqn:Hpool;
         [|destruct (Z.lt_ge_cases (fLastObjId b) (fFirstObjId b)) as [Hrange|Hrange]]|].
      - destruct (SqlObjectData_runs_quiet objid sqlinfo b Hf) as (r & b1 & E & Hq & Hf1);
          [right; left; rewrite Hpool; eexists; reflexivity|].
        exists r, b1. split; [exact E|]. split; [exact Hf1|].
        split; [eapply pools_agree_quiet; eassumption|]. split; apply Hq.
      - destruct (SqlObjectData_runs_quiet objid sqlinfo b Hf) as (r & b1 & E & Hq & Hf1);
          [right; right; exact Hrange|].
        exists r, b1. split; [exact E|]. split; [exact Hf1|].
        split; [eapply pools_agree_quiet; eassumption|]. split; apply Hq.
      - destruct Hf as [f Ef].
        destruct (SqlObjectData_runs_fetch objid sqlinfo b f Ef Hex Hpool)
          as (r & b1 & E & Hq & Hf1); [lia|].
        exists r, b1. split; [exact E|]. split; [exact Hf1|].
        split; [eapply pools_agree_fetched; eassumption|]. split; apply Hq.
      - destruct (SqlObjectData_runs_quiet objid sqlinfo b Hf) as (r & b1 & E & Hq & Hf1);
          [left; exact Hex|].
        exists r, b1. split; [exact E|]. split; [exact Hf1|].
        split; [eapply pools_agree_quiet; eassumption|]. split; apply Hq. }
    rewrite (bind_run _ _ _ _ _ E).
    destruct (IH b1 Hf1 Hagree1) as (b' & E' & Hf' & Hagree' & Hfirst' & Hlast').
    exists b'. split; [exact E'|]. split; [exact Hf'|]. split; [exact Hagree'|].
    split; congruence.
Qed.

(** C6, as the code has it: in a pass that starts without pools and before
    any request, every sequence of requests for object data gives a result,
    after which no descriptor has had more than one successful bulk fetch
    and every bulk fetch covered the range [fFirstObjId, fLastObjId].  A
    further request then gives a result.  For a descriptor with a pool, be
    it for another object, it sends no bulk fetch and leaves the pools as
    they are.  For a descriptor with class table and without pool in a
    non-empty range, it sends exactly one bulk fetch over the range and, if
    that gives a result, stores it as the pool of the descriptor; if the
    fetch fails the pools stay as they are, so that the next request for the
    descriptor fetches again. *)
Theorem class_table_fetched_once_when_successful
    (b : TBufferSQL2) (f : TSQLFile) (reqs : list (Z * TSQLClassInfo)) :
  fSQL b = Some f ->
  sql_requests f = [] ->
  fPoolsMap b = None ->
  exists b1,
    object_data_requests reqs b = Some (tt, b1)
    /\ (forall i, (count_requests (is_bulk_ok i) (requests b1) <= 1)%nat)
    /\ forallb (bulk_range (fFirstObjId b) (fLastObjId b)) (requests b1) = true
    /\ forall objid sqlinfo,
        exists r b2,
          SqlObjectData objid sqlinfo b1 = Some (r, b2)
          /\ (is_Some (pool_of b1 (ci_addr sqlinfo)) -> quiet b1 b2)
          /\ (ci_exists sqlinfo = true -> pool_of b1 (ci_addr sqlinfo) = None ->
              fLastObjId b >= fFirstObjId b ->
              exists result, fetched (ci_addr sqlinfo) result b1 b2).
Proof.
  intros Ef Hreq Hpools.
  assert (Hagree : pools_agree b).
  { unfold pools_agree, pool_of, requests. rewrite Ef, Hreq, Hpools.
    repeat split; cbn; intros; lia. }
  destruct (pools_agree_requests reqs b) as (b1 & E & Hf1 & Hagree1 & Hfirst & Hlast);
    [rewrite Ef; eexists; reflexivity|exact Hagree|].
  exists b1. split; [exact E|]. split; [apply Hagree1|].
  split; [rewrite <- Hfirst, <- Hlast; apply Hagree1|].
  intros objid sqlinfo.
  destruct (pool_of b1 (ci_addr sqlinfo)) as [pool|] eqn:Hpool.
  - destruct (SqlObjectData_runs_quiet objid sqlinfo b1 Hf1) as (r & b2 & E2 & Hq & _);
      [right; left; rewrite Hpool; eexists; reflexivity|].
    exists r, b2. split; [exact E2|]. split; [intros _; exact Hq|]. intros _ Hc. discriminate.
  - destruct (ci_exists sqlinfo) eqn:Hex;
      [destruct (Z.lt_ge_cases (fLastObjId b1) (fFirstObjId b1)) as [Hrange|Hrange]|].
    + destruct (SqlObjectData_runs_quiet objid sqlinfo b1 Hf1) as (r & b2 & E2 & Hq & _);
        [right; right; exact Hrange|].
      exists r, b2. split; [exact E2|]. split; [intros [? Hc]; discriminate|].
      intros _ _ Hc. lia.
    + destruct Hf1 as [f1 Ef1].
      destruct (SqlObjectData_runs_fetch objid sqlinfo b1 f1 Ef1 Hex Hpool)
        as (r & b2 & E2 & Hq & _); [lia|].
      exists r, b2. split; [exact E2|]. split; [intros [? Hc]; discriminate|].
      intros _ _ _. eexists. exact Hq.
    + destruct (SqlObjectData_runs_quiet objid sqlinfo b1 Hf1) as (r & b2 & E2 & Hq & _);
        [left; exact Hex|].
      exists r, b2. split; [exact E2|]. split; [intros [? Hc]; discriminate|].
      intros Hc. discriminate.
Qed.

(** Two objects of one class: one bulk fetch. *)
Lemma class_table_fetched_once_when_successful_witness :
  let info := {| ci_addr := 1; ci_table := "Event_ver1"; ci_exists := true |} in
  let f := {| sql_tables := {[ 1%positive := [ {| row_objid := 1; row_fields := ["7"] |};
                                               {| row_objid := 2; row_fields := ["8"] |} ] ]};
              sql_blobs := ∅; sql_statements := false; sql_longstrings := ∅;
              sql_longcodes := ∅; sql_requests := [] |} in
  let b := set_fLastObjId 2 (set_fFirstObjId 1 (TBufferSQL2_new kRead (Some f) 0)) in
  exists b1,
    object_data_requests [(1, info); (2, info)] b = Some (tt, b1)
    /\ (count_requests (is_bulk_ok 1) (requests b1) <= 1)%nat.
Proof.
  intros info f b.
  destruct (class_table_fetched_once_when_successful b f [(1, info); (2, info)])
    as (b1 & E & Hone & _).
  - reflexivity.
  - reflexivity.
  - reflexivity.
  - exists b1. split; [exact E|apply Hone].
Defined.

(** C6 fails as stated: when the bulk fetch for a descriptor fails, nothing
    is stored, and the request for a second object of the class sends the
    bulk fetch a second time. *)
Lemma failed_bulk_fetch_is_sent_again :
  let info := {| ci_addr := 1; ci_table := "Event_ver1"; ci_exists := true |} in
  let f := {| sql_tables := ∅; sql_blobs := ∅; sql_statements := false;
              sql_longstrings := ∅; sql_longcodes := ∅; sql_requests := [] |} in
  let b := set_fLastObjId 2 (set_fFirstObjId 1 (TBufferSQL2_new kRead (Some f) 0)) in
  exists b1,
    object_data_requests [(1, info); (2, info)] b = Some (tt, b1)
    /\ requests b1 = [ReqNormalClassDataAll 1 2 1 false; ReqNormalClassDataAll 1 2 1 false]
    /\ count_requests (is_bulk 1) (requests b1) = 2%nat.
Proof.
  intros info f b. eexists. split; [vm_compute; reflexivity|].
  split; reflexivity.
Qed.

(* --------------------------------------------------------------------- *)
(** ** Printing and scanning numbers *)
(* --------------------------------------------------------------------- *)

Module CTextFacts.
Import CText.

Lemma digit_val_char d : 0 <= d <= 9 -> digit_val (digit_char d) = Some d.
Proof.
  intros Hd.
  assert (d = 0 \/ d = 1 \/ d = 2 \/ d = 3 \/ d = 4 \/ d = 5 \/ d = 6 \/ d = 7
          \/ d = 8 \/ d = 9) as Hcases by lia.
  repeat (destruct Hcases as [->|Hcases]; [reflexivity|]). subst. reflexivity.
Qed.

Lemma digit_val_range c d : digit_val c = Some d -> 0 <= d <= 9.
Proof.
  unfold digit_val.
  destruct (Z.leb_spec 48 (Z.of_nat (nat_of_ascii c)));
    destruct (Z.leb_spec (Z.of_nat (nat_of_ascii c)) 57); cbn; intros E;
    inversion E; lia.
Qed.

Lemma digit_not_space c d : digit_val c = Some d -> isspace c = false.
Proof.
  unfold digit_val, isspace.
  destruct (Z.leb_spec 48 (Z.of_nat (nat_of_ascii c)));
    destruct (Z.leb_spec (Z.of_nat (nat_of_ascii c)) 57); cbn; intros E;
    inversion E.
  apply orb_false_intro; [apply Z.eqb_neq; lia|].
  apply andb_false_intro2, Z.leb_gt. lia.
Qed.

Lemma digit_not_char c d (x : ascii) :
  digit_val c = Some d -> digit_val x = None -> Ascii.eqb c x = false.
Proof.
  intros Hc Hx. apply Ascii.eqb_neq. intros ->. congruence.
Qed.

Lemma append_cons c s1 s2 : String c s1 +:+ s2 = String c (s1 +:+ s2).
Proof. reflexivity. Qed.

Lemma append_nil s : EmptyString +:+ s = s.
Proof. reflexivity. Qed.

Lemma all_digits_app s1 s2 :
  all_digits (s1 +:+ s2) = all_digits s1 && all_digits s2.
Proof.
  induction s1 as [|c s1 IH]; [reflexivity|].
  rewrite append_cons. cbn. destruct (digit_val c); [exact IH|reflexivity].
Qed.

Lemma digits_value_app s1 s2 acc :
  all_digits s1 = true ->
  digits_value acc (s1 +:+ s2) = digits_value (digits_value acc s1) s2.
Proof.
  revert acc. induction s1 as [|c s1 IH]; intros acc; [reflexivity|].
  rewrite append_cons. cbn. destruct (digit_val c); [apply IH|discriminate].
Qed.

Lemma scan_digits_app s rest acc :
  all_digits s = true ->
  scan_digits acc (s +:+ rest) = scan_digits (digits_value acc s) rest.
Proof.
  revert acc. induction s as [|c s IH]; intros acc; [reflexivity|].
  rewrite append_cons. cbn. destruct (digit_val c); [apply IH|discriminate].
Qed.

Lemma scan_digits_stop rest acc :
  starts_with_digit rest = false -> scan_digits acc rest = (acc, rest).
Proof.
  destruct rest as [|c rest]; cbn; [reflexivity|].
  destruct (digit_val c); [discriminate|reflexivity].
Qed.

Lemma starts_with_digit_app s1 s2 :
  starts_with_digit s1 = true -> starts_with_digit (s1 +:+ s2) = true.
Proof. destruct s1 as [|c s1]; [discriminate|]. rewrite append_cons. intros E; exact E. Qed.

Lemma dec_digits_spec fuel n :
  0 <= n < 10 ^ Z.of_nat fuel ->
  all_digits (dec_digits fuel n) = true
  /\ digits_value 0 (dec_digits fuel n) = n
  /\ (fuel <> O -> starts_with_digit (dec_digits fuel n) = true).
Proof.
  revert n. induction fuel as [|fuel IH]; intros n Hn.
  - cbn in *. split; [reflexivity|]. split; [lia|congruence].
  - cbn [dec_digits]. destruct (Z.ltb_spec n 10) as [Hlt|Hge].
    + cbn. rewrite digit_val_char by lia. split; [reflexivity|].
      split; [lia|reflexivity].
    + assert (Hdiv : 0 <= n / 10 < 10 ^ Z.of_nat fuel).
      { split; [apply Z.div_pos; lia|].
        apply Z.div_lt_upper_bound; [lia|].
        rewrite Nat2Z.inj_succ, Z.pow_succ_r in Hn by lia. lia. }
      destruct (IH (n / 10) Hdiv) as (Hall & Hval & Hstart).
      assert (Hmod : 0 <= n mod 10 <= 9) by (pose proof (Z.mod_pos_bound n 10); lia).
      split; [|split].
      * rewrite all_digits_app, Hall. cbn. rewrite digit_val_char by exact Hmod. reflexivity.
      * rewrite digits_value_app by exact Hall. rewrite Hval. cbn.
        rewrite digit_val_char by exact Hmod.
        pose proof (Z.div_mod n 10). lia.
      * intros _. apply starts_with_digit_app, Hstart.
        intros ->. cbn in Hdiv. assert (n / 10 = 0) by lia.
        assert (n < 10) by (apply Z.div_small_iff in H; lia). lia.
Qed.

Lemma dec_spec n :
  0 <= n < 10 ^ 20 ->
  all_digits (dec n) = true /\ digits_value 0 (dec n) = n
  /\ starts_with_digit (dec n) = true.
Proof.
  intros Hn. destruct (dec_digits_spec 20 n) as (H1 & H2 & H3); [exact Hn|].
  split; [exact H1|]. split; [exact H2|]. apply H3. discriminate.
Qed.

Lemma scan_unsigned_dec n rest :
  0 <= n < 10 ^ 20 -> starts_with_digit rest = false ->
  scan_unsigned (dec n +:+ rest) = Some (n, rest).
Proof.
  intros Hn Hrest. destruct (dec_spec n Hn) as (Hall & Hval & Hstart).
  unfold scan_unsigned. rewrite starts_with_digit_app by exact Hstart.
  rewrite scan_digits_app by exact Hall. rewrite Hval.
  rewrite scan_digits_stop by exact Hrest. reflexivity.
Qed.

Lemma scan_signed_minus s :
  scan_signed (String "-" s) =
  match scan_unsigned s with
  | Some (v, r) => Some (- v, r)
  | None => None
  end.
Proof. reflexivity. Qed.

Lemma scan_signed_print v rest :
  - 10 ^ 20 < v < 10 ^ 20 -> starts_with_digit rest = false ->
  scan_signed (print_d v +:+ rest) = Some (v, rest).
Proof.
  intros Hv Hrest. unfold print_d. destruct (Z.ltb_spec v 0) as [Hneg|Hpos].
  - rewrite append_cons, scan_signed_minus.
    rewrite scan_unsigned_dec by (exact Hrest || lia).
    f_equal. f_equal. lia.
  - destruct (dec_spec v) as (Hall & Hval & Hstart); [lia|].
    pose proof (scan_unsigned_dec v rest) as Hscan.
    destruct (dec v) as [|c s] eqn:Hdec; [discriminate|].
    cbn in Hstart. destruct (digit_val c) as [d|] eqn:Hc; [|discriminate].
    rewrite append_cons. unfold scan_signed. cbn [skip_space].
    rewrite (digit_not_space c d Hc).
    rewrite (digit_not_char c d "-" Hc) by reflexivity.
    rewrite (digit_not_char c d "+" Hc) by reflexivity.
    apply Hscan; [lia|exact Hrest].
Qed.

End CTextFacts.

Module TagFacts.
Import CText CTextFacts.

Lemma store_d_id v : in_signed 32 v = true -> store_d v = v.
Proof.
  unfold in_signed. intros H. apply andb_prop in H as [H1 H2].
  apply Z.leb_le in H1. apply Z.ltb_lt in H2.
  unfold store_d, clamp_signed, wrap_signed.
  change (2 ^ (32 - 1)) with 2147483648 in *.
  change (2 ^ (64 - 1)) with 9223372036854775808.
  change (2 ^ 32) with 4294967296.
  rewrite Z.min_r, Z.max_r by lia. rewrite Z.mod_small by lia. lia.
Qed.

Lemma in_signed_32 v : in_signed 32 v = true <-> - 2147483648 <= v < 2147483648.
Proof.
  unfold in_signed. change (2 ^ (32 - 1)) with 2147483648.
  rewrite andb_true_iff, Z.leb_le, Z.ltb_lt. reflexivity.
Qed.

Lemma free_of_app c s1 s2 : free_of c (s1 +:+ s2) = free_of c s1 && free_of c s2.
Proof.
  induction s1 as [|c1 s1 IH]; [reflexivity|].
  rewrite append_cons. cbn. rewrite IH. apply andb_assoc.
Qed.

Lemma free_of_digits c s :
  digit_val c = None -> all_digits s = true -> free_of c s = true.
Proof.
  intros Hc. induction s as [|c1 s IH]; cbn; [reflexivity|].
  destruct (digit_val c1) as [d|] eqn:Hc1; [|discriminate].
  intros Hs. rewrite (IH Hs), andb_true_r.
  apply negb_true_iff. rewrite Ascii.eqb_sym. eapply digit_not_char; eassumption.
Qed.

Lemma free_of_print_d v : - 10 ^ 20 < v < 10 ^ 20 -> free_of "." (print_d v) = true.
Proof.
  intros Hv. unfold print_d. destruct (Z.ltb_spec v 0).
  - cbn [free_of]. rewrite free_of_digits; [reflexivity|reflexivity|].
    apply dec_spec. lia.
  - apply free_of_digits; [reflexivity|]. apply dec_spec. lia.
Qed.

Lemma strstr_free s : free_of "." s = true -> strstr s ".." = false.
Proof.
  induction s as [|c s IH]; [reflexivity|].
  cbn [free_of]. intros H. apply andb_prop in H as [Hc Hs].
  apply negb_true_iff, Ascii.eqb_neq in Hc.
  cbn [strstr String.prefix]. destruct (ascii_dec "." c) as [E|_]; [contradiction|].
  apply IH, Hs.
Qed.

Lemma strstr_separator s1 s2 : strstr (s1 +:+ ".." +:+ s2) ".." = true.
Proof.
  induction s1 as [|c s1 IH].
  - destruct s2; reflexivity.
  - rewrite append_cons. cbn [strstr].
    destruct (String.prefix ".." (String c (s1 +:+ ".." +:+ s2))); [reflexivity|exact IH].
Qed.

Lemma scan_lit_eq c s : scan_lit c (String c s) = Some s.
Proof. unfold scan_lit. rewrite Ascii.eqb_refl. reflexivity. Qed.

Lemma sscanf_first_print f rest junk :
  in_signed 32 f = true -> starts_with_digit rest = false ->
  sscanf_first ("[" +:+ print_d f +:+ rest) junk = f.
Proof.
  intros Hf Hrest. pose proof (proj1 (in_signed_32 f) Hf) as Hr.
  unfold sscanf_first. rewrite append_cons, append_nil, scan_lit_eq.
  rewrite scan_signed_print by (lia || exact Hrest).
  apply store_d_id, Hf.
Qed.

Lemma sscanf_first_last_print f l rest junk1 junk2 :
  in_signed 32 f = true -> in_signed 32 l = true -> starts_with_digit rest = false ->
  sscanf_first_last ("[" +:+ print_d f +:+ ".." +:+ print_d l +:+ rest) junk1 junk2
  = (f, l).
Proof.
  intros Hf Hl Hrest.
  pose proof (proj1 (in_signed_32 f) Hf) as Hrf.
  pose proof (proj1 (in_signed_32 l) Hl) as Hrl.
  unfold sscanf_first_last. rewrite append_cons, append_nil, scan_lit_eq.
  rewrite scan_signed_print by (lia || reflexivity).
  rewrite !append_cons, append_nil, !scan_lit_eq.
  rewrite scan_signed_print by (lia || exact Hrest).
  rewrite !store_d_id by assumption. reflexivity.
Qed.

Lemma run_range_single f junk :
  in_signed 32 f = true ->
  run_range ("[" +:+ print_d f +:+ "]") junk = (f, f).
Proof.
  intros Hf. pose proof (proj1 (in_signed_32 f) Hf) as Hr.
  unfold run_range.
  rewrite strstr_free.
  2:{ rewrite !free_of_app, free_of_print_d by lia. reflexivity. }
  cbn [negb]. rewrite sscanf_first_print by (exact Hf || reflexivity). reflexivity.
Qed.

Lemma run_range_pair f l junk :
  in_signed 32 f = true -> in_signed 32 l = true ->
  run_range ("[" +:+ print_d f +:+ ".." +:+ print_d l +:+ "]") junk = (f, l).
Proof.
  intros Hf Hl. unfold run_range.
  change ("[" +:+ print_d f +:+ ".." +:+ print_d l +:+ "]")
    with (("[" +:+ print_d f) +:+ ".." +:+ (print_d l +:+ "]")) at 1.
  rewrite strstr_separator. cbn [negb].
  apply sscanf_first_last_print; (assumption || reflexivity).
Qed.

(** The tag of a run names its first and its last index. *)
Lemma run_range_tag index cnt junk :
  0 <= index -> 1 <= cnt -> index + cnt <= 2147483648 ->
  run_range (run_tag index cnt) junk = (index, index + cnt - 1).
Proof.
  intros Hi Hc Hmax. unfold run_tag.
  destruct (Z.leb_spec cnt 1).
  - replace (index + cnt - 1) with index by lia.
    apply run_range_single, in_signed_32. lia.
  - apply run_range_pair; apply in_signed_32; lia.
Qed.

End TagFacts.

(* --------------------------------------------------------------------- *)
(** ** Basic types *)
(* --------------------------------------------------------------------- *)

Module BasicFacts.
Import CText CTextFacts TagFacts.

Lemma append_empty s : s +:+ EmptyString = s.
Proof. induction s as [|c s IH]; [reflexivity|]. rewrite append_cons, IH. reflexivity. Qed.

Lemma scan_signed_print_all v :
  - 10 ^ 20 < v < 10 ^ 20 -> scan_signed (print_d v) = Some (v, EmptyString).
Proof.
  intros Hv. rewrite <- (append_empty (print_d v)) at 1.
  apply scan_signed_print; [exact Hv|reflexivity].
Qed.

Lemma Int_t_laws : SqlBasicLaws Z.
Proof.
  split.
  - intros x y. apply Z.eqb_eq.
  - intros v old Hv. cbn in *. unfold Int_scan.
    pose proof (proj1 (in_signed_32 v) Hv).
    rewrite scan_signed_print_all by lia. apply store_d_id, Hv.
Qed.

Lemma Bool_t_laws : SqlBasicLaws bool.
Proof.
  split.
  - intros x y. apply Bool.eqb_true_iff.
  - intros [|] old _; reflexivity.
Qed.

Lemma Char_t_laws n : @SqlBasicLaws ascii (Char_t_basic n).
Proof.
  split.
  - intros x y. apply Ascii.eqb_eq.
  - intros v old _.
    destruct v as [[] [] [] [] [] [] [] []]; vm_compute; reflexivity.
Qed.

End BasicFacts.

(* --------------------------------------------------------------------- *)
(** ** Arrays: the write path *)
(* --------------------------------------------------------------------- *)

Lemma nodes_added_nil b : nodes_added [] b = b.
Proof. destruct b. unfold nodes_added, set_fNodes. cbn. rewrite app_nil_r. reflexivity. Qed.

Lemma nodes_added_app l1 l2 b :
  nodes_added l2 (nodes_added l1 b) = nodes_added (l1 ++ l2) b.
Proof. unfold nodes_added, set_fNodes. cbn. rewrite app_assoc. reflexivity. Qed.

Lemma arr_get_nat {T : Type} (vname : list T) (i : nat) x b :
  vname !! i = Some x -> arr_get vname (Z.of_nat i) b = Some (x, b).
Proof.
  intros E. unfold arr_get.
  destruct (Z.ltb_spec (Z.of_nat i) 0); [lia|].
  rewrite Nat2Z.id, E. reflexivity.
Qed.

Lemma arr_set_nat {T : Type} (vname : list T) (i : nat) x b :
  (i < length vname)%nat ->
  arr_set vname (Z.of_nat i) x b = Some (<[i := x]> vname, b).
Proof.
  intros Hi. unfold arr_set.
  destruct (Z.leb_spec 0 (Z.of_nat i)); [|lia].
  destruct (Z.ltb_spec (Z.of_nat i) (Z.of_nat (length vname))); [|lia].
  cbn. rewrite Nat2Z.id. reflexivity.
Qed.

Lemma children_from_app nodes n j i :
  children_from (nodes ++ [n]) j i =
  children_from nodes j i
  ++ (if decide (fParent n = Some i) then [(j + length nodes)%nat] else []).
Proof.
  revert j. induction nodes as [|m nodes IH]; intros j; cbn.
  - rewrite Nat.add_0_r. destruct (decide (fParent n = Some i)); reflexivity.
  - rewrite IH. replace (S j + length nodes)%nat with (j + S (length nodes))%nat by lia.
    destruct (decide (fParent m = Some i)); reflexivity.
Qed.

Lemma last_children_added nodes n i :
  fParent n = Some i -> last (children (nodes ++ [n]) i) = Some (length nodes).
Proof.
  intros Hn. unfold children. rewrite children_from_app.
  destruct (decide (fParent n = Some i)); [|contradiction].
  rewrite last_snoc. reflexivity.
Qed.

Lemma ChildArrayIndex_added top value tname index cnt b :
  ChildArrayIndex top index cnt (value_added top value tname b) =
  Some (tt, nodes_added
              [{| fParent := Some top;
                  fKind := kSqlValue value tname (Some (index, cnt)) |}] b).
Proof.
  unfold ChildArrayIndex. cbn [bind get value_added set_fNodes fNodes].
  rewrite last_children_added by reflexivity.
  erewrite (bind_run (node_kind _)) by (apply node_kind_eq; cbn; apply lookup_at_end).
  cbn [fKind].
  erewrite set_node_kind_eq by (cbn; apply lookup_at_end).
  cbn. rewrite insert_at_end. reflexivity.
Qed.

Section ArrayFacts.
Context {T : Type} `{SqlBasic T} (laws : SqlBasicLaws T).

(** A value is written and given the index range of its run. *)
Lemma write_run {A : Type} (x : T) (index cnt : Z) (k : M A) b top :
  fStk b = Some top ->
  (SqlWriteBasic x;;; top <- Stack_top;; ChildArrayIndex top index cnt;;; k) b =
  k (nodes_added [{| fParent := Some top;
                     fKind := kSqlValue (sql_print x) sql_tname (Some (index, cnt)) |}] b).
Proof.
  intros Htop. unfold SqlWriteBasic.
  rewrite (bind_run _ _ _ _ _ (SqlWriteValue_eq _ _ b top Htop)).
  erewrite (bind_run Stack_top) by (apply Stack_top_eq; exact Htop).
  rewrite (bind_run _ _ _ _ _ (ChildArrayIndex_added top _ _ index cnt b)).
  reflexivity.
Qed.

Lemma sql_eqb_refl (x : T) : sql_eqb x x = true.
Proof. apply (sql_eqb_eq T laws). reflexivity. Qed.

Lemma sql_eqb_neq (x y : T) : x <> y -> sql_eqb x y = false.
Proof.
  intros Hne. destruct (sql_eqb x y) eqn:E; [|reflexivity].
  apply (sql_eqb_eq T laws) in E. contradiction.
Qed.

Lemma run_end_spec (arr : list T) (c : nat) (x : T) fuel (i : nat) b :
  arr !! c = Some x ->
  (i <= length arr)%nat -> (length arr - i <= fuel)%nat ->
  exists e : nat,
    run_end fuel arr (Z.of_nat (length arr)) (Z.of_nat c) (Z.of_nat i) b
    = Some (Z.of_nat e, b)
    /\ (i <= e <= length arr)%nat
    /\ (forall j, (i <= j < e)%nat -> arr !! j = Some x)
    /\ match arr !! e with
       | Some y => y <> x
       | None => True
       end.
Proof.
  intros Hc. revert i. induction fuel as [|fuel IH]; intros i Hi Hfuel.
  - assert (i = length arr) as -> by lia.
    exists (length arr). cbn [run_end]. rewrite Z.ltb_irrefl.
    split; [reflexivity|]. split; [lia|]. split; [intros; lia|].
    rewrite lookup_ge_None_2 by lia. exact I.
  - cbn [run_end]. destruct (Z.ltb_spec (Z.of_nat i) (Z.of_nat (length arr))) as [Hlt|Hge].
    + destruct (lookup_lt_is_Some_2 arr i) as [a Ha]; [lia|].
      rewrite (bind_run _ _ _ _ _ (arr_get_nat arr i a b Ha)).
      rewrite (bind_run _ _ _ _ _ (arr_get_nat arr c x b Hc)).
      destruct (sql_eqb a x) eqn:E.
      * apply (sql_eqb_eq T laws) in E. subst a.
        destruct (IH (S i)) as (e & Erun & Hrange & Hall & Hend); [lia|lia|].
        exists e. replace (Z.of_nat i + 1) with (Z.of_nat (S i)) by lia.
        split; [exact Erun|]. split; [lia|]. split; [|exact Hend].
        intros j Hj. destruct (decide (j = i)) as [->|]; [exact Ha|]. apply Hall. lia.
      * exists i. split; [reflexivity|]. split; [lia|]. split; [intros; lia|].
        rewrite Ha. intros ->. rewrite sql_eqb_refl in E. discriminate.
    + assert (i = length arr) as -> by lia.
      exists (length arr). split; [reflexivity|]. split; [lia|]. split; [intros; lia|].
      rewrite lookup_ge_None_2 by lia. exact I.
Qed.

End ArrayFacts.

Section RunFacts.
Context {T : Type} `{SqlBasic T} (laws : SqlBasicLaws T).

Lemma runs_from_head s (y : T) l :
  exists k runs, runs_from s (y :: l) = (y, s, k) :: runs.
Proof.
  cbn [runs_from]. destruct (runs_from (S s) l) as [|[[z s'] k'] runs].
  - eexists _, _. reflexivity.
  - destruct (sql_eqb y z); eexists _, _; reflexivity.
Qed.

(** A span of [k] equal values that the next value ends is one run. *)
Lemma runs_from_block (x : T) k rest s :
  (1 <= k)%nat ->
  match rest with
  | y :: _ => y <> x
  | [] => True
  end ->
  runs_from s (replicate k x ++ rest) = (x, s, k) :: runs_from (s + k) rest.
Proof.
  intros Hk Hrest. revert s.
  induction k as [|k IH]; intros s; [lia|].
  cbn [replicate app runs_from].
  destruct k as [|k].
  - cbn [replicate app]. rewrite Nat.add_1_r.
    destruct rest as [|y rest]; [reflexivity|].
    destruct (runs_from_head (S s) y rest) as (k' & runs & E). rewrite E.
    rewrite (sql_eqb_neq laws x y) by (intros ->; contradiction). reflexivity.
  - rewrite IH by lia. rewrite (sql_eqb_refl laws).
    replace (S s + S k)%nat with (s + S (S k))%nat by lia. reflexivity.
Qed.

Lemma take_all_equal (l : list T) k x :
  (k <= length l)%nat -> (forall j, (j < k)%nat -> l !! j = Some x) ->
  take k l = replicate k x.
Proof.
  revert l. induction k as [|k IH]; intros l Hk Hall; [reflexivity|].
  destruct l as [|a l]; [cbn in Hk; lia|].
  cbn. f_equal.
  - specialize (Hall O ltac:(lia)). cbn in Hall. congruence.
  - apply IH; [cbn in Hk; lia|]. intros j Hj. apply (Hall (S j)). lia.
Qed.

Lemma drop_block (arr : list T) i e x :
  (i <= e <= length arr)%nat ->
  (forall j, (i <= j < e)%nat -> arr !! j = Some x) ->
  drop i arr = replicate (e - i) x ++ drop e arr.
Proof.
  intros Hie Hall.
  rewrite <- (take_drop (e - i) (drop i arr)). f_equal.
  - apply take_all_equal; [rewrite length_drop; lia|].
    intros j Hj. rewrite lookup_drop. apply Hall. lia.
  - rewrite drop_drop. f_equal. lia.
Qed.

Lemma SQLWriteArrayCompress_from_spec (arr : list T) top fuel (i : nat) b :
  fStk b = Some top ->
  (i <= length arr)%nat -> (length arr - i <= fuel)%nat ->
  SQLWriteArrayCompress_from fuel arr (Z.of_nat (length arr)) (Z.of_nat i) b =
  Some (tt, nodes_added (map (run_node top) (runs_from i (drop i arr))) b).
Proof.
  revert i b. induction fuel as [|fuel IH]; intros i b Htop Hi Hfuel.
  - assert (i = length arr) as -> by lia.
    cbn [SQLWriteArrayCompress_from]. rewrite Z.ltb_irrefl.
    rewrite drop_all. cbn. rewrite nodes_added_nil. reflexivity.
  - cbn [SQLWriteArrayCompress_from].
    destruct (Z.ltb_spec (Z.of_nat i) (Z.of_nat (length arr))) as [Hlt|Hge].
    + destruct (lookup_lt_is_Some_2 arr i) as [x Hx]; [lia|].
      replace (Z.of_nat i + 1) with (Z.of_nat (S i)) by lia.
      destruct (run_end_spec laws arr i x (Z.to_nat (Z.of_nat (length arr))) (S i) b Hx)
        as (e & Erun & Hrange & Hall & Hend); [lia|lia|].
      rewrite (bind_run _ _ _ _ _ Erun).
      rewrite (bind_run _ _ _ _ _ (arr_get_nat arr i x b Hx)).
      rewrite (write_run x _ _ _ b top Htop).
      rewrite IH by (cbn; assumption || lia).
      rewrite nodes_added_app. f_equal. f_equal. f_equal.
      rewrite (drop_block arr i e x) by
        (lia || (intros j Hj; destruct (decide (j = i)) as [->|]; [exact Hx|apply Hall; lia])).
      rewrite runs_from_block.
      * cbn [map run_node]. replace (Z.of_nat e - Z.of_nat i) with (Z.of_nat (e - i)) by lia.
        replace (i + (e - i))%nat with e by lia. reflexivity.
      * lia.
      * destruct (drop e arr) as [|y rest] eqn:Hdrop; [exact I|].
        assert (arr !! e = Some y) as Hy.
        { rewrite <- (Nat.add_0_r e), <- lookup_drop, Hdrop. reflexivity. }
        rewrite Hy in Hend. exact Hend.
    + assert (i = length arr) as -> by lia.
      rewrite drop_all. cbn. rewrite nodes_added_nil. reflexivity.
Qed.

Lemma singles_from_snoc (arr : list T) i x :
  arr !! i = Some x ->
  singles_from i (drop i arr) = (x, i, 1%nat) :: singles_from (S i) (drop (S i) arr).
Proof.
  intros Hx. rewrite (drop_S arr x i Hx). reflexivity.
Qed.

Lemma SQLWriteArrayNoncompress_from_spec (arr : list T) top fuel (i : nat) b :
  fStk b = Some top ->
  (i <= length arr)%nat -> (length arr - i <= fuel)%nat ->
  SQLWriteArrayNoncompress_from fuel arr (Z.of_nat (length arr)) (Z.of_nat i) b =
  Some (tt, nodes_added (map (run_node top) (singles_from i (drop i arr))) b).
Proof.
  revert i b. induction fuel as [|fuel IH]; intros i b Htop Hi Hfuel.
  - assert (i = length arr) as -> by lia.
    cbn [SQLWriteArrayNoncompress_from]. rewrite Z.ltb_irrefl.
    rewrite drop_all. cbn. rewrite nodes_added_nil. reflexivity.
  - cbn [SQLWriteArrayNoncompress_from].
    destruct (Z.ltb_spec (Z.of_nat i) (Z.of_nat (length arr))) as [Hlt|Hge].
    + destruct (lookup_lt_is_Some_2 arr i) as [x Hx]; [lia|].
      rewrite (bind_run _ _ _ _ _ (arr_get_nat arr i x b Hx)).
      rewrite (write_run x _ _ _ b top Htop).
      replace (Z.of_nat i + 1) with (Z.of_nat (S i)) by lia.
      rewrite IH by (cbn; assumption || lia).
      rewrite nodes_added_app. rewrite (singles_from_snoc arr i x Hx). reflexivity.
    + assert (i = length arr) as -> by lia.
      rewrite drop_all. cbn. rewrite nodes_added_nil. reflexivity.
Qed.

End RunFacts.
Section RunProperties.
Context {T : Type} `{SqlBasic T} (laws : SqlBasicLaws T).

Lemma runs_from_expand s (arr : list T) : expand (runs_from s arr) = arr.
Proof.
  revert s. induction arr as [|x arr IH]; intros s; [reflexivity|].
  cbn [runs_from]. specialize (IH (S s)).
  destruct (runs_from (S s) arr) as [|[[y s'] k] runs].
  - cbn in *. subst. reflexivity.
  - destruct (sql_eqb x y) eqn:E.
    + apply (sql_eqb_eq T laws) in E. subst y. cbn in *. rewrite IH. reflexivity.
    + cbn in *. rewrite IH. reflexivity.
Qed.

Lemma runs_from_chained s (arr : list T) : chained s (runs_from s arr).
Proof.
  revert s. induction arr as [|x arr IH]; intros s; [exact I|].
  cbn [runs_from]. specialize (IH (S s)).
  destruct (runs_from (S s) arr) as [|[[y s'] k] runs].
  - cbn. repeat split; lia.
  - destruct IH as (Hs & Hk & Hc). destruct (sql_eqb x y).
    + cbn. split; [reflexivity|]. split; [lia|].
      replace (s + S k)%nat with (S s + k)%nat by lia. exact Hc.
    + cbn. split; [reflexivity|]. split; [lia|]. split; [lia|]. split; [lia|].
      replace (s + 1 + k)%nat with (S s + k)%nat by lia. exact Hc.
Qed.

Lemma runs_from_maximal s (arr : list T) : maximal (runs_from s arr).
Proof.
  revert s. induction arr as [|x arr IH]; intros s; [exact I|].
  cbn [runs_from]. specialize (IH (S s)).
  destruct (runs_from (S s) arr) as [|[[y s'] k] runs].
  - cbn. split; exact I.
  - destruct (sql_eqb x y) eqn:E.
    + apply (sql_eqb_eq T laws) in E. subst y. exact IH.
    + split; [|exact IH]. intros ->. rewrite (sql_eqb_refl laws) in E. discriminate.
Qed.

Lemma singles_from_expand s (arr : list T) : expand (singles_from s arr) = arr.
Proof.
  revert s. induction arr as [|x arr IH]; intros s; [reflexivity|].
  cbn. rewrite IH. reflexivity.
Qed.

Lemma singles_from_chained s (arr : list T) : chained s (singles_from s arr).
Proof.
  revert s. induction arr as [|x arr IH]; intros s; [exact I|].
  cbn. split; [reflexivity|]. split; [lia|]. rewrite Nat.add_1_r. apply IH.
Qed.

Lemma singles_from_length s (arr : list T) : length (singles_from s arr) = length arr.
Proof.
  revert s. induction arr as [|x arr IH]; intros s; [reflexivity|].
  cbn. rewrite IH. reflexivity.
Qed.

Lemma SQLWriteArrayContent_spec (arr : list T) withsize b :
  SQLWriteArrayContent arr (Z.of_nat (length arr)) withsize b =
  Some (tt, array_written (if withsize then Z.of_nat (length arr) else -1)
              (if fCompressLevel b >? 0 then runs_from 0 arr else singles_from 0 arr) b).
Proof.
  unfold SQLWriteArrayContent.
  rewrite (bind_run _ _ _ _ _ (PushStack_eq b)).
  unfold SetArray.
  erewrite (bind_run (set_node_kind _ _))
    by (apply set_node_kind_eq; cbn; apply lookup_at_end).
  cbn [bind get]. change (fNodes (pushed b)) with (fNodes b ++ [new_TSQLStructure (fStk b)]).
  rewrite insert_at_end.
  change (fCompressLevel (set_fNodes _ (pushed b))) with (fCompressLevel b).
  set (sz := if withsize then Z.of_nat (length arr) else -1).
  set (b1 := set_fNodes _ _).
  assert (Htop : fStk b1 = Some (length (fNodes b))) by reflexivity.
  set (runs := if fCompressLevel b >? 0 then runs_from 0 arr else singles_from 0 arr).
  assert (Eloop :
    (if fCompressLevel b >? 0 then SQLWriteArrayCompress arr (Z.of_nat (length arr))
     else SQLWriteArrayNoncompress arr (Z.of_nat (length arr))) b1 =
    Some (tt, nodes_added (map (run_node (length (fNodes b))) runs) b1)).
  { subst runs. destruct (fCompressLevel b >? 0).
    - unfold SQLWriteArrayCompress.
      rewrite (SQLWriteArrayCompress_from_spec laws arr (length (fNodes b)) _ O b1 Htop)
        by lia. reflexivity.
    - unfold SQLWriteArrayNoncompress.
      rewrite (SQLWriteArrayNoncompress_from_spec arr (length (fNodes b)) _ O b1 Htop)
        by lia. reflexivity. }
  rewrite (bind_run _ _ _ _ _ Eloop).
  erewrite (bind_run PopStack).
  2:{ eapply PopStack_eq; [reflexivity|]. subst b1. cbn.
      rewrite <- app_assoc. apply list_lookup_middle. reflexivity. }
  subst b1. unfold array_written, nodes_added. cbn. rewrite <- app_assoc. reflexivity.
Qed.

End RunProperties.
(* --------------------------------------------------------------------- *)
(** ** Arrays: the read path *)
(* --------------------------------------------------------------------- *)

Lemma bind_ext {A B : Type} (m : M A) (k1 k2 : A -> M B) b :
  (forall a b1, k1 a b1 = k2 a b1) -> bind m k1 b = bind m k2 b.
Proof.
  intros Hk. unfold bind. destruct (m b) as [[a b1]|]; [apply Hk|reflexivity].
Qed.

Lemma values_read_fields n d b :
  fStk (values_read n d b) = fStk b
  /\ fNodes (values_read n d b) = fNodes b
  /\ fErrorFlag (values_read n d b) = fErrorFlag b
  /\ fStructure (values_read n d b) = fStructure b
  /\ fIgnoreVerification (values_read n d b) = fIgnoreVerification b.
Proof.
  revert d b. induction n as [|n IH]; intros d b; [repeat split|].
  cbn [values_read]. destruct (IH (ShiftToNextValue d) (value_taken d b))
    as (H1 & H2 & H3 & H4 & H5).
  rewrite H1, H2, H3, H4, H5. repeat split.
Qed.

Lemma values_read_data n d b :
  fCurrentData b = Some d ->
  fCurrentData (values_read n d b) = Some (values_taken n d).
Proof.
  revert d b. induction n as [|n IH]; intros d b Hd; [exact Hd|].
  cbn [values_read values_taken]. apply IH. reflexivity.
Qed.

Section ReadFacts.
Context {T : Type} `{SqlBasic T} (laws : SqlBasicLaws T).

Lemma fill_run_length (v : list T) first last x :
  (first <= last < length v)%nat -> length (fill_run v first last x) = length v.
Proof.
  intros Hr. unfold fill_run.
  rewrite !length_app, length_take, length_replicate, length_drop. lia.
Qed.

Lemma replicate_run_spec (x : T) (first last : nat) fuel (v : list T) (i : nat) b :
  v !! first = Some x ->
  (first < i <= last + 1)%nat -> (last < length v)%nat -> (last + 1 - i <= fuel)%nat ->
  replicate_run fuel v (Z.of_nat first) (Z.of_nat last) (Z.of_nat i) b =
  Some ((take i v ++ replicate (last + 1 - i) x ++ drop (last + 1) v,
         Z.of_nat (last + 1)), b).
Proof.
  revert v i. induction fuel as [|fuel IH]; intros v i Hx Hi Hlast Hfuel.
  - assert (i = last + 1)%nat as -> by lia.
    cbn [replicate_run]. destruct (Z.leb_spec (Z.of_nat (last + 1)) (Z.of_nat last)); [lia|].
    rewrite Nat.sub_diag. cbn. rewrite take_drop. reflexivity.
  - cbn [replicate_run]. destruct (Z.leb_spec (Z.of_nat i) (Z.of_nat last)) as [Hle|Hgt].
    + rewrite (bind_run _ _ _ _ _ (arr_get_nat v first x b Hx)).
      rewrite (bind_run _ _ _ _ _ (arr_set_nat v i x b ltac:(lia))).
      replace (Z.of_nat i + 1) with (Z.of_nat (S i)) by lia.
      rewrite IH;
        [|rewrite list_lookup_insert_ne by lia; exact Hx|lia
         |rewrite length_insert; lia|lia].
      f_equal. f_equal. f_equal.
      rewrite (take_S_r _ i x) by (apply list_lookup_insert_eq; lia).
      rewrite take_insert_ge by lia. rewrite drop_insert_lt by lia.
      replace (last + 1 - i)%nat with (S (last + 1 - S i)) by lia.
      cbn. rewrite <- app_assoc. reflexivity.
    + assert (i = last + 1)%nat as -> by lia.
      rewrite Nat.sub_diag. cbn. rewrite take_drop. reflexivity.
Qed.

(** A run whose tag starts at the cursor and ends inside the array: one
    value is read and given to every element of the run. *)
Lemma SQLReadArrayCompress_valid junk fuel (v : list T) (n i last : nat) old b d name :
  length v = n ->
  fCurrentData b = Some d ->
  GetBlobPrefixName d = Some name ->
  run_range name (junk (Z.of_nat i)) = (Z.of_nat i, Z.of_nat last) ->
  (i <= last < n)%nat ->
  v !! i = Some old ->
  SQLReadArrayCompress junk (S fuel) v (Z.of_nat n) (Z.of_nat i) b =
  (x <- SqlReadBasic old;;
   SQLReadArrayCompress junk fuel (fill_run v i last x) (Z.of_nat n)
     (Z.of_nat (last + 1))) b.
Proof.
  intros <- Hd Hname Hrange Hi Hold.
  cbn [SQLReadArrayCompress].
  destruct (Z.ltb_spec (Z.of_nat i) (Z.of_nat (length v))); [|lia].
  cbn [bind get]. rewrite Hd. cbn [deref bind ret]. rewrite Hname. cbn [deref bind ret].
  rewrite Hrange.
  rewrite Z.eqb_refl.
  destruct (Z.ltb_spec (Z.of_nat last) (Z.of_nat i)); [lia|].
  rewrite geb_false by lia. cbn [negb orb].
  rewrite (bind_run _ _ _ _ _ (arr_get_nat v i old b Hold)).
  apply bind_ext. intros x b1.
  rewrite (bind_run _ _ _ _ _ (arr_set_nat v i x b1 ltac:(lia))).
  replace (Z.of_nat i + 1) with (Z.of_nat (S i)) by lia.
  erewrite (bind_run (replicate_run _ _ _ _ _)).
  2:{ apply (replicate_run_spec x);
        [apply list_lookup_insert_eq; lia|lia|rewrite length_insert; lia|lia]. }
  cbn [fst snd]. f_equal.
  unfold fill_run.
  rewrite (take_S_r _ i x) by (apply list_lookup_insert_eq; lia).
  rewrite take_insert_ge by lia. rewrite drop_insert_lt by lia.
  replace (last + 1 - i)%nat with (S (last + 1 - S i)) by lia.
  cbn. rewrite <- app_assoc. reflexivity.
Qed.

(** A run whose tag does not start at the cursor, ends before it starts or
    ends outside the array: the flag is set, the error is reported, and the
    loop is left with the array and the data as they are. *)
Lemma SQLReadArrayCompress_violation junk fuel (v : list T) arrsize indx b d name :
  fCurrentData b = Some d ->
  GetBlobPrefixName d = Some name ->
  indx < arrsize ->
  (let (first, last) := run_range name (junk indx) in
   first <> indx \/ last < first \/ last >= arrsize) ->
  SQLReadArrayCompress junk (S fuel) v arrsize indx b =
  Some ((v, indx),
        set_fErrorFlag 1
          (set_fReports (fReports b ++ [("SQLReadArrayCompress",
                                         "Error reading array content " +:+ name)]) b)).
Proof.
  intros Hd Hname Hi Hbad.
  cbn [SQLReadArrayCompress].
  destruct (Z.ltb_spec indx arrsize); [|lia].
  cbn [bind get]. rewrite Hd. cbn [deref bind ret]. rewrite Hname. cbn [deref bind ret].
  destruct (run_range name (junk indx)) as [first last].
  replace (negb (first =? indx) || (last <? first) || (last >=? arrsize)) with true;
    [reflexivity|].
  symmetry. destruct Hbad as [Hbad|[Hbad|Hbad]].
  - apply Z.eqb_neq in Hbad. rewrite Hbad. reflexivity.
  - apply Z.ltb_lt in Hbad. rewrite Hbad. apply orb_true_iff. left. apply orb_true_r.
  - rewrite geb_true by lia. apply orb_true_r.
Qed.

End ReadFacts.
Section ReadRuns.
Context {T : Type} `{SqlBasic T} (laws : SqlBasicLaws T).
Import CText TagFacts.

Lemma SqlReadBasic_run (x : T) s k old b d rest :
  sql_valid x = true ->
  fErrorFlag b <= 0 -> fCurrentData b = Some d ->
  od_items d = item_of_run (x, s, k) :: rest ->
  SqlReadBasic old b = Some (x, value_taken d b).
Proof.
  intros Hx Hf Hd Hitems.
  rewrite (SqlReadBasic_taken old b d Hf Hd).
  - unfold GetValue. rewrite Hitems. cbn.
    rewrite (sql_scan_print T laws) by exact Hx. reflexivity.
  - right. unfold VerifyDataType. rewrite Hitems. cbn. apply String.eqb_refl.
Qed.

(** Reading runs that follow each other up to the end of the array gives
    the elements the runs stand for. *)
Lemma SQLReadArrayCompress_runs junk rest n (runs : list (T * nat * nat)) :
  forall s (v : list T) fuel b d,
    chained s runs ->
    length v = n -> n = (s + length (expand runs))%nat ->
    Z.of_nat n < 2147483648 ->
    Forall (fun x => sql_valid x = true) (expand runs) ->
    fErrorFlag b <= 0 -> fCurrentData b = Some d ->
    od_items d = map item_of_run runs ++ rest ->
    (length runs <= fuel)%nat ->
    SQLReadArrayCompress junk fuel v (Z.of_nat n) (Z.of_nat s) b =
    Some ((take s v ++ expand runs, Z.of_nat n), values_read (length runs) d b).
Proof.
  induction runs as [|[[x s'] k] runs IH];
    intros s v fuel b d Hchain Hv Hn Hmax Hvalid Hf Hd Hitems Hfuel.
  - cbn in Hn. rewrite Nat.add_0_r in Hn. subst s.
    destruct fuel; cbn [SQLReadArrayCompress]; rewrite Z.ltb_irrefl;
      cbn; rewrite app_nil_r, take_ge by lia; reflexivity.
  - destruct Hchain as (-> & Hk & Hchain).
    cbn [expand] in Hn, Hvalid. rewrite length_app, length_replicate in Hn.
    destruct fuel as [|fuel]; [cbn in Hfuel; lia|].
    destruct (lookup_lt_is_Some_2 v s) as [old Hold]; [lia|].
    assert (Hx : sql_valid x = true).
    { destruct k as [|k]; [lia|]. cbn in Hvalid. inversion Hvalid; assumption. }
    rewrite (SQLReadArrayCompress_valid junk fuel v n s (s + k - 1) old b d
               (run_tag (Z.of_nat s) (Z.of_nat k)) Hv Hd).
    + rewrite (bind_run _ _ _ _ _
                 (SqlReadBasic_run x s k old b d (map item_of_run runs ++ rest)
                    Hx Hf Hd Hitems)).
      replace (s + k - 1 + 1)%nat with (s + k)%nat by lia.
      rewrite (IH (s + k)%nat _ fuel (value_taken d b) (ShiftToNextValue d)).
      * cbn [length values_read]. f_equal. f_equal. f_equal.
        unfold fill_run.
        replace (s + k - 1 + 1 - s)%nat with k by lia.
        rewrite app_assoc.
        rewrite take_app_length' by (rewrite length_app, length_take, length_replicate; lia).
        rewrite <- app_assoc. reflexivity.
      * exact Hchain.
      * rewrite fill_run_length by lia. exact Hv.
      * lia.
      * exact Hmax.
      * apply Forall_app in Hvalid. apply Hvalid.
      * exact Hf.
      * reflexivity.
      * cbn. rewrite Hitems. reflexivity.
      * cbn in Hfuel. lia.
    + unfold GetBlobPrefixName. rewrite Hitems. reflexivity.
    + rewrite run_range_tag by lia. f_equal. lia.
    + lia.
    + exact Hold.
Qed.

(** Reading one value for each element gives the elements. *)
Lemma SQLReadArrayUncompress_spec rest n (arr : list T) :
  forall s (v : list T) fuel b d,
    length v = n -> n = (s + length arr)%nat ->
    Forall (fun x => sql_valid x = true) arr ->
    fErrorFlag b <= 0 -> fCurrentData b = Some d ->
    od_items d = map item_of_run (singles_from s arr) ++ rest ->
    (length arr <= fuel)%nat ->
    SQLReadArrayUncompress fuel v (Z.of_nat n) (Z.of_nat s) b =
    Some ((take s v ++ arr, Z.of_nat n), values_read (length arr) d b).
Proof.
  induction arr as [|x arr IH]; intros s v fuel b d Hv Hn Hvalid Hf Hd Hitems Hfuel.
  - cbn in Hn. rewrite Nat.add_0_r in Hn. subst s.
    destruct fuel; cbn [SQLReadArrayUncompress]; rewrite Z.ltb_irrefl;
      cbn; rewrite app_nil_r, take_ge by lia; reflexivity.
  - cbn [length] in Hn, Hfuel.
    destruct fuel as [|fuel]; [lia|].
    destruct (lookup_lt_is_Some_2 v s) as [old Hold]; [lia|].
    cbn [SQLReadArrayUncompress].
    destruct (Z.ltb_spec (Z.of_nat s) (Z.of_nat n)); [|lia].
    rewrite (bind_run _ _ _ _ _ (arr_get_nat v s old b Hold)).
    cbn [singles_from map app] in Hitems.
    inversion Hvalid as [|? ? Hx Hvalid']; subst.
    rewrite (bind_run _ _ _ _ _
               (SqlReadBasic_run x s 1 old b d _ Hx Hf Hd Hitems)).
    rewrite (bind_run _ _ _ _ _ (arr_set_nat v s x _ ltac:(lia))).
    replace (Z.of_nat s + 1) with (Z.of_nat (S s)) by lia.
    rewrite (IH (S s) _ fuel (value_taken d b) (ShiftToNextValue d)).
    + cbn [length values_read]. f_equal. f_equal. f_equal.
      rewrite (take_S_r _ s x) by (apply list_lookup_insert_eq; lia).
      rewrite take_insert_ge by lia. rewrite <- app_assoc. reflexivity.
    + rewrite length_insert. reflexivity.
    + lia.
    + exact Hvalid'.
    + exact Hf.
    + reflexivity.
    + cbn. rewrite Hitems. reflexivity.
    + lia.
Qed.

End ReadRuns.
Section ReadContent.
Context {T : Type} `{SqlBasic T} (laws : SqlBasicLaws T).

Lemma chained_length s (runs : list (T * nat * nat)) :
  chained s runs -> (length runs <= length (expand runs))%nat.
Proof.
  revert s. induction runs as [|[[x s'] k] runs IH]; intros s Hc; [cbn; lia|].
  destruct Hc as (_ & Hk & Hc). cbn. rewrite length_app, length_replicate.
  specialize (IH _ Hc). lia.
Qed.

(** [SQLReadArrayContent] on data that holds a list of runs (in blob data),
    or one value for each element (in column data). *)
Lemma SQLReadArrayContent_runs junk rest (runs : list (T * nat * nat)) (arr v : list T)
    withsize b d :
  chained 0 runs -> expand runs = arr ->
  length v = length arr ->
  Z.of_nat (length arr) < 2147483648 ->
  Forall (fun x => sql_valid x = true) arr ->
  fErrorFlag b <= 0 -> fCurrentData b = Some d ->
  od_items d = map item_of_run runs ++ rest ->
  IsBlobData d = true \/ runs = singles_from 0 arr ->
  exists b',
    SQLReadArrayContent junk v (Z.of_nat (length arr)) withsize b = Some (arr, b')
    /\ fErrorFlag b' = fErrorFlag b
    /\ fCurrentData b' = Some (values_taken (length runs) d)
    /\ fStk b' = fStk b.
Proof.
  intros Hchain Hexp Hv Hmax Hvalid Hf Hd Hitems Hblob.
  unfold SQLReadArrayContent.
  rewrite (bind_run _ _ _ _ _ (PushStack_eq b)).
  unfold SetArray.
  erewrite (bind_run (set_node_kind _ _))
    by (apply set_node_kind_eq; cbn; apply lookup_at_end).
  cbn [bind get].
  set (b1 := set_fNodes _ (pushed b)).
  change (fCurrentData b1) with (fCurrentData b). rewrite Hd. cbn [deref bind ret].
  assert (Eloop :
    (if IsBlobData d
     then SQLReadArrayCompress junk (Z.to_nat (Z.of_nat (length arr))) v
            (Z.of_nat (length arr)) 0
     else SQLReadArrayUncompress (Z.to_nat (Z.of_nat (length arr))) v
            (Z.of_nat (length arr)) 0) b1 =
    Some ((arr, Z.of_nat (length arr)), values_read (length runs) d b1)).
  { rewrite Nat2Z.id.
    assert (Ecompress :
      SQLReadArrayCompress junk (length arr) v (Z.of_nat (length arr)) 0 b1 =
      Some ((arr, Z.of_nat (length arr)), values_read (length runs) d b1)).
    { pose proof (SQLReadArrayCompress_runs laws junk rest (length arr) runs 0%nat v
                    (length arr) b1 d Hchain Hv) as E.
      rewrite Hexp in E. change (Z.of_nat 0) with 0 in E. cbn [take app] in E.
      apply E; [reflexivity|exact Hmax|exact Hvalid|exact Hf|exact Hd|exact Hitems|].
      rewrite <- Hexp. apply (chained_length 0%nat), Hchain. }
    destruct (IsBlobData d) eqn:Hb; [exact Ecompress|].
    destruct Hblob as [Hblob|Hsingles]; [discriminate|].
    subst runs. rewrite singles_from_length.
    pose proof (SQLReadArrayUncompress_spec laws rest (length arr) arr 0%nat v (length arr)
                  b1 d Hv eq_refl Hvalid Hf Hd Hitems) as E.
    change (Z.of_nat 0) with 0 in E. cbn [take app] in E. apply E. lia. }
  rewrite (bind_run _ _ _ _ _ Eloop).
  destruct (values_read_fields (length runs) d b1) as (Hstk & Hnodes & Hflag & _).
  erewrite (bind_run PopStack).
  2:{ eapply PopStack_eq; [rewrite Hstk; reflexivity|].
      rewrite Hnodes. subst b1. cbn. rewrite insert_at_end. apply lookup_at_end. }
  cbn. eexists. split; [reflexivity|]. cbn. split; [exact Hflag|].
  split; [|reflexivity]. apply values_read_data. exact Hd.
Qed.

End ReadContent.



(** C1 does not hold for [Double_t] (nor for [Float_t]): the text written
    under "%e" keeps seven digits.  The array [12345678, 12345678, 3],
    written with compression level 1, gives the run ("1.234568e+07", 0, 2)
    and the run ("3.000000e+00", 2, 1); reading the two runs back gives the
    array [12345680, 12345680, 3], which is not the array written.  With
    level 0 the three values written give the same array. *)
Lemma double_array_is_not_read_back :
  let written := CFloat.of_Z CFloat.binary64 12345678 in
  let read := CFloat.of_Z CFloat.binary64 12345680 in
  let three := CFloat.of_Z CFloat.binary64 3 in
  let arr := [written; written; three] in
  let items level :=
    map (@item_of_run _ Double_t_basic) (@written_runs _ Double_t_basic level arr) in
  let d level :=
    {| od_info := None; od_objid := 1; od_classdata := None; od_classrow := None;
       od_blobdata := None; od_blobstmt := None; od_isblob := true;
       od_items := items level |} in
  let wb level := set_fCompressLevel level (TBufferSQL2_new kWrite None 0) in
  let rb level := set_fCurrentData (Some (d level)) (TBufferSQL2_new kRead None 0) in
  forallb (@sql_valid _ Double_t_basic) arr = true
  /\ @SQLWriteArrayContent _ Double_t_basic arr 3 false (wb 1)
     = Some (tt, @array_written _ Double_t_basic (-1)
                   [(written, 0%nat, 2%nat); (three, 2%nat, 1%nat)] (wb 1))
  /\ items 1
     = [ {| it_name := "[0..1]"; it_type := sqlio.Double; it_value := Some "1.234568e+07" |};
         {| it_name := "[2]"; it_type := sqlio.Double; it_value := Some "3.000000e+00" |} ]
  /\ (exists rb',
        @SQLReadArrayContent _ Double_t_basic (fun _ => (0, 0)) [three; three; three] 3
          false (rb 1)
        = Some ([read; read; three], rb') /\ fErrorFlag rb' = 0)
  /\ @SQLWriteArrayContent _ Double_t_basic arr 3 false (wb 0)
     = Some (tt, @array_written _ Double_t_basic (-1)
                   [(written, 0%nat, 1%nat); (written, 1%nat, 1%nat); (three, 2%nat, 1%nat)]
                   (wb 0))
  /\ (exists rb',
        @SQLReadArrayContent _ Double_t_basic (fun _ => (0, 0)) [three; three; three] 3
          false (rb 0)
        = Some ([read; read; three], rb') /\ fErrorFlag rb' = 0)
  /\ [read; read; three] <> arr
  /\ @sql_eqb _ Double_t_basic read written = false.
Proof.
  cbv zeta.
  split; [vm_compute; reflexivity|].
  split; [vm_compute; reflexivity|].
  split; [vm_compute; reflexivity|].
  split; [eexists; split; [vm_compute; reflexivity|reflexivity]|].
  split; [vm_compute; reflexivity|].
  split; [eexists; split; [vm_compute; reflexivity|reflexivity]|].
  split; [vm_compute; discriminate|vm_compute; reflexivity].
Qed.

(* --------------------------------------------------------------------- *)
(** ** Character arrays *)
(* --------------------------------------------------------------------- *)

Lemma has_zero_from_spec (c : list ascii) fuel (i : nat) b :
  (i <= length c)%nat -> (length c - i <= fuel)%nat ->
  has_zero_from fuel c (Z.of_nat (length c)) (Z.of_nat i) b
  = Some (negb (no_zero (drop i c)), b).
Proof.
  revert i. induction fuel as [|fuel IH]; intros i Hi Hfuel.
  - assert (i = length c) as -> by lia.
    cbn [has_zero_from]. rewrite Z.ltb_irrefl, drop_all. reflexivity.
  - cbn [has_zero_from].
    destruct (Z.ltb_spec (Z.of_nat i) (Z.of_nat (length c))) as [Hlt|Hge].
    + destruct (lookup_lt_is_Some_2 c i) as [x Hx]; [lia|].
      rewrite (bind_run _ _ _ _ _ (arr_get_nat c i x b Hx)).
      rewrite (drop_S c x i Hx). unfold no_zero. cbn [forallb].
      destruct (Ascii.eqb x zero); [reflexivity|].
      replace (Z.of_nat i + 1) with (Z.of_nat (S i)) by lia.
      rewrite IH by lia. reflexivity.
    + assert (i = length c) as -> by lia. rewrite drop_all. reflexivity.
Qed.

Lemma c_string_no_zero (c : list ascii) :
  no_zero c = true -> CText.c_string (c ++ [zero]) = Some (string_of_list_ascii c).
Proof.
  induction c as [|x c IH]; [reflexivity|].
  unfold no_zero. cbn [forallb]. intros Hc. apply andb_prop in Hc as [Hx Hc].
  apply negb_true_iff in Hx. cbn. rewrite Hx. rewrite (IH Hc). reflexivity.
Qed.

Lemma string_of_list_ascii_length (c : list ascii) :
  String.length (string_of_list_ascii c) = length c.
Proof. induction c as [|x c IH]; [reflexivity|]. cbn. rewrite IH. reflexivity. Qed.

Lemma memcpy_eq (dst src : list ascii) (size : nat) b :
  (size <= length src)%nat -> (size <= length dst)%nat ->
  memcpy dst src (Z.of_nat size) b = Some (take size src ++ drop size dst, b).
Proof.
  intros Hs Hd. unfold memcpy.
  destruct (Z.leb_spec 0 (Z.of_nat size)); [|lia].
  destruct (Z.leb_spec (Z.of_nat size) (Z.of_nat (length src))); [|lia].
  destruct (Z.leb_spec (Z.of_nat size) (Z.of_nat (length dst))); [|lia].
  cbn. rewrite Nat2Z.id. reflexivity.
Qed.

Section CharArrayFacts.
Variable WorkWithElement_reading : M unit.
Variable Char_local : Z.

(** An array without zero, outside a chain, is written as one string. *)
Lemma WriteFastArray_Char_string (c : list ascii) b top :
  (1 <= length c)%nat -> no_zero c = true ->
  fExpectedChain b = false -> fStk b = Some top ->
  WriteFastArray_Char WorkWithElement_reading Char_local c (Z.of_nat (length c)) b
  = Some (tt, value_added top (string_of_list_ascii c) sqlio.CharStar b).
Proof.
  intros Hn Hc Hchain Htop. unfold WriteFastArray_Char. cbn [bind get].
  rewrite Hchain. destruct (Z.eqb_spec (Z.of_nat (length c)) 0); [lia|]. cbn [orb].
  rewrite Nat2Z.id.
  pose proof (has_zero_from_spec c (length c) O b (Nat.le_0_l _)
                (Nat.le_sub_l _ _)) as Hscan.
  change (Z.of_nat 0) with 0 in Hscan. rewrite drop_0 in Hscan.
  rewrite (bind_run _ _ _ _ _ Hscan). rewrite Hc. cbn [negb].
  replace (Z.of_nat (length c) + 1) with (Z.of_nat (S (length c))) by lia.
  rewrite Nat2Z.id.
  rewrite (bind_run _ _ _ _ _ (memcpy_eq (repeat zero (S (length c))) c (length c) b
                                 (Nat.le_refl _)
                                 (eq_ind_r (fun k => (length c <= k)%nat)
                                    (Nat.le_succ_diag_r _) (repeat_length _ _)))).
  rewrite take_ge by lia.
  assert (Hbuf : drop (length c) (repeat zero (S (length c))) = [zero]).
  { clear. induction c as [|x c IH]; [reflexivity|exact IH]. }
  rewrite Hbuf.
  erewrite (bind_run (arr_set _ _ _))
    by (apply arr_set_nat; rewrite length_app; cbn; lia).
  rewrite insert_at_end. rewrite (c_string_no_zero c Hc). cbn [deref bind ret].
  rewrite (bind_run _ _ _ _ _ (SqlWriteValue_eq _ _ b top Htop)). reflexivity.
Qed.

(** In a chain, or with a zero in the array, the array goes the way of the
    other basic types. *)
Lemma WriteFastArray_Char_default (c : list ascii) b :
  fExpectedChain b = true \/ no_zero c = false ->
  WriteFastArray_Char WorkWithElement_reading Char_local c (Z.of_nat (length c)) b
  = TBufferSQL2_WriteFastArray (H := Char_t_basic Char_local)
      WorkWithElement_reading c (Z.of_nat (length c)) b.
Proof.
  intros Hcase. unfold WriteFastArray_Char. cbn [bind get].
  destruct ((Z.of_nat (length c) =? 0) || fExpectedChain b) eqn:Hdefault;
    [reflexivity|].
  rewrite Nat2Z.id.
  pose proof (has_zero_from_spec c (length c) O b (Nat.le_0_l _)
                (Nat.le_sub_l _ _)) as Hscan.
  change (Z.of_nat 0) with 0 in Hscan. rewrite drop_0 in Hscan.
  rewrite (bind_run _ _ _ _ _ Hscan).
  apply orb_false_elim in Hdefault as [_ Hchain].
  destruct Hcase as [Hcase|Hcase]; [congruence|]. rewrite Hcase. reflexivity.
Qed.

Lemma SqlReadCharStarValue_direct b d sql top value :
  fErrorFlag b <= 0 -> fCurrentData b = Some d ->
  VerifyDataType d sqlio.CharStar = true ->
  GetValue d = Some value ->
  fSQL b = Some sql -> fStk b = Some top ->
  IsLongStringCode (top_object_id b) value sql <= 0 ->
  SqlReadCharStarValue b = Some (Some value, value_taken d b).
Proof.
  intros Hf Hd Htype Hvalue Hsql Htop Hlong.
  unfold SqlReadCharStarValue.
  rewrite (bind_run _ _ _ _ _ (SqlReadValue_taken _ b d Hf Hd (or_intror Htype))).
  rewrite Hvalue. cbn [default from_option id bind get].
  change (fSQL (value_taken d b)) with (fSQL b). rewrite Hsql.
  erewrite (bind_run Stack_top) by (apply Stack_top_eq; exact Htop).
  change (fNodes (value_taken d b)) with (fNodes b).
  unfold top_object_id in Hlong. rewrite Htop in Hlong.
  destruct (Z.leb_spec (IsLongStringCode
              (DefineObjectId (fNodes b) (length (fNodes b)) (Some top)) value sql) 0);
    [reflexivity|lia].
Qed.

(** The string written for an array of [n] characters is read back into an
    array of [n] characters. *)
Lemma ReadFastArray_Char_string junk (c dst : list ascii) b d sql top :
  (1 <= length c)%nat -> length dst = length c ->
  fErrorFlag b <= 0 -> fCurrentData b = Some d ->
  IsBlobData d = true -> VerifyDataType d sqlio.CharStar = true ->
  GetValue d = Some (string_of_list_ascii c) ->
  fSQL b = Some sql -> fStk b = Some top ->
  IsLongStringCode (top_object_id b) (string_of_list_ascii c) sql <= 0 ->
  ReadFastArray_Char WorkWithElement_reading Char_local junk dst (Z.of_nat (length c)) b
  = Some (c, value_taken d b).
Proof.
  intros Hn Hdst Hf Hd Hblob Htype Hvalue Hsql Htop Hlong.
  unfold ReadFastArray_Char. cbn [bind get].
  rewrite gtb_true by lia. rewrite Hd. cbn [deref bind ret]. rewrite Hblob, Htype.
  cbn [andb].
  rewrite (bind_run _ _ _ _ _
             (SqlReadCharStarValue_direct b d sql top _ Hf Hd Htype Hvalue Hsql Htop Hlong)).
  destruct (Z.leb_spec (Z.of_nat (length c)) 0); [lia|].
  rewrite string_of_list_ascii_length, Z.ltb_irrefl.
  unfold c_buffer. rewrite list_ascii_of_string_of_list_ascii.
  rewrite memcpy_eq by (rewrite ?length_app; cbn; lia).
  rewrite take_app_length, drop_ge, app_nil_r by lia. reflexivity.
Qed.

End CharArrayFacts.

Lemma TBufferSQL2_WriteFastArray_plain {T : Type} `{SqlBasic T}
    (W : M unit) (v : list T) n b top node :
  0 < n -> fStk b = Some top -> fNodes b !! top = Some node ->
  is_chain_element (GetElement (fKind node)) n = false ->
  fExpectedChain b = false ->
  TBufferSQL2_WriteFastArray W v n b = SQLWriteArrayContent v n false b.
Proof.
  intros Hn Htop Hnode Hchain Hflag. unfold TBufferSQL2_WriteFastArray.
  destruct (Z.leb_spec n 0); [lia|].
  rewrite (bind_run _ _ _ _ _ (Stack_top_eq b top Htop)).
  rewrite (bind_run _ _ _ _ _ (node_kind_eq top b node Hnode)).
  rewrite Hchain. cbn [bind ret get]. rewrite Hflag. reflexivity.
Qed.

(* --------------------------------------------------------------------- *)
(** ** The identity of objects *)
(* --------------------------------------------------------------------- *)

(** The buffer written out field by field. *)
Ltac flat :=
  cbv [fMode fSQL fNodes fStructure fStk fObjMap fReadBuffer fErrorFlag fExpectedChain
       fCompressLevel fObjIdCounter fIgnoreVerification fCurrentData fObjectsInfos
       fFirstObjId fLastObjId fPoolsMap fReports fStreamed fReadVersionBuffer
       set_fSQL set_fNodes set_fStructure set_fStk set_fObjMap set_fReadBuffer
       set_fErrorFlag set_fExpectedChain set_fCompressLevel set_fObjIdCounter
       set_fIgnoreVerification set_fCurrentData set_fObjectsInfos set_fFirstObjId
       set_fLastObjId set_fPoolsMap set_fReports set_fStreamed
       set_fReadVersionBuffer].

Section ObjectIdentity.
Variable heap : gmap Z Object.

(** An object that has its id is written as a reference to it. *)
Lemma SqlWriteObject_known fuel obj cl streamer b oid :
  WriteInv b -> (obj, oid) ∈ fStreamed b -> cl <> None ->
  SqlWriteObject heap (S fuel) obj cl streamer b
  = Some (to_Int_t oid, node_written (kSqlPointer oid) b).
Proof.
  intros (Hbase & Hcount & Hlog & Hmap & _) Hin Hcl.
  destruct (Hlog obj oid Hin) as (Hobj & Hid & Hlook).
  destruct cl as [c|]; [|congruence].
  cbn [SqlWriteObject].
  rewrite (bind_run _ _ _ _ _ (PushStack_eq b)). cbn [bind get].
  destruct (Z.eqb_spec obj 0) as [|_]; [contradiction|].
  change (fObjMap (pushed b)) with (fObjMap b).
  change (fFirstObjId (pushed b)) with (fFirstObjId b).
  unfold obj_map in Hlook.
  destruct (fObjMap b) as [map|];
    [|cbn [default from_option] in Hlook; rewrite lookup_empty in Hlook; discriminate].
  cbn [default from_option id] in Hlook. unfold TExMap_GetValue. rewrite Hlook. cbn [default from_option id].
  rewrite gtb_true by lia.
  replace (fFirstObjId b + (oid - fFirstObjId b + 1) - 1) with oid by lia.
  rewrite geb_true by lia.
  exact (set_pop_pushed (kSqlPointer oid) (to_Int_t oid) b).
Qed.

(** A new object is given the id of the counter, a node and an entry of the
    identity map; then its streamer is called. *)
Lemma SqlWriteObject_new fuel obj c streamer b :
  obj <> 0 -> obj_map b !! obj = None ->
  SqlWriteObject heap (S fuel) obj (Some c) streamer b
  = (stream_members heap (fun p cl => SqlWriteObject heap fuel p cl None)
       (match streamer with
        | Some ms => ms
        | None => class_members heap obj
        end);;;
     PopStack;;;
     ret (to_Int_t (fObjIdCounter b))) (object_begun obj (Some c) b).
Proof.
  intros Hobj Hnew.
  destruct b as [mode sql nodes structure stk objmap rbuf flag chain level counter
                 ignore data infos first last pools reports streamed rversion].
  unfold obj_map in Hnew. cbn [fObjMap] in Hnew.
  unfold object_begun, obj_map. flat.
  cbn [SqlWriteObject].
  rewrite (bind_run _ _ _ _ _ (PushStack_eq _)). unfold pushed. flat.
  cbn [bind get]. flat.
  destruct (Z.eqb_spec obj 0) as [|_]; [contradiction|].
  destruct objmap as [map|]; cbn [default from_option id] in Hnew |- *.
  - unfold TExMap_GetValue at 1 2. rewrite Hnew.
    cbn [default from_option id Z.gtb Z.geb Z.compare].
    cbn [modify bind]. flat.
    erewrite (bind_run Stack_top) by (apply Stack_top_eq; reflexivity).
    unfold SetObjectRef.
    erewrite (bind_run (set_node_kind _ _))
      by (apply set_node_kind_eq; cbn [fNodes]; apply lookup_at_end).
    flat. rewrite insert_at_end.
    cbn [bind modify get deref ret]. flat.
    unfold TExMap_GetValue. rewrite Hnew. cbn [default from_option id Z.eqb].
    cbn [bind modify]. flat.
    reflexivity.
  - cbn [Z.geb Z.compare].
    cbn [modify bind]. flat.
    erewrite (bind_run Stack_top) by (apply Stack_top_eq; reflexivity).
    unfold SetObjectRef.
    erewrite (bind_run (set_node_kind _ _))
      by (apply set_node_kind_eq; cbn [fNodes]; apply lookup_at_end).
    flat. rewrite insert_at_end.
    cbn [bind modify get deref ret]. flat.
    unfold TExMap_GetValue. rewrite lookup_empty. cbn [default from_option id Z.eqb].
    cbn [bind modify]. flat.
    reflexivity.
Qed.

End ObjectIdentity.

(** *** The invariant of a write pass *)

Lemma obj_map_begun obj cl b :
  obj_map (object_begun obj cl b)
  = <[obj := fObjIdCounter b - fFirstObjId b + 1]> (obj_map b).
Proof. reflexivity. Qed.

Lemma object_ids_app l1 l2 : object_ids (l1 ++ l2) = object_ids l1 ++ object_ids l2.
Proof. apply omap_app. Qed.

(** Calls that leave the ids, the identity map and the calls of streamers
    as they were, and add no object node, keep the invariant. *)
Lemma WriteInv_same b b' :
  WriteInv b ->
  fFirstObjId b' = fFirstObjId b -> fObjIdCounter b' = fObjIdCounter b ->
  fStreamed b' = fStreamed b -> fObjMap b' = fObjMap b ->
  object_ids (fNodes b') = object_ids (fNodes b) ->
  WriteInv b'.
Proof.
  unfold WriteInv, obj_map. intros H E1 E2 E3 E4 E5.
  rewrite E1, E2, E3, E4, E5. exact H.
Qed.

Lemma WriteInv_node_written k b :
  WriteInv b -> (forall objid cl, k <> kSqlObject objid cl) ->
  WriteInv (node_written k b).
Proof.
  intros H Hk. apply (WriteInv_same b); try reflexivity; [exact H|].
  cbn. rewrite object_ids_app. cbn.
  destruct k; try (rewrite app_nil_r; reflexivity).
  exfalso. exact (Hk _ _ eq_refl).
Qed.

Lemma WriteInv_value_added top value tname b :
  WriteInv b -> WriteInv (value_added top value tname b).
Proof.
  intros H. apply (WriteInv_same b); try reflexivity; [exact H|].
  cbn. rewrite object_ids_app. cbn. apply app_nil_r.
Qed.

Lemma WriteInv_set_fStk s b : WriteInv b -> WriteInv (set_fStk s b).
Proof. intros H. apply (WriteInv_same b); try reflexivity. exact H. Qed.

Lemma WriteInv_pass_begun objid b :
  0 <= objid -> fObjMap b = None -> fStreamed b = [] -> fNodes b = [] ->
  WriteInv (pass_begun objid b).
Proof.
  intros Hbase Hmap Hlog Hnodes. unfold WriteInv, obj_map. cbn.
  rewrite Hmap, Hlog, Hnodes. cbn.
  split; [exact Hbase|]. split; [lia|].
  split; [intros a oid Hin; inversion Hin|].
  split; [intros a v Hin; rewrite lookup_empty in Hin; discriminate|].
  split; [constructor|]. split; [constructor|reflexivity].
Qed.

(** A new object that is given its id keeps the invariant. *)
Lemma WriteInv_begun obj cl b :
  WriteInv b -> obj <> 0 -> obj_map b !! obj = None ->
  WriteInv (object_begun obj cl b).
Proof.
  intros (Hbase & Hcount & Hlog & Hmap & Hnd1 & Hnd2 & Hids) Hobj Hnew.
  unfold WriteInv. rewrite obj_map_begun.
  change (fFirstObjId (object_begun obj cl b)) with (fFirstObjId b).
  change (fObjIdCounter (object_begun obj cl b)) with (fObjIdCounter b + 1).
  change (fStreamed (object_begun obj cl b)) with (fStreamed b ++ [(obj, fObjIdCounter b)]).
  change (fNodes (object_begun obj cl b))
    with (fNodes b ++ [{| fParent := fStk b; fKind := kSqlObject (fObjIdCounter b) cl |}]).
  split; [exact Hbase|]. split; [lia|].
  split.
  { intros a oid Hin. apply elem_of_app in Hin as [Hin|Hin].
    - destruct (Hlog a oid Hin) as (Ha & Hr & Hl).
      split; [exact Ha|]. split; [lia|].
      rewrite lookup_insert_ne; [exact Hl|].
      intros ->. rewrite Hnew in Hl. discriminate.
    - apply list_elem_of_singleton in Hin. injection Hin as -> ->.
      split; [exact Hobj|]. split; [lia|].
      apply lookup_insert_eq. }
  split.
  { intros a v Hl. apply elem_of_app.
    destruct (decide (a = obj)) as [->|Hne].
    - rewrite lookup_insert_eq in Hl. injection Hl as <-.
      right. apply list_elem_of_singleton. f_equal. lia.
    - rewrite lookup_insert_ne in Hl by congruence.
      left. apply Hmap. exact Hl. }
  split.
  { rewrite fmap_app. apply NoDup_app.
    split; [exact Hnd1|]. split; [|apply NoDup_singleton].
    intros a Hin Hin'. cbn in Hin'. apply list_elem_of_singleton in Hin'. subst a.
    apply list_elem_of_fmap in Hin as ([a oid] & Ha & Hin). cbn in Ha. subst a.
    destruct (Hlog _ _ Hin) as (_ & _ & Hl). rewrite Hnew in Hl. discriminate. }
  split.
  { rewrite fmap_app. apply NoDup_app.
    split; [exact Hnd2|]. split; [|apply NoDup_singleton].
    intros oid Hin Hin'. cbn in Hin'. apply list_elem_of_singleton in Hin'. subst oid.
    apply list_elem_of_fmap in Hin as ([a oid] & Ha & Hin). cbn in Ha. subst oid.
    destruct (Hlog _ _ Hin) as (_ & Hr & _). lia. }
  rewrite object_ids_app, fmap_app, Hids. reflexivity.
Qed.

Lemma NoDup_snd_inj {A B : Type} (l : list (A * B)) a1 a2 y :
  NoDup l.*2 -> (a1, y) ∈ l -> (a2, y) ∈ l -> a1 = a2.
Proof.
  induction l as [|[a y'] l IH]; intros Hnd H1 H2.
  - inversion H1.
  - cbn in Hnd. apply NoDup_cons in Hnd as [Hnot Hnd].
    apply elem_of_cons in H1 as [H1|H1]; apply elem_of_cons in H2 as [H2|H2].
    + congruence.
    + injection H1 as -> ->. exfalso. apply Hnot.
      apply list_elem_of_fmap. exists (a2, y'). split; [reflexivity|exact H2].
    + injection H2 as -> ->. exfalso. apply Hnot.
      apply list_elem_of_fmap. exists (a1, y'). split; [reflexivity|exact H1].
    + exact (IH Hnd H1 H2).
Qed.

(** In a pass an address has one id and an id one address. *)
Lemma WriteInv_one_id b a1 id1 a2 id2 :
  WriteInv b -> (a1, id1) ∈ fStreamed b -> (a2, id2) ∈ fStreamed b ->
  (a1 = a2 <-> id1 = id2).
Proof.
  intros (_ & _ & Hlog & _ & _ & Hnd & _) H1 H2.
  destruct (Hlog _ _ H1) as (_ & _ & Hl1).
  destruct (Hlog _ _ H2) as (_ & _ & Hl2).
  split.
  - intros ->. rewrite Hl1 in Hl2. injection Hl2 as E. lia.
  - intros ->. exact (NoDup_snd_inj _ _ _ _ Hnd H1 H2).
Qed.

(** *** What a call adds *)

Lemma grows_refl b : grows b b.
Proof.
  split; [reflexivity|]. split; [exists []; symmetry; apply app_nil_r|].
  split; [reflexivity|]. split; [reflexivity|].
  exists []. symmetry. apply app_nil_r.
Qed.

Lemma grows_trans b1 b2 b3 : grows b1 b2 -> grows b2 b3 -> grows b1 b3.
Proof.
  intros (Hs1 & (e1 & Hn1) & Hf1 & Hm1 & (c1 & Hl1))
         (Hs2 & (e2 & Hn2) & Hf2 & Hm2 & (c2 & Hl2)).
  split; [congruence|].
  split; [exists (e1 ++ e2); rewrite Hn2, Hn1; symmetry; apply app_assoc|].
  split; [congruence|].
  split; [etrans; eassumption|].
  exists (c1 ++ c2). rewrite Hl2, Hl1. symmetry. apply app_assoc.
Qed.

Lemma grows_node_written k b : grows b (node_written k b).
Proof.
  split; [reflexivity|]. split; [eexists; reflexivity|].
  split; [reflexivity|]. split; [reflexivity|].
  exists []. symmetry. apply app_nil_r.
Qed.

Lemma grows_value_added top value tname b : grows b (value_added top value tname b).
Proof.
  split; [reflexivity|]. split; [eexists; reflexivity|].
  split; [reflexivity|]. split; [reflexivity|].
  exists []. symmetry. apply app_nil_r.
Qed.

Lemma unwritten_grows S b b' : grows b b' -> (unwritten S b' <= unwritten S b)%nat.
Proof.
  intros (_ & _ & _ & Hm & _). unfold unwritten.
  apply subseteq_size. apply difference_mono_l. apply subseteq_dom. exact Hm.
Qed.

Lemma unwritten_begun S obj cl b :
  obj ∈ S -> obj_map b !! obj = None ->
  (unwritten S (object_begun obj cl b) < unwritten S b)%nat.
Proof.
  intros Hin Hnew. unfold unwritten. rewrite obj_map_begun.
  apply subset_size. rewrite dom_insert_L.
  apply not_elem_of_dom in Hnew.
  split.
  - intros x. rewrite !elem_of_difference, elem_of_union. tauto.
  - intros Hsub. specialize (Hsub obj).
    rewrite !elem_of_difference, elem_of_union, elem_of_singleton in Hsub.
    destruct Hsub as [_ Hsub]; [split; assumption|]. apply Hsub. left. reflexivity.
Qed.

Lemma unwritten_le S b : (unwritten S b <= size S)%nat.
Proof.
  unfold unwritten. apply subseteq_size.
  intros x. rewrite elem_of_difference. tauto.
Qed.

(** *** Ids in the order of the calls *)

Lemma ids_in_order_same b b' :
  ids_in_order b ->
  fFirstObjId b' = fFirstObjId b -> fObjIdCounter b' = fObjIdCounter b ->
  fStreamed b' = fStreamed b ->
  ids_in_order b'.
Proof. unfold ids_in_order. intros H E1 E2 E3. rewrite E1, E2, E3. exact H. Qed.

Lemma PassInv_node_written k b :
  PassInv b -> (forall objid cl, k <> kSqlObject objid cl) ->
  PassInv (node_written k b).
Proof.
  intros [H1 H2] Hk. split; [apply WriteInv_node_written; assumption|].
  apply (ids_in_order_same b); [exact H2|reflexivity..].
Qed.

Lemma PassInv_value_added top value tname b :
  PassInv b -> PassInv (value_added top value tname b).
Proof.
  intros [H1 H2]. split; [apply WriteInv_value_added; assumption|].
  apply (ids_in_order_same b); [exact H2|reflexivity..].
Qed.

Lemma PassInv_set_fStk s b : PassInv b -> PassInv (set_fStk s b).
Proof.
  intros [H1 H2]. split; [apply WriteInv_set_fStk; assumption|].
  apply (ids_in_order_same b); [exact H2|reflexivity..].
Qed.

Lemma PassInv_pass_begun objid b :
  0 <= objid -> fObjMap b = None -> fStreamed b = [] -> fNodes b = [] ->
  PassInv (pass_begun objid b).
Proof.
  intros Hbase Hmap Hlog Hnodes.
  split; [apply WriteInv_pass_begun; assumption|].
  unfold ids_in_order. cbn. rewrite Hlog, Z.sub_diag. reflexivity.
Qed.

Lemma PassInv_begun obj cl b :
  PassInv b -> obj <> 0 -> obj_map b !! obj = None ->
  PassInv (object_begun obj cl b).
Proof.
  intros [H1 H2] Hobj Hnew. split; [apply WriteInv_begun; assumption|].
  destruct H1 as (_ & Hcount & _).
  unfold ids_in_order in *.
  change (fFirstObjId (object_begun obj cl b)) with (fFirstObjId b).
  change (fObjIdCounter (object_begun obj cl b)) with (fObjIdCounter b + 1).
  change (fStreamed (object_begun obj cl b)) with (fStreamed b ++ [(obj, fObjIdCounter b)]).
  rewrite fmap_app, H2.
  replace (fObjIdCounter b + 1 - fFirstObjId b)
    with ((fObjIdCounter b - fFirstObjId b) + 1) by lia.
  rewrite seqZ_app by lia.
  replace (fFirstObjId b + (fObjIdCounter b - fFirstObjId b)) with (fObjIdCounter b) by lia.
  reflexivity.
Qed.

Section ObjectPass.
Variable heap : gmap Z Object.
Variable S : gset Z.
Hypothesis heap_in_S : dom heap ⊆ S.

Lemma IsA_in_S p : IsA heap p <> None -> p ∈ S.
Proof.
  unfold IsA. intros H. apply heap_in_S. apply elem_of_dom.
  destruct (heap !! p); [eexists; reflexivity|]. cbn in H. congruence.
Qed.

(** The streamer of an object returns when the calls it makes do. *)
Lemma stream_members_returns fuel ms :
  SqlWriteObject_returns heap S fuel ->
  forall b top,
    PassInv b -> fStk b = Some top -> (unwritten S b < fuel)%nat ->
    exists b',
      stream_members heap (fun p cl => SqlWriteObject heap fuel p cl None) ms b
        = Some (tt, b')
      /\ PassInv b' /\ grows b b'.
Proof.
  intros IH. induction ms as [|[v|p] ms IHms]; intros b top Hinv Htop Hfuel.
  - exists b. split; [reflexivity|]. split; [exact Hinv|apply grows_refl].
  - cbn [stream_members]. unfold SqlWriteBasic.
    rewrite (bind_run _ _ _ _ _ (SqlWriteValue_eq _ _ b top Htop)).
    destruct (IHms (value_added top (sql_print v) (@sql_tname Z Int_t_basic) b) top) as (b' & Hrun & Hinv' & Hg).
    + apply PassInv_value_added. exact Hinv.
    + exact Htop.
    + exact Hfuel.
    + exists b'. split; [exact Hrun|]. split; [exact Hinv'|].
      eapply grows_trans; [apply grows_value_added|exact Hg].
  - cbn [stream_members].
    destruct (IH p (IsA heap p) None b Hinv (fun H _ => IsA_in_S p H) Hfuel)
      as (r & b1 & Hrun1 & Hinv1 & Hg1 & _).
    rewrite (bind_run _ _ _ _ _ Hrun1).
    destruct (IHms b1 top Hinv1) as (b' & Hrun & Hinv' & Hg).
    + destruct Hg1 as (Hs & _). rewrite Hs. exact Htop.
    + pose proof (unwritten_grows S b b1 Hg1). lia.
    + exists b'. split; [exact Hrun|]. split; [exact Hinv'|].
      eapply grows_trans; eassumption.
Qed.

(** With fuel above the number of objects that have no id yet, a call of
    [SqlWriteObject] returns. *)
Lemma SqlWriteObject_runs fuel : SqlWriteObject_returns heap S fuel.
Proof.
  induction fuel as [|fuel IH]; intros obj cl streamer b Hinv HS Hfuel; [lia|].
  destruct cl as [c|].
  2:{ exists 0, (node_written (kSqlPointer 0) b).
      split; [apply SqlWriteObject_null_class|].
      split; [apply PassInv_node_written; [exact Hinv|discriminate]|].
      split; [apply grows_node_written|]. intros H. congruence. }
  destruct (decide (obj = 0)) as [->|Hobj].
  { exists 0, (node_written (kSqlPointer 0) b).
    split; [apply SqlWriteObject_null_object|].
    split; [apply PassInv_node_written; [exact Hinv|discriminate]|].
    split; [apply grows_node_written|]. intros _ H. congruence. }
  destruct (obj_map b !! obj) as [v|] eqn:Hlook.
  - pose proof (proj1 Hinv) as (Hbase & Hcount & Hlog & Hmap & Hnd1 & _).
    pose proof (Hmap obj v Hlook) as Hin.
    exists (to_Int_t (fFirstObjId b + v - 1)),
           (node_written (kSqlPointer (fFirstObjId b + v - 1)) b).
    split; [apply SqlWriteObject_known; [exact (proj1 Hinv)|exact Hin|discriminate]|].
    split; [apply PassInv_node_written; [exact Hinv|discriminate]|].
    split; [apply grows_node_written|].
    intros _ _. exists (fFirstObjId b + v - 1).
    split; [reflexivity|]. split; [exact Hin|].
    split; [reflexivity|]. intros H. discriminate.
  - rewrite (SqlWriteObject_new heap fuel obj c streamer b Hobj Hlook).
    pose proof (PassInv_begun obj (Some c) b Hinv Hobj Hlook) as Hinv1.
    assert (HinS : obj ∈ S) by (apply HS; [discriminate|exact Hobj]).
    pose proof (unwritten_begun S obj (Some c) b HinS Hlook) as Hless.
    destruct (stream_members_returns fuel
                (match streamer with
                 | Some ms => ms
                 | None => class_members heap obj
                 end) IH (object_begun obj (Some c) b) (length (fNodes b)) Hinv1 eq_refl)
      as (b2 & Hrun & Hinv2 & Hg2); [lia|].
    rewrite (bind_run _ _ _ _ _ Hrun).
    destruct Hg2 as (Hs2 & (extra & Hn2) & Hf2 & Hm2 & (calls & Hl2)).
    change (fNodes (object_begun obj (Some c) b))
      with (fNodes b ++ [{| fParent := fStk b; fKind := kSqlObject (fObjIdCounter b) (Some c) |}])
      in Hn2.
    change (fStreamed (object_begun obj (Some c) b))
      with (fStreamed b ++ [(obj, fObjIdCounter b)]) in Hl2.
    change (fStk (object_begun obj (Some c) b)) with (Some (length (fNodes b))) in Hs2.
    change (fFirstObjId (object_begun obj (Some c) b)) with (fFirstObjId b) in Hf2.
    erewrite (bind_run PopStack).
    2:{ eapply PopStack_eq; [exact Hs2|].
        rewrite Hn2. rewrite lookup_app_l.
        - apply lookup_at_end.
        - rewrite length_app. cbn. lia. }
    cbn [fParent ret].
    exists (to_Int_t (fObjIdCounter b)), (set_fStk (fStk b) b2).
    split; [reflexivity|].
    split; [apply PassInv_set_fStk; exact Hinv2|].
    split.
    { split; [reflexivity|].
      split; [eexists; cbn; rewrite Hn2, <- app_assoc; reflexivity|].
      split; [exact Hf2|].
      split.
      - cbn. etrans; [|exact Hm2]. rewrite obj_map_begun.
        apply insert_subseteq. exact Hlook.
      - eexists. cbn. rewrite Hl2, <- app_assoc. reflexivity. }
    intros _ _. exists (fObjIdCounter b).
    split; [reflexivity|].
    split.
    { cbn. rewrite Hl2. apply elem_of_app. left. apply elem_of_app. right.
      apply list_elem_of_singleton. reflexivity. }
    split.
    { intros Hin. destruct (proj1 Hinv) as (_ & _ & Hlog & _).
      destruct (Hlog _ _ Hin) as (_ & _ & Hl). rewrite Hlook in Hl. discriminate. }
    intros _. split; [reflexivity|].
    split; [exists calls; cbn; rewrite Hl2, <- app_assoc; reflexivity|].
    exists extra. cbn. rewrite Hn2, <- app_assoc. reflexivity.
Qed.

End ObjectPass.

(** *** A pass from a new buffer *)

Lemma size_add_le (x : Z) (X : gset Z) : (size (X ∪ {[x]}) <= size X + 1)%nat.
Proof.
  rewrite size_union_alt.
  assert (size (({[x]} : gset Z) ∖ X) <= size ({[x]} : gset Z))%nat as Hle.
  { apply subseteq_size. intros y. rewrite elem_of_difference. tauto. }
  rewrite size_singleton in Hle. lia.
Qed.

Lemma size_add_list_le (l : list Z) (X : gset Z) :
  (size (X ∪ list_to_set l) <= size X + length l)%nat.
Proof.
  induction l as [|x l IH]; cbn [list_to_set length].
  - rewrite union_empty_r_L. lia.
  - replace (X ∪ ({[x]} ∪ list_to_set l)) with ((X ∪ list_to_set l) ∪ {[x]}).
    + pose proof (size_add_le x (X ∪ list_to_set l)). lia.
    + apply set_eq. intros y. rewrite !elem_of_union. tauto.
Qed.

Lemma SqlWriteAny_eq heap fuel obj cl base b :
  SqlWriteAny heap fuel obj cl base b
  = (SqlWriteObject heap fuel obj cl None;;; b' <- get;; ret (fStructure b')) (pass_begun base b).
Proof. reflexivity. Qed.

Lemma new_buffer_PassInv base file compression :
  0 <= base -> PassInv (pass_begun base (TBufferSQL2_new kWrite file compression)).
Proof. intros H. apply PassInv_pass_begun; [exact H|reflexivity..]. Qed.

(** [SqlWriteAny] on a new buffer returns and leaves a buffer that has the
    invariant of a pass; the object is given the base id and its node is the
    root of the tree. *)
Lemma SqlWriteAny_runs heap file compression fuel obj cl base :
  0 <= base -> (size (dom heap) + 1 < fuel)%nat ->
  exists b',
    SqlWriteAny heap fuel obj cl base (TBufferSQL2_new kWrite file compression)
      = Some (fStructure b', b')
    /\ PassInv b' /\ fStk b' = None /\ fFirstObjId b' = base
    /\ (cl <> None -> obj <> 0 ->
        (exists more, fStreamed b' = (obj, base) :: more)
        /\ (exists more, fNodes b' = {| fParent := None; fKind := kSqlObject base cl |} :: more)).
Proof.
  intros Hbase Hfuel.
  set (b0 := pass_begun base (TBufferSQL2_new kWrite file compression)).
  pose proof (new_buffer_PassInv base file compression Hbase) as Hinv. fold b0 in Hinv.
  destruct (SqlWriteObject_runs heap (dom heap ∪ {[obj]})
              (union_subseteq_l _ _) fuel obj cl None b0 Hinv)
    as (r & b' & Hrun & Hinv' & Hg & Hout).
  - intros _ _. apply elem_of_union. right. apply elem_of_singleton. reflexivity.
  - pose proof (unwritten_le (dom heap ∪ {[obj]}) b0).
    pose proof (size_add_le obj (dom heap)). lia.
  - exists b'. rewrite SqlWriteAny_eq. fold b0.
    rewrite (bind_run _ _ _ _ _ Hrun).
    split; [reflexivity|]. split; [exact Hinv'|].
    destruct Hg as (Hs & _ & Hf & _).
    split; [exact Hs|]. split; [exact Hf|].
    intros Hcl Hobj. destruct (Hout Hcl Hobj) as (oid & _ & _ & _ & Hnew).
    destruct Hnew as (-> & Hlog & Hnodes); [apply lookup_empty|].
    exact (conj Hlog Hnodes).
Qed.

(** X1: a write pass on a new buffer keeps object identity.  [SqlWriteAny]
    with a base id that is not negative, and fuel above the number of objects,
    returns the root of the tree with the stack empty; among the calls of
    streamers of the pass no address occurs twice (the streamer of an object
    is called once, however often the object is written), two calls have the
    same address exactly when they have the same id, and the object nodes of
    the tree carry exactly the ids of these calls, in their order. *)
Theorem write_pass_gives_each_object_one_id
    (heap : gmap Z Object) (file : option TSQLFile) (compression : Z)
    (fuel : nat) (obj : Z) (cl : option TClass) (base : Z) :
  0 <= base -> (size (dom heap) + 1 < fuel)%nat ->
  exists b',
    SqlWriteAny heap fuel obj cl base (TBufferSQL2_new kWrite file compression)
      = Some (fStructure b', b')
    /\ fStk b' = None
    /\ NoDup (fStreamed b').*1
    /\ (forall a1 id1 a2 id2,
          (a1, id1) ∈ fStreamed b' -> (a2, id2) ∈ fStreamed b' ->
          (a1 = a2 <-> id1 = id2))
    /\ object_ids (fNodes b') = (fStreamed b').*2.
Proof.
  intros Hbase Hfuel.
  destruct (SqlWriteAny_runs heap file compression fuel obj cl base Hbase Hfuel)
    as (b' & Hrun & [Hinv _] & Hstk & _).
  exists b'. split; [exact Hrun|]. split; [exact Hstk|].
  split; [apply Hinv|].
  split; [intros a1 id1 a2 id2; apply WriteInv_one_id; exact Hinv|].
  apply Hinv.
Qed.

(** Two objects that point to each other, the first one twice to the
    second. *)
Lemma write_pass_gives_each_object_one_id_witness :
  let heap : gmap Z Object :=
    {[ 100 := {| ob_class := "Event"; ob_members := [MInt 7; MObject 200; MObject 200] |};
       200 := {| ob_class := "Track"; ob_members := [MObject 100] |} ]} in
  exists b',
    SqlWriteAny heap 4 100 (Some "Event") 1 (TBufferSQL2_new kWrite None 0)
      = Some (fStructure b', b')
    /\ NoDup (fStreamed b').*1.
Proof.
  intros heap.
  destruct (write_pass_gives_each_object_one_id heap None 0 4 100 (Some "Event") 1)
    as (b' & Hrun & _ & Hnd & _).
  - lia.
  - vm_compute. lia.
  - exists b'. split; [exact Hrun|exact Hnd].
Defined.

(** X3: the ids of a pass are given in order from the base id.  After
    [SqlWriteAny] on a new buffer the ids of the calls of streamers are the
    base id and the ids that follow it, in the order of the calls, and the
    counter is the base id plus the number of objects streamed; an object that
    is not null gets the base id, is the first one streamed and its node is
    the root of the tree. *)
Theorem write_pass_numbers_objects_from_base
    (heap : gmap Z Object) (file : option TSQLFile) (compression : Z)
    (fuel : nat) (obj : Z) (cl : option TClass) (base : Z) :
  0 <= base -> (size (dom heap) + 1 < fuel)%nat ->
  exists b',
    SqlWriteAny heap fuel obj cl base (TBufferSQL2_new kWrite file compression)
      = Some (fStructure b', b')
    /\ (fStreamed b').*2 = seqZ base (Z.of_nat (length (fStreamed b')))
    /\ fObjIdCounter b' = base + Z.of_nat (length (fStreamed b'))
    /\ (cl <> None -> obj <> 0 ->
        (exists more, fStreamed b' = (obj, base) :: more)
        /\ (exists more, fNodes b' = {| fParent := None; fKind := kSqlObject base cl |} :: more)).
Proof.
  intros Hbase Hfuel.
  destruct (SqlWriteAny_runs heap file compression fuel obj cl base Hbase Hfuel)
    as (b' & Hrun & [Hinv Hord] & _ & Hfirst & Hroot).
  exists b'. split; [exact Hrun|].
  destruct Hinv as (_ & Hcount & _).
  unfold ids_in_order in Hord. rewrite Hfirst in *.
  assert (Hlen : Z.of_nat (length (fStreamed b')) = fObjIdCounter b' - base).
  { rewrite <- (length_fmap snd), Hord, length_seqZ. lia. }
  split; [rewrite Hlen; exact Hord|].
  split; [lia|exact Hroot].
Qed.

Lemma write_pass_numbers_objects_from_base_witness :
  let heap : gmap Z Object :=
    {[ 100 := {| ob_class := "Event"; ob_members := [MInt 7; MObject 200; MObject 200] |};
       200 := {| ob_class := "Track"; ob_members := [MObject 100] |} ]} in
  exists b',
    SqlWriteAny heap 4 100 (Some "Event") 5 (TBufferSQL2_new kWrite None 0)
      = Some (fStructure b', b')
    /\ fObjIdCounter b' = 5 + Z.of_nat (length (fStreamed b')).
Proof.
  intros heap.
  destruct (write_pass_numbers_objects_from_base heap None 0 4 100 (Some "Event") 5)
    as (b' & Hrun & _ & Hcount & _).
  - lia.
  - vm_compute. lia.
  - exists b'. split; [exact Hrun|exact Hcount].
Defined.

(** *** Objects written one after the other *)

Section ObjectSequence.
Variable heap : gmap Z Object.
Variable S : gset Z.
Hypothesis heap_in_S : dom heap ⊆ S.

Lemma write_objects_runs fuel (objs : list (Z * TClass)) :
  (forall a c, (a, c) ∈ objs -> a ∈ S) ->
  forall b,
    PassInv b -> (unwritten S b < fuel)%nat ->
    exists oids b',
      write_objects heap fuel objs b = Some (to_Int_t <$> oids, b')
      /\ PassInv b' /\ grows b b'
      /\ length oids = length objs
      /\ (forall i a c oid,
            objs !! i = Some (a, c) -> oids !! i = Some oid ->
            (a = 0 -> oid = 0) /\ (a <> 0 -> (a, oid) ∈ fStreamed b')).
Proof.
  induction objs as [|[a c] objs IH]; intros HS b Hinv Hfuel.
  - exists [], b. split; [reflexivity|]. split; [exact Hinv|].
    split; [apply grows_refl|]. split; [reflexivity|].
    intros i a c oid Hi. rewrite lookup_nil in Hi. discriminate.
  - cbn [write_objects].
    destruct (SqlWriteObject_runs heap S heap_in_S fuel a (Some c) None b Hinv)
      as (r & b1 & Hrun & Hinv1 & Hg1 & Hout).
    { intros _ _. apply (HS a c). apply elem_of_cons. left. reflexivity. }
    { exact Hfuel. }
    rewrite (bind_run _ _ _ _ _ Hrun).
    destruct (IH (fun a' c' H => HS a' c' (list_elem_of_further _ _ _ H)) b1 Hinv1)
      as (oids & b' & Hrest & Hinv' & Hg' & Hlen & Hids).
    { pose proof (unwritten_grows S b b1 Hg1). lia. }
    rewrite (bind_run _ _ _ _ _ Hrest). cbn [ret].
    assert (Hfirst : exists oid, r = to_Int_t oid
                       /\ (a = 0 -> oid = 0) /\ (a <> 0 -> (a, oid) ∈ fStreamed b1)).
    { destruct (decide (a = 0)) as [->|Ha].
      - destruct fuel as [|fuel]; [lia|].
        rewrite SqlWriteObject_null_object in Hrun. injection Hrun as <- _.
        exists 0. split; [reflexivity|]. split; [reflexivity|]. intros H. congruence.
      - destruct (Hout ltac:(discriminate) Ha) as (oid & -> & Hin & _).
        exists oid. split; [reflexivity|]. split; [intros H; congruence|]. intros _. exact Hin. }
    destruct Hfirst as (oid & -> & Hnull & Hin).
    exists (oid :: oids), b'.
    split; [reflexivity|]. split; [exact Hinv'|].
    split; [eapply grows_trans; eassumption|].
    split; [cbn; rewrite Hlen; reflexivity|].
    intros [|i] a' c' oid' Hi Ho.
    + cbn in Hi, Ho. injection Hi as -> ->. injection Ho as ->.
      split; [exact Hnull|]. intros Ha.
      destruct Hg' as (_ & _ & _ & _ & (calls & ->)).
      apply elem_of_app. left. exact (Hin Ha).
    + cbn in Hi, Ho. exact (Hids i a' c' oid' Hi Ho).
Qed.

End ObjectSequence.

(** X4: the second write of an object adds only a reference.  After any
    sequence of object writes in a pass begun on a new buffer, a further
    [SqlWriteObject] for an object of the sequence that is not null, with
    any class, streamer and fuel to start, returns the id the object was
    given; it adds one node, a reference to that id below the node on top,
    and leaves the stack, the identity map, the counter and the record of
    streamer calls as they were: no object node is made and no streamer is
    called. *)
Theorem second_write_adds_only_a_reference
    (heap : gmap Z Object) (file : option TSQLFile) (compression : Z)
    (fuel : nat) (base : Z) (objs : list (Z * TClass)) :
  0 <= base -> (size (dom heap) + length objs < fuel)%nat ->
  exists oids b',
    write_objects heap fuel objs
      (pass_begun base (TBufferSQL2_new kWrite file compression))
      = Some (to_Int_t <$> oids, b')
    /\ forall i a c oid c' streamer fuel',
         objs !! i = Some (a, c) -> oids !! i = Some oid -> a <> 0 ->
         exists b'',
           SqlWriteObject heap (S fuel') a (Some c') streamer b' = Some (to_Int_t oid, b'')
           /\ fNodes b'' = fNodes b' ++ [{| fParent := fStk b'; fKind := kSqlPointer oid |}]
           /\ fStk b'' = fStk b'
           /\ fObjMap b'' = fObjMap b'
           /\ fObjIdCounter b'' = fObjIdCounter b'
           /\ fStreamed b'' = fStreamed b'.
Proof.
  intros Hbase Hfuel.
  set (S := dom heap ∪ list_to_set objs.*1 : gset Z).
  destruct (write_objects_runs heap S (union_subseteq_l _ _) fuel objs) with
    (b := pass_begun base (TBufferSQL2_new kWrite file compression))
    as (oids & b' & Hrun & [Hinv _] & _ & Hlen & Hids).
  - intros a c Hin. apply elem_of_union. right. apply elem_of_list_to_set.
    apply list_elem_of_fmap. exists (a, c). split; [reflexivity|exact Hin].
  - apply new_buffer_PassInv. exact Hbase.
  - pose proof (unwritten_le S (pass_begun base (TBufferSQL2_new kWrite file compression))).
    pose proof (size_add_list_le objs.*1 (dom heap)) as Hsize.
    rewrite length_fmap in Hsize. fold S in Hsize. lia.
  - exists oids, b'. split; [exact Hrun|].
    intros i a c oid c' streamer fuel' Hi Ho Ha.
    exists (node_written (kSqlPointer oid) b').
    split; [|repeat split].
    apply SqlWriteObject_known; [exact Hinv| |discriminate].
    exact (proj2 (Hids i a c oid Hi Ho) Ha).
Qed.

Lemma second_write_adds_only_a_reference_witness :
  let heap : gmap Z Object :=
    {[ 100 := {| ob_class := "Event"; ob_members := [MInt 7; MObject 200] |};
       200 := {| ob_class := "Track"; ob_members := [MObject 100] |} ]} in
  exists oids b',
    write_objects heap 5 [(100, "Event"); (200, "Track")]
      (pass_begun 1 (TBufferSQL2_new kWrite None 0))
      = Some (to_Int_t <$> oids, b')
    /\ forall oid, oids !! 1%nat = Some oid ->
         exists b'',
           SqlWriteObject heap 1 200 (Some "Track") None b' = Some (to_Int_t oid, b'')
           /\ fStreamed b'' = fStreamed b'.
Proof.
  intros heap.
  destruct (second_write_adds_only_a_reference heap None 0 5 1
              [(100, "Event"); (200, "Track")])
    as (oids & b' & Hrun & Hsecond).
  - lia.
  - vm_compute. lia.
  - exists oids, b'. split; [exact Hrun|].
    intros oid Ho.
    destruct (Hsecond 1%nat 200 "Track" oid "Track" None 0%nat eq_refl Ho)
      as (b'' & Hcall & _ & _ & _ & _ & Hlog); [lia|].
    exists b''. split; [exact Hcall|exact Hlog].
Defined.

(** X5: in a pass with base id 0 the first object gets the id of the null
    reference.  After [SqlWriteAny] with id 0 on a new buffer for an object
    that is not null, a further write of that object does what the write of
    a null object does: it returns 0 and adds a reference with value 0, which
    the read path takes for a null pointer. *)
Theorem first_object_of_pass_zero_is_written_as_null
    (heap : gmap Z Object) (file : option TSQLFile) (compression : Z)
    (fuel : nat) (obj : Z) (c : TClass) :
  obj <> 0 -> (size (dom heap) + 1 < fuel)%nat ->
  exists b',
    SqlWriteAny heap fuel obj (Some c) 0 (TBufferSQL2_new kWrite file compression)
      = Some (fStructure b', b')
    /\ forall c' streamer fuel',
         SqlWriteObject heap (S fuel') obj (Some c') streamer b'
         = Some (0, node_written (kSqlPointer 0) b')
         /\ SqlWriteObject heap (S fuel') obj (Some c') streamer b'
            = SqlWriteObject heap (S fuel') 0 (Some c') streamer b'.
Proof.
  intros Hobj Hfuel.
  destruct (SqlWriteAny_runs heap file compression fuel obj (Some c) 0 (Z.le_refl 0) Hfuel)
    as (b' & Hrun & [Hinv _] & _ & _ & Hroot).
  exists b'. split; [exact Hrun|].
  intros c' streamer fuel'.
  destruct (Hroot ltac:(discriminate) Hobj) as ((more & Hlog) & _).
  assert (Hin : (obj, 0) ∈ fStreamed b') by (rewrite Hlog; apply elem_of_cons; left; reflexivity).
  rewrite (SqlWriteObject_known heap fuel' obj (Some c') streamer b' 0 Hinv Hin ltac:(discriminate)).
  rewrite SqlWriteObject_null_object.
  split; reflexivity.
Qed.

Lemma first_object_of_pass_zero_is_written_as_null_witness :
  let heap : gmap Z Object :=
    {[ 100 := {| ob_class := "Event"; ob_members := [MInt 7] |} ]} in
  exists b',
    SqlWriteAny heap 3 100 (Some "Event") 0 (TBufferSQL2_new kWrite None 0)
      = Some (fStructure b', b')
    /\ SqlWriteObject heap 1 100 (Some "Event") None b'
       = Some (0, node_written (kSqlPointer 0) b').
Proof.
  intros heap.
  destruct (first_object_of_pass_zero_is_written_as_null heap None 0 3 100 "Event")
    as (b' & Hrun & Hsecond).
  - lia.
  - vm_compute. lia.
  - exists b'. split; [exact Hrun|]. exact (proj1 (Hsecond "Event" None 0%nat)).
Defined.

(* --------------------------------------------------------------------- *)
(** ** The table of objects of a key *)
(* --------------------------------------------------------------------- *)

Lemma At_elem {A : Type} (l : list A) (i : Z) (x : A) : At l i = Some x -> x ∈ l.
Proof.
  unfold At. destruct (i <? 0); [discriminate|]. apply list_elem_of_lookup_2.
Qed.

(** X6: [SqlObjectInfo] finds an entry exactly when there is one.  A
    result is the class name and version of an entry of the table with the
    id asked for, and the id is not negative; there is no result exactly
    when the id is negative, there is no table, or no entry of the table has
    the id, whether the table is sorted or not; and when the entry at the
    place of the id counted from the first id has the id, as in a sorted
    table, the result is that entry. *)
Theorem SqlObjectInfo_finds_the_entry (objid : Z) (b : TBufferSQL2) :
  (forall clname version,
      SqlObjectInfo objid b = Some (clname, version) ->
      0 <= objid
      /\ exists infos info,
          fObjectsInfos b = Some infos /\ info ∈ infos /\ oi_objid info = objid
          /\ oi_classname info = clname /\ oi_version info = version)
  /\ (SqlObjectInfo objid b = None <->
      objid < 0
      \/ forall infos, fObjectsInfos b = Some infos ->
           forall info, info ∈ infos -> oi_objid info <> objid)
  /\ (forall infos info,
        fObjectsInfos b = Some infos -> 0 <= objid -> fFirstObjId b <= objid ->
        infos !! Z.to_nat (objid - fFirstObjId b) = Some info ->
        oi_objid info = objid ->
        SqlObjectInfo objid b = Some (oi_classname info, oi_version info)).
Proof.
  unfold SqlObjectInfo.
  destruct (fObjectsInfos b) as [infos|].
  2:{ split; [intros ? ? H; discriminate|].
      split; [|intros ? ? H; discriminate].
      split; [intros _; right; intros ? H; discriminate|reflexivity]. }
  destruct (Z.ltb_spec objid 0) as [Hneg|Hpos].
  { split; [intros ? ? H; discriminate|].
    split; [|intros ? ? _ H; lia].
    split; [intros _; left; exact Hneg|reflexivity]. }
  cbv zeta.
  set (fast := if (objid - fFirstObjId b >=? 0)
                  && (objid - fFirstObjId b <=? Z.of_nat (length infos) - 1)
               then match At infos (objid - fFirstObjId b) with
                    | Some info => if oi_objid info =? objid then Some info else None
                    | None => None
                    end
               else None).
  assert (Hfast : forall info, fast = Some info -> info ∈ infos /\ oi_objid info = objid).
  { intros info. unfold fast.
    destruct (_ && _); [|discriminate].
    destruct (At infos (objid - fFirstObjId b)) as [i|] eqn:Hat; [|discriminate].
    destruct (Z.eqb_spec (oi_objid i) objid) as [Heq|]; [|discriminate].
    intros [= <-]. split; [exact (At_elem _ _ _ Hat)|exact Heq]. }
  assert (Hfound : forall info,
             match fast with
             | Some i => Some i
             | None => find (fun i => oi_objid i =? objid) infos
             end = Some info -> info ∈ infos /\ oi_objid info = objid).
  { intros info. destruct fast as [i|] eqn:Hf.
    - intros [= <-]. apply Hfast. reflexivity.
    - intros Hfind. apply find_some in Hfind as [Hin Heq].
      split; [apply list_elem_of_In; exact Hin|]. apply Z.eqb_eq. exact Heq. }
  split; [|split].
  - intros clname version.
    destruct (match fast with Some i => Some i | None => _ end) as [info|] eqn:Hres;
      [|discriminate].
    intros [= <- <-]. split; [exact Hpos|].
    exists infos, info. destruct (Hfound info eq_refl) as [Hin Heq].
    split; [reflexivity|]. split; [exact Hin|]. split; [exact Heq|]. split; reflexivity.
  - destruct (match fast with Some i => Some i | None => _ end) as [info|] eqn:Hres.
    + split; [discriminate|].
      intros [Hneg|Hnone]; [lia|].
      destruct (Hfound info eq_refl) as [Hin Heq].
      exfalso. exact (Hnone infos eq_refl info Hin Heq).
    + split; [|reflexivity]. intros _. right. intros infos' [= <-] info Hin Heq.
      destruct fast as [i|]; [discriminate|].
      apply list_elem_of_In in Hin.
      pose proof (find_none _ _ Hres info Hin) as Hno. cbn in Hno.
      apply Z.eqb_neq in Hno. contradiction.
  - intros infos' info [= <-] _ Hfirst Hlook Hid.
    assert (Hlt : (Z.to_nat (objid - fFirstObjId b) < length infos)%nat)
      by (apply lookup_lt_is_Some; eexists; exact Hlook).
    unfold fast. unfold At.
    replace (objid - fFirstObjId b >=? 0) with true by (symmetry; apply geb_true; lia).
    replace (objid - fFirstObjId b <=? Z.of_nat (length infos) - 1) with true
      by (symmetry; apply Z.leb_le; lia).
    replace (objid - fFirstObjId b <? 0) with false by (symmetry; apply Z.ltb_ge; lia).
    cbn [andb]. rewrite Hlook, Hid, Z.eqb_refl. reflexivity.
Qed.

(* --------------------------------------------------------------------- *)
(** ** References to objects on the read path *)
(* --------------------------------------------------------------------- *)

(** X7: a reference to an object that was read before gives that object.
    With the error flag not set, when the current value scans as an id that
    is neither 0 nor -1 and not below the first id, the value is a column
    value or blob data marked as object pointer, and the identity map holds
    an address that is not null under the id counted from the first id, then
    [SqlReadObject] returns that address, whatever pointer it was given; the
    class, when asked for, is the one registered under the class name of the
    id in the table of objects; the cursor moves to the next value and nothing
    else changes; [SqlReadObjectDirect] is not called. *)
Theorem reference_to_read_object_gives_its_address
    (TClass_GetClass : string -> option TClass)
    (SqlReadObjectDirect : Z -> bool -> Z -> M (Z * option TClass))
    (obj : Z) (want_cl : bool) (b : TBufferSQL2) (d : TSQLObjectData)
    (refid : string) (map : gmap Z Z) (objid addr : Z) :
  fErrorFlag b <= 0 ->
  fCurrentData b = Some d ->
  GetValue d = Some refid ->
  refid <> EmptyString ->
  sscanf_lld refid (-1) = objid ->
  objid <> 0 -> objid <> -1 -> fFirstObjId b <= objid ->
  IsBlobData d = false \/ VerifyDataType d sqlio.ObjectPtr = true ->
  fObjMap b = Some map ->
  map !! (objid - fFirstObjId b) = Some addr -> addr <> 0 ->
  SqlReadObject TClass_GetClass SqlReadObjectDirect obj want_cl b
  = Some ((addr,
           if want_cl then
             match SqlObjectInfo objid b with
             | Some (clname, _) => TClass_GetClass clname
             | None => None
             end
           else None),
          set_fCurrentData (Some (ShiftToNextValue d)) b).
Proof.
  intros Hflag Hd Hv Hne Hid H0 H1 Hfirst Hptr Hmap Hlook Haddr.
  unfold SqlReadObject. cbn [bind get].
  rewrite gtb_false by assumption.
  rewrite Hd. cbn [deref bind ret]. rewrite Hv.
  destruct refid as [|ch refid]; [congruence|].
  rewrite Hid.
  replace (negb (IsBlobData d) || VerifyDataType d sqlio.ObjectPtr) with true
    by (destruct Hptr as [-> | ->]; [reflexivity | symmetry; apply orb_true_r]).
  destruct (Z.eqb_spec objid 0) as [|_]; [contradiction|].
  destruct (Z.eqb_spec objid (-1)) as [|_]; [contradiction|].
  rewrite Hmap. rewrite geb_true by exact Hfirst.
  unfold TExMap_GetValue. rewrite Hlook. cbn [default from_option id].
  destruct (Z.eqb_spec addr 0) as [|_]; [contradiction|].
  reflexivity.
Qed.

Lemma reference_to_read_object_gives_its_address_witness :
  let d := {| od_info := None; od_objid := 10; od_classdata := None; od_classrow := None;
              od_blobdata := None; od_blobstmt := None; od_isblob := true;
              od_items := [{| it_name := "fTrack"; it_type := sqlio.ObjectPtr;
                              it_value := Some "12" |}] |} in
  let b := set_fObjMap (Some {[ 2 := 4096 ]})
             (set_fCurrentData (Some d)
                (set_fFirstObjId 10 (TBufferSQL2_new kRead None 0))) in
  SqlReadObject (fun name => Some name) (fun _ _ _ => fault) 0 false b
  = Some ((4096, None), set_fCurrentData (Some (ShiftToNextValue d)) b).
Proof.
  intros d b.
  apply (reference_to_read_object_gives_its_address
           (fun name => Some name) (fun _ _ _ => fault) 0 false b d "12"
           {[ 2 := 4096 ]} 12 4096).
  - cbn. lia.
  - reflexivity.
  - reflexivity.
  - discriminate.
  - vm_compute. reflexivity.
  - lia.
  - lia.
  - cbn. lia.
  - right. reflexivity.
  - reflexivity.
  - reflexivity.
  - lia.
Defined.

(** X8: a reference that is no number is taken for the pointer that was
    given.  With the error flag not set, when the current value is not empty
    and the scan leaves the id at -1 (the text is no number, or "-1"), and
    the value is a column value or blob data marked as object pointer,
    [SqlReadObject] returns the pointer it was given and no class, moves the
    cursor to the next value and sets no error flag; nothing is reported and
    [SqlReadObjectDirect] is not called. *)
Theorem reference_without_number_gives_the_given_pointer
    (TClass_GetClass : string -> option TClass)
    (SqlReadObjectDirect : Z -> bool -> Z -> M (Z * option TClass))
    (obj : Z) (want_cl : bool) (b : TBufferSQL2) (d : TSQLObjectData) (refid : string) :
  fErrorFlag b <= 0 ->
  fCurrentData b = Some d ->
  GetValue d = Some refid ->
  refid <> EmptyString ->
  sscanf_lld refid (-1) = -1 ->
  IsBlobData d = false \/ VerifyDataType d sqlio.ObjectPtr = true ->
  SqlReadObject TClass_GetClass SqlReadObjectDirect obj want_cl b
  = Some ((obj, None), set_fCurrentData (Some (ShiftToNextValue d)) b).
Proof.
  intros Hflag Hd Hv Hne Hid Hptr.
  unfold SqlReadObject. cbn [bind get].
  rewrite gtb_false by assumption.
  rewrite Hd. cbn [deref bind ret]. rewrite Hv.
  destruct refid as [|ch refid]; [congruence|].
  rewrite Hid.
  replace (negb (IsBlobData d) || VerifyDataType d sqlio.ObjectPtr) with true
    by (destruct Hptr as [-> | ->]; [reflexivity | symmetry; apply orb_true_r]).
  reflexivity.
Qed.

Lemma reference_without_number_gives_the_given_pointer_witness :
  let d := {| od_info := None; od_objid := 10; od_classdata := None; od_classrow := None;
              od_blobdata := None; od_blobstmt := None; od_isblob := false;
              od_items := [{| it_name := "fTrack"; it_type := sqlio.ObjectRef;
                              it_value := Some "none" |}] |} in
  let b := set_fCurrentData (Some d) (TBufferSQL2_new kRead None 0) in
  SqlReadObject (fun name => Some name) (fun _ _ _ => fault) 4096 true b
  = Some ((4096, None), set_fCurrentData (Some (ShiftToNextValue d)) b).
Proof.
  intros d b.
  apply (reference_without_number_gives_the_given_pointer
           (fun name => Some name) (fun _ _ _ => fault) 4096 true b d "none").
  - cbn. lia.
  - reflexivity.
  - reflexivity.
  - discriminate.
  - vm_compute. reflexivity.
  - left. reflexivity.
Defined.

(** X9: blob data that is neither an object pointer nor an object reference
    is refused.  With the error flag not set and a current value that is not
    empty, when the data is blob data and its marker is neither [ObjectPtr]
    nor [ObjectRef], [SqlReadObject] reports an error, sets the error flag
    to 1 and returns the pointer it was given; the cursor stays on the value
    and [SqlReadObjectDirect] is not called. *)
Theorem blob_without_reference_marker_is_refused
    (TClass_GetClass : string -> option TClass)
    (SqlReadObjectDirect : Z -> bool -> Z -> M (Z * option TClass))
    (obj : Z) (want_cl : bool) (b : TBufferSQL2) (d : TSQLObjectData) (refid : string) :
  fErrorFlag b <= 0 ->
  fCurrentData b = Some d ->
  GetValue d = Some refid ->
  refid <> EmptyString ->
  IsBlobData d = true ->
  VerifyDataType d sqlio.ObjectPtr = false ->
  VerifyDataType d sqlio.ObjectRef = false ->
  exists b',
    SqlReadObject TClass_GetClass SqlReadObjectDirect obj want_cl b = Some ((obj, None), b')
    /\ fErrorFlag b' = 1
    /\ fCurrentData b' = Some d
    /\ fReports b' = fReports b ++ [("SqlReadObject",
                        "Object reference or pointer is not found in blob data")]
    /\ fObjMap b' = fObjMap b.
Proof.
  intros Hflag Hd Hv Hne Hblob Hptr Href.
  unfold SqlReadObject. cbn [bind get].
  rewrite gtb_false by assumption.
  rewrite Hd. cbn [deref bind ret]. rewrite Hv.
  destruct refid as [|ch refid]; [congruence|].
  rewrite Hblob, Hptr, Href. cbn [negb orb andb].
  eexists. split; [reflexivity|].
  cbn. rewrite Hd. repeat split.
Qed.

Lemma blob_without_reference_marker_is_refused_witness :
  let d := {| od_info := None; od_objid := 10; od_classdata := None; od_classrow := None;
              od_blobdata := None; od_blobstmt := None; od_isblob := true;
              od_items := [{| it_name := "fTrack"; it_type := sqlio.Int;
                              it_value := Some "12" |}] |} in
  let b := set_fCurrentData (Some d) (TBufferSQL2_new kRead None 0) in
  exists b',
    SqlReadObject (fun name => Some name) (fun _ _ _ => fault) 4096 true b
      = Some ((4096, None), b')
    /\ fErrorFlag b' = 1.
Proof.
  intros d b.
  destruct (blob_without_reference_marker_is_refused
              (fun name => Some name) (fun _ _ _ => fault) 4096 true b d "12")
    as (b' & Hrun & Hflag & _).
  - cbn. lia.
  - reflexivity.
  - reflexivity.
  - discriminate.
  - reflexivity.
  - reflexivity.
  - reflexivity.
  - exists b'. split; [exact Hrun|exact Hflag].
Defined.

(* --------------------------------------------------------------------- *)
(** ** The other integer types *)
(* --------------------------------------------------------------------- *)

Module IntegerFacts.
Import CText CTextFacts TagFacts BasicFacts.

Lemma in_signed_bounds w v :
  in_signed w v = true <-> - 2 ^ (w - 1) <= v < 2 ^ (w - 1).
Proof. unfold in_signed. rewrite andb_true_iff, Z.leb_le, Z.ltb_lt. reflexivity. Qed.

Lemma in_unsigned_bounds w v : in_unsigned w v = true <-> 0 <= v < 2 ^ w.
Proof. unfold in_unsigned. rewrite andb_true_iff, Z.leb_le, Z.ltb_lt. reflexivity. Qed.

Lemma store_hd_id v : in_signed 16 v = true -> store_hd v = v.
Proof.
  intros H. apply in_signed_bounds in H.
  unfold store_hd, clamp_signed, wrap_signed.
  change (2 ^ (16 - 1)) with 32768 in *.
  change (2 ^ (64 - 1)) with 9223372036854775808.
  change (2 ^ 16) with 65536.
  rewrite Z.min_r, Z.max_r by lia. rewrite Z.mod_small by lia. lia.
Qed.

Lemma store_lld_id v : in_signed 64 v = true -> store_lld v = v.
Proof.
  intros H. apply in_signed_bounds in H.
  unfold store_lld, clamp_signed.
  change (2 ^ (64 - 1)) with 9223372036854775808 in *.
  rewrite Z.min_r, Z.max_r by lia. reflexivity.
Qed.

(** The text printed for an unsigned number of at most 64 bits scans back
    to the number. *)
Lemma scan_ulong_dec v :
  0 <= v < 2 ^ 64 -> scan_ulong (dec v) = Some (v, EmptyString).
Proof.
  intros Hv. change (2 ^ 64) with 18446744073709551616 in *.
  assert (Hbig : 0 <= v < 10 ^ 20) by (change (10 ^ 20) with 100000000000000000000; lia).
  destruct (dec_spec v Hbig) as (Hall & Hval & Hstart).
  pose proof (scan_unsigned_dec v EmptyString Hbig eq_refl) as Hscan.
  rewrite append_empty in Hscan.
  destruct (dec v) as [|c s] eqn:Hdec; [discriminate|].
  cbn in Hstart. destruct (digit_val c) as [d|] eqn:Hc; [|discriminate].
  unfold scan_ulong. cbn [skip_space].
  rewrite (digit_not_space c d Hc).
  rewrite (digit_not_char c d "-" Hc) by reflexivity.
  rewrite (digit_not_char c d "+" Hc) by reflexivity.
  rewrite Hscan. rewrite Z.min_l by lia. reflexivity.
Qed.

Lemma scan_unsigned_into_dec w v old :
  0 <= w <= 64 -> in_unsigned w v = true -> scan_unsigned_into w (dec v) old = v.
Proof.
  intros Hw Hv. apply in_unsigned_bounds in Hv.
  assert (2 ^ w <= 2 ^ 64) by (apply Z.pow_le_mono_r; lia).
  unfold scan_unsigned_into. rewrite scan_ulong_dec by lia.
  unfold wrap_unsigned. apply Z.mod_small. exact Hv.
Qed.

Lemma signed_64_printed v : in_signed 64 v = true -> - 10 ^ 20 < v < 10 ^ 20.
Proof.
  intros H. apply in_signed_bounds in H.
  change (2 ^ (64 - 1)) with 9223372036854775808 in H.
  change (10 ^ 20) with 100000000000000000000. lia.
Qed.

Lemma Short_t_laws : @SqlBasicLaws Z Short_t_basic.
Proof.
  split.
  - intros x y. apply Z.eqb_eq.
  - intros v old Hv. cbn [sql_scan sql_print sql_valid Short_t_basic] in *.
    assert (Hb : - 10 ^ 20 < v < 10 ^ 20).
    { apply in_signed_bounds in Hv. change (2 ^ (16 - 1)) with 32768 in Hv.
      change (10 ^ 20) with 100000000000000000000. lia. }
    rewrite scan_signed_print_all by exact Hb. apply store_hd_id, Hv.
Qed.

Lemma Long_t_laws : @SqlBasicLaws Z Long_t_basic.
Proof.
  split.
  - intros x y. apply Z.eqb_eq.
  - intros v old Hv. cbn [sql_scan sql_print sql_valid Long_t_basic] in *. unfold sscanf_lld.
    rewrite scan_signed_print_all by (apply signed_64_printed, Hv).
    apply store_lld_id, Hv.
Qed.

Lemma Long64_t_laws : @SqlBasicLaws Z Long64_t_basic.
Proof.
  split.
  - intros x y. apply Z.eqb_eq.
  - intros v old Hv. cbn [sql_scan sql_print sql_valid Long64_t_basic] in *. unfold sscanf_lld.
    rewrite scan_signed_print_all by (apply signed_64_printed, Hv).
    apply store_lld_id, Hv.
Qed.

Lemma UChar_t_laws n : @SqlBasicLaws Z (UChar_t_basic n).
Proof.
  split.
  - intros x y. apply Z.eqb_eq.
  - intros v old Hv. cbn [sql_scan sql_print sql_valid UChar_t_basic] in *.
    pose proof (proj1 (in_unsigned_bounds 8 v) Hv) as Hb.
    change (2 ^ 8) with 256 in Hb.
    rewrite scan_unsigned_into_dec; [|lia|].
    + unfold wrap_unsigned. apply Z.mod_small. exact Hb.
    + apply in_unsigned_bounds. change (2 ^ 32) with 4294967296. lia.
Qed.

Lemma UShort_t_laws : @SqlBasicLaws Z UShort_t_basic.
Proof.
  split.
  - intros x y. apply Z.eqb_eq.
  - intros v old Hv. cbn [sql_scan sql_print sql_valid UShort_t_basic] in *. apply scan_unsigned_into_dec; [lia|exact Hv].
Qed.

Lemma UInt_t_laws : @SqlBasicLaws Z UInt_t_basic.
Proof.
  split.
  - intros x y. apply Z.eqb_eq.
  - intros v old Hv. cbn [sql_scan sql_print sql_valid UInt_t_basic] in *. apply scan_unsigned_into_dec; [lia|exact Hv].
Qed.

Lemma ULong_t_laws : @SqlBasicLaws Z ULong_t_basic.
Proof.
  split.
  - intros x y. apply Z.eqb_eq.
  - intros v old Hv. cbn [sql_scan sql_print sql_valid ULong_t_basic] in *. apply scan_unsigned_into_dec; [lia|exact Hv].
Qed.

Lemma ULong64_t_laws : @SqlBasicLaws Z ULong64_t_basic.
Proof.
  split.
  - intros x y. apply Z.eqb_eq.
  - intros v old Hv. cbn [sql_scan sql_print sql_valid ULong64_t_basic] in *. apply scan_unsigned_into_dec; [lia|exact Hv].
Qed.

End IntegerFacts.

(** A basic type whose scan undoes its print is written and read back. *)
Lemma laws_written_and_read_back {T : Type} (basic : SqlBasic T) :
  @SqlBasicLaws T basic -> written_and_read_back basic.
Proof.
  intros laws v old wb top b d name rest Hvalid Htop Hflag Hd Hitems.
  split; [apply SqlWriteValue_eq, Htop|].
  assert (Hmark : VerifyDataType d sql_tname = true).
  { unfold VerifyDataType. rewrite Hitems. cbn. apply String.eqb_refl. }
  assert (Hval : GetValue d = Some (sql_print v)).
  { unfold GetValue. rewrite Hitems. reflexivity. }
  split.
  - rewrite (SqlReadBasic_taken old b d Hflag Hd (or_intror Hmark)).
    rewrite Hval. cbn [default from_option id].
    rewrite (sql_scan_print T laws v old Hvalid). reflexivity.
  - split; [reflexivity|]. cbn. rewrite Hitems. reflexivity.
Qed.

(** X10: values of the signed integer types are read back as written.
    For [Short_t], [Long_t] and [Long64_t]: [SqlWriteBasic] adds a value node
    with the decimal text of the value and the marker of the type, and
    [SqlReadBasic] on a stored value with that text and marker gives the
    value for every value of the type, whatever the variable held. *)
Theorem signed_integers_are_read_back_as_written :
  written_and_read_back Short_t_basic
  /\ written_and_read_back Long_t_basic
  /\ written_and_read_back Long64_t_basic.
Proof.
  split; [|split]; apply laws_written_and_read_back.
  - exact IntegerFacts.Short_t_laws.
  - exact IntegerFacts.Long_t_laws.
  - exact IntegerFacts.Long64_t_laws.
Qed.

(** The least [Short_t]. *)
Lemma signed_integers_are_read_back_as_written_witness :
  let d := {| od_info := None; od_objid := 1; od_classdata := None; od_classrow := None;
              od_blobdata := None; od_blobstmt := None; od_isblob := true;
              od_items := [item_of_value "fCharge" "-32768" sqlio.Short] |} in
  let b := set_fCurrentData (Some d) (TBufferSQL2_new kRead None 0) in
  let wb := pushed (TBufferSQL2_new kWrite None 0) in
  @SqlWriteBasic Z Short_t_basic (-32768) wb
    = Some (true, value_added 0 "-32768" sqlio.Short wb)
  /\ @SqlReadBasic Z Short_t_basic 7 b = Some (-32768, value_taken d b).
Proof.
  intros d b wb.
  destruct (proj1 signed_integers_are_read_back_as_written
              (-32768) 7 wb 0%nat b d "fCharge" [])
    as (Hw & Hr & _).
  - reflexivity.
  - reflexivity.
  - cbn. lia.
  - reflexivity.
  - reflexivity.
  - split; [exact Hw|exact Hr].
Defined.

(** X11: values of the unsigned integer types are read back as written.
    For [UChar_t], [UShort_t], [UInt_t], [ULong_t] and [ULong64_t]:
    [SqlWriteBasic] adds a value node with the decimal text of the value and
    the marker of the type, and [SqlReadBasic] on a stored value with that
    text and marker gives the value for every value of the type, whatever
    the variable held (and, for [UChar_t], whatever the local of the read
    held before its scan). *)
Theorem unsigned_integers_are_read_back_as_written :
  (forall n, written_and_read_back (UChar_t_basic n))
  /\ written_and_read_back UShort_t_basic
  /\ written_and_read_back UInt_t_basic
  /\ written_and_read_back ULong_t_basic
  /\ written_and_read_back ULong64_t_basic.
Proof.
  split; [|split; [|split; [|split]]]; try intros n; apply laws_written_and_read_back.
  - exact (IntegerFacts.UChar_t_laws n).
  - exact IntegerFacts.UShort_t_laws.
  - exact IntegerFacts.UInt_t_laws.
  - exact IntegerFacts.ULong_t_laws.
  - exact IntegerFacts.ULong64_t_laws.
Qed.

(** The greatest [ULong64_t]. *)
Lemma unsigned_integers_are_read_back_as_written_witness :
  let d := {| od_info := None; od_objid := 1; od_classdata := None; od_classrow := None;
              od_blobdata := None; od_blobstmt := None; od_isblob := true;
              od_items := [item_of_value "fBits" "18446744073709551615" sqlio.ULong64] |} in
  let b := set_fCurrentData (Some d) (TBufferSQL2_new kRead None 0) in
  let wb := pushed (TBufferSQL2_new kWrite None 0) in
  @SqlWriteBasic Z ULong64_t_basic 18446744073709551615 wb
    = Some (true, value_added 0 "18446744073709551615" sqlio.ULong64 wb)
  /\ @SqlReadBasic Z ULong64_t_basic 7 b = Some (18446744073709551615, value_taken d b).
Proof.
  intros d b wb.
  destruct (proj2 (proj2 (proj2 (proj2 unsigned_integers_are_read_back_as_written)))
              18446744073709551615 7 wb 0%nat b d "fBits" [])
    as (Hw & Hr & _).
  - reflexivity.
  - reflexivity.
  - cbn. lia.
  - reflexivity.
  - reflexivity.
  - split; [exact Hw|exact Hr].
Defined.

(* --------------------------------------------------------------------- *)
(** ** Strings on the read path *)
(* --------------------------------------------------------------------- *)

Lemma memcpy_out_of_bounds (dst src : list ascii) (size : Z) b :
  Z.of_nat (length src) < size \/ Z.of_nat (length dst) < size ->
  memcpy dst src size b = None.
Proof.
  intros Hout. unfold memcpy.
  destruct (Z.leb_spec 0 size); [|reflexivity].
  destruct (Z.leb_spec size (Z.of_nat (length src))); [|reflexivity].
  destruct (Z.leb_spec size (Z.of_nat (length dst))); [|reflexivity].
  lia.
Qed.

Lemma c_buffer_length (s : string) : length (c_buffer s) = S (String.length s).
Proof.
  unfold c_buffer. rewrite length_app. cbn.
  assert (H : length (list_ascii_of_string s) = String.length s).
  { induction s as [|c s IH]; [reflexivity|]. cbn. rewrite IH. reflexivity. }
  rewrite H. lia.
Qed.

(** X12: [ReadFastArray(Char_t*, n)] copies the longer of [n] and the length
    of the stored string.  For [n > 0], blob data marked CharStar, the error
    flag not set and a stored string that is not a code of the long-string
    table, the call is the [memcpy] of the greater of [n] and the length of
    the string from the string to the array.  So a stored string that is
    longer than the array is copied beyond the end of the array, and with
    [n] greater than the length of the string plus its final zero the copy
    reads beyond the string: in both cases there is no result.  Otherwise the
    array holds the first characters of the string with its final zero. *)
Theorem char_array_read_copies_the_longer_length
    (WorkWithElement_reading : M unit) (Char_local : Z) (junk : Z -> Z * Z)
    (dst : list ascii) (n : Z) (b : TBufferSQL2) (d : TSQLObjectData)
    (sql : TSQLFile) (top : nat) (value : string) :
  0 < n ->
  fErrorFlag b <= 0 ->
  fCurrentData b = Some d ->
  IsBlobData d = true ->
  VerifyDataType d sqlio.CharStar = true ->
  GetValue d = Some value ->
  fSQL b = Some sql ->
  fStk b = Some top ->
  IsLongStringCode (top_object_id b) value sql <= 0 ->
  let len := Z.of_nat (String.length value) in
  ReadFastArray_Char WorkWithElement_reading Char_local junk dst n b
  = memcpy dst (c_buffer value) (Z.max n len) (value_taken d b)
  /\ (Z.of_nat (length dst) < len ->
      ReadFastArray_Char WorkWithElement_reading Char_local junk dst n b = None)
  /\ (len + 1 < n ->
      ReadFastArray_Char WorkWithElement_reading Char_local junk dst n b = None)
  /\ (n <= len + 1 -> Z.max n len <= Z.of_nat (length dst) ->
      ReadFastArray_Char WorkWithElement_reading Char_local junk dst n b
      = Some (take (Z.to_nat (Z.max n len)) (c_buffer value)
                ++ drop (Z.to_nat (Z.max n len)) dst,
              value_taken d b)).
Proof.
  intros Hn Hf Hd Hblob Htype Hvalue Hsql Htop Hlong len.
  assert (Hcall : ReadFastArray_Char WorkWithElement_reading Char_local junk dst n b
                  = memcpy dst (c_buffer value) (Z.max n len) (value_taken d b)).
  { unfold ReadFastArray_Char. cbn [bind get].
    rewrite gtb_true by lia. rewrite Hd. cbn [deref bind ret]. rewrite Hblob, Htype.
    cbn [andb].
    rewrite (bind_run _ _ _ _ _
               (SqlReadCharStarValue_direct b d sql top _ Hf Hd Htype Hvalue Hsql Htop Hlong)).
    destruct (Z.leb_spec n 0); [lia|]. fold len.
    destruct (Z.ltb_spec len n).
    - rewrite Z.max_l by lia. reflexivity.
    - rewrite Z.max_r by lia. reflexivity. }
  split; [exact Hcall|].
  split; [|split].
  - intros Hlong'. rewrite Hcall. apply memcpy_out_of_bounds. right. lia.
  - intros Hshort. rewrite Hcall. apply memcpy_out_of_bounds. left.
    rewrite c_buffer_length. unfold len in *. lia.
  - intros Hsrc Hdst. rewrite Hcall.
    rewrite <- (Z2Nat.id (Z.max n len)) at 1 by lia.
    apply memcpy_eq.
    + rewrite c_buffer_length. unfold len in *. lia.
    + lia.
Qed.

(** The string "abcdef" read into an array of three characters. *)
Lemma char_array_read_copies_the_longer_length_witness :
  let sql := {| sql_tables := ∅; sql_blobs := ∅; sql_statements := false;
                sql_longstrings := ∅; sql_longcodes := ∅; sql_requests := [] |} in
  let d := {| od_info := None; od_objid := 1; od_classdata := None; od_classrow := None;
              od_blobdata := None; od_blobstmt := None; od_isblob := true;
              od_items := [ {| it_name := "fName"; it_type := sqlio.CharStar;
                               it_value := Some "abcdef" |} ] |} in
  let b := set_fCurrentData (Some d) (pushed (TBufferSQL2_new kRead (Some sql) 0)) in
  ReadFastArray_Char (ret tt) 0 (fun _ => (0, 0)) ["x"; "y"; "z"]%char 3 b = None.
Proof.
  intros sql d b.
  destruct (char_array_read_copies_the_longer_length (ret tt) 0 (fun _ => (0, 0))
              ["x"; "y"; "z"]%char 3 b d sql 0%nat "abcdef")
    as (_ & Hover & _).
  - lia.
  - cbn. lia.
  - reflexivity.
  - reflexivity.
  - reflexivity.
  - reflexivity.
  - reflexivity.
  - reflexivity.
  - vm_compute. discriminate.
  - apply Hover. cbn. lia.
Defined.



(* --------------------------------------------------------------------- *)
(** ** The structure stack *)
(* --------------------------------------------------------------------- *)

Lemma parent_of_app nodes extra i :
  (i < length nodes)%nat -> parent_of (nodes ++ extra) i = parent_of nodes i.
Proof. intros Hi. unfold parent_of. rewrite lookup_app_l by exact Hi. reflexivity. Qed.

Lemma parent_of_before nodes i p :
  (forall i n p, nodes !! i = Some n -> fParent n = Some p -> (p < i)%nat) ->
  parent_of nodes i = Some p -> (p < i)%nat /\ (i < length nodes)%nat.
Proof.
  intros Hpar. unfold parent_of. destruct (nodes !! i) as [n|] eqn:Hn; [|discriminate].
  intros Hp. split; [exact (Hpar i n p Hn Hp)|].
  apply lookup_lt_is_Some. eexists. exact Hn.
Qed.

(** The walk of [Stack(depth)] stays in the tree, and nodes added to the
    tree do not change it. *)
Lemma Stack_from_in nodes depth curr :
  (forall i n p, nodes !! i = Some n -> fParent n = Some p -> (p < i)%nat) ->
  (forall t, curr = Some t -> (t < length nodes)%nat) ->
  forall t, Stack_from nodes depth curr = Some t -> (t < length nodes)%nat.
Proof.
  intros Hpar. revert curr. induction depth as [|depth IH]; intros curr Hcurr t.
  - destruct curr; cbn; intros E; apply Hcurr; exact E.
  - destruct curr as [i|]; cbn; [|discriminate].
    apply IH. intros p Hp. destruct (parent_of_before nodes i p Hpar Hp). lia.
Qed.

Lemma Stack_from_app nodes extra depth curr :
  (forall i n p, nodes !! i = Some n -> fParent n = Some p -> (p < i)%nat) ->
  (forall t, curr = Some t -> (t < length nodes)%nat) ->
  Stack_from (nodes ++ extra) depth curr = Stack_from nodes depth curr.
Proof.
  intros Hpar. revert curr. induction depth as [|depth IH]; intros curr Hcurr.
  - destruct curr; reflexivity.
  - destruct curr as [i|]; cbn; [|reflexivity].
    rewrite parent_of_app by (apply Hcurr; reflexivity).
    apply IH. intros p Hp. destruct (parent_of_before nodes i p Hpar Hp). lia.
Qed.

Lemma tree_ok_new mode file compression : tree_ok (TBufferSQL2_new mode file compression).
Proof.
  split.
  - intros t H. cbn in H. discriminate.
  - intros i n p H. cbn in H. rewrite lookup_nil in H. discriminate.
Qed.

Lemma tree_ok_added b (n : TSQLStructure) :
  tree_ok b -> (forall p, fParent n = Some p -> (p < length (fNodes b))%nat) ->
  forall i m p, (fNodes b ++ [n]) !! i = Some m -> fParent m = Some p -> (p < i)%nat.
Proof.
  intros [_ Hpar] Hn i m p Hi Hp.
  destruct (decide (i < length (fNodes b))%nat) as [Hlt|Hge].
  - rewrite lookup_app_l in Hi by exact Hlt. exact (Hpar i m p Hi Hp).
  - rewrite lookup_app_r in Hi by lia.
    destruct (i - length (fNodes b))%nat as [|k] eqn:Hk;
      [|destruct k; discriminate].
    cbn in Hi. injection Hi as <-. specialize (Hn p Hp). lia.
Qed.

Lemma tree_ok_pushed b : tree_ok b -> tree_ok (pushed b).
Proof.
  intros Hok. split.
  - intros t [= <-]. cbn. rewrite length_app. cbn. lia.
  - cbn [fNodes pushed set_fStk set_fStructure set_fNodes].
    apply tree_ok_added; [exact Hok|]. cbn. apply Hok.
Qed.

Lemma tree_ok_value_added top value tname b :
  tree_ok b -> fStk b = Some top -> tree_ok (value_added top value tname b).
Proof.
  intros Hok Htop. split.
  - intros t Ht. cbn in *. rewrite length_app. pose proof (proj1 Hok t Ht). lia.
  - cbn [fNodes value_added set_fNodes].
    apply tree_ok_added; [exact Hok|]. cbn. intros p [= <-]. exact (proj1 Hok top Htop).
Qed.

(** X14: the structure stack stays in the tree.  A new buffer has an empty
    tree and an empty stack.  When the node on top of the stack is a node of
    the tree and every parent was made before its children, this is so again
    after [PushStack], after [PopStack] and after [SqlWriteValue];
    [PopStack] and [Stack(depth)] then always return, a node of the tree or
    null; [PopStack] after [PushStack] leaves the stack where it was; and
    after [PushStack] the node [depth + 1] levels up is the one that was
    [depth] levels up before. *)
Theorem structure_stack_stays_in_the_tree (b : TBufferSQL2) :
  tree_ok b ->
  (PushStack b = Some (length (fNodes b), pushed b) /\ tree_ok (pushed b))
  /\ (exists r b',
        PopStack b = Some (r, b') /\ tree_ok b' /\ fNodes b' = fNodes b /\ fStk b' = r
        /\ r = match fStk b with
               | Some t => parent_of (fNodes b) t
               | None => None
               end)
  /\ (forall value tname,
        fStk b <> None ->
        exists b', SqlWriteValue value tname b = Some (true, b')
                   /\ tree_ok b' /\ fStk b' = fStk b)
  /\ (forall depth,
        exists r, Stack depth b = Some (r, b)
                  /\ forall t, r = Some t -> (t < length (fNodes b))%nat)
  /\ (PushStack;;; PopStack) b = Some (fStk b, set_fStk (fStk b) (pushed b))
  /\ (forall depth r,
        0 <= depth -> Stack depth b = Some (r, b) ->
        Stack (depth + 1) (pushed b) = Some (r, pushed b)).
Proof.
  intros Hok. pose proof Hok as [Hstk Hpar].
  split; [split; [apply PushStack_eq|apply tree_ok_pushed; exact Hok]|].
  split.
  { destruct (fStk b) as [t|] eqn:Ht.
    - destruct (lookup_lt_is_Some_2 (fNodes b) t (Hstk t eq_refl)) as [n Hn].
      exists (fParent n), (set_fStk (fParent n) b).
      split; [exact (PopStack_eq b t n Ht Hn)|].
      split.
      + split; [|exact Hpar].
        intros p Hp. cbn in Hp. cbn [fNodes set_fStk].
        pose proof (Hpar t n p Hn Hp). pose proof (Hstk t eq_refl). lia.
      + split; [reflexivity|]. split; [reflexivity|].
        unfold parent_of. rewrite Hn. reflexivity.
    - exists None, b. split; [exact (PopStack_empty b Ht)|].
      split; [exact Hok|]. split; [reflexivity|]. split; [exact Ht|reflexivity]. }
  split.
  { intros value tname Hne. destruct (fStk b) as [top|] eqn:Htop; [|congruence].
    exists (value_added top value tname b).
    split; [exact (SqlWriteValue_eq value tname b top Htop)|].
    split; [apply tree_ok_value_added; assumption|exact Htop]. }
  split.
  { intros depth. eexists. split; [reflexivity|].
    apply Stack_from_in; [exact Hpar|exact Hstk]. }
  split.
  { rewrite (bind_run _ _ _ _ _ (PushStack_eq b)).
    exact (PopStack_eq (pushed b) (length (fNodes b)) (new_TSQLStructure (fStk b))
             eq_refl (lookup_at_end _ _)). }
  intros depth r Hdepth Hr.
  unfold Stack, bind, get, ret in *. injection Hr as <-.
  replace (Z.to_nat (depth + 1)) with (S (Z.to_nat depth)) by lia.
  cbn [fNodes fStk pushed set_fStk set_fStructure set_fNodes Stack_from].
  unfold parent_of at 1. rewrite lookup_at_end. cbn [fParent new_TSQLStructure].
  rewrite Stack_from_app by assumption. reflexivity.
Qed.

(** A buffer after two calls of [PushStack]. *)
Lemma structure_stack_stays_in_the_tree_witness :
  let b := pushed (pushed (TBufferSQL2_new kWrite None 0)) in
  Stack 2 (pushed b) = Some (Some 0%nat, pushed b).
Proof.
  intros b.
  destruct (structure_stack_stays_in_the_tree b) as (_ & _ & _ & _ & _ & Hup).
  - apply tree_ok_pushed, tree_ok_pushed, tree_ok_new.
  - apply (Hup 1 (Some 0%nat)); [lia|reflexivity].
Defined.

(* --------------------------------------------------------------------- *)
(** ** More on arrays *)
(* --------------------------------------------------------------------- *)

Section MoreRuns.
Context {T : Type} `{SqlBasic T} (laws : SqlBasicLaws T).

Lemma runs_from_replicate s n (x : T) :
  runs_from s (replicate (S n) x) = [(x, s, S n)].
Proof.
  revert s. induction n as [|n IH]; intros s; [reflexivity|].
  change (replicate (S (S n)) x) with (x :: replicate (S n) x).
  cbn [runs_from]. rewrite IH. rewrite (sql_eqb_refl laws). reflexivity.
Qed.

Lemma runs_from_length s (arr : list T) : (length (runs_from s arr) <= length arr)%nat.
Proof.
  revert s. induction arr as [|x arr IH]; intros s; [reflexivity|].
  cbn [runs_from]. specialize (IH (S s)).
  destruct (runs_from (S s) arr) as [|[[y s'] k] runs]; [cbn; lia|].
  destruct (sql_eqb x y); cbn in *; lia.
Qed.

Lemma runs_from_nonempty s (arr : list T) : arr <> [] -> runs_from s arr <> [].
Proof.
  destruct arr as [|x arr]; [congruence|]. intros _. cbn [runs_from].
  destruct (runs_from (S s) arr) as [|[[y s'] k] runs]; [discriminate|].
  destruct (sql_eqb x y); discriminate.
Qed.

End MoreRuns.

(** X15: what compression saves.  With a compression level above 0 the
    write of an array of [n >= 1] elements adds, below the node of the
    array, at least one value node and at most [n]; for an array of [n]
    equal elements it adds exactly one, with the text of the element, for
    the indices 0 to [n - 1]. *)
Theorem compressed_array_has_at_most_one_node_for_each_element
    (T : Type) (basic : SqlBasic T) (laws : SqlBasicLaws T)
    (arr : list T) (withsize : bool) (b : TBufferSQL2) :
  (1 <= length arr)%nat -> fCompressLevel b > 0 ->
  exists runs,
    SQLWriteArrayContent arr (Z.of_nat (length arr)) withsize b
    = Some (tt, array_written (if withsize then Z.of_nat (length arr) else -1) runs b)
    /\ (1 <= length runs <= length arr)%nat
    /\ (forall x, arr = replicate (length arr) x -> runs = [(x, 0%nat, length arr)]).
Proof.
  intros Hn Hlevel. exists (runs_from 0 arr).
  split.
  - rewrite (SQLWriteArrayContent_spec laws). rewrite gtb_true by lia. reflexivity.
  - split.
    + split; [|apply runs_from_length].
      assert (runs_from 0 arr <> []) as Hne
        by (apply runs_from_nonempty; destruct arr; [cbn in Hn; lia|discriminate]).
      destruct (runs_from 0 arr); [congruence|cbn; lia].
    + intros x Hx. rewrite Hx at 1.
      destruct (length arr) as [|n]; [lia|]. apply (runs_from_replicate laws).
Qed.

Lemma compressed_array_has_at_most_one_node_for_each_element_witness :
  let b := set_fCompressLevel 1 (pushed (TBufferSQL2_new kWrite None 0)) in
  exists runs,
    SQLWriteArrayContent [5; 5; 5; 5] 4 true b = Some (tt, array_written 4 runs b)
    /\ runs = [(5, 0%nat, 4%nat)].
Proof.
  intros b.
  destruct (compressed_array_has_at_most_one_node_for_each_element
              Z Int_t_basic BasicFacts.Int_t_laws [5; 5; 5; 5] true b)
    as (runs & Hrun & _ & Hone).
  - cbn. lia.
  - cbn. lia.
  - exists runs. split; [exact Hrun|]. apply (Hone 5). reflexivity.
Defined.

Lemma values_taken_items n d : od_items (values_taken n d) = drop n (od_items d).
Proof.
  revert d. induction n as [|n IH]; intros d; [rewrite drop_0; reflexivity|].
  cbn [values_taken]. rewrite IH. cbn.
  destruct (od_items d); [destruct n; reflexivity|reflexivity].
Qed.

(** X16: the read path expands every chain of runs.  Blob data that holds
    runs that follow each other from index 0 and cover [n >= 1] elements,
    whether each run is a maximal span of equal values or not, is read by
    [SQLReadArrayContent] as the array the runs stand for; the error flag and
    the stack are left as they were and the cursor is behind the runs. *)
Theorem compressed_reader_expands_every_chain_of_runs
    (T : Type) (basic : SqlBasic T) (laws : SqlBasicLaws T)
    (junk : Z -> Z * Z) (runs : list (T * nat * nat)) (vname : list T)
    (withsize : bool) (b : TBufferSQL2) (d : TSQLObjectData) (rest : list DataItem) :
  chained 0 runs ->
  length vname = length (expand runs) ->
  Z.of_nat (length (expand runs)) < 2147483648 ->
  forallb sql_valid (expand runs) = true ->
  fErrorFlag b <= 0 ->
  fCurrentData b = Some d ->
  IsBlobData d = true ->
  od_items d = map item_of_run runs ++ rest ->
  exists b',
    SQLReadArrayContent junk vname (Z.of_nat (length (expand runs))) withsize b
    = Some (expand runs, b')
    /\ fErrorFlag b' = fErrorFlag b
    /\ fStk b' = fStk b
    /\ fCurrentData b' = Some (values_taken (length runs) d)
    /\ od_items (values_taken (length runs) d) = rest.
Proof.
  intros Hchain Hlen Hmax Hvalid Hf Hd Hblob Hitems.
  destruct (SQLReadArrayContent_runs laws junk rest runs (expand runs) vname withsize b d)
    as (b' & Hrun & Hflag & Hdata & Hstk); try assumption; try reflexivity.
  - apply Forall_forall. intros x Hx.
    apply (proj1 (forallb_forall _ _) Hvalid). apply list_elem_of_In. exact Hx.
  - left. exact Hblob.
  - exists b'. split; [exact Hrun|]. split; [exact Hflag|]. split; [exact Hstk|].
    split; [exact Hdata|].
    rewrite values_taken_items, Hitems.
    rewrite <- (length_map item_of_run runs). apply drop_app_length.
Qed.

(** Two runs of the same value, which the write path would join. *)
Lemma compressed_reader_expands_every_chain_of_runs_witness :
  let runs := [(7, 0%nat, 2%nat); (7, 2%nat, 1%nat)] in
  let d := {| od_info := None; od_objid := 1; od_classdata := None; od_classrow := None;
              od_blobdata := None; od_blobstmt := None; od_isblob := true;
              od_items := map item_of_run runs |} in
  let b := set_fCurrentData (Some d) (pushed (TBufferSQL2_new kRead None 0)) in
  exists b',
    SQLReadArrayContent (fun _ => (0, 0)) [0; 0; 0] 3 false b = Some ([7; 7; 7], b').
Proof.
  intros runs d b.
  destruct (compressed_reader_expands_every_chain_of_runs Z Int_t_basic
              BasicFacts.Int_t_laws (fun _ => (0, 0)) runs [0; 0; 0] false b d [])
    as (b' & Hrun & _).
  - cbn. repeat split; lia.
  - reflexivity.
  - cbn. lia.
  - reflexivity.
  - cbn. lia.
  - reflexivity.
  - reflexivity.
  - reflexivity.
  - exists b'. exact Hrun.
Defined.

(** *** Arrays with their size *)

Lemma atoi_print n : CText.in_signed 32 n = true -> atoi (CText.print_d n) = n.
Proof.
  intros Hn. unfold atoi.
  pose proof (proj1 (TagFacts.in_signed_32 n) Hn).
  rewrite BasicFacts.scan_signed_print_all by lia. apply TagFacts.store_d_id, Hn.
Qed.

Lemma SqlReadArraySize_taken b d :
  fErrorFlag b <= 0 -> fCurrentData b = Some d ->
  fIgnoreVerification b = true \/ VerifyDataType d sqlio.Array = true ->
  SqlReadArraySize b
  = Some (match default EmptyString (GetValue d) with
          | EmptyString => 0
          | value => atoi value
          end, value_taken d b).
Proof.
  intros Hf Hd Hv. unfold SqlReadArraySize.
  rewrite (bind_run _ _ _ _ _ (SqlReadValue_taken _ b d Hf Hd Hv)).
  destruct (default EmptyString (GetValue d)); reflexivity.
Qed.

Lemma SqlReadArraySize_flagged b :
  fErrorFlag b > 0 -> SqlReadArraySize b = Some (0, b).
Proof.
  intros Hf. unfold SqlReadArraySize.
  rewrite (bind_run _ _ _ _ _ (SqlReadValue_flagged _ b Hf)). reflexivity.
Qed.

(** X17: an array with its size is read after its size.  With the error
    flag not set, from blob data that holds the size [n >= 1] of an array,
    marked as an array, and then runs that follow each other from index 0 and
    cover [n] elements, [ReadArray] returns [n] and the array the runs stand
    for, in the array it was given or, for a null pointer, in a new one;
    [ReadStaticArray] does the same for an array that is given, and for a
    null pointer it takes the size, returns 0 and reads no element. *)
Theorem array_with_size_is_read_after_its_size
    (T : Type) (basic : SqlBasic T) (laws : SqlBasicLaws T)
    (junk : Z -> Z * Z) (fresh : Z -> list T) (runs : list (T * nat * nat))
    (vname : option (list T)) (b : TBufferSQL2) (d : TSQLObjectData)
    (name : string) (rest : list DataItem) :
  chained 0 runs ->
  (1 <= length (expand runs))%nat ->
  Z.of_nat (length (expand runs)) < 2147483648 ->
  forallb sql_valid (expand runs) = true ->
  (forall n, 0 <= n -> length (fresh n) = Z.to_nat n) ->
  (forall v, vname = Some v -> length v = length (expand runs)) ->
  fErrorFlag b <= 0 ->
  fCurrentData b = Some d ->
  IsBlobData d = true ->
  od_items d
  = item_of_value name (CText.print_d (Z.of_nat (length (expand runs)))) sqlio.Array
    :: map item_of_run runs ++ rest ->
  exists b',
    ReadArray junk fresh vname b
    = Some ((Z.of_nat (length (expand runs)), Some (expand runs)), b')
    /\ fErrorFlag b' = fErrorFlag b
    /\ fStk b' = fStk b
    /\ ReadStaticArray junk vname b
       = match vname with
         | Some _ => Some ((Z.of_nat (length (expand runs)), Some (expand runs)), b')
         | None => Some ((0, None), value_taken d b)
         end.
Proof.
  intros Hchain Hn Hmax Hvalid Hfresh Hvname Hf Hd Hblob Hitems.
  set (n := Z.of_nat (length (expand runs))) in *.
  assert (Hmark : VerifyDataType d sqlio.Array = true)
    by (unfold VerifyDataType; rewrite Hitems; reflexivity).
  assert (Hvalue : GetValue d = Some (CText.print_d n))
    by (unfold GetValue; rewrite Hitems; reflexivity).
  assert (Hsize : SqlReadArraySize b = Some (n, value_taken d b)).
  { rewrite (SqlReadArraySize_taken b d Hf Hd (or_intror Hmark)).
    rewrite Hvalue. cbn [default from_option id].
    assert (Hat : atoi (CText.print_d n) = n)
      by (apply atoi_print, TagFacts.in_signed_32; unfold n; lia).
    destruct (CText.print_d n) eqn:Hp; [|rewrite Hat; reflexivity].
    cbn in Hat. unfold n in *. lia. }
  assert (Hrest : od_items (ShiftToNextValue d) = map item_of_run runs ++ rest)
    by (cbn; rewrite Hitems; reflexivity).
  assert (Hread : forall v, length v = length (expand runs) ->
            exists b', SQLReadArrayContent junk v n true (value_taken d b)
                       = Some (expand runs, b')
                       /\ fErrorFlag b' = fErrorFlag b /\ fStk b' = fStk b).
  { intros v Hv.
    destruct (SQLReadArrayContent_runs laws junk rest runs (expand runs) v true
                (value_taken d b) (ShiftToNextValue d))
      as (b' & Hrun & Hflag & _ & Hstk); try assumption; try reflexivity.
    - apply Forall_forall. intros x Hx.
      apply (proj1 (forallb_forall _ _) Hvalid). apply list_elem_of_In. exact Hx.
    - left. exact Hblob.
    - exists b'. split; [exact Hrun|]. split; [exact Hflag|exact Hstk]. }
  destruct (Hread (match vname with Some arr => arr | None => fresh n end))
    as (b' & Hrun & Hflag & Hstk).
  { destruct vname as [v|]; [apply Hvname; reflexivity|].
    rewrite Hfresh by (unfold n; lia). unfold n. apply Nat2Z.id. }
  exists b'. split; [|split; [exact Hflag|split; [exact Hstk|]]].
  - unfold ReadArray. rewrite (bind_run _ _ _ _ _ Hsize).
    destruct (Z.leb_spec n 0); [unfold n in *; lia|].
    rewrite (bind_run _ _ _ _ _ Hrun). reflexivity.
  - unfold ReadStaticArray. rewrite (bind_run _ _ _ _ _ Hsize).
    destruct (Z.leb_spec n 0); [unfold n in *; lia|].
    destruct vname as [v|]; [|reflexivity].
    rewrite (bind_run _ _ _ _ _ Hrun). reflexivity.
Qed.

(** The size 3 and two runs, read through a null pointer. *)
Lemma array_with_size_is_read_after_its_size_witness :
  let runs := [(7, 0%nat, 2%nat); (9, 2%nat, 1%nat)] in
  let d := {| od_info := None; od_objid := 1; od_classdata := None; od_classrow := None;
              od_blobdata := None; od_blobstmt := None; od_isblob := true;
              od_items := item_of_value "fArr" "3" sqlio.Array :: map item_of_run runs |} in
  let b := set_fCurrentData (Some d) (pushed (TBufferSQL2_new kRead None 0)) in
  exists b',
    ReadArray (fun _ => (0, 0)) (fun n => replicate (Z.to_nat n) 0) None b
    = Some ((3, Some [7; 7; 9]), b').
Proof.
  intros runs d b.
  destruct (array_with_size_is_read_after_its_size Z Int_t_basic BasicFacts.Int_t_laws
              (fun _ => (0, 0)) (fun n => replicate (Z.to_nat n) 0) runs None b d "fArr" [])
    as (b' & Hrun & _).
  - cbn. repeat split; lia.
  - cbn. lia.
  - cbn. lia.
  - reflexivity.
  - intros n _. apply length_replicate.
  - intros v Hv. discriminate.
  - cbn. lia.
  - reflexivity.
  - reflexivity.
  - reflexivity.
  - exists b'. exact Hrun.
Defined.

(** X18: an array without a positive size is not read.  With the error
    flag not set and a current value marked as an array whose text is empty,
    is no number or is a number that is not positive, [ReadArray] and
    [ReadStaticArray] take the value, return 0 and leave the array and its
    pointer as they were; with the error flag set they return 0 and change
    nothing. *)
Theorem array_without_positive_size_is_not_read
    (T : Type) (basic : SqlBasic T)
    (junk : Z -> Z * Z) (fresh : Z -> list T) (vname : option (list T))
    (b : TBufferSQL2) (d : TSQLObjectData) (text : string) :
  fCurrentData b = Some d ->
  VerifyDataType d sqlio.Array = true ->
  GetValue d = Some text ->
  text = EmptyString \/ atoi text <= 0 ->
  (fErrorFlag b <= 0 ->
   ReadArray junk fresh vname b = Some ((0, vname), value_taken d b)
   /\ ReadStaticArray junk vname b = Some ((0, vname), value_taken d b))
  /\ (fErrorFlag b > 0 ->
      ReadArray junk fresh vname b = Some ((0, vname), b)
      /\ ReadStaticArray junk vname b = Some ((0, vname), b)).
Proof.
  intros Hd Hmark Hvalue Htext. split.
  - intros Hf.
    assert (Hsize : exists n, SqlReadArraySize b = Some (n, value_taken d b) /\ n <= 0).
    { rewrite (SqlReadArraySize_taken b d Hf Hd (or_intror Hmark)).
      rewrite Hvalue. cbn [default from_option id].
      destruct text as [|c text]; [exists 0; split; [reflexivity|lia]|].
      destruct Htext as [Htext|Htext]; [discriminate|].
      eexists. split; [reflexivity|exact Htext]. }
    destruct Hsize as (n & Hsize & Hn).
    unfold ReadArray, ReadStaticArray. rewrite !(bind_run _ _ _ _ _ Hsize).
    destruct (Z.leb_spec n 0); [|lia]. split; reflexivity.
  - intros Hf. unfold ReadArray, ReadStaticArray.
    rewrite !(bind_run _ _ _ _ _ (SqlReadArraySize_flagged b Hf)). split; reflexivity.
Qed.

(** A size that is no number. *)
Lemma array_without_positive_size_is_not_read_witness :
  let d := {| od_info := None; od_objid := 1; od_classdata := None; od_classrow := None;
              od_blobdata := None; od_blobstmt := None; od_isblob := true;
              od_items := [item_of_value "fArr" "many" sqlio.Array;
                           item_of_value "[0]" "7" sqlio.Int] |} in
  let b := set_fCurrentData (Some d) (pushed (TBufferSQL2_new kRead None 0)) in
  ReadArray (fun _ => (0, 0)) (fun n => replicate (Z.to_nat n) 0) (Some [1; 2]) b
  = Some ((0, Some [1; 2]), value_taken d b).
Proof.
  intros d b.
  destruct (array_without_positive_size_is_not_read Z Int_t_basic
              (fun _ => (0, 0)) (fun n => replicate (Z.to_nat n) 0) (Some [1; 2]) b d "many")
    as [Hclear _].
  - reflexivity.
  - reflexivity.
  - reflexivity.
  - right. vm_compute. discriminate.
  - apply Hclear. cbn. lia.
Defined.

(** *** Arrays without size, outside a chain *)

Lemma TBufferSQL2_ReadFastArray_plain {T : Type} `{SqlBasic T}
    (W : M unit) junk (v : list T) n b top node :
  0 < n -> fStk b = Some top -> fNodes b !! top = Some node ->
  is_chain_element (GetElement (fKind node)) n = false ->
  fExpectedChain b = false ->
  TBufferSQL2_ReadFastArray W junk v n b = SQLReadArrayContent junk v n false b.
Proof.
  intros Hn Htop Hnode Hchain Hflag. unfold TBufferSQL2_ReadFastArray.
  destruct (Z.leb_spec n 0); [lia|].
  rewrite (bind_run _ _ _ _ _ (Stack_top_eq b top Htop)).
  rewrite (bind_run _ _ _ _ _ (node_kind_eq top b node Hnode)).
  rewrite Hchain. cbn [bind ret get]. rewrite Hflag. reflexivity.
Qed.



(* --------------------------------------------------------------------- *)
(** ** A buffer used for a second pass *)
(* --------------------------------------------------------------------- *)

(** An address of the identity map whose id is not negative is written as a
    reference. *)
Lemma SqlWriteObject_found heap fuel obj c streamer b map v :
  obj <> 0 -> fObjMap b = Some map -> map !! obj = Some v ->
  0 < v -> 0 <= fFirstObjId b + v - 1 ->
  SqlWriteObject heap (S fuel) obj (Some c) streamer b
  = Some (to_Int_t (fFirstObjId b + v - 1),
          node_written (kSqlPointer (fFirstObjId b + v - 1)) b).
Proof.
  intros Hobj Hmap Hlook Hv Hid.
  cbn [SqlWriteObject].
  rewrite (bind_run _ _ _ _ _ (PushStack_eq b)). cbn [bind get].
  destruct (Z.eqb_spec obj 0) as [|_]; [contradiction|].
  change (fObjMap (pushed b)) with (fObjMap b).
  change (fFirstObjId (pushed b)) with (fFirstObjId b).
  rewrite Hmap. unfold TExMap_GetValue. rewrite Hlook. cbn [default from_option id].
  rewrite gtb_true by lia. rewrite geb_true by lia.
  exact (set_pop_pushed (kSqlPointer (fFirstObjId b + v - 1))
           (to_Int_t (fFirstObjId b + v - 1)) b).
Qed.

(** X20: [SqlWriteAny] does not clear the identity map.  After a pass on a
    new buffer that wrote an object that is not null, a second
    [SqlWriteAny] on the same buffer for the same object, with any base id
    that is not negative, finds the object in the map of the first pass: it
    calls no streamer and makes no object node; the tree it returns is one
    node, a reference to the base id of the second pass. *)
Theorem second_pass_on_a_used_buffer_writes_a_reference
    (heap : gmap Z Object) (file : option TSQLFile) (compression : Z)
    (fuel : nat) (obj : Z) (c : TClass) (base : Z) :
  0 <= base -> (size (dom heap) + 1 < fuel)%nat -> obj <> 0 ->
  exists b1,
    SqlWriteAny heap fuel obj (Some c) base (TBufferSQL2_new kWrite file compression)
      = Some (fStructure b1, b1)
    /\ forall base2 fuel2 c2,
         0 <= base2 ->
         exists b2,
           SqlWriteAny heap (S fuel2) obj (Some c2) base2 b1
             = Some (Some (length (fNodes b1)), b2)
           /\ fNodes b2
              = fNodes b1 ++ [{| fParent := None; fKind := kSqlPointer base2 |}]
           /\ fStreamed b2 = fStreamed b1
           /\ fObjIdCounter b2 = base2.
Proof.
  intros Hbase Hfuel Hobj.
  destruct (SqlWriteAny_runs heap file compression fuel obj (Some c) base Hbase Hfuel)
    as (b1 & Hrun & [Hinv _] & Hstk & Hfirst & Hroot).
  exists b1. split; [exact Hrun|].
  intros base2 fuel2 c2 Hbase2.
  destruct (Hroot ltac:(discriminate) Hobj) as ((more & Hlog) & _).
  destruct Hinv as (_ & _ & Hids & _).
  destruct (Hids obj base) as (_ & _ & Hlook);
    [rewrite Hlog; apply elem_of_cons; left; reflexivity|].
  rewrite Hfirst in Hlook. replace (base - base + 1) with 1 in Hlook by lia.
  unfold obj_map in Hlook.
  destruct (fObjMap b1) as [map|] eqn:Hmap;
    [|cbn in Hlook; rewrite lookup_empty in Hlook; discriminate].
  cbn [default from_option id] in Hlook.
  rewrite SqlWriteAny_eq.
  rewrite (bind_run _ _ _ _ _
             (SqlWriteObject_found heap fuel2 obj c2 None (pass_begun base2 b1) map 1
                Hobj Hmap Hlook ltac:(lia) ltac:(cbn; lia))).
  cbn [bind get ret].
  change (fFirstObjId (pass_begun base2 b1)) with base2.
  replace (base2 + 1 - 1) with base2 by lia.
  eexists. split.
  - cbn. rewrite Hstk. reflexivity.
  - cbn. rewrite Hstk. repeat split.
Qed.

Lemma second_pass_on_a_used_buffer_writes_a_reference_witness :
  let heap : gmap Z Object :=
    {[ 100 := {| ob_class := "Event"; ob_members := [MInt 7] |} ]} in
  exists b1,
    SqlWriteAny heap 3 100 (Some "Event") 1 (TBufferSQL2_new kWrite None 0)
      = Some (fStructure b1, b1)
    /\ exists b2,
         SqlWriteAny heap 3 100 (Some "Event") 50 b1 = Some (Some (length (fNodes b1)), b2)
         /\ fStreamed b2 = fStreamed b1.
Proof.
  intros heap.
  destruct (second_pass_on_a_used_buffer_writes_a_reference heap None 0 3 100 "Event" 1)
    as (b1 & Hrun & Hsecond).
  - lia.
  - vm_compute. lia.
  - lia.
  - exists b1. split; [exact Hrun|].
    destruct (Hsecond 50 2%nat "Event") as (b2 & Hrun2 & _ & Hlog & _); [lia|].
    exists b2. split; [exact Hrun2|exact Hlog].
Defined.

(* --------------------------------------------------------------------- *)
(** ** What a call leaves alone *)
(* --------------------------------------------------------------------- *)

Section Keeps.
Context {X : Type} (side : TBufferSQL2 -> X).

Lemma keeps_ret {A : Type} (a : A) : keeps side (ret a).
Proof. intros b r b' E. inversion E; subst. reflexivity. Qed.

Lemma keeps_fault {A : Type} : keeps side (@fault A).
Proof. intros b r b' E. discriminate. Qed.

Lemma keeps_get : keeps side get.
Proof. intros b r b' E. inversion E; subst. reflexivity. Qed.

Lemma keeps_bind {A B : Type} (m : M A) (k : A -> M B) :
  keeps side m -> (forall a, keeps side (k a)) -> keeps side (bind m k).
Proof.
  intros Hm Hk b r b' E.
  apply bind_inv in E as (a & b1 & E1 & E2).
  rewrite (Hk a b1 r b' E2). exact (Hm b a b1 E1).
Qed.

Lemma keeps_modify (f : TBufferSQL2 -> TBufferSQL2) :
  (forall b, side (f b) = side b) -> keeps side (modify f).
Proof. intros Hf b r b' E. inversion E; subst. apply Hf. Qed.

Lemma keeps_deref {A : Type} (p : option A) : keeps side (deref p).
Proof. destruct p; [apply keeps_ret|apply keeps_fault]. Qed.

End Keeps.

Create HintDb side.
#[local] Hint Resolve keeps_ret keeps_fault keeps_get keeps_deref : side.

(** One step through the text of a call. *)
Ltac side_step :=
  match goal with
  | |- keeps _ (bind _ _) => apply keeps_bind; [|intros]
  | |- keeps _ (modify _) =>
      apply keeps_modify; intros;
      repeat match goal with
             | |- context [match ?x with _ => _ end] => destruct x
             end;
      reflexivity
  | |- keeps _ (if ?c then _ else _) => destruct c
  | |- keeps _ (match ?x with _ => _ end) => destruct x
  | |- keeps _ (let (_, _) := ?x in _) => destruct x
  | |- keeps _ _ => solve [auto with side]
  end.

Ltac side_steps := repeat side_step.

Section KeepsStack.
Context {X : Type} (side : TBufferSQL2 -> X).
Hypothesis side_nodes : forall v b, side (set_fNodes v b) = side b.
Hypothesis side_structure : forall v b, side (set_fStructure v b) = side b.
Hypothesis side_stk : forall v b, side (set_fStk v b) = side b.

Lemma keeps_PushStack : keeps side PushStack.
Proof.
  unfold PushStack.
  apply keeps_bind; [apply keeps_get|intros b0].
  apply keeps_bind; [|intros _; apply keeps_bind; [|intros _; apply keeps_ret]].
  - destruct (fStk b0); apply keeps_modify; intros b.
    + apply side_nodes.
    + rewrite side_structure. apply side_nodes.
  - apply keeps_modify. intros b. apply side_stk.
Qed.

Lemma keeps_PopStack : keeps side PopStack.
Proof.
  unfold PopStack.
  apply keeps_bind; [apply keeps_get|intros b0].
  destruct (fStk b0); [|apply keeps_ret].
  apply keeps_bind; [apply keeps_deref|intros node].
  apply keeps_bind; [|intros _; apply keeps_ret].
  apply keeps_modify. intros b. apply side_stk.
Qed.

Lemma keeps_Stack depth : keeps side (Stack depth).
Proof.
  unfold Stack. apply keeps_bind; [apply keeps_get|intros; apply keeps_ret].
Qed.

Lemma keeps_Stack_top : keeps side Stack_top.
Proof.
  unfold Stack_top. apply keeps_bind; [apply keeps_Stack|intros; apply keeps_deref].
Qed.

Lemma keeps_node_kind i : keeps side (node_kind i).
Proof.
  unfold node_kind. apply keeps_bind; [apply keeps_get|intros].
  apply keeps_bind; [apply keeps_deref|intros; apply keeps_ret].
Qed.

Lemma keeps_set_node_kind i k : keeps side (set_node_kind i k).
Proof.
  unfold set_node_kind. apply keeps_bind; [apply keeps_get|intros].
  apply keeps_bind; [apply keeps_deref|intros].
  apply keeps_modify. intros b. apply side_nodes.
Qed.

Lemma keeps_AddValue i value tname : keeps side (AddValue i value tname).
Proof. unfold AddValue. apply keeps_modify. intros b. apply side_nodes. Qed.

End KeepsStack.

Lemma read_side_nodes v b : read_side (set_fNodes v b) = read_side b.
Proof. reflexivity. Qed.

Lemma read_side_structure v b : read_side (set_fStructure v b) = read_side b.
Proof. reflexivity. Qed.

Lemma read_side_stk v b : read_side (set_fStk v b) = read_side b.
Proof. reflexivity. Qed.

Lemma keeps_read_side_PushStack : keeps read_side PushStack.
Proof.
  apply keeps_PushStack; [apply read_side_nodes|apply read_side_structure|apply read_side_stk].
Qed.

Lemma keeps_read_side_PopStack : keeps read_side PopStack.
Proof. apply keeps_PopStack. apply read_side_stk. Qed.

Lemma keeps_read_side_Stack depth : keeps read_side (Stack depth).
Proof. apply keeps_Stack. Qed.

Lemma keeps_read_side_Stack_top : keeps read_side Stack_top.
Proof. apply keeps_Stack_top. Qed.

Lemma keeps_read_side_node_kind i : keeps read_side (node_kind i).
Proof. apply keeps_node_kind. Qed.

Lemma keeps_read_side_set_node_kind i k : keeps read_side (set_node_kind i k).
Proof. apply keeps_set_node_kind. apply read_side_nodes. Qed.

Lemma keeps_read_side_AddValue i value tname : keeps read_side (AddValue i value tname).
Proof. apply keeps_AddValue. apply read_side_nodes. Qed.

#[local] Hint Resolve keeps_read_side_PushStack keeps_read_side_PopStack
  keeps_read_side_Stack keeps_read_side_Stack_top keeps_read_side_node_kind
  keeps_read_side_set_node_kind keeps_read_side_AddValue : side.

Lemma keeps_read_side_ChildArrayIndex i index cnt :
  keeps read_side (ChildArrayIndex i index cnt).
Proof. unfold ChildArrayIndex. side_steps. Qed.

Lemma keeps_read_side_SqlWriteValue value tname :
  keeps read_side (SqlWriteValue value tname).
Proof. unfold SqlWriteValue. side_steps. Qed.

#[local] Hint Resolve keeps_read_side_ChildArrayIndex keeps_read_side_SqlWriteValue : side.

Lemma keeps_read_side_SqlWriteBasic {T : Type} (basic : SqlBasic T) (v : T) :
  keeps read_side (SqlWriteBasic v).
Proof. unfold SqlWriteBasic. side_steps. Qed.

Lemma keeps_read_side_arr_get {T : Type} (vname : list T) i :
  keeps read_side (arr_get vname i).
Proof. unfold arr_get. side_steps. Qed.

#[local] Hint Resolve keeps_read_side_SqlWriteBasic keeps_read_side_arr_get : side.

Section SideArrays.
Context {T : Type} `{SqlBasic T}.

Lemma keeps_read_side_SQLWriteArrayNoncompress_from fuel (vname : list T) arrsize indx :
  keeps read_side (SQLWriteArrayNoncompress_from fuel vname arrsize indx).
Proof.
  revert indx. induction fuel as [|fuel IH]; intros indx; cbn; side_steps.
Qed.

Lemma keeps_read_side_run_end fuel (vname : list T) arrsize curr indx :
  keeps read_side (run_end fuel vname arrsize curr indx).
Proof.
  revert indx. induction fuel as [|fuel IH]; intros indx; cbn; side_steps.
Qed.

Lemma keeps_read_side_SQLWriteArrayCompress_from fuel (vname : list T) arrsize indx :
  keeps read_side (SQLWriteArrayCompress_from fuel vname arrsize indx).
Proof.
  revert indx. induction fuel as [|fuel IH]; intros indx; cbn; side_steps.
  apply keeps_read_side_run_end.
Qed.

Lemma keeps_read_side_SQLWriteArrayContent (vname : list T) arrsize withsize :
  keeps read_side (SQLWriteArrayContent vname arrsize withsize).
Proof.
  unfold SQLWriteArrayContent, SetArray, SQLWriteArrayCompress, SQLWriteArrayNoncompress.
  side_steps.
  - apply keeps_read_side_SQLWriteArrayCompress_from.
  - apply keeps_read_side_SQLWriteArrayNoncompress_from.
Qed.

End SideArrays.

Lemma keeps_read_side_WriteCharP c : keeps read_side (WriteCharP c).
Proof. unfold WriteCharP. side_steps. Qed.


(* --------------------------------------------------------------------- *)
(** ** Failures of a request for the data of an object *)
(* --------------------------------------------------------------------- *)

Lemma keeps_data_side_on_file {A : Type} (call : TSQLFile -> A * TSQLFile) :
  keeps data_side (on_file call).
Proof. unfold on_file. side_steps. Qed.

Lemma keeps_data_side_Error location msg : keeps data_side (Error location msg).
Proof. unfold Error. side_steps. Qed.

#[local] Hint Resolve keeps_data_side_on_file keeps_data_side_Error : side.

Lemma keeps_data_side_SqlObjectData_blob objid sqlinfo classdata classrow :
  keeps data_side (SqlObjectData_blob objid sqlinfo classdata classrow).
Proof. unfold SqlObjectData_blob. side_steps. Qed.

#[local] Hint Resolve keeps_data_side_SqlObjectData_blob : side.

Lemma keeps_data_side_SqlObjectData_row objid sqlinfo pool :
  keeps data_side (SqlObjectData_row objid sqlinfo pool).
Proof. unfold SqlObjectData_row. side_steps. Qed.

#[local] Hint Resolve keeps_data_side_SqlObjectData_row : side.

Lemma keeps_data_side_SqlObjectData objid sqlinfo :
  keeps data_side (SqlObjectData objid sqlinfo).
Proof.
  unfold SqlObjectData.
  destruct (ci_exists sqlinfo); [|auto with side].
  apply keeps_bind; [apply keeps_get|intros b0].
  side_steps.
Qed.

(** What the result of the last part of the function tells. *)
Lemma SqlObjectData_blob_result objid sqlinfo classdata classrow b r b' :
  SqlObjectData_blob objid sqlinfo classdata classrow b = Some (r, b') ->
  fReports b' = fReports b
  /\ exists blobdata blobstmt,
       r = Some (od_new (ci_addr sqlinfo) objid classdata classrow blobdata blobstmt).
Proof.
  unfold SqlObjectData_blob. intros E.
  destruct (fSQL b) as [f|] eqn:Ef;
    [|rewrite (bind_fault _ _ _ (on_file_none _ b Ef)) in E; discriminate].
  rewrite (bind_run _ _ _ _ _ (on_file_eq _ b f Ef)) in E.
  cbn [fst snd GetBlobClassDataStmt] in E.
  destruct (if sql_statements f then blob_rows objid sqlinfo f else None) as [rows|].
  - cbn in E. inversion E; subst. split; [reflexivity|]. eexists _, _. reflexivity.
  - erewrite (bind_run (on_file _)) in E by (apply on_file_eq; reflexivity).
    cbn in E. inversion E; subst. split; [reflexivity|]. eexists _, _. reflexivity.
Qed.

Lemma SqlObjectData_row_result objid sqlinfo pool b r b' :
  SqlObjectData_row objid sqlinfo pool b = Some (r, b') ->
  match r with
  | Some d =>
      fReports b' = fReports b /\ od_objid d = objid /\ od_info d = Some (ci_addr sqlinfo)
      /\ exists row, od_classrow d = Some row /\ row ∈ pool_data pool /\ row_objid row = objid
  | None =>
      requests b' = requests b
      /\ exists msg, fReports b' = fReports b ++ [("SqlObjectData"%string, msg)]
  end.
Proof.
  unfold SqlObjectData_row. intros E.
  destruct (negb (pool_info pool =? ci_addr sqlinfo)%positive).
  - cbn in E. inversion E; subst. split; [reflexivity|]. eexists. reflexivity.
  - destruct (GetObjectRow pool objid) as [row|] eqn:Hrow.
    + apply SqlObjectData_blob_result in E as (Hrep & blobdata & blobstmt & ->).
      split; [exact Hrep|]. split; [reflexivity|]. split; [reflexivity|].
      exists row. split; [reflexivity|].
      unfold GetObjectRow in Hrow. apply find_some in Hrow as [Hin Hid].
      split; [apply list_elem_of_In; exact Hin|apply Z.eqb_eq; exact Hid].
    + cbn in E. inversion E; subst. split; [reflexivity|]. eexists. reflexivity.
Qed.

(** X22: a request for the data of an object that fails is reported, and
    the error flag is left as it was.  A call of [SqlObjectData] that
    returns changes nothing of the buffer but the file, the pools and the
    reports.  When it returns object data, nothing was reported, the data
    are those of the object id and of the descriptor, and for a class with
    a table they hold a row of that object id.  When it returns null, the
    class has a table and either the buffer is as it was (no pool for the
    class and an empty range of ids) or one report of [SqlObjectData] was
    added; the blob data were not asked for. *)
Theorem failed_data_request_is_reported_not_flagged objid sqlinfo b r b' :
  SqlObjectData objid sqlinfo b = Some (r, b') ->
  data_side b' = data_side b
  /\ fErrorFlag b' = fErrorFlag b
  /\ match r with
     | Some d =>
         fReports b' = fReports b /\ od_objid d = objid
         /\ od_info d = Some (ci_addr sqlinfo)
         /\ (ci_exists sqlinfo = true ->
             exists row, od_classrow d = Some row /\ row_objid row = objid)
     | None =>
         ci_exists sqlinfo = true
         /\ count_requests no_bulk (requests b') = count_requests no_bulk (requests b)
         /\ ((b' = b /\ fLastObjId b < fFirstObjId b)
             \/ exists msg, fReports b' = fReports b ++ [("SqlObjectData"%string, msg)])
     end.
Proof.
  intros E.
  pose proof (keeps_data_side_SqlObjectData objid sqlinfo b r b' E) as Hside.
  split; [exact Hside|].
  split; [unfold data_side in Hside; congruence|].
  unfold SqlObjectData in E.
  destruct (ci_exists sqlinfo) eqn:Hex.
  2:{ apply SqlObjectData_blob_result in E as (Hrep & blobdata & blobstmt & ->).
      split; [exact Hrep|]. split; [reflexivity|]. split; [reflexivity|].
      intros; discriminate. }
  cbn [bind get] in E.
  destruct (match fPoolsMap b with
            | Some pools => pools !! ci_addr sqlinfo
            | None => None
            end) as [pool|] eqn:Hpool.
  { apply SqlObjectData_row_result in E. destruct r as [d|].
    - destruct E as (Hrep & Hid & Hinfo & row & Hrow & _ & Hrid).
      repeat split; try assumption. intros _. exists row. split; assumption.
    - destruct E as (Hreq & msg & Hrep). split; [reflexivity|].
      split; [rewrite Hreq; reflexivity|]. right. exists msg. exact Hrep. }
  destruct (Z.geb_spec (fLastObjId b) (fFirstObjId b)) as [Hrange|Hrange].
  2:{ cbn in E. inversion E; subst. split; [reflexivity|]. split; [reflexivity|].
      left. split; [reflexivity|lia]. }
  destruct (fSQL b) as [f|] eqn:Ef;
    [|rewrite (bind_fault _ _ _ (on_file_none _ b Ef)) in E; discriminate].
  rewrite (bind_run _ _ _ _ _ (on_file_eq _ b f Ef)) in E.
  cbn [fst snd GetNormalClassDataAll] in E.
  destruct (sql_tables f !! ci_addr sqlinfo) as [rows|].
  - cbn [bind modify] in E. apply SqlObjectData_row_result in E. destruct r as [d|].
    + destruct E as (Hrep & Hid & Hinfo & row & Hrow & _ & Hrid).
      repeat split; try assumption. intros _. exists row. split; assumption.
    + destruct E as (Hreq & msg & Hrep). split; [reflexivity|].
      split; [|right; exists msg; exact Hrep].
      rewrite Hreq. unfold requests. cbn. rewrite Ef. cbn.
      rewrite count_requests_app. cbn. lia.
  - cbn in E. inversion E; subst. split; [reflexivity|].
    split; [|right; eexists; reflexivity].
    unfold requests. cbn. rewrite Ef. cbn. rewrite count_requests_app. cbn. lia.
Qed.

Lemma failed_data_request_is_reported_not_flagged_witness :
  let sqlinfo := {| ci_addr := 1%positive; ci_table := "T"; ci_exists := true |} in
  let file := {| sql_tables := ∅; sql_blobs := ∅; sql_statements := false;
                 sql_longstrings := ∅; sql_longcodes := ∅; sql_requests := [] |} in
  let b := set_fLastObjId 3 (set_fFirstObjId 1 (TBufferSQL2_new kRead (Some file) 0)) in
  exists b',
    SqlObjectData 2 sqlinfo b = Some (None, b')
    /\ fErrorFlag b' = 0
    /\ exists msg, fReports b' = [("SqlObjectData"%string, msg)].
Proof.
  intros sqlinfo file b. eexists. split; [vm_compute; reflexivity|].
  match goal with
  | |- fErrorFlag ?b' = _ /\ _ =>
      destruct (failed_data_request_is_reported_not_flagged 2 sqlinfo b None b')
        as (_ & Hflag & _ & _ & [[Hsame _]|[msg Hmsg]])
  end.
  - vm_compute. reflexivity.
  - discriminate Hsame.
  - split; [exact Hflag|]. exists msg. exact Hmsg.
Defined.

(* --------------------------------------------------------------------- *)
(** ** Strings given by a pointer *)
(* --------------------------------------------------------------------- *)

(** The string found in a buffer is found again in a buffer that starts
    with the string and a zero. *)
Lemma c_string_again (c : list ascii) (s : string) (rest : list ascii) :
  CText.c_string c = Some s ->
  CText.c_string (list_ascii_of_string s ++ zero :: rest) = Some s.
Proof.
  revert s. induction c as [|x c IH]; intros s E; [discriminate|].
  cbn in E. destruct (Ascii.eqb x zero) eqn:Hx.
  - injection E as <-. reflexivity.
  - destruct (CText.c_string c) as [s'|]; [|discriminate].
    injection E as <-. cbn. rewrite Hx. rewrite (IH s' eq_refl). reflexivity.
Qed.

Lemma c_buffer_cons (s : string) (rest : list ascii) :
  c_buffer s ++ rest = list_ascii_of_string s ++ zero :: rest.
Proof. unfold c_buffer. rewrite <- app_assoc. reflexivity. Qed.

Lemma strcpy_eq (dst : list ascii) (c : list ascii) (s : string) b :
  CText.c_string c = Some s ->
  strcpy dst (c_buffer s) b
  = if Z.of_nat (String.length s) <? Z.of_nat (length dst)
    then Some (c_buffer s ++ drop (S (String.length s)) dst, b)
    else None.
Proof.
  intros Hs. unfold strcpy.
  pose proof (c_string_again c s [] Hs) as Hagain.
  change (list_ascii_of_string s ++ [zero]) with (c_buffer s) in Hagain.
  rewrite Hagain. cbn [deref bind ret].
  destruct (Z.ltb_spec (Z.of_nat (String.length s)) (Z.of_nat (length dst))) as [Hlt|Hge].
  - replace (Z.of_nat (String.length s) + 1) with (Z.of_nat (S (String.length s))) by lia.
    rewrite memcpy_eq.
    + rewrite <- (c_buffer_length s), firstn_all. reflexivity.
    + rewrite c_buffer_length. lia.
    + lia.
  - apply memcpy_out_of_bounds. right. lia.
Qed.

(** X23: a string written with [WriteCharP] is read back by [ReadCharP]
    into a buffer that can hold it.  [WriteCharP] adds the characters before
    the first zero of its argument as one value marked CharStar to the node
    on top of the stack.  [ReadCharP], when that value is the current one
    (error flag not set, a file, the value not a code of the long-string
    table), takes it and copies it with its final zero: into a buffer with
    more places than the string has characters, which then holds the string
    again and keeps what it held behind the copy; into a shorter buffer the
    copy runs over the end (no result).  With the error flag set the buffer
    given is returned as it is and nothing is taken. *)
Theorem string_is_read_back_into_a_buffer_that_holds_it
    (c : list ascii) (s : string) :
  CText.c_string c = Some s ->
  (forall b top, fStk b = Some top ->
     WriteCharP c b = Some (tt, value_added top s sqlio.CharStar b))
  /\ (forall dst b d sql top,
        fErrorFlag b <= 0 -> fCurrentData b = Some d ->
        VerifyDataType d sqlio.CharStar = true -> GetValue d = Some s ->
        fSQL b = Some sql -> fStk b = Some top ->
        IsLongStringCode (top_object_id b) s sql <= 0 ->
        (length dst <= String.length s -> ReadCharP dst b = None)%nat
        /\ (String.length s < length dst ->
            exists dst',
              ReadCharP dst b = Some (dst', value_taken d b)
              /\ CText.c_string dst' = Some s
              /\ length dst' = length dst
              /\ drop (S (String.length s)) dst' = drop (S (String.length s)) dst)%nat)
  /\ (forall dst b, fErrorFlag b > 0 -> ReadCharP dst b = Some (dst, b)).
Proof.
  intros Hs. split; [|split].
  - intros b top Htop. unfold WriteCharP. rewrite Hs. cbn [deref bind ret].
    rewrite (bind_run _ _ _ _ _ (SqlWriteValue_eq s sqlio.CharStar b top Htop)).
    reflexivity.
  - intros dst b d sql top Hf Hd Htype Hvalue Hsql Htop Hlong.
    assert (Hcall : ReadCharP dst b = strcpy dst (c_buffer s) (value_taken d b)).
    { unfold ReadCharP.
      rewrite (bind_run _ _ _ _ _
                 (SqlReadCharStarValue_direct b d sql top s Hf Hd Htype Hvalue Hsql Htop Hlong)).
      reflexivity. }
    rewrite Hcall, (strcpy_eq dst c s _ Hs). split.
    + intros Hshort.
      destruct (Z.ltb_spec (Z.of_nat (String.length s)) (Z.of_nat (length dst)));
        [lia|reflexivity].
    + intros Hlong'.
      destruct (Z.ltb_spec (Z.of_nat (String.length s)) (Z.of_nat (length dst)));
        [|lia].
      eexists. split; [reflexivity|]. split; [|split].
      * rewrite c_buffer_cons. exact (c_string_again c s _ Hs).
      * rewrite length_app, c_buffer_length, length_drop. lia.
      * rewrite <- (c_buffer_length s). rewrite drop_app_length. reflexivity.
  - intros dst b Hf. unfold ReadCharP, SqlReadCharStarValue.
    rewrite (bind_run _ _ _ _ _
               (bind_run _ _ _ _ _ (SqlReadValue_flagged sqlio.CharStar b Hf))).
    reflexivity.
Qed.

(** The string "ab" written from a buffer of four characters and read into
    one of five. *)
Lemma string_is_read_back_into_a_buffer_that_holds_it_witness :
  let c := ["a"; "b"; zero; "x"]%char in
  let d := {| od_info := None; od_objid := 1; od_classdata := None; od_classrow := None;
              od_blobdata := None; od_blobstmt := None; od_isblob := true;
              od_items := [ {| it_name := "fTitle"; it_type := sqlio.CharStar;
                               it_value := Some "ab" |} ] |} in
  let file := {| sql_tables := ∅; sql_blobs := ∅; sql_statements := false;
                 sql_longstrings := ∅; sql_longcodes := ∅; sql_requests := [] |} in
  let b := set_fCurrentData (Some d) (pushed (TBufferSQL2_new kRead (Some file) 0)) in
  WriteCharP c (pushed (TBufferSQL2_new kWrite None 0))
  = Some (tt, value_added 0 "ab" sqlio.CharStar (pushed (TBufferSQL2_new kWrite None 0)))
  /\ (exists dst',
        ReadCharP ["1"; "2"; "3"; "4"; "5"]%char b = Some (dst', value_taken d b)
        /\ CText.c_string dst' = Some "ab"%string
        /\ drop 3 dst' = ["4"; "5"]%char)
  /\ ReadCharP ["1"; "2"]%char b = None.
Proof.
  intros c d file b.
  destruct (string_is_read_back_into_a_buffer_that_holds_it c "ab" eq_refl)
    as (Hwrite & Hread & _).
  assert (Hb : forall dst,
             (length dst <= 2 -> ReadCharP dst b = None)%nat
             /\ (2 < length dst ->
                 exists dst',
                   ReadCharP dst b = Some (dst', value_taken d b)
                   /\ CText.c_string dst' = Some "ab"%string
                   /\ length dst' = length dst
                   /\ drop 3 dst' = drop 3 dst)%nat).
  { intros dst. apply (Hread dst b d file 0%nat).
    - cbn. lia.
    - reflexivity.
    - reflexivity.
    - reflexivity.
    - reflexivity.
    - reflexivity.
    - vm_compute. discriminate. }
  split; [apply Hwrite; reflexivity|].
  split.
  - destruct (Hb ["1"; "2"; "3"; "4"; "5"]%char) as (_ & Hfits).
    destruct Hfits as (dst' & Hrun & Hstr & _ & Hrest); [cbn; lia|].
    exists dst'. split; [exact Hrun|]. split; [exact Hstr|exact Hrest].
  - apply (Hb ["1"; "2"]%char). cbn. lia.
Defined.


(* --------------------------------------------------------------------- *)
(** ** Reading without object data *)
(* --------------------------------------------------------------------- *)

Lemma SqlReadValue_no_data tname b :
  fErrorFlag b <= 0 -> fCurrentData b = None ->
  SqlReadValue tname b = Some (None, data_missing b).
Proof.
  intros Hf Hd. unfold SqlReadValue. cbn [bind get].
  rewrite gtb_false by exact Hf. rewrite Hd. reflexivity.
Qed.

Lemma SqlReadArraySize_no_data b :
  fErrorFlag b <= 0 -> fCurrentData b = None ->
  SqlReadArraySize b = Some (0, data_missing b).
Proof.
  intros Hf Hd. unfold SqlReadArraySize.
  rewrite (bind_run _ _ _ _ _ (SqlReadValue_no_data _ b Hf Hd)). reflexivity.
Qed.

Lemma SqlReadCharStarValue_no_data b :
  fErrorFlag b <= 0 -> fCurrentData b = None ->
  SqlReadCharStarValue b = Some (None, data_missing b).
Proof.
  intros Hf Hd. unfold SqlReadCharStarValue.
  rewrite (bind_run _ _ _ _ _ (SqlReadValue_no_data _ b Hf Hd)). reflexivity.
Qed.

(** X24: reading when there is no object data.  With [fCurrentData] null and
    the error flag not set, [SqlReadValue] reports that there is no object
    data, sets the error flag and returns null, so that [SqlReadBasic] gives
    zero, [SqlReadCharStarValue] null, [ReadCharP] the buffer it was given,
    and [ReadArray] and [ReadStaticArray] 0 with the array left alone.  The
    other reads do not look whether there is data: [SqlReadObject] with the
    error flag not set, [SQLReadArrayContent] whatever the error flag is, and
    [ReadFastArray(Char_t*, n)] for [n > 0] whatever the error flag is, use the
    null pointer (no result). *)
Theorem reads_without_object_data
    (TClass_GetClass : string -> option TClass)
    (SqlReadObjectDirect : Z -> bool -> Z -> M (Z * option TClass))
    (WorkWithElement_reading : M unit)
    (T : Type) (basic : SqlBasic T)
    (junk : Z -> Z * Z) (fresh : Z -> list T) (b : TBufferSQL2) :
  fCurrentData b = None ->
  (fErrorFlag b <= 0 ->
   fErrorFlag (data_missing b) = 1
   /\ (forall tname, SqlReadValue tname b = Some (None, data_missing b))
   /\ (forall old : T, SqlReadBasic old b = Some (sql_zero, data_missing b))
   /\ SqlReadCharStarValue b = Some (None, data_missing b)
   /\ (forall dst, ReadCharP dst b = Some (dst, data_missing b))
   /\ (forall vname : option (list T),
         ReadArray junk fresh vname b = Some ((0, vname), data_missing b)
         /\ ReadStaticArray junk vname b = Some ((0, vname), data_missing b))
   /\ (forall obj want_cl,
         SqlReadObject TClass_GetClass SqlReadObjectDirect obj want_cl b = None))
  /\ (forall (vname : list T) n withsize,
        SQLReadArrayContent junk vname n withsize b = None)
  /\ (forall Char_local c n,
        0 < n -> ReadFastArray_Char WorkWithElement_reading Char_local junk c n b = None).
Proof.
  intros Hd. split; [|split].
  - intros Hf.
    split; [reflexivity|].
    split; [intros tname; apply SqlReadValue_no_data; assumption|].
    split.
    { intros old. unfold SqlReadBasic.
      rewrite (bind_run _ _ _ _ _ (SqlReadValue_no_data _ b Hf Hd)). reflexivity. }
    split; [apply SqlReadCharStarValue_no_data; assumption|].
    split.
    { intros dst. unfold ReadCharP.
      rewrite (bind_run _ _ _ _ _ (SqlReadCharStarValue_no_data b Hf Hd)). reflexivity. }
    split.
    { intros vname. unfold ReadArray, ReadStaticArray.
      rewrite !(bind_run _ _ _ _ _ (SqlReadArraySize_no_data b Hf Hd)).
      split; reflexivity. }
    intros obj want_cl. unfold SqlReadObject. cbn [bind get].
    rewrite gtb_false by exact Hf. rewrite Hd. reflexivity.
  - intros vname n withsize. unfold SQLReadArrayContent.
    rewrite (bind_run _ _ _ _ _ (PushStack_eq b)).
    unfold SetArray.
    erewrite (bind_run (set_node_kind _ _)).
    2:{ apply set_node_kind_eq. apply lookup_at_end. }
    cbn [bind get].
    match goal with
    | |- context [deref (fCurrentData ?x)] =>
        change (fCurrentData x) with (fCurrentData b)
    end.
    rewrite Hd. reflexivity.
  - intros Char_local c n Hn. unfold ReadFastArray_Char. cbn [bind get].
    rewrite gtb_true by lia. rewrite Hd. reflexivity.
Qed.

(** A read of an [Int_t] and of an array of [Int_t] on a new buffer. *)
Lemma reads_without_object_data_witness :
  let b := TBufferSQL2_new kRead None 0 in
  @SqlReadBasic Z Int_t_basic 7 b = Some (0, data_missing b)
  /\ @SQLReadArrayContent Z Int_t_basic (fun _ => (0, 0)) [1; 2] 2 false b = None.
Proof.
  intros b.
  destruct (reads_without_object_data (fun _ => None) (fun _ _ _ => fault) (ret tt)
              Z Int_t_basic (fun _ => (0, 0)) (fun n => repeat 0 (Z.to_nat n)) b eq_refl)
    as (Hflag & Hcontent & _).
  split.
  - apply Hflag. cbn. lia.
  - apply Hcontent.
Defined.

(* --------------------------------------------------------------------- *)
(** ** References to objects that were not read yet *)
(* --------------------------------------------------------------------- *)

(** A value has one marker. *)
Lemma VerifyDataType_one d t1 t2 :
  VerifyDataType d t1 = true -> t1 <> t2 -> VerifyDataType d t2 = false.
Proof.
  unfold VerifyDataType. destruct (od_items d) as [|it items]; [discriminate|].
  intros H1 Hne. apply String.eqb_eq in H1. subst t1.
  apply String.eqb_neq. exact Hne.
Qed.

(** X25: a reference to an object that the identity map does not hold.  With
    the error flag not set and a current value that is not empty.  In blob
    data marked [ObjectRef] the map is not looked at: [SqlReadObject] moves
    the cursor on and calls [SqlReadObjectDirect] with the id the value scans
    as, also when that id is 0 or stands in the map.  Otherwise, for an id
    that is neither 0 nor -1 and is below the first id or has no address in
    the map: from a column value the cursor moves on and
    [SqlReadObjectDirect] is called with the id; from blob data marked
    [ObjectPtr] an error is reported, the error flag is set and the pointer
    given is returned, with the cursor left on the value. *)
Theorem reference_not_in_the_map_is_read_directly_or_refused
    (TClass_GetClass : string -> option TClass)
    (SqlReadObjectDirect : Z -> bool -> Z -> M (Z * option TClass))
    (obj : Z) (want_cl : bool) (b : TBufferSQL2) (d : TSQLObjectData)
    (refid : string) (objid : Z) :
  fErrorFlag b <= 0 ->
  fCurrentData b = Some d ->
  GetValue d = Some refid ->
  refid <> EmptyString ->
  sscanf_lld refid (-1) = objid ->
  let unknown :=
    objid <> 0 /\ objid <> -1
    /\ (objid < fFirstObjId b
        \/ TExMap_GetValue (obj_map b) (objid - fFirstObjId b) = 0) in
  (IsBlobData d = true -> VerifyDataType d sqlio.ObjectRef = true ->
   SqlReadObject TClass_GetClass SqlReadObjectDirect obj want_cl b
   = SqlReadObjectDirect obj want_cl objid (set_fCurrentData (Some (ShiftToNextValue d)) b))
  /\ (IsBlobData d = false -> unknown ->
      SqlReadObject TClass_GetClass SqlReadObjectDirect obj want_cl b
      = SqlReadObjectDirect obj want_cl objid
          (set_fCurrentData (Some (ShiftToNextValue d)) b))
  /\ (IsBlobData d = true -> VerifyDataType d sqlio.ObjectPtr = true -> unknown ->
      SqlReadObject TClass_GetClass SqlReadObjectDirect obj want_cl b
      = Some ((obj, None),
              set_fErrorFlag 1
                (set_fReports
                   (fReports b
                    ++ [("SqlReadObject",
                         "Object reference or pointer is not found in blob data")]%string)
                   b))).
Proof.
  intros Hflag Hd Hv Hne Hid unknown.
  assert (Hmap : unknown ->
            match fObjMap b with
            | Some map =>
                (objid >=? fFirstObjId b) = false
                \/ TExMap_GetValue map (objid - fFirstObjId b) = 0
            | None => True
            end).
  { intros (_ & _ & [Hlt|Hzero]).
    - destruct (fObjMap b); [left; apply geb_false; exact Hlt|exact I].
    - unfold obj_map in Hzero. destruct (fObjMap b); [right; exact Hzero|exact I]. }
  split; [|split].
  - intros Hblob Href.
    assert (Hptr : VerifyDataType d sqlio.ObjectPtr = false)
      by (apply (VerifyDataType_one d sqlio.ObjectRef); [exact Href|discriminate]).
    unfold SqlReadObject. cbn [bind get]. rewrite gtb_false by assumption.
    rewrite Hd. cbn [deref bind ret]. rewrite Hv.
    destruct refid as [|ch refid]; [congruence|].
    rewrite Hid, Hblob, Hptr, Href. reflexivity.
  - intros Hblob Hun. specialize (Hmap Hun). destruct Hun as (H0 & H1 & _).
    unfold SqlReadObject. cbn [bind get]. rewrite gtb_false by assumption.
    rewrite Hd. cbn [deref bind ret]. rewrite Hv.
    destruct refid as [|ch refid]; [congruence|].
    rewrite Hid, Hblob. cbn [negb orb andb].
    destruct (Z.eqb_spec objid 0) as [|_]; [contradiction|].
    destruct (Z.eqb_spec objid (-1)) as [|_]; [contradiction|].
    destruct (fObjMap b) as [map|]; [|reflexivity].
    destruct Hmap as [-> | Hzero]; [reflexivity|].
    rewrite Hzero. destruct (objid >=? fFirstObjId b); reflexivity.
  - intros Hblob Hptr Hun. specialize (Hmap Hun). destruct Hun as (H0 & H1 & _).
    assert (Href : VerifyDataType d sqlio.ObjectRef = false)
      by (apply (VerifyDataType_one d sqlio.ObjectPtr); [exact Hptr|discriminate]).
    unfold SqlReadObject. cbn [bind get]. rewrite gtb_false by assumption.
    rewrite Hd. cbn [deref bind ret]. rewrite Hv.
    destruct refid as [|ch refid]; [congruence|].
    rewrite Hid, Hblob, Hptr, Href. cbn [negb orb andb].
    destruct (Z.eqb_spec objid 0) as [|_]; [contradiction|].
    destruct (Z.eqb_spec objid (-1)) as [|_]; [contradiction|].
    destruct (fObjMap b) as [map|]; [|reflexivity].
    destruct Hmap as [-> | Hzero]; [reflexivity|].
    rewrite Hzero. destruct (objid >=? fFirstObjId b); reflexivity.
Qed.

(** The id 0 in blob data marked as an object reference, and the id 12 in a
    column when nothing was read yet. *)
Lemma reference_not_in_the_map_is_read_directly_or_refused_witness :
  let item t v := {| it_name := "fTrack"; it_type := t; it_value := Some v |} in
  let data blob t v :=
    {| od_info := None; od_objid := 10; od_classdata := None; od_classrow := None;
       od_blobdata := None; od_blobstmt := None; od_isblob := blob;
       od_items := [item t v] |} in
  let direct (obj : Z) (want_cl : bool) (objid : Z) : M (Z * option TClass) :=
    ret (objid, None) in
  let b blob t v := set_fCurrentData (Some (data blob t v)) (TBufferSQL2_new kRead None 0) in
  SqlReadObject (fun name => Some name) direct 4096 true (b true sqlio.ObjectRef "0"%string)
  = Some ((0, None),
          set_fCurrentData (Some (ShiftToNextValue (data true sqlio.ObjectRef "0"%string)))
            (b true sqlio.ObjectRef "0"%string))
  /\ SqlReadObject (fun name => Some name) direct 4096 true (b false sqlio.Int "12"%string)
     = Some ((12, None),
             set_fCurrentData (Some (ShiftToNextValue (data false sqlio.Int "12"%string)))
               (b false sqlio.Int "12"%string)).
Proof.
  intros item data direct b. split.
  - destruct (reference_not_in_the_map_is_read_directly_or_refused
                (fun name => Some name) direct 4096 true
                (b true sqlio.ObjectRef "0"%string) (data true sqlio.ObjectRef "0"%string)
                "0"%string 0) as (Href & _).
    + cbn. lia.
    + reflexivity.
    + reflexivity.
    + discriminate.
    + vm_compute. reflexivity.
    + rewrite Href by reflexivity. reflexivity.
  - destruct (reference_not_in_the_map_is_read_directly_or_refused
                (fun name => Some name) direct 4096 true
                (b false sqlio.Int "12"%string) (data false sqlio.Int "12"%string)
                "12"%string 12) as (_ & Hcol & _).
    + cbn. lia.
    + reflexivity.
    + reflexivity.
    + discriminate.
    + vm_compute. reflexivity.
    + rewrite Hcol; [reflexivity|reflexivity|].
      split; [discriminate|].
      split; [discriminate|].
      right. reflexivity.
Defined.

(* --------------------------------------------------------------------- *)
(** ** The ids that the calls return *)
(* --------------------------------------------------------------------- *)

Lemma preserves_keeps {X A : Type} (side : TBufferSQL2 -> X) (P : TBufferSQL2 -> Prop)
    (m : M A) :
  (forall b b', side b' = side b -> P b -> P b') -> keeps side m -> preserves P m.
Proof. intros HP Hk b r b' Hb E. exact (HP b b' (Hk b r b' E) Hb). Qed.

Lemma preserves_bind {A B : Type} (P : TBufferSQL2 -> Prop) (m : M A) (k : A -> M B) :
  preserves P m -> (forall a, preserves P (k a)) -> preserves P (bind m k).
Proof.
  intros Hm Hk b r b' Hb E.
  apply bind_inv in E as (a & b1 & E1 & E2).
  exact (Hk a b1 r b' (Hm b a b1 Hb E1) E2).
Qed.

Lemma fStreamed_nodes v b : fStreamed (set_fNodes v b) = fStreamed b.
Proof. reflexivity. Qed.

Lemma fStreamed_structure v b : fStreamed (set_fStructure v b) = fStreamed b.
Proof. reflexivity. Qed.

Lemma fStreamed_stk v b : fStreamed (set_fStk v b) = fStreamed b.
Proof. reflexivity. Qed.

Lemma keeps_fStreamed_PushStack : keeps fStreamed PushStack.
Proof.
  apply keeps_PushStack;
    [apply fStreamed_nodes|apply fStreamed_structure|apply fStreamed_stk].
Qed.

Lemma keeps_fStreamed_PopStack : keeps fStreamed PopStack.
Proof. apply keeps_PopStack. apply fStreamed_stk. Qed.

Lemma keeps_fStreamed_Stack_top : keeps fStreamed Stack_top.
Proof. apply keeps_Stack_top. Qed.

Lemma keeps_fStreamed_set_node_kind i k : keeps fStreamed (set_node_kind i k).
Proof. apply keeps_set_node_kind. apply fStreamed_nodes. Qed.

Lemma keeps_fStreamed_SqlWriteBasic {T : Type} (basic : SqlBasic T) (v : T) :
  keeps fStreamed (SqlWriteBasic v).
Proof.
  unfold SqlWriteBasic, SqlWriteValue.
  apply keeps_bind; [apply keeps_fStreamed_Stack_top|intros top].
  apply keeps_bind; [|intros; apply keeps_ret].
  apply keeps_AddValue. apply fStreamed_nodes.
Qed.

Section StreamedAddresses.
Variable heap : gmap Z Object.
Variable S : gset Z.
Hypothesis heap_in_S : dom heap ⊆ S.

Lemma streamed_in_same b b' :
  fStreamed b' = fStreamed b -> streamed_in S b -> streamed_in S b'.
Proof. unfold streamed_in. intros ->. auto. Qed.

Lemma preserves_streamed_in_keeps {A : Type} (m : M A) :
  keeps fStreamed m -> preserves (streamed_in S) m.
Proof. apply preserves_keeps. apply streamed_in_same. Qed.

Lemma preserves_stream_members write_object ms :
  (forall p c, (c <> None -> p <> 0 -> p ∈ S) ->
               preserves (streamed_in S) (write_object p c)) ->
  preserves (streamed_in S) (stream_members heap write_object ms).
Proof.
  intros Hw. induction ms as [|[v|p] ms IH]; cbn [stream_members].
  - apply preserves_streamed_in_keeps, keeps_ret.
  - apply preserves_bind; [|intros _; exact IH].
    apply preserves_streamed_in_keeps, keeps_fStreamed_SqlWriteBasic.
  - apply preserves_bind; [|intros _; exact IH].
    apply Hw. intros Hc _. apply heap_in_S. apply elem_of_dom.
    unfold IsA in Hc. destruct (heap !! p); [eexists; reflexivity|].
    exfalso. apply Hc. reflexivity.
Qed.

(** A call of [SqlWriteObject] calls streamers only for its object and for
    the objects of the heap. *)
Lemma preserves_SqlWriteObject fuel :
  forall obj cl streamer,
    (cl <> None -> obj <> 0 -> obj ∈ S) ->
    preserves (streamed_in S) (SqlWriteObject heap fuel obj cl streamer).
Proof.
  induction fuel as [|fuel IH]; intros obj cl streamer HS;
    [intros b r b' _ E; discriminate|].
  cbn [SqlWriteObject].
  apply preserves_bind;
    [apply preserves_streamed_in_keeps, keeps_fStreamed_PushStack|intros _].
  apply preserves_bind; [apply preserves_streamed_in_keeps, keeps_get|intros b0].
  assert (Hptr : forall objid,
            preserves (streamed_in S)
              (top <- Stack_top;; SetObjectPointer top objid;;; PopStack;;;
               ret (to_Int_t objid))).
  { intros objid. apply preserves_streamed_in_keeps.
    apply keeps_bind; [apply keeps_fStreamed_Stack_top|intros top].
    apply keeps_bind; [apply keeps_fStreamed_set_node_kind|intros _].
    apply keeps_bind; [apply keeps_fStreamed_PopStack|intros _]. apply keeps_ret. }
  destruct cl as [c|]; [|apply Hptr].
  destruct (Z.eqb_spec obj 0) as [Hz|Hobj]; [apply Hptr|].
  match goal with
  | |- preserves _ (if ?c then _ else _) => destruct c; [apply Hptr|]
  end.
  apply preserves_bind; [apply preserves_streamed_in_keeps, keeps_modify; reflexivity|intros _].
  apply preserves_bind; [apply preserves_streamed_in_keeps, keeps_fStreamed_Stack_top|intros top].
  apply preserves_bind;
    [apply preserves_streamed_in_keeps, keeps_fStreamed_set_node_kind|intros _].
  apply preserves_bind.
  { apply preserves_streamed_in_keeps, keeps_modify. intros b. destruct (fObjMap b); reflexivity. }
  intros _.
  apply preserves_bind; [apply preserves_streamed_in_keeps, keeps_get|intros b1].
  apply preserves_bind; [apply preserves_streamed_in_keeps, keeps_deref|intros map].
  apply preserves_bind.
  { apply preserves_streamed_in_keeps.
    destruct (TExMap_GetValue map obj =? 0); [apply keeps_modify; reflexivity|apply keeps_ret]. }
  intros _.
  apply preserves_bind.
  { intros b r b' Hb E. injection E as _ <-. intros a id Hin.
    cbn in Hin. apply elem_of_app in Hin as [Hin|Hin]; [exact (Hb a id Hin)|].
    apply list_elem_of_singleton in Hin. injection Hin as -> _.
    apply HS; [discriminate|exact Hobj]. }
  intros _.
  apply preserves_bind.
  { apply preserves_stream_members. intros p c' Hp. apply IH. exact Hp. }
  intros _.
  apply preserves_bind;
    [apply preserves_streamed_in_keeps, keeps_fStreamed_PopStack|intros _].
  apply preserves_streamed_in_keeps, keeps_ret.
Qed.

Lemma preserves_write_objects fuel (objs : list (Z * TClass)) :
  (forall a c, (a, c) ∈ objs -> a ∈ S) ->
  preserves (streamed_in S) (write_objects heap fuel objs).
Proof.
  induction objs as [|[a c] objs IH]; intros HS; cbn [write_objects].
  - apply preserves_streamed_in_keeps, keeps_ret.
  - apply preserves_bind.
    { apply preserves_SqlWriteObject. intros _ _. apply (HS a c).
      apply elem_of_cons. left. reflexivity. }
    intros r. apply preserves_bind.
    { apply IH. intros a' c' Hin. apply (HS a' c'). apply list_elem_of_further, Hin. }
    intros rs. apply preserves_streamed_in_keeps, keeps_ret.
Qed.

(** In a pass the counter is at most the base and the number of addresses
    that streamers can be called for. *)
Lemma counter_bound b :
  PassInv b -> streamed_in S b ->
  fObjIdCounter b <= fFirstObjId b + Z.of_nat (size S).
Proof.
  intros [(Hbase & Hcount & Hlog & Hmap & Hnd1 & Hnd2 & Hids) Horder] Hin.
  assert (Hlen : (length (fStreamed b).*1 <= size S)%nat).
  { rewrite <- (size_list_to_set (C := gset Z) _ Hnd1).
    apply subseteq_size. intros a Ha. apply elem_of_list_to_set in Ha.
    apply list_elem_of_fmap in Ha as ([a' id] & -> & Ha). exact (Hin a' id Ha). }
  unfold ids_in_order in Horder.
  assert (Hl : length (fStreamed b).*2 = Z.to_nat (fObjIdCounter b - fFirstObjId b)).
  { rewrite Horder. apply length_seqZ. }
  rewrite !length_fmap in *. lia.
Qed.

End StreamedAddresses.

Lemma to_Int_t_id v : -2147483648 <= v < 2147483648 -> to_Int_t v = v.
Proof.
  intros Hv. unfold to_Int_t, CText.wrap_signed.
  change (2 ^ (32 - 1)) with 2147483648. change (2 ^ 32) with 4294967296.
  rewrite Z.mod_small by lia. lia.
Qed.

(** X2: objects written one after the other in a pass keep their ids.  In
    a pass begun on a new buffer with a base id that is not negative, where
    the base id and the number of objects stay below 2^31 so that every id
    is an [Int_t], a sequence of [SqlWriteObject] calls with classes, with
    fuel above the number of objects, returns.  A call for a null object
    returns 0.  A call for an object that is not null returns the id for
    which the streamer of the object was called, which is not below the base
    id; and two such calls return the same value exactly when they were
    given the same address: a second write returns what the first returned
    and different objects get different values. *)
Theorem objects_written_in_a_pass_keep_their_ids
    (heap : gmap Z Object) (file : option TSQLFile) (compression : Z)
    (fuel : nat) (base : Z) (objs : list (Z * TClass)) :
  0 <= base ->
  base + Z.of_nat (size (dom heap) + length objs) <= 2147483648 ->
  (size (dom heap) + length objs < fuel)%nat ->
  exists rs b',
    write_objects heap fuel objs
      (pass_begun base (TBufferSQL2_new kWrite file compression))
      = Some (rs, b')
    /\ length rs = length objs
    /\ (forall i a c r, objs !! i = Some (a, c) -> rs !! i = Some r ->
          a = 0 -> r = 0)
    /\ (forall i a c r, objs !! i = Some (a, c) -> rs !! i = Some r ->
          a <> 0 -> base <= r /\ (a, r) ∈ fStreamed b')
    /\ (forall i j ai ci aj cj ri rj,
          objs !! i = Some (ai, ci) -> objs !! j = Some (aj, cj) ->
          rs !! i = Some ri -> rs !! j = Some rj ->
          ai <> 0 -> aj <> 0 ->
          (ai = aj <-> ri = rj)).
Proof.
  intros Hbase Hrange Hfuel.
  set (S := dom heap ∪ list_to_set objs.*1 : gset Z).
  set (b0 := pass_begun base (TBufferSQL2_new kWrite file compression)).
  assert (HS : forall a c, (a, c) ∈ objs -> a ∈ S).
  { intros a c Hin. apply elem_of_union. right. apply elem_of_list_to_set.
    apply list_elem_of_fmap. exists (a, c). split; [reflexivity|exact Hin]. }
  assert (Hsize : (size S <= size (dom heap) + length objs)%nat).
  { pose proof (size_add_list_le objs.*1 (dom heap)) as H.
    rewrite length_fmap in H. exact H. }
  destruct (write_objects_runs heap S (union_subseteq_l _ _) fuel objs HS b0)
    as (oids & b' & Hrun & Hinv & Hgrows & Hlen & Hids).
  - apply new_buffer_PassInv. exact Hbase.
  - pose proof (unwritten_le S b0). lia.
  - assert (Hin : streamed_in S b').
    { apply (preserves_write_objects heap S (union_subseteq_l _ _) fuel objs HS
               b0 (to_Int_t <$> oids) b'); [|exact Hrun].
      intros a id Ha. inversion Ha. }
    pose proof (counter_bound S b' Hinv Hin) as Hcount.
    assert (Hfirst : fFirstObjId b' = base) by (destruct Hgrows as (_ & _ & -> & _); reflexivity).
    rewrite Hfirst in Hcount.
    destruct Hinv as [Hinv Horder].
    assert (Hid : forall i a c oid, objs !! i = Some (a, c) -> oids !! i = Some oid ->
                    to_Int_t oid = oid).
    { intros i a c oid Hi Ho. destruct (Hids i a c oid Hi Ho) as [Hnull Hlog].
      destruct (decide (a = 0)) as [Ha|Ha]; [rewrite (Hnull Ha); reflexivity|].
      destruct Hinv as (_ & _ & Hl & _).
      destruct (Hl a oid (Hlog Ha)) as (_ & Hr & _). rewrite Hfirst in Hr.
      apply to_Int_t_id. lia. }
    assert (Hrs : forall i r, (to_Int_t <$> oids) !! i = Some r ->
                    exists oid, oids !! i = Some oid /\ r = to_Int_t oid).
    { intros i r Hr. rewrite list_lookup_fmap in Hr.
      destruct (oids !! i) as [oid|]; [|discriminate].
      injection Hr as <-. exists oid. split; reflexivity. }
    exists (to_Int_t <$> oids), b'. split; [exact Hrun|].
    split; [rewrite length_fmap; exact Hlen|].
    split; [|split].
    + intros i a c r Hi Hr Ha. destruct (Hrs i r Hr) as (oid & Ho & ->).
      rewrite (Hid i a c oid Hi Ho). exact (proj1 (Hids i a c oid Hi Ho) Ha).
    + intros i a c r Hi Hr Ha. destruct (Hrs i r Hr) as (oid & Ho & ->).
      rewrite (Hid i a c oid Hi Ho).
      pose proof (proj2 (Hids i a c oid Hi Ho) Ha) as Hlog.
      split; [|exact Hlog].
      destruct Hinv as (_ & _ & Hl & _).
      destruct (Hl a oid Hlog) as (_ & Hr' & _). lia.
    + intros i j ai ci aj cj ri rj Hi Hj Hri Hrj Hai Haj.
      destruct (Hrs i ri Hri) as (idi & Hoi & ->).
      destruct (Hrs j rj Hrj) as (idj & Hoj & ->).
      rewrite (Hid i ai ci idi Hi Hoi), (Hid j aj cj idj Hj Hoj).
      apply (WriteInv_one_id b'); [exact Hinv| |].
      * exact (proj2 (Hids i ai ci idi Hi Hoi) Hai).
      * exact (proj2 (Hids j aj cj idj Hj Hoj) Haj).
Qed.

(** An object written before and after another one. *)
Lemma objects_written_in_a_pass_keep_their_ids_witness :
  let heap : gmap Z Object :=
    {[ 100 := {| ob_class := "Event"; ob_members := [MInt 7; MObject 200] |};
       200 := {| ob_class := "Track"; ob_members := [MObject 100] |} ]} in
  exists b',
    write_objects heap 6 [(100, "Event"); (200, "Track"); (100, "Event")]
      (pass_begun 1 (TBufferSQL2_new kWrite None 0))
      = Some ([1; 2; 1], b').
Proof.
  intros heap.
  destruct (objects_written_in_a_pass_keep_their_ids heap None 0 6 1
              [(100, "Event"); (200, "Track"); (100, "Event")])
    as (rs & b' & Hrun & Hlen & _).
  - lia.
  - vm_compute. discriminate.
  - vm_compute. lia.
  - exists b'. rewrite Hrun. f_equal. f_equal.
    assert (E : write_objects heap 6 [(100, "Event"); (200, "Track"); (100, "Event")]
                  (pass_begun 1 (TBufferSQL2_new kWrite None 0))
                = Some (rs, b')) by exact Hrun.
    vm_compute in E. injection E as <- _. reflexivity.
Defined.

(* --------------------------------------------------------------------- *)
(** ** Runs with a tag that is refused *)
(* --------------------------------------------------------------------- *)

Section RefusedRuns.
Context {T : Type} `{SqlBasic T} (laws : SqlBasicLaws T).

(** Runs that follow each other and then a run whose tag is refused: the
    values of the runs are read and given to their elements, and the loop
    ends at the refused tag. *)
Lemma SQLReadArrayCompress_refused junk rest bad n (runs : list (T * nat * nat)) :
  forall s (v : list T) fuel b d,
    chained s runs ->
    length v = n -> (s + length (expand runs) < n)%nat ->
    Z.of_nat n < 2147483648 ->
    Forall (fun x => sql_valid x = true) (expand runs) ->
    fErrorFlag b <= 0 -> fCurrentData b = Some d ->
    od_items d = map item_of_run runs ++ bad :: rest ->
    (let (first, last) :=
       run_range (it_name bad) (junk (Z.of_nat (s + length (expand runs)))) in
     first <> Z.of_nat (s + length (expand runs)) \/ last < first
     \/ last >= Z.of_nat n) ->
    (length runs < fuel)%nat ->
    SQLReadArrayCompress junk fuel v (Z.of_nat n) (Z.of_nat s) b =
    Some ((take s v ++ expand runs ++ drop (s + length (expand runs)) v,
           Z.of_nat (s + length (expand runs))),
          tag_refused (it_name bad) (values_read (length runs) d b)).
Proof.
  induction runs as [|[[x s'] k] runs IH];
    intros s v fuel b d Hchain Hv Hn Hmax Hvalid Hf Hd Hitems Hbad Hfuel.
  - cbn [expand length] in *. rewrite Nat.add_0_r in *.
    destruct fuel as [|fuel]; [lia|].
    rewrite (SQLReadArrayCompress_violation junk fuel v (Z.of_nat n) (Z.of_nat s) b d
               (it_name bad) Hd).
    + cbn [app values_read]. rewrite take_drop. reflexivity.
    + unfold GetBlobPrefixName. rewrite Hitems. reflexivity.
    + lia.
    + exact Hbad.
  - destruct Hchain as (-> & Hk & Hchain).
    cbn [expand] in Hn, Hvalid, Hbad |- *.
    rewrite length_app, length_replicate in Hn, Hbad |- *.
    destruct fuel as [|fuel]; [cbn in Hfuel; lia|].
    destruct (lookup_lt_is_Some_2 v s) as [old Hold]; [lia|].
    assert (Hx : sql_valid x = true).
    { destruct k as [|k]; [lia|]. cbn in Hvalid. inversion Hvalid; assumption. }
    rewrite (SQLReadArrayCompress_valid junk fuel v n s (s + k - 1) old b d
               (run_tag (Z.of_nat s) (Z.of_nat k)) Hv Hd).
    + rewrite (bind_run _ _ _ _ _
                 (SqlReadBasic_run laws x s k old b d (map item_of_run runs ++ bad :: rest)
                    Hx Hf Hd Hitems)).
      replace (s + k - 1 + 1)%nat with (s + k)%nat by lia.
      rewrite (IH (s + k)%nat _ fuel (value_taken d b) (ShiftToNextValue d)).
      * cbn [length values_read]. f_equal. f_equal.
        replace (s + (k + length (expand runs)))%nat
          with (s + k + length (expand runs))%nat by lia.
        f_equal. unfold fill_run.
        replace (s + k - 1 + 1 - s)%nat with k by lia.
        replace (s + k - 1 + 1)%nat with (s + k)%nat by lia.
        rewrite (app_assoc (take s v)).
        rewrite take_app_length' by (rewrite length_app, length_take, length_replicate; lia).
        rewrite <- !app_assoc. f_equal. f_equal. f_equal.
        rewrite (app_assoc (take s v)).
        replace (s + k + length (expand runs))%nat
          with (length (take s v ++ replicate k x) + length (expand runs))%nat at 1
          by (rewrite length_app, length_take, length_replicate; lia).
        rewrite drop_app_add. rewrite drop_drop. f_equal; lia.
      * exact Hchain.
      * rewrite fill_run_length by lia. exact Hv.
      * lia.
      * exact Hmax.
      * apply Forall_app in Hvalid. apply Hvalid.
      * exact Hf.
      * reflexivity.
      * cbn. rewrite Hitems. reflexivity.
      * replace (s + k + length (expand runs))%nat
          with (s + (k + length (expand runs)))%nat by lia. exact Hbad.
      * cbn in Hfuel. lia.
    + unfold GetBlobPrefixName. rewrite Hitems. reflexivity.
    + rewrite TagFacts.run_range_tag by lia. f_equal. lia.
    + lia.
    + exact Hold.
Qed.

End RefusedRuns.

(** What the code takes from a tag of one of the two forms. *)
Lemma run_range_of_tag name f l vars :
  CText.in_signed 32 f = true -> CText.in_signed 32 l = true ->
  name = tag_range f l \/ (l = f /\ name = tag_single f) ->
  run_range name vars = (f, l).
Proof.
  intros Hf Hl [->|[-> ->]].
  - apply TagFacts.run_range_pair; assumption.
  - apply TagFacts.run_range_single. exact Hf.
Qed.



(* --------------------------------------------------------------------- *)
(** ** Character arrays and chains of members *)
(* --------------------------------------------------------------------- *)

(* --------------------------------------------------------------------- *)
(** ** Arrays written for a chain of members *)
(* --------------------------------------------------------------------- *)

Lemma arr_get_app {T : Type} (arr extra : list T) (i : Z) b :
  0 <= i < Z.of_nat (length arr) -> arr_get (arr ++ extra) i b = arr_get arr i b.
Proof.
  intros Hi. unfold arr_get. destruct (Z.ltb_spec i 0); [lia|].
  rewrite lookup_app_l by lia. reflexivity.
Qed.

Lemma bind_congr {A B : Type} (m1 m2 : M A) (k1 k2 : A -> M B) b :
  m1 b = m2 b ->
  (forall a b1, m2 b = Some (a, b1) -> k1 a b1 = k2 a b1) ->
  bind m1 k1 b = bind m2 k2 b.
Proof.
  intros Hm Hk. unfold bind. rewrite Hm.
  destruct (m2 b) as [[a b1]|]; [apply Hk; reflexivity|reflexivity].
Qed.

Section ArrayPrefix.
Context {T : Type} `{SqlBasic T} (laws : SqlBasicLaws T).

Lemma run_end_app fuel (arr extra : list T) curr indx b :
  0 <= curr < Z.of_nat (length arr) -> 0 <= indx ->
  run_end fuel (arr ++ extra) (Z.of_nat (length arr)) curr indx b
  = run_end fuel arr (Z.of_nat (length arr)) curr indx b.
Proof.
  intros Hc. revert indx b. induction fuel as [|fuel IH]; intros indx b Hi;
    cbn [run_end]; destruct (Z.ltb_spec indx (Z.of_nat (length arr))); try reflexivity.
  - apply bind_congr; [apply arr_get_app; lia|intros x b1 _].
    apply bind_congr; [apply arr_get_app; lia|intros c b2 _]. reflexivity.
  - apply bind_congr; [apply arr_get_app; lia|intros x b1 _].
    apply bind_congr; [apply arr_get_app; lia|intros c b2 _].
    destruct (sql_eqb x c); [|reflexivity]. apply IH. lia.
Qed.

Lemma run_end_ge fuel (arr : list T) arrsize curr indx b e b' :
  run_end fuel arr arrsize curr indx b = Some (e, b') -> indx <= e.
Proof.
  revert indx b. induction fuel as [|fuel IH]; intros indx b; cbn [run_end];
    destruct (Z.ltb_spec indx arrsize); try (intros E; injection E as <- _; lia).
  - intros E. apply bind_inv in E as (x & b1 & _ & E).
    apply bind_inv in E as (c & b2 & _ & E).
    destruct (sql_eqb x c); [discriminate|]. injection E as <- _. lia.
  - intros E. apply bind_inv in E as (x & b1 & _ & E).
    apply bind_inv in E as (c & b2 & _ & E).
    destruct (sql_eqb x c).
    + apply IH in E. lia.
    + injection E as <- _. lia.
Qed.

Lemma SQLWriteArrayCompress_from_app fuel (arr extra : list T) indx b :
  0 <= indx ->
  SQLWriteArrayCompress_from fuel (arr ++ extra) (Z.of_nat (length arr)) indx b
  = SQLWriteArrayCompress_from fuel arr (Z.of_nat (length arr)) indx b.
Proof.
  revert indx b. induction fuel as [|fuel IH]; intros indx b Hi;
    cbn [SQLWriteArrayCompress_from];
    destruct (Z.ltb_spec indx (Z.of_nat (length arr))); try reflexivity.
  apply bind_congr; [apply run_end_app; lia|intros e b1 Erun].
  apply run_end_ge in Erun.
  apply bind_congr; [apply arr_get_app; lia|intros c b2 _].
  apply bind_ext. intros _ b3. apply bind_ext. intros top b4.
  apply bind_ext. intros _ b5. apply IH. lia.
Qed.

Lemma SQLWriteArrayNoncompress_from_app fuel (arr extra : list T) indx b :
  0 <= indx ->
  SQLWriteArrayNoncompress_from fuel (arr ++ extra) (Z.of_nat (length arr)) indx b
  = SQLWriteArrayNoncompress_from fuel arr (Z.of_nat (length arr)) indx b.
Proof.
  revert indx b. induction fuel as [|fuel IH]; intros indx b Hi;
    cbn [SQLWriteArrayNoncompress_from];
    destruct (Z.ltb_spec indx (Z.of_nat (length arr))); try reflexivity.
  apply bind_congr; [apply arr_get_app; lia|intros c b2 _].
  apply bind_ext. intros _ b3. apply bind_ext. intros top b4.
  apply bind_ext. intros _ b5. apply IH. lia.
Qed.

Lemma SQLWriteArrayContent_app (arr extra : list T) withsize b :
  SQLWriteArrayContent (arr ++ extra) (Z.of_nat (length arr)) withsize b
  = SQLWriteArrayContent arr (Z.of_nat (length arr)) withsize b.
Proof.
  unfold SQLWriteArrayContent.
  apply bind_ext. intros node b1. apply bind_ext. intros _ b2.
  apply bind_ext. intros b3 b4.
  unfold SQLWriteArrayCompress, SQLWriteArrayNoncompress.
  destruct (fCompressLevel b3 >? 0).
  - apply bind_congr; [apply SQLWriteArrayCompress_from_app; lia|reflexivity].
  - apply bind_congr; [apply SQLWriteArrayNoncompress_from_app; lia|reflexivity].
Qed.

(** The write of the first [k] elements of an array looks at no other
    element. *)
Lemma SQLWriteArrayContent_take (sub : list T) (k : nat) withsize b :
  (k <= length sub)%nat ->
  SQLWriteArrayContent sub (Z.of_nat k) withsize b
  = Some (tt, array_written (if withsize then Z.of_nat k else -1)
                (written_runs (fCompressLevel b) (take k sub)) b).
Proof.
  intros Hk.
  assert (Hlen : length (take k sub) = k) by (rewrite length_take; lia).
  pose proof (SQLWriteArrayContent_spec laws (take k sub) withsize b) as Hspec.
  pose proof (SQLWriteArrayContent_app (take k sub) (drop k sub) withsize b) as Happ.
  rewrite take_drop, Hlen in Happ. rewrite Hlen in Hspec.
  rewrite Happ. exact Hspec.
Qed.

End ArrayPrefix.

Section ChainFacts.
Variable WorkWithElement_reading : M unit.
Context {T : Type} `{SqlBasic T} (laws : SqlBasicLaws T).

Lemma WorkWithElement_write e comp_type b p pnode g gnode :
  fStk b = Some p -> fNodes b !! p = Some pnode -> fParent pnode = Some g ->
  fNodes b !! g = Some gnode -> fMode b = kWrite ->
  WorkWithElement WorkWithElement_reading e comp_type b
  = Some (tt, node_pushed p (member_kind (fKind gnode) e) b).
Proof.
  intros Hstk Hp Hpar Hg Hmode. unfold WorkWithElement.
  assert (Hs1 : Stack 1 b = Some (Some g, b)).
  { unfold Stack. cbn [bind get ret]. change (Z.to_nat 1) with 1%nat.
    rewrite Hstk. cbn [Stack_from]. unfold parent_of. rewrite Hp, Hpar. reflexivity. }
  rewrite (bind_run _ _ _ _ _ Hs1). cbn [deref bind ret].
  rewrite (bind_run _ _ _ _ _ (node_kind_eq g b gnode Hg)).
  rewrite (bind_run _ _ _ _ _ (PushStack_eq b)).
  assert (Hset : forall k,
            set_node_kind (length (fNodes b)) k (pushed b)
            = Some (tt, node_pushed p k b)).
  { intros k. erewrite set_node_kind_eq by (cbn; apply lookup_at_end).
    f_equal. f_equal. unfold node_pushed, pushed. cbn. rewrite insert_at_end.
    rewrite Hstk. reflexivity. }
  unfold member_kind, SetStreamerElement, SetCustomElement.
  destruct (_ >=? 0); rewrite (bind_run _ _ _ _ _ (Hset _));
    cbn [bind get]; unfold IsReading; cbn; rewrite Hmode; reflexivity.
Qed.

Lemma chain_inv_flag p g pnode gnode v b :
  chain_inv p g pnode gnode b -> chain_inv p g pnode gnode (set_fExpectedChain v b).
Proof. intros Hinv. exact Hinv. Qed.

Lemma chain_inv_added p g pnode gnode extra b :
  chain_inv p g pnode gnode b ->
  chain_inv p g pnode gnode (set_fNodes (fNodes b ++ extra) b).
Proof.
  intros ((top & node & Hstk & Htop & Hpar) & Hp & Hpp & Hg & Hmode).
  split; [exists top, node; split; [exact Hstk|split; [|exact Hpar]]|].
  - cbn. apply lookup_app_l_Some, Htop.
  - cbn. split; [apply lookup_app_l_Some, Hp|]. split; [exact Hpp|].
    split; [apply lookup_app_l_Some, Hg|exact Hmode].
Qed.

Lemma chain_inv_pushed p g pnode gnode k b :
  chain_inv p g pnode gnode b ->
  chain_inv p g pnode gnode (node_pushed p k b).
Proof.
  intros (_ & Hp & Hpp & Hg & Hmode).
  split.
  - exists (length (fNodes b)), {| fParent := Some p; fKind := k |}.
    split; [reflexivity|]. split; [cbn; apply lookup_at_end|reflexivity].
  - cbn. split; [apply lookup_app_l_Some, Hp|]. split; [exact Hpp|].
    split; [apply lookup_app_l_Some, Hg|exact Hmode].
Qed.

Lemma chain_inv_array p g pnode gnode sz (runs : list (T * nat * nat)) b :
  chain_inv p g pnode gnode b ->
  chain_inv p g pnode gnode (array_written sz runs b).
Proof.
  intros ((top & node & Hstk & Htop & Hpar) & Hp & Hpp & Hg & Hmode).
  split; [exists top, node; split; [exact Hstk|split; [|exact Hpar]]|].
  - cbn. apply lookup_app_l_Some, Htop.
  - cbn. split; [apply lookup_app_l_Some, Hp|]. split; [exact Hpp|].
    split; [apply lookup_app_l_Some, Hg|exact Hmode].
Qed.

Lemma chain_size_nonneg members :
  Forall (fun e => 1 <= member_size e) members -> 0 <= chain_size members.
Proof.
  induction 1 as [|e members He _ IH]; cbn [chain_size fold_right];
    [lia|fold (chain_size members); lia].
Qed.

(** The loop of [TBufferSQL2_WriteFastArray] over the members of a chain. *)
Lemma WriteFastArray_chain_spec info p g pnode gnode members :
  forall fuel (vname : list T) startnumber (index : nat) b,
    chain_inv p g pnode gnode b ->
    (forall j e, members !! j = Some e ->
                 At (si_elements info) (startnumber + Z.of_nat j) = Some e) ->
    Forall (fun e => 1 <= member_size e) members ->
    Z.of_nat index + chain_size members = Z.of_nat (length vname) ->
    (length members <= fuel)%nat ->
    WriteFastArray_chain WorkWithElement_reading fuel vname (Z.of_nat (length vname))
      (Some info) startnumber (Z.of_nat index) b
    = Some (tt, chain_written p (fKind gnode) (index =? 0)%nat members
                  (drop index vname) b).
Proof.
  induction members as [|e members IH];
    intros fuel vname startnumber index b Hinv Hat Hsizes Hsum Hfuel.
  - cbn in Hsum. assert (index = length vname) as -> by lia.
    destruct fuel; cbn [WriteFastArray_chain]; rewrite Z.ltb_irrefl; reflexivity.
  - destruct fuel as [|fuel]; [cbn in Hfuel; lia|].
    inversion Hsizes as [|? ? He Hsizes']; subst.
    pose proof (chain_size_nonneg members Hsizes') as Hrest.
    cbn [chain_size fold_right] in Hsum. fold (chain_size members) in Hsum.
    cbn [WriteFastArray_chain].
    destruct (Z.ltb_spec (Z.of_nat index) (Z.of_nat (length vname))); [|lia].
    cbn [deref bind ret].
    pose proof (Hat 0%nat e eq_refl) as Hat0. rewrite Z.add_0_r in Hat0.
    rewrite Hat0. cbn [deref bind ret].
    (* the node of the member *)
    set (b1 := if (index =? 0)%nat then b
               else node_pushed p (member_kind (fKind gnode) e) b).
    assert (Hmove :
      (if Z.of_nat index >? 0
       then PopStack;;; WorkWithElement WorkWithElement_reading e (el_type e)
       else ret tt) b = Some (tt, b1)).
    { unfold b1. destruct index as [|index]; [reflexivity|].
      rewrite gtb_true by lia. cbn [Nat.eqb].
      destruct Hinv as ((top & node & Hstk & Htop & Hpar) & Hp & Hpp & Hg & Hmode).
      rewrite (bind_run _ _ _ _ _ (PopStack_eq b top node Hstk Htop)). rewrite Hpar.
      rewrite (WorkWithElement_write e (el_type e) (set_fStk (Some p) b) p pnode g gnode);
        [reflexivity|reflexivity|exact Hp|exact Hpp|exact Hg|exact Hmode]. }
    rewrite (bind_run _ _ _ _ _ Hmove).
    assert (Hinv1 : chain_inv p g pnode gnode b1).
    { unfold b1. destruct (index =? 0)%nat; [exact Hinv|apply chain_inv_pushed, Hinv]. }
    destruct (lookup_lt_is_Some_2 vname index) as [x Hx]; [lia|].
    assert (Hdrop : drop index vname = x :: drop (S index) vname)
      by (apply drop_S, Hx).
    assert (Hnext : forall j e', members !! j = Some e' ->
              At (si_elements info) (startnumber + 1 + Z.of_nat j) = Some e').
    { intros j e' Hj. replace (startnumber + 1 + Z.of_nat j)
        with (startnumber + Z.of_nat (S j)) by lia. apply Hat. exact Hj. }
    destruct Hinv1 as ((top1 & node1 & Hstk1 & Htop1 & Hpar1) & Hrest1).
    cbn [chain_written]. fold b1. rewrite Hstk1, Hdrop.
    unfold member_size in He, Hsum |- *.
    destruct (Z.ltb_spec (el_type e) TStreamerInfoK.kOffsetL).
    + (* a member of basic type *)
      assert (Hstep :
        (x0 <- arr_get vname (Z.of_nat index);; SqlWriteBasic x0;;;
         ret (Z.of_nat index + 1)) b1
        = Some (Z.of_nat (S index), value_added top1 (sql_print x) sql_tname b1)).
      { rewrite (bind_run _ _ _ _ _ (arr_get_nat vname index x b1 Hx)).
        unfold SqlWriteBasic.
        rewrite (bind_run _ _ _ _ _ (SqlWriteValue_eq _ _ b1 top1 Hstk1)).
        unfold ret. f_equal. f_equal. lia. }
      rewrite (bind_run _ _ _ _ _ Hstep).
      cbn [bind ret modify].
      rewrite (IH fuel vname (startnumber + 1) (S index)).
      * change (Z.to_nat 1) with 1%nat. cbn [drop Nat.eqb]. reflexivity.
      * apply chain_inv_flag. apply (chain_inv_added p g pnode gnode _ b1).
        split; [exists top1, node1; auto|exact Hrest1].
      * exact Hnext.
      * exact Hsizes'.
      * lia.
      * cbn in Hfuel. lia.
    + (* an array member *)
      assert (Hfrom : arr_from vname (Z.of_nat index) b1 = Some (drop index vname, b1)).
      { unfold arr_from.
        destruct (Z.leb_spec 0 (Z.of_nat index)); [|lia].
        destruct (Z.leb_spec (Z.of_nat index) (Z.of_nat (length vname))); [|lia].
        cbn. rewrite Nat2Z.id. reflexivity. }
      set (k := Z.to_nat (el_length e)).
      assert (Hk : el_length e = Z.of_nat k) by (unfold k; lia).
      assert (Hstep :
        (sub <- arr_from vname (Z.of_nat index);;
         SQLWriteArrayContent sub (el_length e) false;;;
         ret (Z.of_nat index + el_length e)) b1
        = Some (Z.of_nat (index + k),
                array_written (-1)
                  (written_runs (fCompressLevel b1) (take k (drop index vname))) b1)).
      { rewrite (bind_run _ _ _ _ _ Hfrom). rewrite Hk.
        rewrite (bind_run _ _ _ _ _
                   (SQLWriteArrayContent_take laws (drop index vname) k false b1
                      ltac:(rewrite length_drop; lia))).
        unfold ret. f_equal. f_equal. lia. }
      rewrite (bind_run _ _ _ _ _ Hstep).
      cbn [bind ret modify].
      rewrite (IH fuel vname (startnumber + 1) (index + k)%nat).
      * replace (index + k =? 0)%nat with false by (symmetry; apply Nat.eqb_neq; lia).
        rewrite <- Hdrop. rewrite drop_drop. reflexivity.
      * apply chain_inv_flag. apply chain_inv_array.
        split; [exists top1, node1; auto|exact Hrest1].
      * exact Hnext.
      * exact Hsizes'.
      * lia.
      * cbn in Hfuel. lia.
Qed.

End ChainFacts.

Section ChainMacro.
Variable WorkWithElement_reading : M unit.
Context {T : Type} `{SqlBasic T} (laws : SqlBasicLaws T).

Lemma chain_size_length members :
  Forall (fun e => 1 <= member_size e) members ->
  Z.of_nat (length members) <= chain_size members.
Proof.
  induction 1 as [|e members He _ IH]; cbn [chain_size fold_right length];
    [lia|fold (chain_size members); lia].
Qed.

Lemma set_fExpectedChain_same b :
  fExpectedChain b = true -> set_fExpectedChain true b = b.
Proof. destruct b. cbn. intros ->. reflexivity. Qed.

(** [TBufferSQL2_WriteFastArray] in a chain: the node on top is a member of
    the streamer info of its parent, and the array is given out to that
    member and the members that follow it. *)
Lemma TBufferSQL2_WriteFastArray_chain info p g pnode gnode members
    (vname : list T) b top node :
  (1 <= length vname)%nat ->
  fStk b = Some top -> fNodes b !! top = Some node -> fParent node = Some p ->
  fNodes b !! p = Some pnode -> fParent pnode = Some g ->
  fNodes b !! g = Some gnode -> fMode b = kWrite ->
  GetStreamerInfo (fKind pnode) = Some info ->
  fExpectedChain b = true
  \/ is_chain_element (GetElement (fKind node)) (Z.of_nat (length vname)) = true ->
  (forall j e, members !! j = Some e ->
               At (si_elements info) (GetElementNumber (fKind node) + Z.of_nat j) = Some e) ->
  Forall (fun e => 1 <= member_size e) members ->
  chain_size members = Z.of_nat (length vname) ->
  TBufferSQL2_WriteFastArray WorkWithElement_reading vname (Z.of_nat (length vname)) b
  = Some (tt, chain_written p (fKind gnode) true members vname
                (set_fExpectedChain true b)).
Proof.
  intros Hn Htop Hnode Hpar Hp Hppar Hg Hmode Hinfo Hcase Hat Hsizes Hsum.
  unfold TBufferSQL2_WriteFastArray.
  destruct (Z.leb_spec (Z.of_nat (length vname)) 0); [lia|].
  rewrite (bind_run _ _ _ _ _ (Stack_top_eq b top Htop)).
  rewrite (bind_run _ _ _ _ _ (node_kind_eq top b node Hnode)).
  assert (Hflag :
    ((if is_chain_element (GetElement (fKind node)) (Z.of_nat (length vname))
      then modify (set_fExpectedChain true) else ret tt) b)
    = Some (tt, set_fExpectedChain true b)).
  { destruct (is_chain_element _ _).
    - reflexivity.
    - destruct Hcase as [Hc|Hc]; [|discriminate].
      rewrite (set_fExpectedChain_same b Hc). reflexivity. }
  rewrite (bind_run _ _ _ _ _ Hflag). cbn [bind get].
  set (b1 := set_fExpectedChain true b).
  assert (Hb1 : fExpectedChain b1 = true) by (destruct b; reflexivity).
  rewrite Hb1.
  assert (Hstk1 : fStk b1 = Some top) by (destruct b; exact Htop).
  assert (Hnodes1 : fNodes b1 = fNodes b) by (destruct b; reflexivity).
  assert (Hmode1 : fMode b1 = kWrite) by (destruct b; exact Hmode).
  assert (Hs1 : Stack 1 b1 = Some (Some p, b1)).
  { unfold Stack. cbn [bind get ret]. change (Z.to_nat 1) with 1%nat.
    rewrite Hstk1. cbn [Stack_from]. unfold parent_of. rewrite Hnodes1, Hnode, Hpar.
    reflexivity. }
  rewrite (bind_run _ _ _ _ _ Hs1). cbn [deref bind ret].
  assert (Hp1 : fNodes b1 !! p = Some pnode) by (rewrite Hnodes1; exact Hp).
  rewrite (bind_run _ _ _ _ _ (node_kind_eq p b1 pnode Hp1)).
  rewrite Hinfo.
  pose proof (WriteFastArray_chain_spec WorkWithElement_reading laws info p g pnode gnode
                members (Z.to_nat (Z.of_nat (length vname))) vname
                (GetElementNumber (fKind node)) 0%nat b1) as Hloop.
  change (Z.of_nat 0) with 0 in Hloop. rewrite drop_0 in Hloop.
  apply Hloop.
  - repeat split.
    + exists top, node. rewrite Hnodes1. auto.
    + exact Hp1.
    + exact Hppar.
    + rewrite Hnodes1. exact Hg.
    + exact Hmode1.
  - exact Hat.
  - exact Hsizes.
  - lia.
  - pose proof (chain_size_length members Hsizes). lia.
Qed.

End ChainMacro.

Lemma chain_written_flag {T : Type} `{SqlBasic T} p above first e members (c : list T) b :
  fExpectedChain (chain_written p above first (e :: members) c b) = false.
Proof.
  revert first e c b. induction members as [|e' members IH]; intros first e c b.
  - cbn [chain_written]. destruct (match fStk _ with Some _ => _ | None => _ end).
    reflexivity.
  - change (chain_written p above first (e :: e' :: members) c b)
      with (chain_written p above false (e' :: members)
              (drop (Z.to_nat (member_size e)) c)
              (set_fExpectedChain false
                 (let b1 := if first then b else node_pushed p (member_kind above e) b in
                  match fStk b1, c with
                  | Some top, x :: _ =>
                      if el_type e <? TStreamerInfoK.kOffsetL then
                        value_added top (sql_print x) sql_tname b1
                      else
                        array_written (-1)
                          (written_runs (fCompressLevel b1)
                             (take (Z.to_nat (member_size e)) c)) b1
                  | _, _ => b1
                  end))).
    apply IH.
Qed.


